(* ===== verification/_CoqProject ===== *)
-Q . S2P
Prelude.v
Transitions.v
CTypes.v
CFloat.v
CString.v
Printf.v
Cpuid.v
Machines.v
Features.v
BestFeature.v
Brand.v
Stdio.v
Hosts.v
ProcCpuinfo.v
Cpuinfo.v
ScanSteps.v
Sensors.v
Win32.v
Sysinfos.v
Api.v
Soundness.v
