(* ===== verification/Prelude.v ===== *)
(** * Verification of [src/sysinfos.c] (cpuminer-opt): host CPU information

    ** The program

    [sysinfos.c] is the unit of the miner that reads static facts about the
    host: the CPUID capability bits it uses to choose an optimised hashing
    path ([has_sse2], [has_aes_ni], [has_avx1], [has_avx2], [has_xop],
    [has_fma3], [has_sse42], [has_sse], [cpu_bestfeature]), the
    identification strings ([cpu_brand_string],
    [cpuid_get_highest_function], [cpu_getname], [cpu_getmodelid]) and the
    sensors ([cpu_temp], [cpu_clock], [cpu_fanpercent]).  Everything goes
    through one primitive, the [cpuid] inline function (an [asm volatile]
    block on x86, a macro that only clears [out[0]] on ARM), or through
    text files of sysfs and procfs, or, on Windows, through the
    environment.  The file is compiled in four shapes, chosen by the
    preprocessor symbols [__arm__] and [WIN32].

    ** The development, file by file

    - [Prelude] (this file): the outcome type [outcome] (a value, or the
      undefined behaviour the C code would run into), the state-and-fault
      monad [M] with its notation (scope [cmonad_scope]), the loops
      [foldM] and [repeatM], [first_index], the tactics [mrun], [invc],
      [destruct_match], [by_decide], the hint databases [cdb], [run] and [clen], and the
      lemmas on bits of [Z] and on lists shared by all components.
    - [Transitions]: what the two state machines of the development
      share: progress on every execution ([eventually]), invariants,
      labelled runs ([run]), on top of stdpp's closures of a relation.
    - [CTypes]: the C objects the source manipulates.  A 32-bit register is
      a [Z]; [to_int32] and [to_uint32] are its readings through an [int]
      and a [uint32_t] lvalue; [bool_of_int] is the conversion of an [int]
      to C99 [bool]; arrays and [char] buffers are [list]s whose length is
      the size of the object, and [load], [store], [memcpy], [memset],
      [strcpy], [sprintf] fault where the C code would write or read
      outside it; [cstring] is a buffer read as a string.
    - [CFloat]: the types [float] and [double] as the binary32 and
      binary64 numbers of [Floats.SpecFloat], the conversions and the
      division the unit performs, the rational a finite number denotes
      ([value]), and the theory of their rounding.
    - [CString]: a pointer into a string as the list of the bytes from the
      pointer to the terminator; [strstr], [p += n] ([advance]), the cut
      at the end of the line, [atoi], [snprintf].
    - [Printf]: the conversions [%x], [%02x] and [%d] on one digit loop,
      with the values they denote and the round trip through [atoi].
    - [Stdio]: the state of the C library the readers use ([stdio]: the
      files, the open streams with the input each still holds, the number
      of streams the process may have open, the number of heap blocks of
      [getdelim]) and [fopen], [fclose], [getdelim], [free], [fscanf] of
      [%d]; the interface [Reader] of the functions that read files and
      give back what they took.
    - [Hosts]: sample contents of [/proc/cpuinfo] and of the sysfs files.
    - [Cpuid]: the build target ([Target]: architecture and operating
      system, i.e. the [#ifdef]s), the processor interface ([Processor]: the
      answer of the CPUID instruction to the inputs EAX and ECX, each
      register a 32-bit word), the state of the component (the trace of
      CPUID instructions executed so far), [cpuid] and [processor_id], the
      command and register constants of lines 241-254, and the two
      interfaces of the functions that use the processor: [Framed] (they
      append to the trace and depend on nothing else) and [Replay] (the
      trace records every answer their result depends on).
    - [Machines]: sample processors as tables from leaves to registers.
    - [Features]: the flag and mask macros of lines 256-271 and the eight
      [has_*] predicates of lines 273-362, each the whole function: the
      zero-initialised local array, the query, the mask test and the
      conversion of the [int] to [bool].
    - [BestFeature]: [cpu_bestfeature] (lines 393-421) with its two unused
      queries, the short-circuit [&&], and the [sprintf] into the caller's
      buffer; the abstract specification [best_label] (first supported
      entry of a preference list) and the refinement theorem.
    - [Brand]: [cpuid_get_highest_function_number],
      [cpuid_get_highest_function] and [cpu_brand_string] (lines 364-391
      and 423-437).
    - [ProcCpuinfo]: the branches without [WIN32] of [cpu_getname] and
      [cpu_getmodelid] (lines 134-136, 157-184 and 189-236):
      [cpu_getname_posix], [cpu_getmodelid_posix], the loop [scan_loop]
      and its frame [scan_cpuinfo] they share, the bodies [getname_text]
      and [getmodelid_text]; the global [num_cpus] is the class [Miner].
    - [Cpuinfo]: the text of [/proc/cpuinfo] as the kernel prints it, a
      list of rows ([render]), and the line a scraper stops at when it
      looks for a key ([find_line]).  This is the format of the input,
      not code of the unit.
    - [ScanSteps]: the same skeleton statement by statement, as a state
      machine: a configuration is a program point ([point]: at the
      [fopen], at the loop condition, in the body, at the [free], at the
      [fclose], returned, crashed) with the local variables and the state
      of the C library; [step] is one statement, [next] the same as a
      function.
    - [Sensors]: [linux_cputemp], [linux_cpufreq], [win32_cputemp] and the
      exports [cpu_temp], [cpu_clock], [cpu_fanpercent] (lines 14-96).
    - [Win32]: the [WIN32] branches of [cpu_getname] and [cpu_getmodelid]
      (lines 137-156 and 185-188); the environment is the class
      [Environment].
    - [Sysinfos]: the state of the whole unit ([world]: the trace and the
      C library), and [cpu_getname] and [cpu_getmodelid] with their
      [#ifdef WIN32].
    - [Api]: the unit as its callers see it.  The functions without
      [static] are the labels ([call]) of a transition system on [world];
      [exec] dispatches a call to the function that models it, [api_step]
      is a call that returned, with what it gave back ([reply]).
    - [Soundness]: the contract of the unit, which the source leaves
      unwritten: what the machine owes ([host_ok]: numbers that fit an
      [int] in the sysfs files, a [/proc/cpuinfo] as [Cpuinfo.render]
      prints it, the environment variables and a slot left in the array
      [brand] on Windows), what the caller owes ([call_ok]: the sizes of
      the buffers), and what a call gives back ([reply_ok]).  These are
      specifications, not code of the unit.

    ** How state and effects are modelled

    A function of the source is a computation of the monad [M S]: a
    function from the state before the call to an [outcome], the value
    returned and the state after it, or a [Fault].  The capability
    detector runs on [Cpuid.trace], the list of [(EAX, ECX)] inputs of the
    CPUID instructions executed so far, oldest first, so that the number
    and order of the queries a function really issues (the two dead ones
    of [cpu_bestfeature] included) are part of its model.  The readers run
    on [Stdio.stdio]: opening a file adds a stream under a fresh handle,
    reading consumes its input, closing removes it, so a stream that is
    never closed stays in the state, and [fopen] returns the null pointer
    once the process has [open_max] streams open.  [Sysinfos.world] holds
    both.  What
    the hardware, the operating system and the rest of the miner provide
    are type classes: [Processor], [Environment], [Miner], and the build
    is the class [Target].

    A buffer the caller passes by pointer is passed explicitly: a function
    that takes [char *s] takes the buffer (a [list byte] whose length is
    the size of the object [s] points to) and returns the buffer after the
    call.  A write outside the buffer is the outcome [Fault
    BufferOverflow]; a read behind the terminator of a string, a null
    pointer given to [%s], a number that does not fit an [int] and a call
    on a closed stream are faults too.  The theorems of kind "bounds" and
    "error" say which inputs exclude them and which lead to them.

    The temperature is a [float]: [val / 1000.0] is the conversion of the
    [uint32_t] to [double], the division of two [double]s and the
    conversion of the quotient to [float], each as [Floats.SpecFloat]
    defines it (round to nearest, ties to even).

    ** What the theorems show

    - [CTypes], [CString], [Printf], [Stdio]: ranges and round trips of
      the integer conversions, agreement of the signed and the unsigned
      reading on the bits a mask tests, frame and length lemmas of the
      buffer operations, [strstr] returns the first occurrence, [snprintf]
      always terminates the buffer inside [maxsz] bytes, [%d] and [atoi]
      are inverse, every read of [getdelim] shortens the stream.
    - [CFloat]: [rounded prec z s e0 x] says that [z] is [x] rounded to
      the multiples of [2 ^ e0], the grid of the [prec]-digit numbers
      around [x].  In the normal range of a format the rounding of a
      located mantissa ([binary_round_aux_rounded]), the division
      ([SFdiv_rounded]) and the rounding of a longer mantissa
      ([binary_round_rounded]) are roundings in this sense; an integer
      of no more than [prec] digits is converted exactly.  A rounded
      number is a value of the format ([rounded_valid]), within the
      relative error [2 ^ - prec] ([rounded_error]), and no value of the
      format is nearer ([rounded_nearest]); a number of the grid is
      rounded to itself ([rounded_on_grid]); a rounding of a rounding to
      a finer grid is a rounding of the number itself when no point half
      way between two numbers of the coarse grid is close to it
      ([rounded_twice]).
    - [Cpuid]: [cpuid] on a 4-element array never faults, stores the four
      registers and appends exactly one entry to the trace on x86; on ARM
      it executes nothing and clears only [out[0]].
    - [Features]: each [has_*] equals the test of its bit(s) of the right
      register of the right leaf; [has_avx1] needs all of the bits 26, 27,
      28; [has_fma3] implies [has_avx1]; on ARM every predicate is
      [false] and executes no instruction.
    - [BestFeature]: the label written is the first supported one in the
      order AVX2 (with AVX1), AVX1, FMA3, XOP, SSE42, SSE2, SSE
      (refinement of [best_label]); the label FMA3 is never produced;
      a processor that supports all that another one supports gets the
      same label or a better one ([cpu_bestfeature_monotone]); a
      buffer of six bytes is enough whatever [maxsz] is; between four and
      nine CPUID instructions are executed, all on leaves 1 and 7.
    - [Brand]: exactly 48 bytes are written when the signed reading of
      leaf 0 EAX is at least 4 and none otherwise; the name table of
      [cpuid_get_highest_function] and its [undef %x] default, with the
      buffer size that is always enough (the label names the highest
      basic leaf, which several processors share, [era_of_machines]); a
      name of fewer than 48 bytes
      stored in the brand-string leaves reads back from the buffer
      ([cpu_brand_string_name]).
    - [ProcCpuinfo]: the loop computes the fold of its body over the texts
      between the NUL bytes of the file, terminates, and gives back the
      stream and the heap block (refinement of [name_spec] and
      [modelid_spec]); the id is empty when a field is 0; ids of machines
      whose model fits in a byte are equal only for equal families,
      models and steppings ([modelid_text_inj]); the only faults.
    - [Cpuinfo]: [strstr] on a printed file stops at the first line
      whose key ends with the key looked for and is followed by a tab
      ([strstr_render]); hence the name [cpu_getname] leaves in the
      buffer is the value of that line for [model name]
      ([cpu_getname_cpuinfo]), and the id of [cpu_getmodelid] is made of
      the numbers of the three lines, a missing line counting as 0
      ([cpu_getmodelid_cpuinfo]): printing a file and scraping it gives
      back what was printed.
    - [ScanSteps]: the machine is deterministic and every execution
      ends; it stops where [scan_cpuinfo] returns, with the same value and
      state (the fuel of [scan_loop] changes nothing); while it runs the
      function owns one stream and at most one heap block, it never
      passes a closed stream to [getdelim] or [fclose], and it returns in
      the state it was called in.
    - [Sensors]: the temperature is that of the first file that exists,
      and the stream is closed (refinement of [temp_spec]); it is the
      [float] nearest to the reading over 1000, within the relative
      error [2 ^ -24], whatever the reading ([millis_accurate]: the
      rounding to [double] loses nothing, because a number of
      thousandths is never close to a point half way between two
      [float]s without being one, [thousandth_separated]); it is exact
      for the multiples of 125 and for them only ([millis_exact_iff]); a
      negative reading wraps to more than two million degrees; every
      call of [cpu_clock] leaves a stream open, until the limit is
      reached.
    - [Win32]: the loop over the extended leaves is one copy of all of
      them (refinement of [win32_name_spec]); it leaves the array for low
      bits 14 and 15 of the highest leaf; up to 13 the name printed is
      what the leaves copied hold of the name in the brand-string
      leaves, cut to [maxsz - 1] bytes: nothing for 0 and 1, its first
      16 and 32 bytes for 2 and 3, all of it from 4 on
      ([cpu_getname_win32_name]).
    - [Sysinfos]: whatever the build, [cpu_getname] and [cpu_getmodelid]
      leave a terminated string and no open stream when they return; the
      ids the two
      builds give for one machine are equal exactly when the family is
      less than 10, because Windows has the family in decimal and [%x]
      prints it in hexadecimal ([cpu_getmodelid_builds], from
      [Printf.fmt_x_fmt_d]).
    - [Api]: no sequence of calls changes the files or the heap, closes a
      stream or exceeds the limit, and the trace only grows; while the
      process can open a file every function answers what it would have
      answered before the sequence (the unit keeps no observable state);
      once [cpu_clock] has used up the streams, the temperature is 0 and
      the name is empty; calls that use the processor and calls that read
      files can be exchanged; a call that returns does the same on
      every processor that answers alike to the instructions it executed
      ([api_trace_complete]).  These theorems are proved from the
      interfaces [Framed], [Replay] and [Reader] alone.
    - [Soundness]: the calls do not go wrong.  On a machine that keeps
      its side, after any calls that returned, a call that keeps the
      caller's side returns and gives back what the contract says, and
      the machine keeps its side afterwards ([api_safe]; the machine's
      side is preserved along [Api.api_frame], [host_ok_frame]); a
      session of such calls runs to its end ([api_sound]).  The caller's
      side is exact: a call that lacks one of the sizes writes outside
      its buffer on one of the sample machines ([call_ok_exact]).  The
      machine's side is sufficient, not necessary: a file no function
      opens may hold anything, and so may the thirteenth leaf.

    ** Bounds and fuel

    Digit printing ([Printf.digits]) recurses on a fuel of 8 (hexadecimal)
    or 10 (decimal) digits, the most a 32-bit value has; [digits_fuel]
    shows that more fuel changes nothing.  The loop of the scrapers
    ([ProcCpuinfo.scan_loop]) recurses on a fuel of one more than the
    number of bytes the stream holds when the loop starts; every
    [getdelim] that does not report the end of the file consumes at least
    one byte ([Stdio.read_until_shorter]), and [scan_loop_terminates] shows
    that the fuel is never exhausted; the machine of [ScanSteps] runs
    the same loop without fuel, its termination is proved by the measure
    [weight], and [scan_steps_refine] shows that both give the same
    result.  The [for] loop of the Windows [cpu_getname] runs over the
    list of its at most fourteen indices.  Nothing else recurses.  The
    sample hosts may have [FOPEN_MAX] = 16 streams open, the value of
    the C library; the theorems hold for every limit.

    ** Not modelled

    Floating-point arithmetic is the one of IEEE 754 in the default
    rounding mode, a [double] expression evaluated in binary64: other
    rounding modes and evaluation in a wider format (x87) are not
    modelled.  [fopen] fails when the file does not exist or the limit
    on open streams is reached: permissions, read errors and
    [errno] are not modelled, and neither is a file that changes while it
    is read, nor the three standard streams a process starts with.  The
    environment is a function from names to strings: that a later call
    of [getenv] or [setenv] may overwrite the string an earlier one
    returned is not modelled; the three variables of [cpu_getmodelid]
    are read into one [snprintf], where an implementation with a single
    static buffer would print one of them three times.  Threads are
    not modelled: the unit has no state of its own, and the calls of a
    session are made one after the other.  The
    contents of [miner.h] (the global [num_cpus], the
    definition of [bool]) are not in the repository's sources: [bool] is
    taken to be C99 [_Bool] and [num_cpus] is the parameter of [Miner]. *)

From Stdlib Require Import ZArith Lia List Bool.
From stdpp Require Import base list.

Local Open Scope Z_scope.

(** ** Outcomes: a value, or the undefined behaviour the C code runs into *)

Inductive fault : Set :=
| BufferOverflow   (* a write outside the object a pointer points into *)
| OutOfBoundsRead  (* a read outside the object *)
| NullPointer      (* a null pointer passed where a string is read *)
| IntOverflow      (* a value not representable in the destination type *)
| BadStream        (* a [FILE *] that is not an open stream *)
| OutOfFuel.       (* the bound of a loop of the model was reached: the
                      termination lemmas show it never is *)

Inductive outcome (A : Type) : Type :=
| Ok (a : A)
| Fault (f : fault).
Arguments Ok {A} a.
Arguments Fault {A} f.

#[export] Instance fault_eq_dec : EqDecision fault.
Proof. solve_decision. Defined.

#[export] Instance outcome_eq_dec {A} `{EqDecision A} : EqDecision (outcome A).
Proof. solve_decision. Defined.

Definition is_ok {A} (o : outcome A) : bool :=
  match o with Ok _ => true | Fault _ => false end.

Definition outcome_map {A B} (f : A -> B) (o : outcome A) : outcome B :=
  match o with Ok a => Ok (f a) | Fault e => Fault e end.

Definition outcome_bind {A B} (o : outcome A) (k : A -> outcome B) : outcome B :=
  match o with Ok a => k a | Fault e => Fault e end.

(** ** The state-and-fault monad *)

Definition M (S A : Type) : Type := S -> outcome (A * S).

Definition ret {S A} (a : A) : M S A := fun s => Ok (a, s).

Definition bind {S A B} (m : M S A) (k : A -> M S B) : M S B :=
  fun s => match m s with
           | Ok (a, s') => k a s'
           | Fault e => Fault e
           end.

Definition get {S} : M S S := fun s => Ok (s, s).
Definition put {S} (s : S) : M S unit := fun _ => Ok (tt, s).
Definition modify {S} (f : S -> S) : M S unit := fun s => Ok (tt, f s).
Definition throw {S A} (e : fault) : M S A := fun _ => Fault e.

(** An outcome computed without touching the state, run inside the monad. *)
Definition lift {S A} (o : outcome A) : M S A :=
  fun s => match o with Ok a => Ok (a, s) | Fault e => Fault e end.

(** The value and the final state of a run, when it does not fault. *)
Definition value_of {A S} (o : outcome (A * S)) : option A :=
  match o with Ok (a, _) => Some a | Fault _ => None end.
Definition state_of {A S} (o : outcome (A * S)) : option S :=
  match o with Ok (_, s) => Some s | Fault _ => None end.

Declare Scope cmonad_scope.
Delimit Scope cmonad_scope with cmonad.
Notation "x <- m ;; k" := (bind m (fun x => k))
  (at level 100, m at next level, right associativity) : cmonad_scope.
Notation "m ;;; k" := (bind m (fun _ => k))
  (at level 100, right associativity) : cmonad_scope.

(** Short-circuit conjunction of two tests, as C's [a() && b()]: the second
    is not run when the first is false. *)
Definition andM {S} (a b : M S bool) : M S bool :=
  bind a (fun x => if x then b else ret false).

(** The result of [m] seen through [f]. *)
Definition mmap {S A B} (f : A -> B) (m : M S A) : M S B :=
  bind m (fun a => ret (f a)).

(** A [for] loop over the elements of [l], threading the variables [b]. *)
Fixpoint foldM {S A B} (f : A -> B -> M S B) (l : list A) (b : B) : M S B :=
  match l with
  | [] => ret b
  | a :: l => bind (f a b) (fun b => foldM f l b)
  end.

(** [n] calls of [m], one after the other. *)
Fixpoint repeatM {S A} (n : nat) (m : M S A) : M S unit :=
  match n with
  | O => ret tt
  | Datatypes.S n => bind m (fun _ => repeatM n m)
  end.

(** The number of entries of a list in front of the first that passes a
    test; the length of the list when none does. *)
Fixpoint first_index {A} (P : A -> bool) (l : list A) : nat :=
  match l with
  | [] => 0
  | x :: l => if P x then 0 else Datatypes.S (first_index P l)
  end.

(** ** Tactics *)

Ltac invc H := inversion H; subst; clear H.

Ltac destruct_match :=
  match goal with
  | |- context [match ?x with _ => _ end] => destruct x eqn:?
  | H : context [match ?x with _ => _ end] |- _ => destruct x eqn:?
  end.

(** Closes a decidable goal on concrete data by evaluation. *)
Ltac by_decide :=
  match goal with
  | |- ?P => apply (bool_decide_eq_true_1 P); vm_compute; reflexivity
  end.

Create HintDb cdb discriminated.
Create Rewrite HintDb run.
Create Rewrite HintDb clen.

(** ** Laws of the monad (pointwise: no functional extensionality) *)

Section MonadLaws.
Context {S A B C : Type}.

Lemma bind_unfold (m : M S A) (k : A -> M S B) s :
  bind m k s = match m s with Ok (a, s') => k a s' | Fault e => Fault e end.
Proof. reflexivity. Qed.

Lemma bind_ok (m : M S A) (k : A -> M S B) s a s' :
  m s = Ok (a, s') -> bind m k s = k a s'.
Proof. unfold bind. now intros ->. Qed.

Lemma bind_fault (m : M S A) (k : A -> M S B) s e :
  m s = Fault e -> bind m k s = Fault e.
Proof. unfold bind. now intros ->. Qed.

Lemma ret_run (a : A) (s : S) : ret a s = Ok (a, s).
Proof. reflexivity. Qed.

Lemma bind_ret_l (a : A) (k : A -> M S B) s : bind (ret a) k s = k a s.
Proof. reflexivity. Qed.

Lemma bind_ret_r (m : M S A) s : bind m ret s = m s.
Proof. unfold bind, ret. destruct (m s) as [[a s']|e]; reflexivity. Qed.

Lemma bind_assoc (m : M S A) (f : A -> M S B) (g : B -> M S C) s :
  bind (bind m f) g s = bind m (fun a => bind (f a) g) s.
Proof. unfold bind. destruct (m s) as [[a s']|e]; reflexivity. Qed.

Lemma bind_inv_ok (m : M S A) (k : A -> M S B) s b s2 :
  bind m k s = Ok (b, s2) ->
  exists a s1, m s = Ok (a, s1) /\ k a s1 = Ok (b, s2).
Proof.
  unfold bind. destruct (m s) as [[a s1]|e]; [eauto | discriminate].
Qed.

Lemma lift_ok (a : A) (s : S) : lift (Ok a) s = Ok (a, s).
Proof. reflexivity. Qed.

Lemma lift_fault (e : fault) (s : S) : @lift S A (Fault e) s = Fault e.
Proof. reflexivity. Qed.

Lemma lift_inv_ok (o : outcome A) (s s' : S) a :
  lift o s = Ok (a, s') -> o = Ok a /\ s' = s.
Proof. destruct o; cbn; [intros [= -> ->]; auto | discriminate]. Qed.

End MonadLaws.

(** A call that keeps an invariant and changes a measure by [f] can be
    repeated any number of times, and the measure is [f] iterated. *)
Lemma repeatM_measure {S A} (m : M S A) (I : S -> Prop) (size : S -> nat)
    (f : nat -> nat) :
  (forall s, I s ->
     exists a s', m s = Ok (a, s') /\ I s' /\ size s' = f (size s)) ->
  forall n s, I s ->
    exists s', repeatM n m s = Ok (tt, s') /\ I s' /\
               size s' = Nat.iter n f (size s).
Proof.
  intros Hm. induction n as [|n IH]; intros s Hs.
  - exists s. auto.
  - destruct (Hm s Hs) as (a & s1 & H1 & Hs1 & Hn).
    destruct (IH s1 Hs1) as (s' & H2 & Hs' & Hn').
    exists s'. cbn [repeatM]. rewrite (bind_ok _ _ _ _ _ H1).
    rewrite Nat.iter_succ_r, <- Hn. auto.
Qed.

Lemma mmap_run {S A B} (f : A -> B) (m : M S A) s :
  mmap f m s = outcome_map (fun r => (f (fst r), snd r)) (m s).
Proof. unfold mmap, bind, ret. now destruct (m s) as [[a s']|]. Qed.

Lemma mmap_lift {S A B} (f : A -> B) (o : outcome A) (s : S) :
  mmap f (lift o) s = lift (outcome_map f o) s.
Proof. rewrite mmap_run. now destruct o. Qed.

Lemma andM_run {S} (a b : M S bool) s x s' :
  a s = Ok (x, s') ->
  andM a b s = if x then b s' else Ok (false, s').
Proof. intros H. unfold andM. rewrite (bind_ok _ _ _ _ _ H). now destruct x. Qed.

#[export] Hint Rewrite @ret_run @bind_ret_l @lift_ok @lift_fault : run.

(** [mrun] evaluates a monadic program one bind at a time, rewriting each
    operation with its run equation from the database [run]. *)
Ltac mrun :=
  repeat (rewrite bind_unfold || autorewrite with run || cbn beta iota).

(** ** Bits of [Z] *)

Lemma testbit_pow2 (k i : Z) :
  0 <= k -> Z.testbit (2 ^ k) i = Z.eqb k i.
Proof.
  intros Hk. destruct (Z.eqb_spec k i) as [->|Hne].
  - now apply Z.pow2_bits_true.
  - apply Z.pow2_bits_false. congruence.
Qed.

Lemma land_pow2 (w k : Z) :
  0 <= k -> Z.land w (2 ^ k) = if Z.testbit w k then 2 ^ k else 0.
Proof.
  intros Hk. apply Z.bits_inj'. intros i Hi.
  rewrite Z.land_spec, testbit_pow2 by assumption.
  destruct (Z.eqb_spec k i) as [->|Hne].
  - destruct (Z.testbit w i) eqn:E.
    + now rewrite Z.pow2_bits_true.
    + now rewrite Z.bits_0.
  - rewrite andb_false_r.
    destruct (Z.testbit w k); [|now rewrite Z.bits_0].
    symmetry. apply Z.pow2_bits_false. congruence.
Qed.

Lemma pow2_nonzero (k : Z) : 0 <= k -> 2 ^ k <> 0.
Proof. intros. apply Z.pow_nonzero; lia. Qed.

(** The C test [w & (1 << k)] read as a truth value is bit [k] of [w]. *)
Lemma land_pow2_nonzero (w k : Z) :
  0 <= k -> negb (Z.land w (2 ^ k) =? 0) = Z.testbit w k.
Proof.
  intros Hk. rewrite land_pow2 by assumption.
  destruct (Z.testbit w k); [|reflexivity].
  apply negb_true_iff, Z.eqb_neq, pow2_nonzero; assumption.
Qed.

(** The C test [(w & m) == m]: every bit of the mask [m] is set in [w]. *)
Lemma land_mask_eq_iff (w m : Z) :
  Z.land w m = m <->
  forall i, 0 <= i -> Z.testbit m i = true -> Z.testbit w i = true.
Proof.
  split.
  - intros H i Hi Hm. rewrite <- H in Hm.
    rewrite Z.land_spec in Hm. now apply andb_true_iff in Hm.
  - intros H. apply Z.bits_inj'. intros i Hi. rewrite Z.land_spec.
    destruct (Z.testbit m i) eqn:E; [|apply andb_false_r].
    now rewrite (H i Hi E).
Qed.

Lemma land_lor_mask_eqb (w m1 m2 : Z) :
  (Z.land w (Z.lor m1 m2) =? Z.lor m1 m2) =
  (Z.land w m1 =? m1) && (Z.land w m2 =? m2).
Proof.
  apply eq_true_iff_eq. rewrite andb_true_iff, !Z.eqb_eq, !land_mask_eq_iff.
  split.
  - intros H. split; intros i Hi Hm; apply H; auto;
      rewrite Z.lor_spec, Hm; auto using orb_true_r.
  - intros [H1 H2] i Hi Hm. rewrite Z.lor_spec in Hm.
    apply orb_true_iff in Hm as [Hm|Hm]; auto.
Qed.

Lemma land_pow2_eqb (w k : Z) :
  0 <= k -> (Z.land w (2 ^ k) =? 2 ^ k) = Z.testbit w k.
Proof.
  intros Hk. rewrite land_pow2 by assumption.
  destruct (Z.testbit w k); [apply Z.eqb_refl|].
  apply Z.eqb_neq. pose proof (pow2_nonzero k Hk). congruence.
Qed.

(** ** Lists as C objects of a fixed size *)

(** An odd number that divides [v * 2 ^ n] divides [v]. *)
Lemma divide_odd_pow2 d v n :
  Z.gcd d 2 = 1 -> (d | v * 2 ^ Z.of_nat n) -> (d | v).
Proof.
  intros Hd. induction n as [|n IH].
  - now rewrite Z.mul_1_r.
  - rewrite Nat2Z.inj_succ, Z.pow_succ_r by lia. intros H. apply IH.
    apply (Z.gauss d 2); [|exact Hd].
    now replace (2 * (v * 2 ^ Z.of_nat n)) with (v * (2 * 2 ^ Z.of_nat n)) by ring.
Qed.

(** A weaker test is passed earlier. *)
Lemma first_index_mono {A} (P Q : A -> bool) l :
  (forall x, P x = true -> Q x = true) ->
  (first_index Q l <= first_index P l)%nat.
Proof.
  intros H. induction l as [|x l IH]; cbn; [lia|].
  destruct (P x) eqn:E; [now rewrite (H x E)|]. destruct (Q x); lia.
Qed.

(** No byte of a list that avoids [bad] is one of [bad]. *)
Lemma Forall_notin {A} (bad l : list A) b :
  Forall (fun x => x ∉ bad) l -> b ∈ bad -> b ∉ l.
Proof. rewrite Forall_forall. intros H Hb Hin. exact (H b Hin Hb). Qed.

(** A text is cut in one way at the first occurrence of a separator. *)
Lemma app_sep_inj {A} (c : A) (l1 l2 r1 r2 : list A) :
  Forall (fun a => a <> c) l1 -> Forall (fun a => a <> c) l2 ->
  l1 ++ c :: r1 = l2 ++ c :: r2 -> l1 = l2 /\ r1 = r2.
Proof.
  revert l2. induction l1 as [|a l1 IH]; intros [|b l2] H1 H2 E;
    cbn in E; simplify_eq.
  - now split.
  - now apply Forall_inv in H2.
  - now apply Forall_inv in H1.
  - apply Forall_inv_tail in H1, H2.
    destruct (IH _ H1 H2 ltac:(eassumption)) as [-> ->]. now split.
Qed.

Lemma length_take_drop_splice {A} (l src : list A) (off : nat) :
  (off + length src <= length l)%nat ->
  length (take off l ++ src ++ drop (off + length src) l) = length l.
Proof.
  intros H. rewrite !length_app, length_take, length_drop. lia.
Qed.

Lemma replicate_lookup_lt {A} (n i : nat) (x : A) :
  (i < n)%nat -> replicate n x !! i = Some x.
Proof. intros H. now apply lookup_replicate_2. Qed.

#[export] Hint Rewrite @length_app @length_take @length_drop
  @length_replicate @length_insert : clen.
