(* ===== verification/Transitions.v ===== *)
(** * Transition systems: runs, invariants and progress

    The vocabulary shared by the two state machines of the development,
    the scraper of [/proc/cpuinfo] run statement by statement
    ([ScanSteps]) and the unit driven call by call ([Api]).  Runs are
    stdpp's [rtc], final states its [nf]; [eventually P] says that every
    execution reaches a state where [P] holds, [run] is a sequence of
    labelled steps with the labels it went through. *)

From Stdlib Require Import Lia List.
From stdpp Require Import base relations.

(** ** Definitions *)

Section Transitions.
Context {State : Type} (step : relation State).

(** On every execution from [s] a state where [P] holds is reached: [P]
    holds now, or a step can be taken and every step leads to a state
    from which [P] is reached. *)
Inductive eventually (P : State -> Prop) : State -> Prop :=
| eventually_now s : P s -> eventually P s
| eventually_next s :
    red step s -> (forall s', step s s' -> eventually P s') ->
    eventually P s.

(** [I] is kept by every step. *)
Definition invariant (I : State -> Prop) : Prop :=
  forall s s', I s -> step s s' -> I s'.

End Transitions.

Section Labelled.
Context {State Label : Type} (lstep : State -> Label -> State -> Prop).

(** A sequence of labelled steps. *)
Inductive run : State -> list Label -> State -> Prop :=
| run_nil s : run s [] s
| run_cons s l s1 ls s' :
    lstep s l s1 -> run s1 ls s' -> run s (l :: ls) s'.

(** [I] is kept by every labelled step. *)
Definition linvariant (I : State -> Prop) : Prop :=
  forall s l s', I s -> lstep s l s' -> I s'.

End Labelled.

(** ** Runs *)

Section TransitionFacts.
Context {State : Type} {step : relation State}.
Implicit Types (P Q I : State -> Prop) (s : State).

Lemma invariant_rtc I s s' :
  invariant step I -> I s -> rtc step s s' -> I s'.
Proof. intros HI Hs Hrun. induction Hrun; eauto. Qed.

(** What no step changes, no run changes. *)
Lemma preserved_rtc {B} (f : State -> B) s s' :
  (forall s1 s2, step s1 s2 -> f s1 = f s2) -> rtc step s s' -> f s = f s'.
Proof.
  intros Hf Hrun. induction Hrun as [|s1 s2 s3 H12 _ IH]; [reflexivity|].
  now rewrite (Hf _ _ H12).
Qed.

(** A deterministic system has at most one final state on its runs. *)
Lemma final_unique s s1 s2 :
  deterministic step ->
  rtc step s s1 -> nf step s1 -> rtc step s s2 -> nf step s2 -> s1 = s2.
Proof.
  intros Hdet H1 Hn1 H2 Hn2.
  eapply confluent_rtc_nf; eauto using deterministic_confluent.
Qed.

(** ** Progress *)

Lemma eventually_weaken P Q s :
  (forall s', P s' -> Q s') -> eventually step P s -> eventually step Q s.
Proof.
  intros HPQ H. induction H as [s H|s Hred _ IH].
  - apply eventually_now. auto.
  - apply eventually_next; auto.
Qed.

Lemma eventually_trans P Q s :
  eventually step P s -> (forall s', P s' -> eventually step Q s') ->
  eventually step Q s.
Proof.
  intros H HPQ. induction H as [s H|s Hred _ IH]; [auto|].
  apply eventually_next; auto.
Qed.

(** What happens on every execution happens on one. *)
Lemma eventually_reach P s :
  eventually step P s -> exists s', rtc step s s' /\ P s'.
Proof.
  induction 1 as [s H|s [s1 H1] _ IH].
  - exists s. split; [reflexivity | exact H].
  - destruct (IH s1 H1) as (s' & Hrun & HP).
    exists s'. split; [now apply (rtc_l _ _ s1) | exact HP].
Qed.

(** An invariant holds where the execution arrives. *)
Lemma eventually_invariant I P s :
  invariant step I -> I s -> eventually step P s ->
  eventually step (fun s' => I s' /\ P s') s.
Proof.
  intros HI Hs H. induction H as [s H|s Hred Hnext IH].
  - apply eventually_now. auto.
  - apply eventually_next; [assumption|].
    intros s' Hstep. apply IH; [assumption|]. exact (HI _ _ Hs Hstep).
Qed.

(** What is final when it is reached is reached by the state before. *)
Lemma eventually_final_rtc P s s' :
  deterministic step ->
  rtc step s s' -> eventually step P s' -> eventually step P s.
Proof.
  intros Hdet Hrun H. induction Hrun as [|s1 s2 s3 H12 _ IH]; [assumption|].
  apply eventually_next; [now exists s2|].
  intros s2' H12'. rewrite (Hdet _ _ _ H12' H12). auto.
Qed.

(** Progress by a measure: where [P] does not hold yet a step can be
    taken, and every step makes the measure smaller. *)
Lemma eventually_measure (m : State -> nat) P :
  (forall s, P s \/
     (red step s /\ forall s', step s s' -> (m s' < m s)%nat)) ->
  forall s, eventually step P s.
Proof.
  intros Hprog s. remember (m s) as n eqn:Hn. revert s Hn.
  induction n as [n IH] using lt_wf_ind. intros s ->.
  destruct (Hprog s) as [HP|[Hred Hdec]]; [now apply eventually_now|].
  apply eventually_next; [assumption|].
  intros s' Hstep. exact (IH (m s') (Hdec _ Hstep) s' eq_refl).
Qed.

End TransitionFacts.

(** ** Labelled runs *)

Section LabelledFacts.
Context {State Label : Type} {lstep : State -> Label -> State -> Prop}.

Lemma run_app s ls1 s1 ls2 s' :
  run lstep s ls1 s1 -> run lstep s1 ls2 s' -> run lstep s (ls1 ++ ls2) s'.
Proof.
  intros H1 H2. induction H1 as [|s l s0 ls s1 Hl _ IH]; [assumption|].
  cbn [app]. eapply run_cons; eauto.
Qed.

Lemma run_snoc s ls s1 l s' :
  run lstep s ls s1 -> lstep s1 l s' -> run lstep s (ls ++ [l]) s'.
Proof.
  intros H1 H2. eapply run_app; [exact H1|].
  eapply run_cons; [exact H2 | apply run_nil].
Qed.

Lemma run_app_inv s ls1 ls2 s' :
  run lstep s (ls1 ++ ls2) s' ->
  exists s1, run lstep s ls1 s1 /\ run lstep s1 ls2 s'.
Proof.
  revert s. induction ls1 as [|l ls1 IH]; intros s H.
  - exists s. split; [apply run_nil | exact H].
  - inversion H as [|? ? s0 ? ? Hl Hrest]; subst.
    destruct (IH _ Hrest) as (s1 & H1 & H2).
    exists s1. split; [eapply run_cons; eauto | exact H2].
Qed.

Lemma run_two s l1 l2 s' :
  run lstep s [l1; l2] s' <-> exists s1, lstep s l1 s1 /\ lstep s1 l2 s'.
Proof.
  split.
  - intros H. inversion H as [|? ? s1 ? ? H1 Hrest]; subst.
    inversion Hrest as [|? ? s2 ? ? H2 Hnil]; subst.
    inversion Hnil; subst. eauto.
  - intros (s1 & H1 & H2). eauto using run_cons, run_nil.
Qed.

(** An invariant of the steps is an invariant of the runs. *)
Lemma linvariant_run (I : State -> Prop) s ls s' :
  linvariant lstep I -> I s -> run lstep s ls s' -> I s'.
Proof. intros HI Hs Hrun. induction Hrun; eauto. Qed.

(** With deterministic steps a run is determined by its labels. *)
Lemma run_deterministic s ls s1 s2 :
  (forall s l s1 s2, lstep s l s1 -> lstep s l s2 -> s1 = s2) ->
  run lstep s ls s1 -> run lstep s ls s2 -> s1 = s2.
Proof.
  intros Hdet H1. revert s2.
  induction H1 as [|s l s0 ls s1 Hl _ IH]; intros s2 H2;
    inversion H2 as [|? ? s0' ? ? Hl' Hrest]; subst; [reflexivity|].
  apply IH. now rewrite (Hdet _ _ _ _ Hl Hl').
Qed.

End LabelledFacts.
