(* ===== verification/CTypes.v ===== *)
(** * C objects: 32-bit integers, arrays and character buffers

    The values and library calls [sysinfos.c] is written with.  A register
    or an [int] object holds 32 bits; [to_int32] and [to_uint32] are the
    two readings of a bit pattern.  An array or a buffer is a [list] whose
    length is the size of the object: [load], [store], [memcpy], [memset],
    [strcpy] and [sprintf] are total functions into [outcome] that fault
    exactly where the C call would leave the object.  [cstring] is what a
    reader of a buffer sees through [%s]: the bytes before the first NUL. *)

From Stdlib Require Import ZArith Lia List Bool Strings.Byte Strings.String.
From coqutil Require Import Byte Word.LittleEndianList.
From stdpp Require Import base list.
From S2P Require Import Prelude.

Local Open Scope Z_scope.

(** ** Definitions *)

#[export] Instance byte_eq_decision : EqDecision byte := Byte.byte_eq_dec.

(** The value of a 32-bit pattern read through a [uint32_t] lvalue. *)
Definition to_uint32 (z : Z) : Z := z mod 2 ^ 32.

(** The value of a 32-bit pattern read through an [int] lvalue (two's
    complement), also the conversion of an out-of-range value to [int]. *)
Definition to_int32 (z : Z) : Z := (z + 2 ^ 31) mod 2 ^ 32 - 2 ^ 31.

Definition is_uint32 (z : Z) : Prop := 0 <= z < 2 ^ 32.
Definition is_int32 (z : Z) : Prop := - 2 ^ 31 <= z < 2 ^ 31.

#[export] Instance is_uint32_dec z : Decision (is_uint32 z).
Proof. unfold is_uint32. apply _. Defined.

#[export] Instance is_int32_dec z : Decision (is_int32 z).
Proof. unfold is_int32. apply _. Defined.

(** Conversion of an [int] to C99 [bool]: any non-zero value is [true]. *)
Definition bool_of_int (z : Z) : bool := negb (z =? 0).

(** [a[i]] as an rvalue. *)
Definition load {A} (a : list A) (i : nat) : outcome A :=
  match a !! i with
  | Some x => Ok x
  | None => Fault OutOfBoundsRead
  end.

(** [a[i] = x]. *)
Definition store {A} (a : list A) (i : nat) (x : A) : outcome (list A) :=
  if decide (i < length a)%nat then Ok (<[i:=x]> a) else Fault BufferOverflow.

(** [memcpy(dst + off, src, sizeof src)]. *)
Definition memcpy {A} (dst : list A) (off : nat) (src : list A)
  : outcome (list A) :=
  if decide (off + length src <= length dst)%nat
  then Ok (take off dst ++ src ++ drop (off + length src) dst)
  else Fault BufferOverflow.

(** [memset(dst, c, n)]. *)
Definition memset {A} (dst : list A) (c : A) (n : nat) : outcome (list A) :=
  memcpy dst 0 (replicate n c).

Definition NUL : byte := Byte.x00.

(** The buffer after [memset(outbuf, 0, maxsz)]. *)
Definition cleared (outbuf : list byte) (maxsz : nat) : list byte :=
  replicate maxsz NUL ++ drop maxsz outbuf.

(** The bytes of a string literal, without its terminator. *)
Definition bytes (s : string) : list byte := list_byte_of_string s.

(** [strcpy(dst, src)]: the characters of [src] and the terminator. *)
Definition strcpy (dst : list byte) (src : list byte) : outcome (list byte) :=
  memcpy dst 0 (src ++ [NUL]).

(** [sprintf(dst, fmt, ...)] where [out] is the text the format renders
    to: the text and the terminator, with no bound on the length. *)
Definition sprintf (dst : list byte) (out : list byte) : outcome (list byte) :=
  memcpy dst 0 (out ++ [NUL]).

(** The string a buffer holds: the bytes before the first NUL.  A buffer
    without a NUL is not a string, reading it runs past its end. *)
Fixpoint cstring (buf : list byte) : outcome (list byte) :=
  match buf with
  | [] => Fault OutOfBoundsRead
  | b :: rest =>
      if decide (b = NUL) then Ok []
      else outcome_map (cons b) (cstring rest)
  end.

Definition nul_free (l : list byte) : Prop := Forall (fun b => b <> NUL) l.

(** The buffer holds a string of fewer than [maxsz] bytes: a reader stops
    inside the first [maxsz] bytes. *)
Definition terminated (maxsz : nat) (buf : list byte) : Prop :=
  exists s, cstring buf = Ok s /\ (length s < maxsz)%nat.

#[export] Instance nul_free_dec l : Decision (nul_free l).
Proof. unfold nul_free. apply _. Defined.

(** The object representation of an [int] array on a little-endian
    machine: four bytes per element, least significant first. *)
Definition int_bytes (a : list Z) : list byte :=
  flat_map (le_split 4) a.

(** ** Integer conversions *)

Lemma to_uint32_range z : is_uint32 (to_uint32 z).
Proof. unfold is_uint32, to_uint32. apply Z.mod_pos_bound. lia. Qed.

Lemma to_int32_range z : is_int32 (to_int32 z).
Proof.
  unfold is_int32, to_int32.
  pose proof (Z.mod_pos_bound (z + 2 ^ 31) (2 ^ 32) ltac:(lia)). lia.
Qed.

Lemma to_uint32_small z : is_uint32 z -> to_uint32 z = z.
Proof. unfold is_uint32, to_uint32. intros. now apply Z.mod_small. Qed.

Lemma to_int32_small z : is_int32 z -> to_int32 z = z.
Proof.
  unfold is_int32, to_int32. intros.
  rewrite Z.mod_small by lia. lia.
Qed.

Lemma to_uint32_idemp z : to_uint32 (to_uint32 z) = to_uint32 z.
Proof. apply to_uint32_small, to_uint32_range. Qed.

(** Both readings are congruent to the pattern modulo 2^32. *)
Lemma to_int32_mod z : to_int32 z mod 2 ^ 32 = z mod 2 ^ 32.
Proof.
  unfold to_int32.
  rewrite <- Zminus_mod_idemp_l, Z.mod_mod by lia.
  rewrite Zminus_mod_idemp_l. f_equal. lia.
Qed.

(** Storing a register into an [int] and reading it back through a
    [uint32_t] lvalue gives the register. *)
Lemma to_uint32_to_int32 z : to_uint32 (to_int32 z) = to_uint32 z.
Proof. apply to_int32_mod. Qed.

Lemma to_int32_to_uint32 z : to_int32 (to_uint32 z) = to_int32 z.
Proof.
  unfold to_int32, to_uint32.
  rewrite Zplus_mod_idemp_l. reflexivity.
Qed.

(** The low 32 bits of both readings are the bits of the pattern. *)
Lemma testbit_to_uint32 z i : i < 32 -> Z.testbit (to_uint32 z) i = Z.testbit z i.
Proof. intros. unfold to_uint32. now apply Z.mod_pow2_bits_low. Qed.

Lemma testbit_to_int32 z i : i < 32 -> Z.testbit (to_int32 z) i = Z.testbit z i.
Proof.
  intros Hi.
  rewrite <- (Z.mod_pow2_bits_low (to_int32 z) 32 i Hi), to_int32_mod.
  now apply Z.mod_pow2_bits_low.
Qed.

Lemma testbit_uint32_high z i : is_uint32 z -> 32 <= i -> Z.testbit z i = false.
Proof.
  intros Hz Hi. rewrite <- (to_uint32_small z Hz).
  unfold to_uint32. apply Z.mod_pow2_bits_high. lia.
Qed.

(** A mask that fits in 32 bits sees the same bits in both readings. *)
Lemma land_to_int32 z m : is_uint32 m -> Z.land (to_int32 z) m = Z.land z m.
Proof.
  intros Hm. apply Z.bits_inj'. intros i Hi. rewrite !Z.land_spec.
  destruct (Z.lt_ge_cases i 32).
  - now rewrite testbit_to_int32.
  - now rewrite (testbit_uint32_high m i Hm), !andb_false_r.
Qed.

Lemma land_to_uint32 z m : is_uint32 m -> Z.land (to_uint32 z) m = Z.land z m.
Proof.
  intros Hm. apply Z.bits_inj'. intros i Hi. rewrite !Z.land_spec.
  destruct (Z.lt_ge_cases i 32).
  - now rewrite testbit_to_uint32.
  - now rewrite (testbit_uint32_high m i Hm), !andb_false_r.
Qed.

Lemma pow2_is_uint32 k : 0 <= k < 32 -> is_uint32 (2 ^ k).
Proof.
  intros Hk. unfold is_uint32. split; [apply Z.pow_nonneg; lia|].
  apply Z.pow_lt_mono_r; lia.
Qed.

(** The test [x & (1 << k)] of an [int] holding a register, as a [bool]. *)
Lemma bool_of_int_true z : z <> 0 -> bool_of_int z = true.
Proof. intros H. unfold bool_of_int. now apply negb_true_iff, Z.eqb_neq. Qed.

Lemma bool_of_int_0 : bool_of_int 0 = false.
Proof. reflexivity. Qed.

Lemma bool_of_int_land_pow2 z k :
  0 <= k < 32 -> bool_of_int (Z.land (to_int32 z) (2 ^ k)) = Z.testbit z k.
Proof.
  intros Hk. unfold bool_of_int.
  rewrite land_to_int32 by now apply pow2_is_uint32.
  apply land_pow2_nonzero. lia.
Qed.

(** ** Arrays and buffers *)

Section Arrays.
Context {A : Type}.
Implicit Types (a dst src : list A) (i off n : nat) (x : A).

Lemma load_ok a i x : a !! i = Some x -> load a i = Ok x.
Proof. unfold load. now intros ->. Qed.

Lemma load_lt a i : (i < length a)%nat -> exists x, load a i = Ok x /\ a !! i = Some x.
Proof.
  intros H. destruct (lookup_lt_is_Some_2 a i H) as [x Hx].
  exists x. split; [now apply load_ok | assumption].
Qed.

Lemma load_fault a i : (length a <= i)%nat -> load a i = Fault OutOfBoundsRead.
Proof. intros H. unfold load. now rewrite lookup_ge_None_2. Qed.

Lemma store_ok a i x :
  (i < length a)%nat -> store a i x = Ok (<[i:=x]> a).
Proof. intros H. unfold store. now rewrite decide_True. Qed.

Lemma store_fault a i x :
  (length a <= i)%nat -> store a i x = Fault BufferOverflow.
Proof. intros H. unfold store. rewrite decide_False; [reflexivity | lia]. Qed.

Lemma store_length a i x a' : store a i x = Ok a' -> length a' = length a.
Proof.
  unfold store. case_decide; [|discriminate].
  intros [= <-]. apply length_insert.
Qed.

Lemma memcpy_ok dst off src :
  (off + length src <= length dst)%nat ->
  memcpy dst off src = Ok (take off dst ++ src ++ drop (off + length src) dst).
Proof. intros H. unfold memcpy. now rewrite decide_True. Qed.

Lemma memcpy_fault dst off src :
  (length dst < off + length src)%nat ->
  memcpy dst off src = Fault BufferOverflow.
Proof. intros H. unfold memcpy. rewrite decide_False; [reflexivity | lia]. Qed.

Lemma memcpy_inv dst off src d :
  memcpy dst off src = Ok d ->
  (off + length src <= length dst)%nat /\
  d = take off dst ++ src ++ drop (off + length src) dst.
Proof. unfold memcpy. case_decide; [intros [= <-]; auto | discriminate]. Qed.

Lemma memcpy_length dst off src d :
  memcpy dst off src = Ok d -> length d = length dst.
Proof.
  intros H. apply memcpy_inv in H as [Hle ->].
  now apply length_take_drop_splice.
Qed.

(** What lies before the copy is kept. *)
Lemma memcpy_take dst off src d :
  memcpy dst off src = Ok d -> take off d = take off dst.
Proof.
  intros H. apply memcpy_inv in H as [Hle ->].
  rewrite take_app_le by (rewrite length_take; lia).
  rewrite take_take. f_equal. lia.
Qed.

(** What lies after the copy is kept. *)
Lemma memcpy_drop dst off src d :
  memcpy dst off src = Ok d ->
  drop (off + length src) d = drop (off + length src) dst.
Proof.
  intros H. apply memcpy_inv in H as [Hle ->].
  rewrite app_assoc, drop_app_length'; [reflexivity|].
  rewrite length_app, length_take. lia.
Qed.

(** The copied range holds the source. *)
Lemma memcpy_mid dst off src d :
  memcpy dst off src = Ok d -> take (length src) (drop off d) = src.
Proof.
  intros H. apply memcpy_inv in H as [Hle ->].
  rewrite drop_app_length' by (rewrite length_take; lia).
  apply take_app_length.
Qed.

(** Copying a concatenation is copying its parts one after the other. *)
Lemma memcpy_app dst off src1 src2 :
  memcpy dst off (src1 ++ src2) =
  outcome_bind (memcpy dst off src1)
    (fun d => memcpy d (off + length src1) src2).
Proof.
  unfold memcpy. rewrite length_app.
  destruct (decide (off + length src1 <= length dst)%nat) as [H1|H1]; cbn.
  - rewrite length_take_drop_splice by assumption.
    destruct (decide (off + (length src1 + length src2) <= length dst)%nat)
      as [H2|H2].
    + rewrite decide_True by lia. f_equal.
      assert (Hl : length (take off dst ++ src1) = (off + length src1)%nat)
        by (rewrite length_app, length_take; lia).
      rewrite (app_assoc (take off dst) src1 (drop (off + length src1) dst)).
      rewrite take_app_length' by (symmetry; exact Hl).
      rewrite drop_app_ge, Hl, drop_drop, <- !app_assoc by lia.
      do 4 f_equal. lia.
    + rewrite decide_False by lia. reflexivity.
  - rewrite decide_False by lia. reflexivity.
Qed.

Lemma memset_ok dst x n :
  (n <= length dst)%nat -> memset dst x n = Ok (replicate n x ++ drop n dst).
Proof.
  intros H. unfold memset. rewrite memcpy_ok by (rewrite length_replicate; lia).
  now rewrite length_replicate.
Qed.

Lemma memcpy_nil dst off : (off <= length dst)%nat -> memcpy dst off [] = Ok dst.
Proof.
  intros H. rewrite memcpy_ok by (cbn; lia). cbn [app length].
  now rewrite Nat.add_0_r, take_drop.
Qed.

Lemma memset_fault dst x n :
  (length dst < n)%nat -> memset dst x n = Fault BufferOverflow.
Proof.
  intros H. unfold memset. apply memcpy_fault. rewrite length_replicate. lia.
Qed.

Lemma memset_length dst x n d : memset dst x n = Ok d -> length d = length dst.
Proof. apply memcpy_length. Qed.

End Arrays.

(** ** Strings in buffers *)

Lemma cstring_NUL rest : cstring (NUL :: rest) = Ok [].
Proof. cbn. now rewrite decide_True. Qed.

Lemma cleared_length outbuf maxsz :
  (maxsz <= length outbuf)%nat -> length (cleared outbuf maxsz) = length outbuf.
Proof.
  intros H. unfold cleared. rewrite length_app, length_replicate, length_drop. lia.
Qed.

Lemma cstring_cleared outbuf maxsz :
  (0 < maxsz)%nat -> cstring (cleared outbuf maxsz) = Ok [].
Proof. destruct maxsz; [lia|]. intros _. apply cstring_NUL. Qed.

Lemma cstring_cons b rest :
  b <> NUL -> cstring (b :: rest) = outcome_map (cons b) (cstring rest).
Proof. intros H. cbn. now rewrite decide_False. Qed.

Lemma cstring_app_nul (s rest : list byte) :
  nul_free s -> cstring (s ++ NUL :: rest) = Ok s.
Proof.
  induction 1 as [|b s Hb Hs IH]; cbn.
  - now rewrite decide_True.
  - rewrite decide_False by assumption. now rewrite IH.
Qed.

Lemma cstring_nul_free buf s : cstring buf = Ok s -> nul_free s.
Proof.
  revert s. induction buf as [|b buf IH]; cbn; [discriminate|].
  intros s. case_decide as Hb.
  - intros [= <-]. constructor.
  - destruct (cstring buf) as [s'|]; cbn; [|discriminate].
    intros [= <-]. constructor; [assumption | now apply IH].
Qed.

Lemma cstring_length buf s : cstring buf = Ok s -> (length s < length buf)%nat.
Proof.
  revert s. induction buf as [|b buf IH]; cbn; [discriminate|].
  intros s. case_decide.
  - intros [= <-]. cbn. lia.
  - destruct (cstring buf) as [s'|]; cbn; [|discriminate].
    intros [= <-]. cbn. specialize (IH _ eq_refl). lia.
Qed.

(** A terminator ends the string, wherever the first one is. *)
Lemma cstring_terminated l rest :
  exists s, cstring (l ++ NUL :: rest) = Ok s /\ (length s <= length l)%nat.
Proof.
  induction l as [|b l (s & Hs & Hl)];
    [exists []; cbn [app]; now rewrite cstring_NUL|].
  destruct (decide (b = NUL)) as [->|Hb].
  - exists []. cbn [app]. rewrite cstring_NUL. split; [reflexivity | cbn; lia].
  - exists (b :: s). cbn [app]. rewrite cstring_cons, Hs by assumption.
    split; [reflexivity | cbn; lia].
Qed.

Lemma terminated_replicate n m rest :
  (0 < n)%nat -> (0 < m)%nat -> terminated m (replicate n NUL ++ rest).
Proof.
  intros Hn Hm. destruct n as [|n]; [lia|]. exists [].
  cbn [replicate app]. now rewrite cstring_NUL.
Qed.

(** A buffer that reads as [s] is [s], a terminator, and a rest. *)
Lemma cstring_inv buf s :
  cstring buf = Ok s -> buf = s ++ NUL :: drop (S (length s)) buf.
Proof.
  revert s. induction buf as [|b buf IH]; cbn [cstring]; [discriminate|].
  intros s. case_decide as Hb.
  - intros [= <-]. now subst b.
  - destruct (cstring buf) as [s'|]; cbn; [|discriminate].
    intros [= <-]. cbn. f_equal. now apply IH.
Qed.

(** A terminator stored behind the text does not change what is read. *)
Lemma cstring_store_NUL buf s i buf' :
  cstring buf = Ok s -> (length s <= i)%nat -> store buf i NUL = Ok buf' ->
  cstring buf' = Ok s.
Proof.
  intros Hs Hi Hst. pose proof (cstring_nul_free _ _ Hs) as Hnf.
  unfold store in Hst. case_decide; [|discriminate]. injection Hst as <-.
  rewrite (cstring_inv _ _ Hs), insert_app_r_alt by assumption.
  destruct (i - length s)%nat; cbn [list_insert]; now apply cstring_app_nul.
Qed.

Lemma sprintf_ok dst out :
  (length out < length dst)%nat ->
  sprintf dst out = Ok (out ++ NUL :: drop (S (length out)) dst).
Proof.
  intros H. unfold sprintf.
  rewrite memcpy_ok by (rewrite length_app; cbn; lia).
  rewrite length_app, <- app_assoc. cbn.
  now replace (length out + 1)%nat with (S (length out)) by lia.
Qed.

Lemma sprintf_fault dst out :
  (length dst <= length out)%nat -> sprintf dst out = Fault BufferOverflow.
Proof.
  intros H. apply memcpy_fault. rewrite length_app. cbn. lia.
Qed.

Lemma sprintf_length dst out d : sprintf dst out = Ok d -> length d = length dst.
Proof. apply memcpy_length. Qed.

(** After [sprintf] the buffer reads as the text that was rendered. *)
Lemma sprintf_cstring dst out d :
  nul_free out -> sprintf dst out = Ok d -> cstring d = Ok out.
Proof.
  intros Hout H. destruct (decide (length out < length dst)%nat) as [Hlt|Hge].
  - rewrite sprintf_ok in H by assumption. injection H as <-.
    now apply cstring_app_nul.
  - rewrite sprintf_fault in H by lia. discriminate.
Qed.

(** Clearing the first byte is printing the empty text. *)
Lemma store_NUL_sprintf dst : store dst 0 NUL = sprintf dst [].
Proof. destruct dst; reflexivity. Qed.

Lemma strcpy_sprintf dst s : strcpy dst s = sprintf dst s.
Proof. reflexivity. Qed.

Lemma int_bytes_length (a : list Z) :
  length (int_bytes a) = (4 * length a)%nat.
Proof.
  unfold int_bytes. induction a as [|x a IH]; cbn -[le_split]; [reflexivity|].
  rewrite length_app, length_le_split, IH. lia.
Qed.

#[export] Hint Rewrite int_bytes_length : clen.
#[export] Hint Resolve to_uint32_range to_int32_range pow2_is_uint32 : cdb.
