(* ===== verification/CFloat.v ===== *)
(** * The types [float] and [double] of C

    IEEE 754 binary32 and binary64 numbers, as the specification of
    floating-point arithmetic in [Floats.SpecFloat] has them: a sign, a
    mantissa and an exponent, rounded to nearest with ties to even.  The
    unit uses three operations: the conversion of an integer to [double],
    the division of two [double]s and the conversion of a [double] to
    [float].  [value] is the rational number a finite value denotes.

    The theory follows the rounding of [SpecFloat] step by step: the
    number of binary digits of a mantissa, the location of a number
    between two consecutive mantissas ([inbetween]) and how a shift to
    the right, the choice of the nearest mantissa and a Euclidean
    division keep it.  [rounded prec z s e0 x] states the result: [z] has
    [prec] digits and is a multiple of [2 ^ e0] no farther than half a
    step from [x].  [binary_round_aux], [SFdiv] and [binary_round] round
    in this sense in the normal range, for any precision; a rounded
    number is valid, within the relative error [2 ^ - prec], no valid
    number is nearer, and a number of the grid is rounded to itself; rounding twice is rounding once when the
    number stays clear of the half-way points of the coarse grid.
    Numbers are rationals, linear steps are left to [lra], integer ones
    to [lia]. *)

From Stdlib Require Import ZArith QArith Qabs Qpower Lqa Lia Zpower Bool.
From Stdlib Require Import Morphisms Floats.SpecFloat.

Local Open Scope Z_scope.

(** ** Definitions *)

(** The conversion of an integer to [double]. *)
Definition double_of_Z (z : Z) : spec_float := binary_normalize 53 1024 z 0 false.

(** The division of two [double]s. *)
Definition double_div : spec_float -> spec_float -> spec_float := SFdiv 53 1024.

(** The conversion of a [double] to [float]. *)
Definition float_of_double (x : spec_float) : spec_float :=
  match x with
  | S754_finite s m e => binary_round 24 128 s m e
  | _ => x
  end.

(** The constant [0.0]. *)
Definition float_zero : spec_float := S754_zero false.

(** A value of the type [float]. *)
Definition is_float (x : spec_float) : bool := valid_binary 24 128 x.

(** Powers of two, of any sign. *)
Definition pow2 (e : Z) : Q := (2 ^ e)%Q.

(** The number a finite value denotes (0 for the others). *)
Definition value (x : spec_float) : Q :=
  match x with
  | S754_finite s m e => (inject_Z (cond_Zopp s (Zpos m)) * pow2 e)%Q
  | _ => 0%Q
  end.

(** Where a number [u] lies from the integer [m]: on it, or between it
    and the next one, below, on or above the middle. *)
Definition inbetween (m : Z) (l : location) (u : Q) : Prop :=
  match l with
  | loc_Exact => (u == inject_Z m)%Q
  | loc_Inexact Lt => (inject_Z m < u < inject_Z m + (1 # 2))%Q
  | loc_Inexact Eq => (u == inject_Z m + (1 # 2))%Q
  | loc_Inexact Gt => (inject_Z m + (1 # 2) < u < inject_Z m + 1)%Q
  end.

(** The same for a mantissa with its round and sticky bits. *)
Definition located (r : shr_record) (u : Q) : Prop :=
  inbetween (shr_m r) (loc_of_shr_record r) u.

(** [z] is the positive number [x] rounded to the nearest multiple of
    [2 ^ e0], the grid of the numbers of [prec] digits around [x]: a
    finite number of sign [s] and of [prec] digits, whose magnitude is
    the multiple [k * 2 ^ e0] within half a step of [x]. *)
Definition rounded (prec : Z) (z : spec_float) (s : bool) (e0 : Z) (x : Q)
  : Prop :=
  exists m e k,
    z = S754_finite s m e /\
    Zpos (digits2_pos m) = prec /\ e0 <= e <= e0 + 1 /\
    (inject_Z (Zpos m) * pow2 e == inject_Z k * pow2 e0)%Q /\
    (pow2 (prec - 1 + e0) <= x)%Q /\
    (Qabs (inject_Z k * pow2 e0 - x) <= pow2 (e0 - 1))%Q.

(** Constants of [Z] in [Q], for [lra]. *)
Ltac q_consts :=
  change (inject_Z 0) with 0%Q in *; change (inject_Z 1) with 1%Q in *;
  change (inject_Z 2) with 2%Q in *; change (inject_Z (-1)) with (-1)%Q in *;
  change (inject_Z (-2)) with (-2)%Q in *.

(** ** Powers of two *)

Lemma pow2_pos e : (0 < pow2 e)%Q.
Proof. apply Qpower_0_lt. reflexivity. Qed.

Lemma pow2_add a b : (pow2 (a + b) == pow2 a * pow2 b)%Q.
Proof. apply Qpower_plus. discriminate. Qed.

Lemma pow2_succ n : (pow2 (Z.succ n) == 2 * pow2 n)%Q.
Proof. unfold Z.succ. rewrite pow2_add. change (pow2 1) with 2%Q. lra. Qed.

Lemma pow2_cancel n : (pow2 n * pow2 (- n) == 1)%Q.
Proof. rewrite <- pow2_add, Z.add_opp_diag_r. reflexivity. Qed.

Lemma pow2_half n : (pow2 (n - 1) == pow2 n * (1 # 2))%Q.
Proof. unfold Z.sub. now rewrite pow2_add. Qed.

Lemma pow2_inject n : 0 <= n -> (pow2 n == inject_Z (2 ^ n))%Q.
Proof. intros H. unfold pow2. now rewrite Zpower_Qpower. Qed.

Lemma pow2_le a b : a <= b -> (pow2 a <= pow2 b)%Q.
Proof. intros H. apply Qpower_le_compat_l; [exact H | discriminate]. Qed.

(** ** The number of binary digits *)

Lemma digits2_pos_bounds p :
  2 ^ (Zpos (digits2_pos p) - 1) <= Zpos p < 2 ^ Zpos (digits2_pos p).
Proof.
  induction p as [p IH|p IH|]; cbn [digits2_pos]; [| |cbn; lia];
    rewrite Pos2Z.inj_succ, Z.pow_succ_r by lia;
    replace (Z.succ (Zpos (digits2_pos p)) - 1)
      with (Z.succ (Zpos (digits2_pos p) - 1)) by lia;
    rewrite Z.pow_succ_r by lia; lia.
Qed.

Lemma digits2_pos_unique p d :
  2 ^ (d - 1) <= Zpos p < 2 ^ d -> Zpos (digits2_pos p) = d.
Proof.
  intros H. pose proof (digits2_pos_bounds p) as H0.
  assert (Hd : 0 < d).
  { destruct (Z.ltb_spec 0 d) as [|Hd]; [assumption|].
    destruct (Z.eq_dec d 0) as [->|]; [cbn in H; lia|].
    rewrite (Z.pow_neg_r 2 d) in H by lia. lia. }
  assert (H1 : Zpos (digits2_pos p) - 1 < d).
  { apply (Z.pow_lt_mono_r_iff 2); lia. }
  assert (H2 : d - 1 < Zpos (digits2_pos p)).
  { apply (Z.pow_lt_mono_r_iff 2); lia. }
  lia.
Qed.

Lemma digits2_pos_lower p a : 2 ^ (a - 1) <= Zpos p -> a <= Zpos (digits2_pos p).
Proof.
  intros H. pose proof (digits2_pos_bounds p) as Hb.
  destruct (Z.le_gt_cases a 1) as [|Ha]; [lia|].
  assert (a - 1 < Zpos (digits2_pos p)); [|lia].
  apply (Z.pow_lt_mono_r_iff 2); lia.
Qed.

Lemma digits2_pos_upper p b : Zpos p < 2 ^ b -> Zpos (digits2_pos p) <= b.
Proof.
  intros H. pose proof (digits2_pos_bounds p) as Hb.
  assert (Hb0 : 0 <= b).
  { destruct (Z.le_gt_cases 0 b); [assumption|]. rewrite Z.pow_neg_r in H; lia. }
  assert (Zpos (digits2_pos p) - 1 < b); [|lia].
  apply (Z.pow_lt_mono_r_iff 2); lia.
Qed.

(** ** Locations *)

#[export] Instance inbetween_proper m l : Proper (Qeq ==> iff) (inbetween m l).
Proof. intros u v E. destruct l as [|[]]; cbn; now rewrite E. Qed.

#[export] Instance located_proper r : Proper (Qeq ==> iff) (located r).
Proof. intros u v E. unfold located. now rewrite E. Qed.

#[export] Instance rounded_proper prec z s e0 :
  Proper (Qeq ==> iff) (rounded prec z s e0).
Proof. intros x y E. unfold rounded. now setoid_rewrite E. Qed.

Lemma inbetween_bounds m l u :
  inbetween m l u -> (inject_Z m <= u < inject_Z m + 1)%Q.
Proof. destruct l as [|[]]; cbn; lra. Qed.

Lemma located_of_loc m l u :
  located (shr_record_of_loc m l) u <-> inbetween m l u.
Proof. unfold located. now destruct l as [|[]]. Qed.

Lemma inbetween_shift m l u k :
  inbetween m l u -> inbetween (k + m) l (inject_Z k + u).
Proof. destruct l as [|[]]; cbn; rewrite inject_Z_plus; lra. Qed.

(** ** Shifts to the right *)

Lemma inject_xO p : (inject_Z (Zpos p~0) == 2 * inject_Z (Zpos p))%Q.
Proof. now rewrite Pos2Z.inj_xO, inject_Z_mult. Qed.

Lemma inject_xI p : (inject_Z (Zpos p~1) == 2 * inject_Z (Zpos p) + 1)%Q.
Proof. now rewrite Pos2Z.inj_xI, inject_Z_plus, inject_Z_mult. Qed.

Lemma shr_1_located r u :
  0 <= shr_m r -> located r (2 * u) -> located (shr_1 r) u /\ 0 <= shr_m (shr_1 r).
Proof.
  destruct r as [[|[p|p|]|p] [|] [|]]; unfold located; cbn; intros Hm H;
    try lia; rewrite ?inject_xO, ?inject_xI in H;
    (split; [|lia]); try change (inject_Z 1) with 1%Q in *;
    try change (inject_Z 0) with 0%Q in *; lra.
Qed.

Lemma iter_pos_nat {A} (f : A -> A) p :
  forall x, iter_pos f p x = Nat.iter (Pos.to_nat p) f x.
Proof.
  induction p as [p IH|p IH|]; intros x; cbn [iter_pos]; [| |reflexivity];
    rewrite !IH, ?Pos2Nat.inj_xI, ?Pos2Nat.inj_xO;
    replace (2 * Pos.to_nat p)%nat with (Pos.to_nat p + Pos.to_nat p)%nat by lia;
    rewrite ?Nat.iter_succ_r; now rewrite Nat.iter_add.
Qed.

Lemma shr_iter_located n : forall r u,
  0 <= shr_m r -> located r (pow2 (Z.of_nat n) * u) ->
  located (Nat.iter n shr_1 r) u /\ 0 <= shr_m (Nat.iter n shr_1 r).
Proof.
  induction n as [|n IH]; intros r u Hm H.
  - cbn [Nat.iter]. split; [|exact Hm]. revert H.
    change (pow2 (Z.of_nat 0)) with 1%Q. now rewrite Qmult_1_l.
  - cbn [Nat.iter]. destruct (IH r (2 * u)%Q Hm) as [H1 H2].
    + revert H. rewrite Nat2Z.inj_succ, pow2_succ.
      assert (E : (2 * pow2 (Z.of_nat n) * u == pow2 (Z.of_nat n) * (2 * u))%Q) by ring.
      now rewrite E.
    + now apply shr_1_located.
Qed.

(** [shr] by [n] binary digits divides by [2 ^ n] and keeps the location. *)
Lemma shr_located r e n u :
  0 <= shr_m r -> 0 <= n -> located r (pow2 n * u) ->
  located (fst (shr r e n)) u /\ snd (shr r e n) = e + n /\
  0 <= shr_m (fst (shr r e n)).
Proof.
  intros Hm Hn H. destruct n as [|p|p]; [| |lia]; cbn [shr fst snd].
  - split; [|lia]. revert H. change (pow2 0) with 1%Q. now rewrite Qmult_1_l.
  - rewrite iter_pos_nat. rewrite <- (positive_nat_Z p) in H.
    destruct (shr_iter_located _ _ _ Hm H). auto.
Qed.

(** ** The nearest mantissa and the quotient *)

Lemma round_nearest_even_spec m l u :
  inbetween m l u ->
  (round_nearest_even m l = m \/ round_nearest_even m l = m + 1) /\
  (inject_Z (round_nearest_even m l) - (1 # 2) <= u <=
   inject_Z (round_nearest_even m l) + (1 # 2))%Q.
Proof.
  destruct l as [|[]]; cbn [inbetween round_nearest_even]; intros H;
    try destruct (Z.even m); rewrite ?inject_Z_plus;
    change (inject_Z 1) with 1%Q; (split; [auto|lra]).
Qed.

(** The location of a remainder [r] of a division by [nb]. *)
Lemma new_location_spec nb r :
  0 <= r < nb -> inbetween 0 (new_location nb r) (inject_Z r / inject_Z nb).
Proof.
  intros Hr. assert (Hnb : (0 < inject_Z nb)%Q) by (rewrite <- (Zlt_Qlt 0); lia).
  assert (Hdiv : forall a b : Z, a * r < b * nb <->
            (inject_Z a * (inject_Z r / inject_Z nb) < inject_Z b)%Q).
  { intros a b. rewrite Zlt_Qlt, !inject_Z_mult. split; intros H.
    - apply (Qmult_lt_r _ _ (inject_Z nb)); [assumption|]. field_simplify; lra.
    - apply (Qmult_lt_r _ _ (inject_Z nb)) in H; [|assumption].
      field_simplify in H; lra. }
  unfold new_location. set (x := (inject_Z r / inject_Z nb)%Q) in *.
  destruct (Z.even nb) eqn:Ev; unfold new_location_even, new_location_odd;
    (destruct (Z.eqb_spec r 0) as [->|Hr0];
     [cbn; unfold x, Qdiv; now rewrite Qmult_0_l|]);
    pose proof (proj1 (Hdiv (-1) 0) ltac:(lia)) as H0;
    pose proof (proj1 (Hdiv 1 1) ltac:(lia)) as H1.
  - destruct (Z.compare_spec (2 * r) nb) as [E|E|E]; cbn.
    + assert (~ (2 * x < 1)%Q) by (rewrite <- (Hdiv 2 1); lia).
      assert (~ (-2 * x < -1)%Q) by (rewrite <- (Hdiv (-2) (-1)); lia).
      q_consts. lra.
    + pose proof (proj1 (Hdiv 2 1) ltac:(lia)). q_consts. lra.
    + pose proof (proj1 (Hdiv (-2) (-1)) ltac:(lia)). q_consts. lra.
  - assert (2 * r <> nb).
    { intros <-. rewrite Z.even_mul in Ev. discriminate. }
    destruct (Z.compare_spec (2 * r + 1) nb) as [E|E|E]; cbn;
      [pose proof (proj1 (Hdiv 2 1) ltac:(lia)) |
       pose proof (proj1 (Hdiv 2 1) ltac:(lia)) |
       pose proof (proj1 (Hdiv (-2) (-1)) ltac:(lia))]; q_consts; lra.
Qed.

(** The quotient of a Euclidean division is located by the remainder. *)
Lemma div_eucl_located a b :
  0 < b ->
  inbetween (fst (Z.div_eucl a b)) (new_location b (snd (Z.div_eucl a b)))
    (inject_Z a / inject_Z b).
Proof.
  intros Hb. pose proof (Z_div_mod a b ltac:(lia)) as H.
  destruct (Z.div_eucl a b) as [q r]. destruct H as [-> Hr]. cbn [fst snd].
  assert (Hnb : (0 < inject_Z b)%Q) by (rewrite <- (Zlt_Qlt 0); lia).
  assert (E : (inject_Z (b * q + r) / inject_Z b ==
               inject_Z q + inject_Z r / inject_Z b)%Q).
  { rewrite inject_Z_plus, inject_Z_mult. field. lra. }
  rewrite E, <- (Z.add_0_r q) at 1. apply inbetween_shift.
  now apply new_location_spec.
Qed.

(** ** Numbers rounded to a grid *)

Lemma inject_Z_sub a b : inject_Z (a - b) = (inject_Z a - inject_Z b)%Q.
Proof. unfold Z.sub, Qminus. now rewrite inject_Z_plus, inject_Z_opp. Qed.

Lemma Qabs_lower a b : (b < a \/ b < - a)%Q -> (b < Qabs a)%Q.
Proof.
  intros [H|H]; [apply Qlt_le_trans with a | apply Qlt_le_trans with (- a)%Q];
    try assumption; [apply Qle_Qabs | rewrite <- Qabs_opp; apply Qle_Qabs].
Qed.

Lemma Qabs_lower_le a b : (b <= a \/ b <= - a)%Q -> (b <= Qabs a)%Q.
Proof.
  intros [H|H]; [apply Qle_trans with a | apply Qle_trans with (- a)%Q];
    try assumption; [apply Qle_Qabs | rewrite <- Qabs_opp; apply Qle_Qabs].
Qed.

Lemma Qabs_upper a b : (b < Qabs a)%Q -> ~ (- b <= a <= b)%Q.
Proof. intros H Ha. apply Qabs_Qle_condition in Ha. lra. Qed.

(** A multiple of the step within half a step of [x] is as near to [x]
    as any multiple. *)
Lemma nearest_multiple k K P x :
  (0 < P)%Q -> (Qabs (inject_Z k * P - x) <= P * (1 # 2))%Q ->
  (Qabs (inject_Z k * P - x) <= Qabs (inject_Z K * P - x))%Q.
Proof.
  intros HP H. destruct (Z.eq_dec K k) as [->|Hne]; [apply Qle_refl|].
  eapply Qle_trans; [exact H|]. apply Qabs_Qle_condition in H.
  assert (HK : (inject_Z K * P <= inject_Z k * P - P \/
                inject_Z k * P + P <= inject_Z K * P)%Q).
  { destruct (Z.lt_ge_cases K k) as [Hlt|Hge]; [left|right].
    - setoid_replace (inject_Z k * P - P)%Q with (inject_Z (k - 1) * P)%Q
        by (rewrite inject_Z_sub; q_consts; ring).
      apply Qmult_le_compat_r; [rewrite <- Zle_Qle; lia | lra].
    - setoid_replace (inject_Z k * P + P)%Q with (inject_Z (k + 1) * P)%Q
        by (rewrite inject_Z_plus; q_consts; ring).
      apply Qmult_le_compat_r; [rewrite <- Zle_Qle; lia | lra]. }
  apply Qabs_lower_le. lra.
Qed.

(** The number a rounded number denotes. *)
Lemma rounded_value prec z e0 x :
  rounded prec z false e0 x ->
  exists k,
    (value z == inject_Z k * pow2 e0)%Q /\
    (pow2 (prec - 1 + e0) <= x)%Q /\
    (Qabs (inject_Z k * pow2 e0 - x) <= pow2 (e0 - 1))%Q.
Proof. intros (m & e & k & -> & _ & _ & Hv & Hx & Herr). now exists k. Qed.

(** The error of a rounding is at most the relative error
    [2 ^ - prec]. *)
Lemma rounded_error prec z e0 x :
  rounded prec z false e0 x ->
  (Qabs (value z - x) <= x * pow2 (- prec))%Q.
Proof.
  intros H. destruct (rounded_value _ _ _ _ H) as (k & -> & Hx & Herr).
  eapply Qle_trans; [exact Herr|].
  replace (e0 - 1) with (prec - 1 + e0 + - prec) by lia. rewrite pow2_add.
  apply Qmult_le_compat_r; [exact Hx | apply Qlt_le_weak, pow2_pos].
Qed.

(** A number of the grid is rounded to itself. *)
Lemma rounded_on_grid prec z e0 x K :
  rounded prec z false e0 x -> (x == inject_Z K * pow2 e0)%Q ->
  (value z == x)%Q.
Proof.
  intros (k & -> & _ & Herr)%rounded_value HK.
  rewrite pow2_half in Herr.
  pose proof (nearest_multiple k K (pow2 e0) x (pow2_pos e0) Herr) as H.
  set (a := (inject_Z k * pow2 e0)%Q) in *.
  set (b := (inject_Z K * pow2 e0)%Q) in *.
  assert (Hz : (Qabs (b - x) <= 0)%Q) by (apply Qabs_Qle_condition; lra).
  apply (Qle_trans _ _ _ H), Qabs_Qle_condition in Hz. lra.
Qed.

(** The grid of a rounded number lies below it. *)
Lemma rounded_grid_below prec z s e0 x n :
  rounded prec z s e0 x -> (x < pow2 n)%Q -> prec - 1 + e0 < n.
Proof.
  intros (m & e & k & _ & _ & _ & _ & Hx & _) Hn.
  destruct (Z.lt_ge_cases (prec - 1 + e0) n) as [|Hge]; [assumption|].
  apply pow2_le in Hge. lra.
Qed.

(** Two roundings in a row are one rounding to the second grid, when no
    number half-way between two steps of the second grid, nor any step,
    is as near to [x] as the first rounding is, [x] apart. *)
Lemma rounded_twice p1 p2 y z e1 e2 x :
  0 <= p2 ->
  rounded p1 y false e1 x -> rounded p2 z false e2 (value y) ->
  (forall h : Z,
     (x == inject_Z h * pow2 (e2 - 1) \/
      pow2 (e1 - 1) < Qabs (inject_Z h * pow2 (e2 - 1) - x))%Q) ->
  rounded p2 z false e2 x.
Proof.
  intros Hp Hy (m & e & k & -> & Hd & He & Hv & Hlow & Herr) Hsep.
  destruct (rounded_value _ _ _ _ Hy) as (k1 & Ey & _ & Herr1).
  rewrite Ey in Hlow, Herr. exists m, e, k.
  do 4 (split; [reflexivity || assumption|]).
  replace (p2 - 1 + e2) with (p2 + (e2 - 1)) in * by lia.
  rewrite pow2_add, pow2_inject in * by lia.
  pose proof (pow2_half e2) as Hg. set (g := pow2 (e2 - 1)) in *.
  apply Qabs_Qle_condition in Herr, Herr1.
  pose proof (Hsep (2 ^ p2)) as S0. pose proof (Hsep (2 * k + 1)) as S1.
  pose proof (Hsep (2 * k - 1)) as S2.
  rewrite inject_Z_plus, inject_Z_mult in S1.
  rewrite inject_Z_sub, inject_Z_mult in S2. q_consts.
  set (a := (inject_Z k * g)%Q) in *.
  assert (Ea : (inject_Z k * pow2 e2 == 2 * a)%Q) by (unfold a; rewrite Hg; ring).
  rewrite Ea in *. clearbody g.
  setoid_replace ((2 * inject_Z k + 1) * g)%Q with (2 * a + g)%Q in S1
    by (unfold a; ring).
  setoid_replace ((2 * inject_Z k - 1) * g)%Q with (2 * a - g)%Q in S2
    by (unfold a; ring).
  destruct S0 as [S0|S0%Qabs_upper], S1 as [S1|S1%Qabs_upper],
    S2 as [S2|S2%Qabs_upper];
    (split; [|apply Qabs_Qle_condition]); lra.
Qed.

(** ** Rounding in a format of [prec] digits *)

Section Format.
Variables prec emax : Z.
Hypothesis Hprec : 0 < prec.

Lemma fexp_normal mu :
  emin prec emax <= mu - prec -> fexp prec emax mu = mu - prec.
Proof. unfold fexp. lia. Qed.

Lemma pow2_half_prec : (pow2 (prec - 1) * pow2 (- prec) == 1 # 2)%Q.
Proof.
  rewrite <- pow2_add. replace (prec - 1 + - prec) with (-1) by lia. reflexivity.
Qed.

(** A mantissa of [prec] digits, or [2 ^ prec], is brought to [prec]
    digits without loss. *)
Lemma renormalize m e :
  2 ^ (prec - 1) <= m <= 2 ^ prec -> emin prec emax <= e ->
  exists m' e',
    shr_fexp prec emax m e loc_Exact = (Build_shr_record (Zpos m') false false, e') /\
    Zpos (digits2_pos m') = prec /\ e <= e' <= e + 1 /\
    (inject_Z (Zpos m') * pow2 e' == inject_Z m * pow2 e)%Q.
Proof.
  intros Hm He. assert (H0 : 0 < 2 ^ (prec - 1)) by (apply Z.pow_pos_nonneg; lia).
  assert (Hp : 2 ^ prec = 2 * 2 ^ (prec - 1)).
  { rewrite <- Z.pow_succ_r by lia. f_equal. lia. }
  destruct (Z.eq_dec m (2 ^ prec)) as [->|Hne].
  - destruct (2 ^ (prec - 1)) as [|q|q] eqn:Eq; try lia.
    exists q, (e + 1). rewrite Hp. unfold shr_fexp.
    assert (Hd : Zdigits2 (2 * Zpos q) = prec + 1).
    { apply digits2_pos_unique. replace (prec + 1 - 1) with prec by lia.
      rewrite Z.pow_add_r by lia. cbn [Z.mul] in *. lia. }
    rewrite Hd. unfold fexp. replace (Z.max (prec + 1 + e - prec) (emin prec emax) - e) with 1 by lia.
    split; [reflexivity|]. split; [apply digits2_pos_unique; lia|].
    split; [lia|].
    rewrite inject_Z_mult. change (e + 1) with (Z.succ e). rewrite pow2_succ.
    change (inject_Z 2) with 2%Q. ring.
  - destruct m as [|p|p]; try lia. exists p, e. unfold shr_fexp.
    assert (Hd : Zdigits2 (Zpos p) = prec) by (apply digits2_pos_unique; lia).
    rewrite Hd. unfold fexp. replace (Z.max (prec + e - prec) (emin prec emax) - e) with 0 by lia.
    split; [reflexivity|]. split; [exact Hd|]. split; [lia | reflexivity].
Qed.

(** The first shift of [binary_round_aux]: a mantissa of at least [prec]
    digits is cut to [prec] digits, and the location follows. *)
Lemma shr_fexp_located m e l u :
  inbetween (Zpos m) l u ->
  let d := Zpos (digits2_pos m) in
  prec <= d -> emin prec emax <= d + e - prec ->
  exists r,
    shr_fexp prec emax (Zpos m) e l = (r, d + e - prec) /\
    located r (u * pow2 (prec - d)) /\
    2 ^ (prec - 1) <= shr_m r < 2 ^ prec.
Proof.
  intros Hu d Hd He. unfold shr_fexp. cbn [Zdigits2]. fold d.
  rewrite fexp_normal by assumption.
  replace (d + e - prec - e) with (d - prec) by lia.
  set (r0 := shr_record_of_loc (Zpos m) l).
  set (u' := (u * pow2 (prec - d))%Q).
  assert (Hu' : (pow2 (d - prec) * u' == u)%Q).
  { unfold u'. replace (prec - d) with (- (d - prec)) by lia.
    rewrite (Qmult_comm u), Qmult_assoc, pow2_cancel. ring. }
  destruct (shr_located r0 e (d - prec) u') as (Hl & He' & Hm);
    [now destruct l as [|[]] | lia | rewrite Hu'; now apply located_of_loc |].
  destruct (shr r0 e (d - prec)) as [r e']. cbn [fst snd] in *. subst e'.
  exists r. split; [f_equal; lia|]. split; [exact Hl|].
  apply inbetween_bounds in Hl, Hu. pose proof (digits2_pos_bounds m) as Hb. fold d in Hb.
  pose proof (pow2_pos (prec - d)) as Hp.
  assert (H1 : (pow2 (prec - 1) <= u')%Q).
  { replace (prec - 1) with ((d - 1) + (prec - d)) by lia. rewrite pow2_add.
    unfold u'. apply Qmult_le_compat_r; [|lra].
    rewrite pow2_inject by lia. destruct Hb as [Hb _]. rewrite Zle_Qle in Hb. lra. }
  assert (H2 : (u' < pow2 prec)%Q).
  { replace (pow2 prec) with (pow2 (d + (prec - d))) by (f_equal; lia).
    rewrite pow2_add.
    unfold u'. apply Qmult_lt_compat_r; [lra|].
    rewrite pow2_inject by lia. destruct Hb as [_ Hb].
    assert (Hb' : Zpos m + 1 <= 2 ^ d) by lia.
    rewrite Zle_Qle, inject_Z_plus in Hb'. change (inject_Z 1) with 1%Q in Hb'. lra. }
  rewrite !pow2_inject in * by lia. split.
  - assert (H : (inject_Z (2 ^ (prec - 1)) < inject_Z (shr_m r + 1))%Q)
      by (rewrite inject_Z_plus; change (inject_Z 1) with 1%Q; lra).
    rewrite <- Zlt_Qlt in H. lia.
  - rewrite Zlt_Qlt. lra.
Qed.

(** Rounding to nearest: a positive number given by a mantissa of at
    least [prec] digits, an exponent and a location is rounded, in the
    normal range, to the nearest multiple of the step of the numbers of
    [prec] digits. *)
Theorem binary_round_aux_rounded s m e l u :
  inbetween (Zpos m) l u ->
  let d := Zpos (digits2_pos m) in
  prec <= d -> emin prec emax <= d + e - prec -> d + e < emax ->
  rounded prec (binary_round_aux prec emax s (Zpos m) e l) s (d + e - prec)
    (u * pow2 e).
Proof.
  intros Hu d Hd He Hmax.
  destruct (shr_fexp_located m e l u Hu Hd He) as (r & E1 & Hl & Hr).
  fold d in E1, Hl. set (u' := (u * pow2 (prec - d))%Q) in *.
  unfold binary_round_aux. rewrite E1.
  destruct (round_nearest_even_spec _ _ _ Hl) as [Hm2 Hnear].
  apply inbetween_bounds in Hl.
  set (m2 := round_nearest_even (shr_m r) (loc_of_shr_record r)) in *.
  destruct (renormalize m2 (d + e - prec)) as (m' & e' & E2 & Hd' & He' & Hv);
    [lia | lia |].
  rewrite E2. cbn [shr_m]. rewrite (proj2 (Z.leb_le _ _)) by lia.
  exists m', e', m2. do 4 (split; [reflexivity || assumption|]).
  set (P := pow2 (d + e - prec)).
  assert (HP : (0 < P)%Q) by apply pow2_pos.
  assert (Hx : (u * pow2 e == u' * P)%Q).
  { unfold P, u'. rewrite <- Qmult_assoc, <- pow2_add.
    now replace (prec - d + (d + e - prec)) with e by lia. }
  rewrite Hx, pow2_add, (pow2_half (d + e - prec)). fold P.
  destruct Hr as [Hr _]. rewrite Zle_Qle, <- pow2_inject in Hr by lia. split.
  - apply Qmult_le_compat_r; lra.
  - apply Qabs_Qle_condition. split.
    + setoid_replace (inject_Z m2 * P - u' * P)%Q with ((inject_Z m2 - u') * P)%Q by ring.
      setoid_replace (- (P * (1 # 2)))%Q with ((- (1 # 2)) * P)%Q by ring.
      apply Qmult_le_compat_r; lra.
    + setoid_replace (inject_Z m2 * P - u' * P)%Q with ((inject_Z m2 - u') * P)%Q by ring.
      rewrite (Qmult_comm P). apply Qmult_le_compat_r; lra.
Qed.

(** The quotient of two mantissas, located, with at least [prec]
    digits. *)
Lemma SFdiv_core_located m1 e1 m2 e2 :
  let d1 := Zpos (digits2_pos m1) in
  let d2 := Zpos (digits2_pos m2) in
  let M := d1 + e1 - (d2 + e2) in
  emin prec emax <= M - prec ->
  exists q e' l u,
    SFdiv_core_binary prec emax (Zpos m1) e1 (Zpos m2) e2 = (Zpos q, e', l) /\
    inbetween (Zpos q) l u /\
    (u * pow2 e' ==
     inject_Z (Zpos m1) * pow2 e1 / (inject_Z (Zpos m2) * pow2 e2))%Q /\
    prec <= Zpos (digits2_pos q) /\
    M <= Zpos (digits2_pos q) + e' <= M + 1.
Proof.
  intros d1 d2 M He. unfold SFdiv_core_binary. cbn [Zdigits2]. fold d1 d2.
  fold M. rewrite fexp_normal by assumption.
  set (e' := Z.min (M - prec) (e1 - e2)). set (s := e1 - e2 - e').
  assert (Hs : 0 <= s /\ prec + d2 - d1 <= s) by (unfold s, e', M; lia).
  assert (Hd1 : 0 < d1) by (unfold d1; lia).
  assert (Hd2 : 0 < d2) by (unfold d2; lia).
  set (m' := match s with Zpos _ => Z.shiftl (Zpos m1) s | 0 => Zpos m1 | Zneg _ => 0 end).
  assert (Hm' : m' = Zpos m1 * 2 ^ s).
  { unfold m'. destruct s as [|p|p] eqn:Es; [lia | | lia].
    now rewrite Z.shiftl_mul_pow2. }
  pose proof (div_eucl_located m' (Zpos m2) ltac:(lia)) as Hloc.
  pose proof (Z_div_mod m' (Zpos m2) ltac:(lia)) as Hdiv.
  destruct (Z.div_eucl m' (Zpos m2)) as [q r]. cbn [fst snd] in Hloc.
  destruct Hdiv as [Hq Hr].
  pose proof (digits2_pos_bounds m1) as B1. pose proof (digits2_pos_bounds m2) as B2.
  fold d1 in B1. fold d2 in B2. set (K := d1 + s - d2).
  assert (Hlow : 2 ^ (K - 1) <= q).
  { assert (E : 2 ^ (d1 - 1) * 2 ^ s = 2 ^ (K - 1) * 2 ^ d2).
    { rewrite <- !Z.pow_add_r by (unfold K; lia). f_equal. unfold K. lia. }
    assert (0 < 2 ^ (K - 1)) by (apply Z.pow_pos_nonneg; unfold K; lia).
    assert (0 < 2 ^ s) by (apply Z.pow_pos_nonneg; lia). nia. }
  assert (Hupp : q < 2 ^ (K + 1)).
  { assert (E : 2 ^ d1 * 2 ^ s = 2 ^ (K + 1) * 2 ^ (d2 - 1)).
    { rewrite <- !Z.pow_add_r by (unfold K; lia). f_equal. unfold K. lia. }
    assert (0 < 2 ^ (K + 1)) by (apply Z.pow_pos_nonneg; unfold K; lia).
    assert (0 < 2 ^ s) by (apply Z.pow_pos_nonneg; lia). nia. }
  assert (0 < 2 ^ (K - 1)) by (apply Z.pow_pos_nonneg; unfold K; lia).
  destruct q as [|q|q]; try lia.
  apply digits2_pos_lower in Hlow. apply digits2_pos_upper in Hupp.
  exists q, e', (new_location (Zpos m2) r), (inject_Z m' / inject_Z (Zpos m2))%Q.
  split; [reflexivity|]. split; [exact Hloc|]. split; [|unfold K, s in *; lia].
  assert (E : (pow2 e1 == pow2 s * pow2 e' * pow2 e2)%Q).
  { rewrite <- !pow2_add. now replace (s + e' + e2) with e1 by (unfold s; lia). }
  rewrite E, Hm', inject_Z_mult, <- pow2_inject by lia.
  pose proof (pow2_pos e2). field. split; [lra|]. discriminate.
Qed.

(** Division: the quotient of two finite numbers is, in the normal
    range, the quotient of their magnitudes rounded to the nearest
    number of [prec] digits. *)
Theorem SFdiv_rounded sx mx ex sy my ey :
  let M := Zpos (digits2_pos mx) + ex - (Zpos (digits2_pos my) + ey) in
  emin prec emax <= M - prec -> M + 1 < emax ->
  exists e0,
    M - prec <= e0 <= M + 1 - prec /\
    rounded prec (SFdiv prec emax (S754_finite sx mx ex) (S754_finite sy my ey))
      (xorb sx sy) e0
      (inject_Z (Zpos mx) * pow2 ex / (inject_Z (Zpos my) * pow2 ey)).
Proof.
  intros M He Hmax.
  destruct (SFdiv_core_located mx ex my ey He)
    as (q & e' & l & u & E & Hu & Hx & Hq & HM).
  fold M in HM. cbn [SFdiv]. rewrite E.
  exists (Zpos (digits2_pos q) + e' - prec). split; [lia|].
  rewrite <- Hx. apply binary_round_aux_rounded; assumption || lia.
Qed.

(** What is representable is not rounded. *)
Lemma binary_round_aux_exact s m e :
  Zpos (digits2_pos m) = prec -> emin prec emax <= e -> e <= emax - prec ->
  binary_round_aux prec emax s (Zpos m) e loc_Exact = S754_finite s m e.
Proof.
  intros Hd He Hmax.
  assert (E : shr_fexp prec emax (Zpos m) e loc_Exact =
              (Build_shr_record (Zpos m) false false, e)).
  { unfold shr_fexp. cbn [Zdigits2]. rewrite Hd. unfold fexp.
    now replace (Z.max (prec + e - prec) (emin prec emax) - e) with 0 by lia. }
  unfold binary_round_aux. rewrite E. cbn [shr_m loc_of_shr_record round_nearest_even].
  rewrite E. cbn [shr_m]. now rewrite (proj2 (Z.leb_le _ _)) by lia.
Qed.

(** An integer of no more than [prec] digits is converted exactly. *)
Lemma binary_normalize_exact v :
  let d := Zpos (digits2_pos v) in
  d <= prec -> emin prec emax <= d - prec -> d <= emax ->
  exists m,
    binary_normalize prec emax (Zpos v) 0 false = S754_finite false m (d - prec) /\
    Zpos (digits2_pos m) = prec /\
    (inject_Z (Zpos m) * pow2 (d - prec) == inject_Z (Zpos v))%Q.
Proof.
  intros d Hd He Hmax. cbn [binary_normalize]. unfold binary_round, shl_align.
  rewrite Z.add_0_r. fold d. rewrite fexp_normal, Z.sub_0_r by assumption.
  pose proof (digits2_pos_bounds v) as Hb. fold d in Hb.
  destruct (d - prec) as [|k|k] eqn:Ek; [| lia |].
  - exists v. rewrite binary_round_aux_exact by (unfold d in *; lia).
    split; [reflexivity|]. split; [unfold d in *; lia|].
    change (pow2 0) with 1%Q. ring.
  - change (Pos.iter xO v k) with (shift_pos k v).
    assert (Hv : Zpos (shift_pos k v) = 2 ^ Zpos k * Zpos v).
    { rewrite shift_pos_correct. now rewrite Z.pow_pos_fold. }
    assert (Hdig : Zpos (digits2_pos (shift_pos k v)) = prec).
    { apply digits2_pos_unique. rewrite Hv.
      replace (2 ^ (prec - 1)) with (2 ^ (Zpos k + (d - 1))) by (f_equal; lia).
      replace (2 ^ prec) with (2 ^ (Zpos k + d)) by (f_equal; lia).
      rewrite !Z.pow_add_r by (unfold d; lia).
      assert (0 < 2 ^ Zpos k) by (apply Z.pow_pos_nonneg; lia). nia. }
    exists (shift_pos k v). rewrite binary_round_aux_exact by (assumption || lia).
    split; [reflexivity|]. split; [exact Hdig|].
    rewrite Hv, inject_Z_mult, <- pow2_inject by lia.
    change (Zneg k) with (- Zpos k).
    rewrite (Qmult_comm (pow2 _)), <- Qmult_assoc, pow2_cancel. ring.
Qed.

(** A mantissa of at least [prec] digits is rounded to the nearest
    number of [prec] digits. *)
Theorem binary_round_rounded s m e :
  let d := Zpos (digits2_pos m) in
  prec <= d -> emin prec emax <= d + e - prec -> d + e < emax ->
  rounded prec (binary_round prec emax s m e) s (d + e - prec)
    (inject_Z (Zpos m) * pow2 e).
Proof.
  intros d Hd He Hmax. unfold binary_round, shl_align. fold d.
  rewrite fexp_normal by assumption.
  destruct (d + e - prec - e) as [|k|k] eqn:Ek; [| |lia];
    now apply binary_round_aux_rounded.
Qed.

(** A number of the format has no more than [prec] digits. *)
Lemma bounded_digits m e :
  bounded prec emax m e = true -> Zpos m < 2 ^ prec.
Proof.
  unfold bounded, canonical_mantissa, fexp.
  intros [Hc _]%andb_prop. apply Z.eqb_eq in Hc.
  pose proof (digits2_pos_bounds m) as [_ Hb].
  eapply Z.lt_le_trans; [exact Hb | apply Z.pow_le_mono_r; lia].
Qed.

(** What a rounding gives is a number of the format. *)
Lemma rounded_valid z s e0 x :
  rounded prec z s e0 x -> emin prec emax <= e0 -> e0 + 1 <= emax - prec ->
  valid_binary prec emax z = true.
Proof.
  intros (m & e & k & -> & Hd & He & _) Hmin Hmax.
  unfold valid_binary, bounded, canonical_mantissa. rewrite Hd.
  unfold fexp. apply andb_true_intro.
  split; [apply Z.eqb_eq | apply Z.leb_le]; lia.
Qed.

(** A number of the format is a step of the grid of exponent [e0], or
    is below the numbers of [prec] digits of that grid. *)
Lemma valid_on_grid f e0 :
  valid_binary prec emax f = true ->
  (exists K, value f == inject_Z K * pow2 e0)%Q \/
  (value f < inject_Z (2 ^ (prec - 1)) * pow2 e0)%Q.
Proof.
  destruct f as [| | |s m e]; try (intros _; left; exists 0; cbn; ring).
  cbn [valid_binary value]. intros Hb%bounded_digits.
  destruct (Z.le_gt_cases e0 e) as [He|He]; [left|right].
  - exists (cond_Zopp s (Zpos m) * 2 ^ (e - e0)).
    rewrite inject_Z_mult, <- pow2_inject, <- Qmult_assoc, <- pow2_add by lia.
    now replace (e - e0 + e0) with e by lia.
  - apply Qle_lt_trans with (inject_Z (Zpos m) * pow2 e)%Q.
    { apply Qmult_le_compat_r; [|apply Qlt_le_weak, pow2_pos].
      rewrite <- Zle_Qle. destruct s; cbn; lia. }
    rewrite <- pow2_inject by lia.
    apply Qlt_le_trans with (pow2 prec * pow2 e)%Q.
    { apply Qmult_lt_compat_r; [apply pow2_pos|].
      rewrite pow2_inject, <- Zlt_Qlt by lia. exact Hb. }
    rewrite <- !pow2_add. apply pow2_le. lia.
Qed.

(** Rounding to nearest: no number of the format is nearer to [x] than
    the rounding of [x]. *)
Theorem rounded_nearest z e0 x f :
  rounded prec z false e0 x -> valid_binary prec emax f = true ->
  (Qabs (value z - x) <= Qabs (value f - x))%Q.
Proof.
  intros Hz Hf. destruct (rounded_value _ _ _ _ Hz) as (k & -> & Hx & Herr).
  rewrite pow2_half in Herr. pose proof (pow2_pos e0) as HP.
  destruct (valid_on_grid f e0 Hf) as [[K ->]|Hlt];
    [now apply nearest_multiple|].
  eapply Qle_trans; [apply (nearest_multiple k (2 ^ (prec - 1))); assumption|].
  rewrite pow2_add, pow2_inject in Hx by lia.
  rewrite !Qabs_neg by lra. lra.
Qed.

End Format.
