(* ===== verification/CString.v ===== *)
(** * C strings: [strstr], [atoi], pointer steps and [snprintf]

    A [char *] that points into a NUL-terminated string is the list of the
    bytes from the pointer to the terminator (excluded): [strstr] returns
    such a list or [None] for the null pointer, [advance p n] is [p += n]
    and faults when the pointer would pass the terminator, [cut_at_eol] is
    the idiom [eol = strstr(p, "\n"); if (eol) *eol = '\0';], [atoi] is the
    C library's conversion (white space, sign, digits) and faults where
    the C standard leaves the result undefined, and [snprintf dst maxsz s]
    is [snprintf(dst, maxsz, "%s", s)].  The lemmas on [strstr] say that
    it returns the first occurrence, and where a needle that ends in a
    given byte can occur in a haystack that has this byte in known
    places only. *)

From Stdlib Require Import ZArith Lia List Bool Strings.Byte Strings.String.
From coqutil Require Import Byte.
From stdpp Require Import base list sets.
From S2P Require Import Prelude CTypes.

Local Open Scope Z_scope.

(** ** Definitions *)

Definition TAB : byte := Byte.x09.
Definition LF : byte := Byte.x0a.

(** [strstr(haystack, needle)]: the first position of [haystack] at which
    [needle] starts, or the null pointer. *)
Fixpoint strstr (haystack needle : list byte) : option (list byte) :=
  if decide (needle `prefix_of` haystack) then Some haystack
  else match haystack with
       | [] => None
       | _ :: rest => strstr rest needle
       end.

(** [p += n] on a pointer into a string, followed by a read of the string
    at [p]: the pointer may reach the terminator, not pass it. *)
Definition advance (p : list byte) (n : nat) : outcome (list byte) :=
  if decide (n <= length p)%nat then Ok (drop n p) else Fault OutOfBoundsRead.

(** [eol = strstr(p, "\n"); if (eol) *eol = '\0';] as seen through [p]. *)
Definition cut_at_eol (p : list byte) : list byte :=
  match strstr p [LF] with
  | Some eol => take (length p - length eol) p
  | None => p
  end.

Definition isspace (b : byte) : bool :=
  bool_decide (b ∈ [Byte.x20; Byte.x09; Byte.x0a; Byte.x0b; Byte.x0c; Byte.x0d]).

Definition digit_val (b : byte) : option Z :=
  let n := Z.of_N (Byte.to_N b) in
  if (48 <=? n) && (n <=? 57) then Some (n - 48) else None.

Definition isdigit (b : byte) : bool :=
  match digit_val b with Some _ => true | None => false end.

Fixpoint skip_spaces (p : list byte) : list byte :=
  match p with
  | b :: rest => if isspace b then skip_spaces rest else p
  | [] => []
  end.

(** The value of the longest prefix of decimal digits, on top of [acc]. *)
Fixpoint digits_value (p : list byte) (acc : Z) : Z :=
  match p with
  | b :: rest =>
      match digit_val b with
      | Some d => digits_value rest (acc * 10 + d)
      | None => acc
      end
  | [] => acc
  end.

(** The mathematical value [atoi] denotes, before it is stored in an
    [int]. *)
Definition atoi_value (p : list byte) : Z :=
  match skip_spaces p with
  | b :: rest =>
      if decide (b = Byte.x2d) then - digits_value rest 0
      else if decide (b = Byte.x2b) then digits_value rest 0
      else digits_value (b :: rest) 0
  | [] => 0
  end.

(** [atoi(p)]: undefined when the value does not fit an [int]. *)
Definition atoi (p : list byte) : outcome Z :=
  let v := atoi_value p in
  if decide (is_int32 v) then Ok v else Fault IntOverflow.

(** [snprintf(dst, maxsz, "%s", s)]: at most [maxsz - 1] bytes of [s] and
    a terminator; nothing at all when [maxsz] is 0. *)
Definition snprintf (dst : list byte) (maxsz : nat) (s : list byte)
  : outcome (list byte) :=
  match maxsz with
  | O => Ok dst
  | S m => memcpy dst 0 (take m s ++ [NUL])
  end.

(** [snprintf(dst, maxsz, "%s", s)] where [s] may be the null pointer. *)
Definition snprintf_ptr (dst : list byte) (maxsz : nat)
    (s : option (list byte)) : outcome (list byte) :=
  match s with
  | Some s => snprintf dst maxsz s
  | None => Fault NullPointer
  end.

(** ** [strstr] *)

Lemma strstr_here h n : n `prefix_of` h -> strstr h n = Some h.
Proof. intros H. destruct h; cbn; now rewrite decide_True. Qed.

Lemma strstr_skip b h n :
  ~ n `prefix_of` (b :: h) -> strstr (b :: h) n = strstr h n.
Proof. intros H. cbn. now rewrite decide_False. Qed.

(** What [strstr] returns is a position of the haystack where the needle
    starts, and the first such. *)
Lemma strstr_Some h n p :
  strstr h n = Some p <->
  exists pre, h = pre ++ p /\ n `prefix_of` p /\
    forall i, (i < length pre)%nat -> ~ n `prefix_of` drop i h.
Proof.
  revert p. induction h as [|b h IH]; intros p.
  - cbn. case_decide as Hp.
    + split.
      * intros [= <-]. exists []. repeat split; [assumption | cbn; lia].
      * intros ([|? ?] & E & _); [cbn in E; now subst | discriminate].
    + split; [discriminate|].
      intros ([|? ?] & E & Hq & _); [cbn in E; now subst | discriminate].
  - destruct (decide (n `prefix_of` (b :: h))) as [Hp|Hp].
    + rewrite strstr_here by assumption. split.
      * intros [= <-]. exists []. repeat split; [assumption | cbn; lia].
      * intros ([|c pre] & E & _ & Hfirst); [cbn in E; now subst|].
        exfalso. apply (Hfirst 0%nat); [cbn; lia | exact Hp].
    + rewrite strstr_skip, IH by assumption. split.
      * intros (pre & -> & Hq & Hfirst). exists (b :: pre).
        repeat split; [assumption|].
        intros [|i] Hi; [exact Hp | apply Hfirst; cbn in Hi; lia].
      * intros ([|c pre] & E & Hq & Hfirst).
        { cbn in E. subst p. contradiction. }
        injection E as <- ->. exists pre. repeat split; [assumption|].
        intros i Hi. apply (Hfirst (S i)). cbn. lia.
Qed.

Lemma strstr_None h n :
  strstr h n = None <-> forall i, ~ n `prefix_of` drop i h.
Proof.
  induction h as [|b h IH].
  - cbn. case_decide as Hp; split; try discriminate.
    + intros H. now destruct (H 0%nat).
    + intros _ i. now rewrite drop_nil.
    + reflexivity.
  - destruct (decide (n `prefix_of` (b :: h))) as [Hp|Hp].
    + rewrite strstr_here by assumption. split; [discriminate|].
      intros H. now destruct (H 0%nat).
    + rewrite strstr_skip, IH by assumption. split.
      * intros H [|i]; [exact Hp | apply H].
      * intros H i. apply (H (S i)).
Qed.

Lemma strstr_prefix h n p : strstr h n = Some p -> n `prefix_of` p.
Proof. intros (_ & _ & H & _)%strstr_Some. exact H. Qed.

Lemma strstr_suffix h n p : strstr h n = Some p -> p `suffix_of` h.
Proof. intros (pre & -> & _)%strstr_Some. now exists pre. Qed.

(** Searching again from the position found finds the same position: the
    second [strstr(p, ":")] of the scrapers cannot return null. *)
Lemma strstr_idemp h n p : strstr h n = Some p -> strstr p n = Some p.
Proof. intros H. apply strstr_here. eapply strstr_prefix, H. Qed.

Lemma strstr_length h n p : strstr h n = Some p -> (length p <= length h)%nat.
Proof. intros (pre & -> & _)%strstr_Some. rewrite length_app. lia. Qed.

Lemma strstr_app_here pre n rest :
  (forall i, (i < length pre)%nat -> ~ n `prefix_of` drop i (pre ++ n ++ rest)) ->
  strstr (pre ++ n ++ rest) n = Some (n ++ rest).
Proof.
  intros H. apply strstr_Some. exists pre.
  repeat split; [now exists rest | exact H].
Qed.

(** A one-character needle is found behind a prefix that does not hold
    it. *)
Lemma strstr_char pre c rest :
  c ∉ pre -> strstr (pre ++ c :: rest) [c] = Some (c :: rest).
Proof.
  induction pre as [|b pre IH]; intros H.
  - apply strstr_here. now exists rest.
  - apply not_elem_of_cons in H as [Hb Hin]. cbn [app].
    rewrite strstr_skip; [now apply IH|].
    intros [k Hk]. injection Hk as -> _. contradiction.
Qed.

(** *** Needles that end in a byte the haystack has in known places *)

(** A needle that ends in [t] lies on a segment free of [t] only when it
    fills it, and the byte behind the segment is [t]. *)
Lemma prefix_sentinel (K : list byte) t seg d rest :
  t ∉ seg -> d ∉ K -> (K ++ [t]) `prefix_of` seg ++ d :: rest ->
  d = t /\ K = seg.
Proof.
  revert seg. induction K as [|a K IH]; intros [|b seg] Ht Hd Hp; cbn in Hp.
  - now apply prefix_cons_inv_1 in Hp.
  - apply prefix_cons_inv_1 in Hp as <-. now apply not_elem_of_cons in Ht.
  - apply prefix_cons_inv_1 in Hp as ->. now apply not_elem_of_cons in Hd.
  - pose proof (prefix_cons_inv_1 _ _ _ _ Hp) as ->.
    apply not_elem_of_cons in Ht as [_ Ht], Hd as [_ Hd].
    now apply prefix_cons_inv_2, IH in Hp as [-> ->].
Qed.

(** A needle is not found on a segment that does not hold its first
    byte. *)
Lemma strstr_skip_head a n seg rest :
  a ∉ seg -> strstr (seg ++ rest) (a :: n) = strstr rest (a :: n).
Proof.
  induction seg as [|b seg IH]; intros H; [reflexivity|]. cbn [app].
  rewrite strstr_skip; [apply IH; set_solver|].
  intros ->%prefix_cons_inv_1. set_solver.
Qed.

(** Nor on a segment that has none of the bytes before its last. *)
Lemma strstr_skip_first (K : list byte) t seg rest :
  K <> [] -> (forall b, b ∈ seg -> b ∉ K) ->
  strstr (seg ++ rest) (K ++ [t]) = strstr rest (K ++ [t]).
Proof.
  destruct K as [|a K]; [contradiction|]. intros _ H.
  apply strstr_skip_head. intros Ha. apply (H a Ha). set_solver.
Qed.

(** Behind a segment free of [t] that another byte ends, the search goes
    on. *)
Lemma strstr_skip_sentinel K t seg d rest :
  t ∉ seg -> d ∉ K -> d <> t ->
  strstr (seg ++ d :: rest) (K ++ [t]) = strstr rest (K ++ [t]).
Proof.
  intros Ht Hd Hdt. induction seg as [|b seg IH]; cbn [app];
    (rewrite strstr_skip; [| intros Hp]).
  - reflexivity.
  - now apply (prefix_sentinel _ _ []) in Hp as [? _]; [| set_solver..].
  - apply IH. set_solver.
  - now apply (prefix_sentinel _ _ (b :: seg)) in Hp as [? _].
Qed.

(** On a segment free of [t] that [t] ends, the needle is found when the
    segment ends with it. *)
Lemma strstr_sentinel K t seg rest :
  K <> [] -> t ∉ K -> t ∉ seg ->
  strstr (seg ++ t :: rest) (K ++ [t]) =
  if decide (K `suffix_of` seg) then Some (K ++ t :: rest)
  else strstr rest (K ++ [t]).
Proof.
  intros HK HtK Ht. induction seg as [|b seg IH]; cbn [app].
  - rewrite decide_False by (intros ->%suffix_nil_inv; contradiction).
    rewrite strstr_skip; [reflexivity|].
    intros Hp. now apply (prefix_sentinel _ _ []) in Hp as [_ ?]; [| set_solver..].
  - destruct (decide (K = b :: seg)) as [->|Hne].
    + rewrite decide_True by reflexivity. apply strstr_here.
      exists rest. now rewrite <- app_assoc.
    + rewrite strstr_skip.
      * rewrite IH by set_solver. apply decide_ext.
        split; [apply suffix_cons_r|]. destruct K; [contradiction|].
        now intros [Hs | ?]%suffix_cons_inv.
      * intros Hp. now apply (prefix_sentinel _ _ (b :: seg)) in Hp as [_ ?].
Qed.

(** ** [advance] and [cut_at_eol] *)

Lemma advance_ok p n : (n <= length p)%nat -> advance p n = Ok (drop n p).
Proof. intros H. unfold advance. now rewrite decide_True. Qed.

Lemma advance_fault p n :
  (length p < n)%nat -> advance p n = Fault OutOfBoundsRead.
Proof. intros H. unfold advance. rewrite decide_False; [reflexivity | lia]. Qed.

Lemma cut_at_eol_app line rest :
  LF ∉ line -> cut_at_eol (line ++ LF :: rest) = line.
Proof.
  intros Hnl. unfold cut_at_eol.
  change (line ++ LF :: rest) with (line ++ [LF] ++ rest).
  rewrite (strstr_app_here line [LF] rest).
  - rewrite length_app. cbn [length app].
    replace (length line + S (length rest) - S (length rest))%nat
      with (length line) by lia.
    now rewrite take_app_length.
  - intros i Hi [k Hk]. apply Hnl.
    rewrite drop_app_le in Hk by lia.
    destruct (drop i line) as [|c l] eqn:E.
    + apply (f_equal length) in E. rewrite length_drop in E. cbn in E. lia.
    + injection Hk as -> _. rewrite <- (take_drop i line), E.
      apply elem_of_app. right. left.
Qed.

Lemma cut_at_eol_no_eol p : LF ∉ p -> cut_at_eol p = p.
Proof.
  intros Hnl. unfold cut_at_eol.
  destruct (strstr p [LF]) as [eol|] eqn:E; [|reflexivity].
  exfalso. apply Hnl. apply strstr_Some in E as (pre & -> & [k ->] & _).
  apply elem_of_app. right. left.
Qed.

Lemma cut_at_eol_no_LF p : LF ∉ cut_at_eol p.
Proof.
  unfold cut_at_eol. destruct (strstr p [LF]) as [eol|] eqn:E.
  - apply strstr_Some in E as (pre & -> & Hp & Hfirst).
    rewrite length_app, Nat.add_sub, take_app_length.
    intros (i & Hi)%list_elem_of_lookup.
    apply (Hfirst i); [eapply lookup_lt_Some, Hi|].
    rewrite drop_app_le by (apply Nat.lt_le_incl; eapply lookup_lt_Some, Hi).
    rewrite (drop_S _ _ _ Hi). now exists (drop (S i) pre ++ eol).
  - intros (i & Hi)%list_elem_of_lookup.
    apply (proj1 (strstr_None _ _) E i).
    rewrite (drop_S _ _ _ Hi). now exists (drop (S i) p).
Qed.

Lemma cut_at_eol_prefix p : cut_at_eol p `prefix_of` p.
Proof.
  unfold cut_at_eol. destruct (strstr p [LF]); [|reflexivity].
  apply prefix_take.
Qed.

(** ** [atoi] *)

Lemma digit_val_range b d : digit_val b = Some d -> 0 <= d <= 9.
Proof.
  unfold digit_val. destruct (_ && _) eqn:E; [|discriminate].
  intros [= <-]. lia.
Qed.

Lemma digits_value_mono p : forall acc, 0 <= acc -> acc <= digits_value p acc.
Proof.
  induction p as [|b p IH]; intros acc Hacc; cbn; [lia|].
  destruct (digit_val b) as [d|] eqn:E; [|lia].
  apply digit_val_range in E. specialize (IH (acc * 10 + d)). lia.
Qed.

Lemma digits_value_stop b rest acc :
  digit_val b = None -> digits_value (b :: rest) acc = acc.
Proof. intros H. cbn. now rewrite H. Qed.

Lemma atoi_ok p : is_int32 (atoi_value p) -> atoi p = Ok (atoi_value p).
Proof. intros H. unfold atoi. now rewrite decide_True. Qed.

Lemma atoi_inv p v : atoi p = Ok v -> v = atoi_value p /\ is_int32 v.
Proof. unfold atoi. case_decide; [intros [= <-]; auto | discriminate]. Qed.

(** A text that does not start with a number (after white space and a
    sign) converts to 0. *)
Lemma atoi_no_digit b rest :
  isspace b = false -> b <> Byte.x2d -> b <> Byte.x2b -> digit_val b = None ->
  atoi (b :: rest) = Ok 0.
Proof.
  intros Hs Hm Hp Hd. unfold atoi, atoi_value. cbn [skip_spaces].
  rewrite Hs. do 2 (destruct (decide (b = _)); [contradiction|]).
  cbn [digits_value]. now rewrite Hd.
Qed.

(** ** [snprintf] *)

Lemma snprintf_zero dst s : snprintf dst 0 s = Ok dst.
Proof. reflexivity. Qed.

Lemma snprintf_ok dst maxsz s :
  (0 < maxsz <= length dst)%nat ->
  snprintf dst maxsz s =
  Ok (take (maxsz - 1) s ++ NUL :: drop (S (Nat.min (maxsz - 1) (length s))) dst).
Proof.
  intros H. destruct maxsz as [|m]; [lia|]. cbn [snprintf].
  replace (S m - 1)%nat with m by lia.
  rewrite memcpy_ok by (rewrite length_app, length_take; cbn; lia).
  rewrite length_app, length_take, <- app_assoc. cbn.
  now replace (m `min` length s + 1)%nat with (S (m `min` length s)) by lia.
Qed.

Lemma snprintf_length dst maxsz s d :
  snprintf dst maxsz s = Ok d -> length d = length dst.
Proof.
  destruct maxsz; cbn; [now intros [= <-] | apply memcpy_length].
Qed.

(** What a reader sees after [snprintf]: the text, cut to [maxsz - 1]
    bytes. *)
Lemma snprintf_cstring dst maxsz s d :
  nul_free s -> (0 < maxsz)%nat -> snprintf dst maxsz s = Ok d ->
  cstring d = Ok (take (maxsz - 1) s).
Proof.
  intros Hs Hm H. destruct maxsz as [|m]; [lia|]. cbn [snprintf] in H.
  apply memcpy_inv in H as [_ ->]. cbn [take app].
  replace (S m - 1)%nat with m by lia. rewrite <- app_assoc.
  apply cstring_app_nul. unfold nul_free in *. now apply Forall_take.
Qed.

(** Whatever the text, the buffer is terminated inside [maxsz] bytes. *)
Lemma snprintf_terminated dst maxsz s d :
  (0 < maxsz)%nat -> snprintf dst maxsz s = Ok d -> terminated maxsz d.
Proof.
  intros Hm H. destruct maxsz as [|m]; [lia|]. cbn [snprintf] in H.
  apply memcpy_inv in H as [_ ->]. cbn [take app]. rewrite <- app_assoc.
  destruct (cstring_terminated (take m s)
              (drop (0 + length (take m s ++ [NUL])) dst)) as (t & Ht & Hl).
  exists t. split; [exact Ht|]. rewrite length_take in Hl. lia.
Qed.

(** A buffer at least as large as [maxsz] is never overrun. *)
Lemma snprintf_safe dst maxsz s :
  (maxsz <= length dst)%nat -> is_ok (snprintf dst maxsz s) = true.
Proof.
  intros H. destruct maxsz as [|m]; [reflexivity|].
  cbn [snprintf]. rewrite memcpy_ok; [reflexivity|].
  rewrite length_app, length_take. cbn. lia.
Qed.
