(* ===== verification/Printf.v ===== *)
(** * The conversions [%x], [%02x] and [%d] of the [printf] family

    [fmt_x n] is the text [%x] renders for an [unsigned int] argument:
    lower-case hexadecimal digits, most significant first, no prefix, no
    leading zeros, a single [0] for zero; [fmt_02x] pads it with zeros to
    two characters; [fmt_d] is the signed decimal rendering of an [int].
    Digits are produced by one loop for both radixes, on a fuel of 8
    (hexadecimal) or 10 (decimal), the number of digits a 32-bit value can
    have; [digits_fuel] shows the fuel is never exhausted.  [hex_value]
    reads a hexadecimal text back, [CString.atoi] a decimal one;
    [fmt_x_fmt_d] says when [%x] and [%d] print a number alike. *)

From Stdlib Require Import ZArith Lia List Bool Strings.String.
From coqutil Require Import Byte.
From stdpp Require Import base list.
From S2P Require Import Prelude CTypes CString.

Local Open Scope Z_scope.

(** ** Definitions *)

Definition digit_table : list byte := bytes "0123456789abcdef".

Definition digit_char (d : Z) : byte := nth (Z.to_nat d) digit_table Byte.x30.

(** The digits of [n] in radix [base], least significant produced first
    and pushed in front of [acc]. *)
Fixpoint digits (base : Z) (fuel : nat) (n : Z) (acc : list byte) : list byte :=
  match fuel with
  | O => acc
  | S fuel' =>
      let acc' := digit_char (n mod base) :: acc in
      if n / base =? 0 then acc' else digits base fuel' (n / base) acc'
  end.

(** [%x] on a 32-bit unsigned value. *)
Definition fmt_x (n : Z) : list byte := digits 16 8 (to_uint32 n) [].

(** A minimum field width with the [0] flag. *)
Definition pad_zero (width : nat) (l : list byte) : list byte :=
  replicate (width - length l) Byte.x30 ++ l.

(** [%02x]. *)
Definition fmt_02x (n : Z) : list byte := pad_zero 2 (fmt_x n).

(** [%d] on a 32-bit signed value. *)
Definition fmt_d (n : Z) : list byte :=
  let v := to_int32 n in
  if v <? 0 then Byte.x2d :: digits 10 10 (- v) [] else digits 10 10 v [].

(** The value of a digit character (0 for any other byte). *)
Definition char_val (b : byte) : Z :=
  match list_find (fun c => c = b) digit_table with
  | Some (i, _) => Z.of_nat i
  | None => 0
  end.

Definition radix_value (base : Z) (l : list byte) : Z :=
  fold_left (fun a b => a * base + char_val b) l 0.

Definition hex_value : list byte -> Z := radix_value 16.

(** The digit characters of a radix. *)
Definition is_digit (base : Z) (b : byte) : Prop :=
  In b (firstn (Z.to_nat base) digit_table).

(** A text that ends a number in front of it: it does not start with a
    decimal digit. *)
Definition stops_number (rest : list byte) : Prop :=
  match rest with b :: _ => digit_val b = None | [] => True end.

(** ** Digit characters *)

Lemma digit_cases d :
  0 <= d < 16 ->
  d = 0 \/ d = 1 \/ d = 2 \/ d = 3 \/ d = 4 \/ d = 5 \/ d = 6 \/ d = 7 \/
  d = 8 \/ d = 9 \/ d = 10 \/ d = 11 \/ d = 12 \/ d = 13 \/ d = 14 \/ d = 15.
Proof. lia. Qed.

Lemma char_val_digit d : 0 <= d < 16 -> char_val (digit_char d) = d.
Proof.
  intros H. apply digit_cases in H.
  repeat (destruct H as [->|H]; [reflexivity|]). now subst.
Qed.

Lemma is_digit_16 b : is_digit 16 b <-> In b digit_table.
Proof. reflexivity. Qed.

Lemma digit_char_is_hex d : 0 <= d < 16 -> is_digit 16 (digit_char d).
Proof.
  intros H. apply digit_cases in H. apply is_digit_16.
  repeat (destruct H as [->|H]; [vm_compute; tauto|]).
  subst. vm_compute. tauto.
Qed.

Lemma digit_char_is_dec d : 0 <= d < 10 -> is_digit 10 (digit_char d).
Proof.
  intros H. assert (H' : 0 <= d < 16) by lia. apply digit_cases in H'.
  unfold is_digit.
  repeat (destruct H' as [->|H']; [try lia; vm_compute; tauto|]). lia.
Qed.

Lemma is_digit_hex base b : 2 <= base <= 16 -> is_digit base b -> is_digit 16 b.
Proof.
  intros Hb H. apply is_digit_16. unfold is_digit in H.
  rewrite <- (firstn_skipn (Z.to_nat base) digit_table).
  apply in_or_app. now left.
Qed.

Lemma is_hex_digit_not_NUL b : is_digit 16 b -> b <> NUL.
Proof.
  intros H ->. vm_compute in H.
  repeat (destruct H as [H|H]; [discriminate|]). exact H.
Qed.

(** A decimal digit character is read by [atoi] as the digit it is. *)
Lemma digit_val_dec b : is_digit 10 b -> digit_val b = Some (char_val b).
Proof.
  intros H. vm_compute in H.
  repeat (destruct H as [<-|H]; [reflexivity|]). contradiction.
Qed.

Lemma dec_digit_plain b :
  is_digit 10 b -> isspace b = false /\ b <> Byte.x2d /\ b <> Byte.x2b.
Proof.
  intros H. vm_compute in H.
  repeat (destruct H as [<-|H]; [repeat split; discriminate|]). contradiction.
Qed.

(** ** The digit loop, for any radix up to 16 *)

Section Radix.
Context (base : Z) (Hbase : 2 <= base <= 16).

Lemma radix_value_from l a :
  fold_left (fun a b => a * base + char_val b) l a =
  a * base ^ Z.of_nat (length l) + radix_value base l.
Proof.
  unfold radix_value. revert a. induction l as [|b l IH]; intros a.
  - cbn. lia.
  - cbn [fold_left length]. rewrite IH, (IH (0 * base + char_val b)).
    rewrite Nat2Z.inj_succ, Z.pow_succ_r by lia. lia.
Qed.

Lemma radix_value_cons b l :
  radix_value base (b :: l) =
  char_val b * base ^ Z.of_nat (length l) + radix_value base l.
Proof.
  unfold radix_value at 1. cbn [fold_left]. now rewrite radix_value_from.
Qed.

Lemma radix_step n : 0 <= n ->
  0 <= n mod base < 16 /\ 0 <= n / base /\ n = base * (n / base) + n mod base.
Proof.
  intros Hn. pose proof (Z.mod_pos_bound n base ltac:(lia)).
  pose proof (Z.div_mod n base ltac:(lia)).
  repeat split; try lia. apply Z.div_pos; lia.
Qed.

Lemma radix_div_bound n fuel :
  0 <= n < base ^ Z.of_nat (S fuel) -> 0 <= n / base < base ^ Z.of_nat fuel.
Proof.
  rewrite Nat2Z.inj_succ, Z.pow_succ_r by lia. intros Hn.
  split; [apply Z.div_pos; lia | apply Z.div_lt_upper_bound; lia].
Qed.

(** With enough fuel the digits denote the number. *)
Lemma digits_radix_value fuel : forall n acc,
  0 <= n < base ^ Z.of_nat fuel -> (0 < fuel)%nat ->
  radix_value base (digits base fuel n acc) =
  n * base ^ Z.of_nat (length acc) + radix_value base acc.
Proof.
  induction fuel as [|fuel IH]; intros n acc Hn Hf; [lia|].
  cbn [digits]. destruct (radix_step n ltac:(lia)) as (Hm & Hq & Hd).
  destruct (Z.eqb_spec (n / base) 0) as [H0|Hne].
  - rewrite radix_value_cons, char_val_digit by assumption. nia.
  - pose proof (radix_div_bound n fuel Hn) as Hq'.
    destruct fuel as [|fuel']; [cbn in *; lia|].
    rewrite IH by (assumption || lia).
    rewrite radix_value_cons, char_val_digit by assumption.
    cbn [length]. rewrite Nat2Z.inj_succ, Z.pow_succ_r by lia. nia.
Qed.

(** The fuel is never exhausted on a value it was chosen for: one more
    unit of fuel changes nothing. *)
Lemma digits_fuel fuel : forall n acc,
  (0 < fuel)%nat -> 0 <= n < base ^ Z.of_nat fuel ->
  digits base (S fuel) n acc = digits base fuel n acc.
Proof.
  induction fuel as [|fuel IH]; intros n acc Hf Hn; [lia|].
  cbn [digits]. destruct (Z.eqb_spec (n / base) 0) as [|Hne]; [reflexivity|].
  pose proof (radix_div_bound n fuel Hn) as Hq.
  destruct fuel as [|fuel'].
  - cbn in Hq. lia.
  - change (digits base (S (S fuel')) (n / base) (digit_char (n mod base) :: acc) =
            digits base (S fuel') (n / base) (digit_char (n mod base) :: acc)).
    apply IH; [lia | exact Hq].
Qed.

(** A value below [base ^ k] takes [k] rounds of the loop at most. *)
Lemma digits_small k d n acc :
  (0 < k)%nat -> 0 <= n < base ^ Z.of_nat k ->
  digits base (d + k) n acc = digits base k n acc.
Proof.
  intros Hk Hn. induction d as [|d IH]; [reflexivity|].
  cbn [Nat.add]. rewrite digits_fuel; [exact IH | lia |].
  split; [lia|]. eapply Z.lt_le_trans; [apply Hn|].
  apply Z.pow_le_mono_r; lia.
Qed.

Lemma digits_length fuel : forall n acc,
  (0 < fuel)%nat ->
  (length acc < length (digits base fuel n acc) <= fuel + length acc)%nat.
Proof.
  induction fuel as [|fuel IH]; intros n acc Hf; [lia|].
  cbn [digits]. destruct (n / base =? 0); [cbn; lia|].
  destruct fuel as [|fuel']; [cbn; lia|].
  specialize (IH (n / base) (digit_char (n mod base) :: acc) ltac:(lia)).
  cbn [length] in IH. lia.
Qed.

Lemma digits_are_digits fuel (P : byte -> Prop) :
  (forall d, 0 <= d < base -> P (digit_char d)) ->
  forall n acc, Forall P acc -> Forall P (digits base fuel n acc).
Proof.
  intros HP. induction fuel as [|fuel IH]; intros n acc Hacc; [assumption|].
  cbn [digits].
  assert (Forall P (digit_char (n mod base) :: acc)).
  { constructor; [|assumption]. apply HP, Z.mod_pos_bound. lia. }
  destruct (n / base =? 0); auto.
Qed.

End Radix.

(** ** [%x] and [%02x] *)

Lemma fmt_x_value n : hex_value (fmt_x n) = to_uint32 n.
Proof.
  unfold fmt_x, hex_value. rewrite digits_radix_value; [cbn; lia | lia | | lia].
  pose proof (to_uint32_range n) as H. unfold is_uint32 in H.
  change (16 ^ Z.of_nat 8) with (2 ^ 32). exact H.
Qed.

Lemma fmt_x_length n : (1 <= length (fmt_x n) <= 8)%nat.
Proof.
  unfold fmt_x. pose proof (digits_length 16 8 (to_uint32 n) [] ltac:(lia)).
  cbn [length] in *. lia.
Qed.

Lemma fmt_x_hex n : Forall (is_digit 16) (fmt_x n).
Proof.
  apply digits_are_digits; [lia | | constructor].
  intros d Hd. now apply digit_char_is_hex.
Qed.

Lemma fmt_x_nul_free n : nul_free (fmt_x n).
Proof.
  eapply Forall_impl; [apply fmt_x_hex | apply is_hex_digit_not_NUL].
Qed.

(** Different 32-bit values print differently. *)
Lemma fmt_x_inj n m : fmt_x n = fmt_x m -> to_uint32 n = to_uint32 m.
Proof. intros H. now rewrite <- !fmt_x_value, H. Qed.

Lemma pad_zero_length w l : length (pad_zero w l) = Nat.max w (length l).
Proof. unfold pad_zero. rewrite length_app, length_replicate. lia. Qed.

Lemma pad_zero_value w l : hex_value (pad_zero w l) = hex_value l.
Proof.
  unfold pad_zero, hex_value. induction (w - length l)%nat as [|k IH].
  - reflexivity.
  - cbn [replicate app]. rewrite radix_value_cons by lia.
    change (char_val Byte.x30) with 0. now rewrite IH.
Qed.

Lemma pad_zero_long w l : (w <= length l)%nat -> pad_zero w l = l.
Proof.
  intros H. unfold pad_zero. now replace (w - length l)%nat with 0%nat by lia.
Qed.

Lemma fmt_02x_value n : hex_value (fmt_02x n) = to_uint32 n.
Proof. unfold fmt_02x. now rewrite pad_zero_value, fmt_x_value. Qed.

Lemma fmt_02x_inj n m : fmt_02x n = fmt_02x m -> to_uint32 n = to_uint32 m.
Proof. intros H. now rewrite <- !fmt_02x_value, H. Qed.

Lemma fmt_02x_length n : (2 <= length (fmt_02x n) <= 8)%nat.
Proof.
  unfold fmt_02x. rewrite pad_zero_length. pose proof (fmt_x_length n). lia.
Qed.

(** A value that fits in a byte is printed by [%02x] on two characters. *)
Lemma fmt_02x_byte n : 0 <= n <= 0xff -> length (fmt_02x n) = 2%nat.
Proof.
  intros Hn. unfold fmt_02x, fmt_x. rewrite pad_zero_length.
  rewrite to_uint32_small by (unfold is_uint32; lia).
  rewrite (digits_small 16 ltac:(lia) 2 6) by (cbn; lia).
  pose proof (digits_length 16 2 n [] ltac:(lia)). cbn [length] in *. lia.
Qed.

Lemma fmt_02x_hex n : Forall (is_digit 16) (fmt_02x n).
Proof.
  apply Forall_app. split; [|apply fmt_x_hex].
  apply Forall_replicate. vm_compute. tauto.
Qed.

(** ** [%d] *)

Lemma dec_digits_dec n acc :
  Forall (is_digit 10) acc -> Forall (is_digit 10) (digits 10 10 n acc).
Proof.
  apply digits_are_digits; [lia|]. intros d Hd. now apply digit_char_is_dec.
Qed.

Lemma dec_digits_value n :
  0 <= n <= 2 ^ 31 -> radix_value 10 (digits 10 10 n []) = n.
Proof.
  intros H. rewrite digits_radix_value by (cbn; lia). cbn. lia.
Qed.

Lemma fmt_d_length n : (1 <= length (fmt_d n) <= 11)%nat.
Proof.
  unfold fmt_d.
  pose proof (digits_length 10 10 (to_int32 n) [] ltac:(lia)).
  pose proof (digits_length 10 10 (- to_int32 n) [] ltac:(lia)).
  destruct (to_int32 n <? 0); cbn [length] in *; lia.
Qed.

Lemma fmt_d_nul_free n : nul_free (fmt_d n).
Proof.
  assert (H : forall m, nul_free (digits 10 10 m [])).
  { intros m. eapply Forall_impl; [apply dec_digits_dec; constructor|].
    intros b Hb. apply is_hex_digit_not_NUL. eapply is_digit_hex, Hb. lia. }
  unfold fmt_d. destruct (to_int32 n <? 0); [|apply H].
  constructor; [discriminate | apply H].
Qed.

(** [atoi] reads the decimal digits of a text back, up to the first byte
    that is not a digit. *)

Lemma digits_value_dec l rest : forall acc,
  Forall (is_digit 10) l -> stops_number rest ->
  CString.digits_value (l ++ rest) acc =
  acc * 10 ^ Z.of_nat (length l) + radix_value 10 l.
Proof.
  intros acc Hl Hrest. revert acc.
  induction Hl as [|b l Hb Hl IH]; intros acc.
  - cbn [app length radix_value fold_left].
    destruct rest as [|c rest]; [cbn; lia|].
    rewrite digits_value_stop by exact Hrest. cbn. lia.
  - cbn [app CString.digits_value].
    rewrite (digit_val_dec b Hb), IH, radix_value_cons by lia.
    cbn [length]. rewrite Nat2Z.inj_succ, Z.pow_succ_r by lia. lia.
Qed.

Lemma atoi_value_dec l rest :
  l <> [] -> Forall (is_digit 10) l -> stops_number rest ->
  atoi_value (l ++ rest) = radix_value 10 l.
Proof.
  intros Hne Hl Hrest. destruct l as [|b l]; [contradiction|].
  pose proof (Forall_inv Hl) as Hb.
  destruct (dec_digit_plain b Hb) as (Hs & Hm & Hp).
  unfold atoi_value. cbn [app skip_spaces]. rewrite Hs.
  do 2 (destruct (decide (b = _)); [contradiction|]).
  change (b :: l ++ rest) with ((b :: l) ++ rest).
  rewrite digits_value_dec by assumption. lia.
Qed.

Lemma dec_digits_nonempty n : digits 10 10 n [] <> [].
Proof.
  pose proof (digits_length 10 10 n [] ltac:(lia)) as H. intros E.
  rewrite E in H. cbn in H. lia.
Qed.

Lemma atoi_value_fmt_d n rest :
  stops_number rest -> atoi_value (fmt_d n ++ rest) = to_int32 n.
Proof.
  intros Hrest.
  pose proof (to_int32_range n) as Hr. unfold is_int32 in Hr. unfold fmt_d.
  destruct (Z.ltb_spec (to_int32 n) 0) as [Hneg|Hpos].
  - unfold atoi_value. cbn [app skip_spaces].
    change (isspace Byte.x2d) with false. cbn iota.
    rewrite decide_True by reflexivity.
    rewrite digits_value_dec
      by (assumption || (apply dec_digits_dec; constructor)).
    rewrite dec_digits_value by lia. lia.
  - rewrite atoi_value_dec
      by (assumption || apply dec_digits_nonempty ||
          (apply dec_digits_dec; constructor)).
    apply dec_digits_value. lia.
Qed.

(** Round trip of the decimal conversions: the text [%d] prints for an
    [int], followed by anything that does not start with a digit, is
    converted back to that [int] by [atoi]. *)
Lemma atoi_fmt_d n rest :
  stops_number rest -> atoi (fmt_d n ++ rest) = Ok (to_int32 n).
Proof.
  intros Hrest. unfold atoi. rewrite atoi_value_fmt_d by assumption.
  rewrite decide_True; [reflexivity | apply to_int32_range].
Qed.

Lemma fmt_02x_nul_free n : nul_free (fmt_02x n).
Proof.
  eapply Forall_impl; [apply fmt_02x_hex | apply is_hex_digit_not_NUL].
Qed.

(** ** The same number in hexadecimal and in decimal *)

Lemma char_val_dec b : is_digit 10 b -> 0 <= char_val b <= 9.
Proof. intros H%digit_val_dec. now apply (digit_val_range b). Qed.

(** Decimal digits read in radix 16 give more than in radix 10, from a
    larger start. *)
Lemma dec_as_hex_from l : forall a b,
  Forall (is_digit 10) l -> 0 <= a < b ->
  fold_left (fun a b => a * 10 + char_val b) l a <
  fold_left (fun a b => a * 16 + char_val b) l b.
Proof.
  induction l as [|c l IH]; intros a b Hl Hab; [cbn; lia|].
  apply Forall_cons in Hl as [Hc%char_val_dec Hl]. cbn [fold_left].
  apply IH; [assumption | lia].
Qed.

(** And from the same start, once the number has two digits. *)
Lemma dec_as_hex l : forall a,
  Forall (is_digit 10) l -> 0 <= a < 10 ->
  10 <= fold_left (fun a b => a * 10 + char_val b) l a ->
  fold_left (fun a b => a * 10 + char_val b) l a <
  fold_left (fun a b => a * 16 + char_val b) l a.
Proof.
  induction l as [|c l IH]; intros a Hl Ha Hv; [cbn in *; lia|].
  pose proof Hl as [Hc%char_val_dec Hl']%Forall_cons. cbn [fold_left] in *.
  destruct (Z.eq_dec a 0) as [->|Hne]; [apply IH; assumption || lia|].
  apply dec_as_hex_from; [assumption | lia].
Qed.

(** [%x] and [%d] print a number alike exactly when it has one digit. *)
Theorem fmt_x_fmt_d n : 0 <= n < 2 ^ 31 -> fmt_x n = fmt_d n <-> n < 10.
Proof.
  intros Hn. split.
  - intros E. destruct (Z.lt_ge_cases n 10) as [|Hge]; [assumption|exfalso].
    pose proof (fmt_x_value n) as Hx. rewrite E in Hx.
    unfold fmt_d in Hx, E. rewrite to_uint32_small in Hx by (unfold is_uint32; lia).
    rewrite to_int32_small in Hx by (unfold is_int32; lia).
    rewrite (proj2 (Z.ltb_ge _ _)) in Hx by lia.
    pose proof (dec_digits_value n ltac:(lia)) as Hd.
    pose proof (dec_as_hex (digits 10 10 n []) 0
                  (dec_digits_dec n [] ltac:(constructor)) ltac:(lia)) as H.
    unfold hex_value, radix_value in *. lia.
  - intros Hlt. assert (H : In n (map Z.of_nat (seq 0 10))).
    { apply in_map_iff. exists (Z.to_nat n). split; [lia|]. apply in_seq. lia. }
    cbn in H. intuition (subst; reflexivity).
Qed.

(** The extreme values of an [int], a value that wraps, and the field
    width of [%02x]. *)
Example fmt_samples :
  fmt_d (-2147483648) = bytes "-2147483648" /\
  fmt_d 2147483647 = bytes "2147483647" /\
  fmt_d 4294967295 = bytes "-1" /\
  fmt_x (-1) = bytes "ffffffff" /\
  fmt_02x 3 = bytes "03" /\ fmt_02x 0x1c3 = bytes "1c3".
Proof. vm_compute. repeat split. Qed.
