(* ===== verification/Cpuid.v ===== *)
(** * The CPUID primitive: [cpuid] and [processor_id]

    Lines 98-132 and 241-254 of [src/sysinfos.c].  The build target
    ([Target]) stands for the preprocessor symbols that select one of the
    bodies; the processor ([Processor]) is the hardware behind the
    instruction, an interface the rest of the development is proved
    against.  The state of the component is the trace of the CPUID
    instructions executed so far.  [Framed] and [Replay] are what the
    functions that use the processor promise their callers: they append
    to the trace, their result depends on nothing that was executed
    before, and it depends on the processor through the answers recorded
    in the trace only; the instances follow the structure of the code. *)

From Stdlib Require Import ZArith Lia List Bool.
From stdpp Require Import base list.
From S2P Require Import Prelude CTypes.

Local Open Scope Z_scope.
Local Open Scope cmonad_scope.

(** ** The build target *)

Inductive arch : Set := X86 | ARM.
Inductive os : Set := Linux | Win32.

#[export] Instance arch_eq_dec : EqDecision arch.
Proof. solve_decision. Defined.
#[export] Instance os_eq_dec : EqDecision os.
Proof. solve_decision. Defined.

(** [target_arch] is [ARM] when [__arm__] is defined; [target_os] is
    [Win32] when [WIN32] is. *)
Class Target : Set := {
  target_arch : arch;
  target_os : os
}.

(** ** The processor *)

(** The four registers the instruction leaves its answer in. *)
Record regs : Set := mk_regs {
  r_eax : Z;
  r_ebx : Z;
  r_ecx : Z;
  r_edx : Z
}.

Definition regs_wf (r : regs) : Prop :=
  is_uint32 (r_eax r) /\ is_uint32 (r_ebx r) /\
  is_uint32 (r_ecx r) /\ is_uint32 (r_edx r).

Definition zero_regs : regs := mk_regs 0 0 0 0.

(** What the instruction answers to the inputs EAX and ECX.  The answer
    is a function of the inputs (the leaves the source reads are static)
    and each register is a 32-bit word. *)
Class Processor : Type := {
  cpuid_insn : Z -> Z -> regs;
  cpuid_insn_wf : forall eax ecx, regs_wf (cpuid_insn eax ecx)
}.

(** ** State: the trace of executed CPUID instructions *)

Definition query : Set := (Z * Z)%type.
Definition trace : Set := list query.
Definition Cpu (A : Type) : Type := M trace A.

(** ** CPUID commands and register indices (lines 241-254) *)

Definition VENDOR_ID : Z := 0.
Definition PROCESSOR_INFO : Z := 1.
Definition CACHE_TLB_DESCRIPTOR : Z := 2.
Definition EXTENDED_FEATURES : Z := 7.
Definition HIGHEST_EXTENDED_FUNCTION : Z := 0x80000000.
Definition EXTENDED_PROCESSOR_INFO : Z := 0x80000001.
Definition PROCESSOR_BRAND_STRING_1 : Z := 0x80000002.
Definition PROCESSOR_BRAND_STRING_2 : Z := 0x80000003.
Definition PROCESSOR_BRAND_STRING_3 : Z := 0x80000004.

Definition EAX_Reg : nat := 0.
Definition EBX_Reg : nat := 1.
Definition ECX_Reg : nat := 2.
Definition EDX_Reg : nat := 3.

Section Cpuid.
Context {tg : Target} {hw : Processor}.

(** The instruction itself, with EAX and ECX loaded: it answers and is
    recorded in the trace. *)
Definition exec_cpuid (eax ecx : Z) : Cpu regs :=
  fun t => Ok (cpuid_insn eax ecx, t ++ [(eax, ecx)]).

(** [cpuid(functionnumber, output)] (lines 98-127).  On x86 the three
    compiler variants do the same: the instruction with EAX =
    [functionnumber] and ECX = 0, then the four registers stored into
    [output[0..3]] as [int]s.  On ARM [cpuid] is the macro
    [out[0] = 0;]: nothing is executed and only the first element is
    written. *)
Definition cpuid (functionnumber : Z) (output : list Z) : Cpu (list Z) :=
  match target_arch with
  | X86 =>
      r <- exec_cpuid (to_uint32 functionnumber) 0 ;;
      output <- lift (store output 0 (to_int32 (r_eax r))) ;;
      output <- lift (store output 1 (to_int32 (r_ebx r))) ;;
      output <- lift (store output 2 (to_int32 (r_ecx r))) ;;
      lift (store output 3 (to_int32 (r_edx r)))
  | ARM => lift (store output 0 0)
  end.

(** [processor_id] (lines 131-132): the non-inline wrapper. *)
Definition processor_id (functionnumber : Z) (output : list Z)
  : Cpu (list Z) :=
  cpuid functionnumber output.

(** The four registers as the [int]s [cpuid] stores. *)
Definition regs_ints (r : regs) : list Z :=
  [to_int32 (r_eax r); to_int32 (r_ebx r);
   to_int32 (r_ecx r); to_int32 (r_edx r)].

(** The trace after one call of [cpuid] on leaf [fn]. *)
Definition logged (fn : Z) (t : trace) : trace :=
  match target_arch with
  | X86 => t ++ [(to_uint32 fn, 0)]
  | ARM => t
  end.

(** What every function of the unit that uses the processor promises its
    callers: it only appends to the trace, and neither its result nor
    the instructions it executes depend on what was executed before. *)
Class Framed {A} (m : Cpu A) : Prop :=
  framed : forall t, m t = outcome_map (fun r => (fst r, t ++ snd r)) (m []).

(** Two processors that answer alike to a query. *)
Definition same_answer (hw1 hw2 : Processor) (q : query) : Prop :=
  @cpuid_insn hw1 (fst q) (snd q) = @cpuid_insn hw2 (fst q) (snd q).

(** The trace records all a computation learns from the processor: [m1]
    and [m2] are one computation on two processors, and whenever [m1]
    returns, [m2] returns the same after the same instructions, provided
    the second processor answers like the first to the queries [m1]
    made. *)
Class Replay (hw1 hw2 : Processor) {A} (m1 m2 : Cpu A) : Prop :=
  replay : forall t a qs,
    m1 t = Ok (a, t ++ qs) -> Forall (same_answer hw1 hw2) qs ->
    m2 t = Ok (a, t ++ qs).

(** ** Behaviour of [cpuid] *)

Lemma exec_cpuid_run eax ecx t :
  exec_cpuid eax ecx t = Ok (cpuid_insn eax ecx, t ++ [(eax, ecx)]).
Proof. reflexivity. Qed.

(** On x86, on an array of four elements, [cpuid] does not fault, stores
    the four registers and executes one instruction. *)
Lemma cpuid_x86 fn output t :
  target_arch = X86 -> length output = 4%nat ->
  cpuid fn output t =
    Ok (regs_ints (cpuid_insn (to_uint32 fn) 0), t ++ [(to_uint32 fn, 0)]).
Proof.
  intros Hx Hlen. unfold cpuid. rewrite Hx.
  do 5 (destruct output as [|? output]; try discriminate).
  reflexivity.
Qed.

(** On ARM only [output[0]] is cleared and nothing is executed. *)
Lemma cpuid_arm fn output t :
  target_arch = ARM -> (0 < length output)%nat ->
  cpuid fn output t = Ok (<[0%nat:=0]> output, t).
Proof.
  intros Ha Hlen. unfold cpuid. rewrite Ha.
  now rewrite store_ok by assumption.
Qed.

(** On a zero-initialised local array, whatever the target. *)
Lemma cpuid_local fn t :
  cpuid fn (replicate 4 0) t =
    Ok (match target_arch with
        | X86 => regs_ints (cpuid_insn (to_uint32 fn) 0)
        | ARM => replicate 4 0
        end, logged fn t).
Proof.
  unfold logged. destruct target_arch eqn:E.
  - apply cpuid_x86; [assumption | reflexivity].
  - rewrite cpuid_arm; [reflexivity | assumption | cbn; lia].
Qed.

(** An array too short for the four stores overflows on x86. *)
Lemma cpuid_x86_short fn output t :
  target_arch = X86 -> (length output < 4)%nat ->
  cpuid fn output t = Fault BufferOverflow.
Proof.
  intros Hx Hlen. unfold cpuid. rewrite Hx.
  do 4 (destruct output as [|? output]; [reflexivity|]).
  cbn in Hlen. lia.
Qed.

Lemma cpuid_length fn output t output' t' :
  cpuid fn output t = Ok (output', t') -> length output' = length output.
Proof.
  unfold cpuid. destruct target_arch.
  - destruct (decide (length output < 4)%nat) as [Hlt|Hge].
    + unfold exec_cpuid. rewrite bind_unfold.
      do 4 (destruct output as [|? output]; [discriminate|]).
      cbn in Hlt. lia.
    + do 4 (destruct output as [|? output]; [cbn in Hge; lia|]).
      intros [= <- _]. reflexivity.
  - intros H. apply lift_inv_ok in H as [H _].
    now apply store_length in H.
Qed.

Lemma regs_ints_length r : length (regs_ints r) = 4%nat.
Proof. reflexivity. Qed.

Lemma logged_x86 fn t :
  target_arch = X86 -> logged fn t = t ++ [(to_uint32 fn, 0)].
Proof. unfold logged. now intros ->. Qed.

Lemma logged_arm fn t : target_arch = ARM -> logged fn t = t.
Proof. unfold logged. now intros ->. Qed.

Lemma logged_app fn t u : logged fn (t ++ u) = t ++ logged fn u.
Proof. unfold logged. destruct target_arch; [symmetry; apply app_assoc | reflexivity]. Qed.

Lemma logged_length_le fn t : (length (logged fn t) <= S (length t))%nat.
Proof. unfold logged. destruct target_arch; rewrite ?length_app; cbn; lia. Qed.

(** The registers are recovered from the stored [int]s by reading them
    as unsigned words. *)
Lemma regs_ints_unsigned r :
  regs_wf r ->
  map to_uint32 (regs_ints r) = [r_eax r; r_ebx r; r_ecx r; r_edx r].
Proof.
  intros (Ha & Hb & Hc & Hd). unfold regs_ints. cbn [map].
  now rewrite !to_uint32_to_int32, !to_uint32_small.
Qed.

Lemma regs_ints_int32 r : Forall is_int32 (regs_ints r).
Proof. unfold regs_ints. repeat constructor; apply to_int32_range. Qed.

(** ** Theorems *)

(** C30. On x86, [processor_id] on an array of four [int]s executes one
    CPUID instruction with EAX = the function number (as a 32-bit word)
    and ECX = 0, and stores the four registers: every element is an
    [int], and read as unsigned words the elements are EAX, EBX, ECX,
    EDX. *)
Theorem processor_id_x86 (fn : Z) (output : list Z) (t : trace) :
  target_arch = X86 -> length output = 4%nat ->
  exists output',
    processor_id fn output t = Ok (output', t ++ [(to_uint32 fn, 0)]) /\
    Forall is_int32 output' /\
    map to_uint32 output' =
      let r := cpuid_insn (to_uint32 fn) 0 in
      [r_eax r; r_ebx r; r_ecx r; r_edx r].
Proof.
  intros Hx Hlen. exists (regs_ints (cpuid_insn (to_uint32 fn) 0)).
  split; [now apply cpuid_x86|]. split; [apply regs_ints_int32|].
  apply regs_ints_unsigned, cpuid_insn_wf.
Qed.

(** C31. On ARM, [processor_id] executes nothing and clears only
    [output[0]]: the other elements keep what the caller had in them, so
    the result is all zero only if the caller zeroed the array. *)
Theorem processor_id_arm_partial (fn : Z) (output : list Z) (t : trace) :
  target_arch = ARM -> (0 < length output)%nat ->
  exists output',
    processor_id fn output t = Ok (output', t) /\
    output' !! 0%nat = Some 0 /\
    drop 1 output' = drop 1 output.
Proof.
  intros Ha Hlen. exists (<[0%nat:=0]> output).
  split; [now apply cpuid_arm|].
  destruct output as [|x output]; [cbn in Hlen; lia|]. split; reflexivity.
Qed.

(** On x86 an array of fewer than four elements is overflowed. *)
Theorem processor_id_short (fn : Z) (output : list Z) (t : trace) :
  target_arch = X86 -> (length output < 4)%nat ->
  processor_id fn output t = Fault BufferOverflow.
Proof. intros Hx Hlen. now apply cpuid_x86_short. Qed.

(** ** The trace only grows *)

(** Instances of [Framed] are found by the shape of the computation. *)
#[export] Hint Opaque bind ret lift andM foldM mmap : typeclass_instances.

(** A computation with a run equation of the form [lift o (t ++ qs)]. *)
Lemma framed_appends {A} (m : Cpu A) (o : outcome A) (qs : trace) :
  (forall t, m t = lift o (t ++ qs)) -> Framed m.
Proof. intros H t. rewrite (H t), (H []). now destruct o. Qed.

(** The same with the query of one [cpuid]. *)
Lemma framed_logged {A} (m : Cpu A) (o : outcome A) fn :
  (forall t, m t = lift o (logged fn t)) -> Framed m.
Proof.
  intros H. apply (framed_appends m o (logged fn [])). intros t.
  now rewrite H, <- logged_app, app_nil_r.
Qed.

#[export] Instance framed_bind {A B} (m : Cpu A) (k : A -> Cpu B) :
  Framed m -> (forall a, Framed (k a)) -> Framed (bind m k).
Proof.
  intros Hm Hk t. rewrite !bind_unfold, (Hm t).
  destruct (m []) as [[a u]|]; [|reflexivity]. cbn [outcome_map fst snd].
  rewrite (Hk a (t ++ u)), (Hk a u).
  destruct (k a []) as [[b u']|]; [|reflexivity].
  cbn [outcome_map fst snd]. now rewrite app_assoc.
Qed.

#[export] Instance framed_lift {A} (o : outcome A) : Framed (lift o).
Proof. intros t. destruct o; cbn; now rewrite ?app_nil_r. Qed.

#[export] Instance framed_ret {A} (a : A) : Framed (ret a).
Proof. intros t. cbn. now rewrite app_nil_r. Qed.

#[export] Instance framed_if {A} (b : bool) (m1 m2 : Cpu A) :
  Framed m1 -> Framed m2 -> Framed (if b then m1 else m2).
Proof. now destruct b. Qed.

#[export] Instance framed_andM (a b : Cpu bool) :
  Framed a -> Framed b -> Framed (andM a b).
Proof. unfold andM. apply _. Qed.

#[export] Instance framed_foldM {A B} (f : A -> B -> Cpu B) l (b : B) :
  (forall a b, Framed (f a b)) -> Framed (foldM f l b).
Proof.
  intros Hf. revert b. induction l as [|a l IH]; intros b; cbn [foldM]; apply _.
Qed.

#[export] Instance framed_mmap {A B} (g : A -> B) (m : Cpu A) :
  Framed m -> Framed (mmap g m).
Proof. unfold mmap. apply _. Qed.

#[export] Instance framed_exec_cpuid eax ecx : Framed (exec_cpuid eax ecx).
Proof. intros t. reflexivity. Qed.

#[export] Instance framed_cpuid fn output : Framed (cpuid fn output).
Proof. unfold cpuid. destruct target_arch; apply _. Qed.

#[export] Instance framed_processor_id fn output :
  Framed (processor_id fn output).
Proof. apply framed_cpuid. Qed.

(** What a computation that returns appended to the trace. *)
Lemma framed_inv {A} (m : Cpu A) `{!Framed m} t a t' :
  m t = Ok (a, t') -> exists u, t' = t ++ u /\ m [] = Ok (a, u).
Proof.
  rewrite (framed (m:=m) t). destruct (m []) as [[a0 u]|]; [|discriminate].
  cbn. intros [= <- <-]. now exists u.
Qed.

End Cpuid.

#[export] Hint Rewrite @cpuid_local @exec_cpuid_run : run.

(** ** The trace records what was learnt *)

(** Instances of [Replay] follow the shape of the computation, like those
    of [Framed]. *)
Section Replay.
Context {tg : Target} (hw1 hw2 : Processor).

#[export] Instance replay_refl {A} (m : Cpu A) : Replay hw1 hw2 m m | 0.
Proof. now intros t a qs H _. Qed.

#[export] Instance replay_exec_cpuid eax ecx :
  Replay hw1 hw2 (@exec_cpuid hw1 eax ecx) (@exec_cpuid hw2 eax ecx).
Proof.
  intros t a qs [= <- E] Hqs. apply app_inv_head in E. subst qs.
  apply Forall_inv in Hqs. unfold exec_cpuid. now rewrite <- Hqs.
Qed.

#[export] Instance replay_bind {A B} (m1 m2 : Cpu A) (k1 k2 : A -> Cpu B) :
  Framed m1 -> (forall a, Framed (k1 a)) ->
  Replay hw1 hw2 m1 m2 -> (forall a, Replay hw1 hw2 (k1 a) (k2 a)) ->
  Replay hw1 hw2 (bind m1 k1) (bind m2 k2).
Proof.
  intros Fm Fk Hm Hk t b qs H Hqs. rewrite bind_unfold in H.
  destruct (m1 t) as [[a t1]|] eqn:E1; [|discriminate].
  destruct (framed_inv m1 t a t1 E1) as (u & -> & _).
  destruct (framed_inv (k1 a) _ b _ H) as (u' & E & _).
  rewrite <- app_assoc in E. apply app_inv_head in E. subst qs.
  apply Forall_app in Hqs as [Hu Hu'].
  rewrite bind_unfold, (Hm t a u E1 Hu), app_assoc.
  apply (Hk a (t ++ u) b u'); [|exact Hu']. now rewrite <- app_assoc.
Qed.

#[export] Instance replay_if {A} (b : bool) (m1 m2 n1 n2 : Cpu A) :
  Replay hw1 hw2 m1 m2 -> Replay hw1 hw2 n1 n2 ->
  Replay hw1 hw2 (if b then m1 else n1) (if b then m2 else n2).
Proof. now destruct b. Qed.

#[export] Instance replay_andM (a1 a2 b1 b2 : Cpu bool) :
  Framed a1 -> Framed b1 ->
  Replay hw1 hw2 a1 a2 -> Replay hw1 hw2 b1 b2 ->
  Replay hw1 hw2 (andM a1 b1) (andM a2 b2).
Proof. unfold andM. apply _. Qed.

#[export] Instance replay_mmap {A B} (g : A -> B) (m1 m2 : Cpu A) :
  Framed m1 -> Replay hw1 hw2 m1 m2 ->
  Replay hw1 hw2 (mmap g m1) (mmap g m2).
Proof. unfold mmap. apply _. Qed.

#[export] Instance replay_foldM {A B} (f1 f2 : A -> B -> Cpu B) l (b : B) :
  (forall a b, Framed (f1 a b)) ->
  (forall a b, Replay hw1 hw2 (f1 a b) (f2 a b)) ->
  Replay hw1 hw2 (foldM f1 l b) (foldM f2 l b).
Proof.
  intros Ff Hf. revert b. induction l as [|a l IH]; intros b; cbn [foldM]; apply _.
Qed.

#[export] Instance replay_cpuid fn output :
  Replay hw1 hw2 (@cpuid tg hw1 fn output) (@cpuid tg hw2 fn output).
Proof. unfold cpuid. destruct target_arch; apply _. Qed.

#[export] Instance replay_processor_id fn output :
  Replay hw1 hw2 (@processor_id tg hw1 fn output) (@processor_id tg hw2 fn output).
Proof. apply replay_cpuid. Qed.

End Replay.

(** ** Concrete targets and processors *)

Definition linux_x86 : Target := {| target_arch := X86; target_os := Linux |}.
Definition linux_arm : Target := {| target_arch := ARM; target_os := Linux |}.
Definition win32_x86 : Target := {| target_arch := X86; target_os := Win32 |}.

Definition wrap_regs (r : regs) : regs :=
  mk_regs (to_uint32 (r_eax r)) (to_uint32 (r_ebx r))
          (to_uint32 (r_ecx r)) (to_uint32 (r_edx r)).

Lemma wrap_regs_wf r : regs_wf (wrap_regs r).
Proof. repeat split; apply to_uint32_range. Qed.

(** A processor given by a table from leaves (the EAX input) to answers;
    leaves outside the table answer zero. *)
Fixpoint table_lookup (tbl : list (Z * regs)) (eax : Z) : regs :=
  match tbl with
  | [] => zero_regs
  | (leaf, r) :: rest => if leaf =? eax then r else table_lookup rest eax
  end.

Definition table_processor (tbl : list (Z * regs)) : Processor :=
  {| cpuid_insn := fun eax _ => wrap_regs (table_lookup tbl eax);
     cpuid_insn_wf := fun eax _ => wrap_regs_wf (table_lookup tbl eax) |}.

(** The stub of a machine without the instruction: every answer is zero. *)
Definition zero_processor : Processor := table_processor [].
