(* ===== verification/Machines.v ===== *)
(** * Sample processors

    Answers of the CPUID instruction on a few machines, as tables from
    leaves to registers, used to run the model on concrete inputs.  The
    register values are those the vendors document for the named parts;
    [spec_scenario] and [Cpuid.zero_processor] are the two scenarios of the
    specification's test list. *)

From Stdlib Require Import ZArith List Strings.String.
From coqutil Require Import Byte Word.LittleEndianList.
From stdpp Require Import base list.
From S2P Require Import Prelude CTypes Cpuid.

Local Open Scope Z_scope.

(** Sixteen bytes of text as the four registers a brand-string leaf
    returns them in: EAX holds the first four characters, least
    significant byte first. *)
Definition regs_of_text (b : list byte) : regs :=
  mk_regs (le_combine (take 4 b))
          (le_combine (take 4 (drop 4 b)))
          (le_combine (take 4 (drop 8 b)))
          (le_combine (take 4 (drop 12 b))).

(** The three brand-string leaves of a processor named [name]. *)
Definition brand_leaves (name : string) : list (Z * regs) :=
  let padded := bytes name ++ replicate 48 NUL in
  [ (PROCESSOR_BRAND_STRING_1, regs_of_text (take 16 padded));
    (PROCESSOR_BRAND_STRING_2, regs_of_text (take 16 (drop 16 padded)));
    (PROCESSOR_BRAND_STRING_3, regs_of_text (take 16 (drop 32 padded))) ].

(** Intel Core i7-4770 (Haswell): AVX2, FMA3, AES-NI. *)
Definition haswell : Processor :=
  table_processor
    ([ (VENDOR_ID, mk_regs 0xd 0x756e6547 0x6c65746e 0x49656e69);
       (PROCESSOR_INFO, mk_regs 0x000306c3 0x00100800 0x7ffafbff 0xbfebfbff);
       (EXTENDED_FEATURES, mk_regs 0 0x000027ab 0 0);
       (HIGHEST_EXTENDED_FUNCTION, mk_regs 0x80000008 0 0 0) ]
     ++ brand_leaves "Intel(R) Core(TM) i7-4770 CPU @ 3.40GHz").

(** Intel Core i7-2600 (Sandy Bridge): AVX without AVX2 or FMA3. *)
Definition sandybridge : Processor :=
  table_processor
    ([ (VENDOR_ID, mk_regs 0xd 0x756e6547 0x6c65746e 0x49656e69);
       (PROCESSOR_INFO, mk_regs 0x000206a7 0x00100800 0x1fbae3ff 0xbfebfbff);
       (HIGHEST_EXTENDED_FUNCTION, mk_regs 0x80000008 0 0 0) ]
     ++ brand_leaves "Intel(R) Core(TM) i7-2600 CPU @ 3.40GHz").

(** Intel Core i7-920 (Nehalem): SSE4.2, no AVX. *)
Definition nehalem : Processor :=
  table_processor
    ([ (VENDOR_ID, mk_regs 0xb 0x756e6547 0x6c65746e 0x49656e69);
       (PROCESSOR_INFO, mk_regs 0x000106a5 0x00100800 0x0098e3bd 0xbfebfbff);
       (HIGHEST_EXTENDED_FUNCTION, mk_regs 0x80000008 0 0 0) ]
     ++ brand_leaves "Intel(R) Core(TM) i7 CPU 920 @ 2.67GHz").

(** Intel Core 2 Duo (Merom): SSE2, SSSE3, no SSE4.2. *)
Definition core2 : Processor :=
  table_processor
    ([ (VENDOR_ID, mk_regs 0xa 0x756e6547 0x6c65746e 0x49656e69);
       (PROCESSOR_INFO, mk_regs 0x000006fb 0x00020800 0x0000e3bd 0xbfebfbff);
       (HIGHEST_EXTENDED_FUNCTION, mk_regs 0x80000008 0 0 0) ]
     ++ brand_leaves "Intel(R) Core(TM)2 Duo CPU E6750 @ 2.66GHz").

(** Intel Pentium III: SSE only, basic leaves up to 3, no brand string
    leaves. *)
Definition pentium3 : Processor :=
  table_processor
    [ (VENDOR_ID, mk_regs 0x3 0x756e6547 0x6c65746e 0x49656e69);
      (PROCESSOR_INFO, mk_regs 0x00000686 0x00000002 0 0x0383fbff) ].

(** AMD FX-8350 (Piledriver): AVX and FMA3. *)
Definition piledriver : Processor :=
  table_processor
    ([ (VENDOR_ID, mk_regs 0xd 0x68747541 0x444d4163 0x69746e65);
       (PROCESSOR_INFO, mk_regs 0x00600f20 0x00080800 0x3e98320b 0x178bfbff);
       (HIGHEST_EXTENDED_FUNCTION, mk_regs 0x8000001e 0 0 0);
       (EXTENDED_PROCESSOR_INFO, mk_regs 0x00600f20 0x10000000 0x01ebbfff 0x2fd3fbff) ]
     ++ brand_leaves "AMD FX(tm)-8350 Eight-Core Processor").

(** AMD Ryzen 7 3700X (Zen 2): the highest extended leaf is 0x80000020. *)
Definition zen2 : Processor :=
  table_processor
    ([ (VENDOR_ID, mk_regs 0x10 0x68747541 0x444d4163 0x69746e65);
       (PROCESSOR_INFO, mk_regs 0x00870f10 0x00100800 0x7ed8320b 0x178bfbff);
       (EXTENDED_FEATURES, mk_regs 0 0x219c91a9 0x00400004 0);
       (HIGHEST_EXTENDED_FUNCTION, mk_regs 0x80000020 0 0 0) ]
     ++ brand_leaves "AMD Ryzen 7 3700X 8-Core Processor").

(** AMD Ryzen 9 5950X (Zen 3): the highest extended leaf is 0x80000023. *)
Definition zen3 : Processor :=
  table_processor
    ([ (VENDOR_ID, mk_regs 0x10 0x68747541 0x444d4163 0x69746e65);
       (PROCESSOR_INFO, mk_regs 0x00a20f10 0x00200800 0x7ef8320b 0x178bfbff);
       (EXTENDED_FEATURES, mk_regs 0 0x219c97a9 0x0040068c 0);
       (HIGHEST_EXTENDED_FUNCTION, mk_regs 0x80000023 0 0 0) ]
     ++ brand_leaves "AMD Ryzen 9 5950X 16-Core Processor").

(** The scenario of the specification: leaf 1 answers ECX = 0x18000800
    (bits 27, 28 and 11) and zero elsewhere. *)
Definition spec_scenario : Processor :=
  table_processor [ (PROCESSOR_INFO, mk_regs 0 0 0x18000800 0) ].

(** A processor whose leaf 1 has only the FMA3 bit and the three AVX1
    bits. *)
Definition fma3_only : Processor :=
  table_processor [ (PROCESSOR_INFO, mk_regs 0 0 0x1c001000 0) ].

(** A processor whose leaf 0 reports a highest function with bit 31
    set. *)
Definition high_bit_leaf0 : Processor :=
  table_processor [ (VENDOR_ID, mk_regs 0x80000000 0 0 0) ].

(** A processor that sets XOP where AMD documents it (leaf 0x80000001,
    ECX bit 11) and nothing in leaf 1. *)
Definition amd_xop_only : Processor :=
  table_processor [ (EXTENDED_PROCESSOR_INFO, mk_regs 0 0 0x800 0) ].

(** ** The theorems of [Cpuid] on concrete machines *)

Lemma processor_id_x86_witness :
  exists output',
    @processor_id linux_x86 haswell EXTENDED_FEATURES [0; 0; 0; 0] [] =
      Ok (output', [] ++ [(to_uint32 EXTENDED_FEATURES, 0)]) /\
    Forall is_int32 output' /\
    map to_uint32 output' =
      let r := @cpuid_insn haswell (to_uint32 EXTENDED_FEATURES) 0 in
      [r_eax r; r_ebx r; r_ecx r; r_edx r].
Proof.
  apply (@processor_id_x86 linux_x86 haswell EXTENDED_FEATURES [0; 0; 0; 0] []);
    reflexivity.
Defined.

Lemma processor_id_arm_partial_witness :
  exists output',
    @processor_id linux_arm haswell PROCESSOR_INFO [7; 7; 7; 7] [] =
      Ok (output', []) /\
    output' !! 0%nat = Some 0 /\
    drop 1 output' = drop 1 [7; 7; 7; 7].
Proof.
  apply (@processor_id_arm_partial linux_arm haswell PROCESSOR_INFO [7; 7; 7; 7] []).
  - reflexivity.
  - cbn. lia.
Defined.

Lemma processor_id_short_witness :
  @processor_id linux_x86 haswell PROCESSOR_INFO [0; 0; 0] [] =
    Fault BufferOverflow.
Proof.
  apply (@processor_id_short linux_x86 haswell PROCESSOR_INFO [0; 0; 0] []).
  - reflexivity.
  - cbn. lia.
Defined.

(** On ARM the caller's values survive in elements 1 to 3. *)
Example processor_id_arm_keeps_garbage :
  @processor_id linux_arm zero_processor PROCESSOR_INFO [7; 7; 7; 7] [] =
    Ok ([0; 7; 7; 7], []).
Proof. reflexivity. Qed.
