(* ===== verification/Features.v ===== *)
(** * Capability flags: the [has_*] predicates

    Lines 256-362 of [src/sysinfos.c]: the flag and mask macros and the
    eight predicates.  Each predicate is modelled whole: the [__arm__]
    branch that returns [false] without a query, and on x86 the
    zero-initialised local array, the call of [cpuid], the mask applied to
    one element and the conversion of the resulting [int] to [bool].

    The abstract specification is the table [feature_leaf],
    [feature_reg], [feature_bits]: a feature is supported when every listed
    bit of the listed register of the listed leaf is set ([supports]).
    [has_of_supports] is the refinement theorem. *)

From Stdlib Require Import ZArith Lia List Bool.
From stdpp Require Import base list.
From S2P Require Import Prelude CTypes Cpuid Machines.

Local Open Scope Z_scope.
Local Open Scope cmonad_scope.

(** ** Flags and masks (lines 256-271) *)

Definition XSAVE_Flag : Z := Z.shiftl 1 26.
Definition OSXSAVE_Flag : Z := Z.shiftl 1 27.
Definition AVX1_Flag : Z := Z.shiftl 1 28.
Definition XOP_Flag : Z := Z.shiftl 1 11.
Definition FMA3_Flag : Z := Z.shiftl 1 12.
Definition AES_Flag : Z := Z.shiftl 1 25.
Definition SSE42_Flag : Z := Z.shiftl 1 20.

Definition SSE_Flag : Z := Z.shiftl 1 25.
Definition SSE2_Flag : Z := Z.shiftl 1 26.

Definition AVX2_Flag : Z := Z.shiftl 1 5.

Definition AVX1_mask : Z := Z.lor (Z.lor AVX1_Flag XSAVE_Flag) OSXSAVE_Flag.
Definition FMA3_mask : Z := Z.lor FMA3_Flag AVX1_mask.

(** ** The abstract specification: the capability table *)

Inductive feature : Set :=
| SSE | SSE2 | SSE42 | AES_NI | AVX1 | FMA3 | XOP | AVX2.

#[export] Instance feature_eq_dec : EqDecision feature.
Proof. solve_decision. Defined.

Definition feature_leaf (f : feature) : Z :=
  match f with
  | AVX2 => EXTENDED_FEATURES
  | _ => PROCESSOR_INFO
  end.

Definition feature_reg (f : feature) : regs -> Z :=
  match f with
  | SSE | SSE2 => r_edx
  | AVX2 => r_ebx
  | _ => r_ecx
  end.

Definition feature_bits (f : feature) : list Z :=
  match f with
  | SSE => [25]
  | SSE2 => [26]
  | SSE42 => [20]
  | AES_NI => [25]
  | AVX1 => [28; 26; 27]
  | FMA3 => [12; 28; 26; 27]
  | XOP => [11]
  | AVX2 => [5]
  end.

Section Features.
Context {tg : Target} {hw : Processor}.

(** A feature is supported when the build has the instruction and every
    bit of its table entry is set in the processor's answer. *)
Definition supports (f : feature) : bool :=
  bool_decide (target_arch = X86) &&
  forallb (Z.testbit (feature_reg f (cpuid_insn (feature_leaf f) 0)))
          (feature_bits f).

(** ** The predicates (lines 273-362) *)

Definition has_sse2 : Cpu bool :=
  match target_arch with
  | ARM => ret false
  | X86 =>
      cpu_info <- cpuid PROCESSOR_INFO (replicate 4 0) ;;
      x <- lift (load cpu_info EDX_Reg) ;;
      ret (bool_of_int (Z.land x SSE2_Flag))
  end.

Definition has_aes_ni : Cpu bool :=
  match target_arch with
  | ARM => ret false
  | X86 =>
      cpu_info <- cpuid PROCESSOR_INFO (replicate 4 0) ;;
      x <- lift (load cpu_info ECX_Reg) ;;
      ret (bool_of_int (Z.land x AES_Flag))
  end.

(** The comparison [==] yields 1 or 0, which the return converts to
    [true] or [false]: the result is the comparison itself. *)
Definition has_avx1 : Cpu bool :=
  match target_arch with
  | ARM => ret false
  | X86 =>
      cpu_info <- cpuid PROCESSOR_INFO (replicate 4 0) ;;
      x <- lift (load cpu_info ECX_Reg) ;;
      ret (Z.land x AVX1_mask =? AVX1_mask)
  end.

Definition has_avx2 : Cpu bool :=
  match target_arch with
  | ARM => ret false
  | X86 =>
      cpu_info <- cpuid EXTENDED_FEATURES (replicate 4 0) ;;
      x <- lift (load cpu_info EBX_Reg) ;;
      ret (bool_of_int (Z.land x AVX2_Flag))
  end.

Definition has_xop : Cpu bool :=
  match target_arch with
  | ARM => ret false
  | X86 =>
      cpu_info <- cpuid PROCESSOR_INFO (replicate 4 0) ;;
      x <- lift (load cpu_info ECX_Reg) ;;
      ret (bool_of_int (Z.land x XOP_Flag))
  end.

Definition has_fma3 : Cpu bool :=
  match target_arch with
  | ARM => ret false
  | X86 =>
      cpu_info <- cpuid PROCESSOR_INFO (replicate 4 0) ;;
      x <- lift (load cpu_info ECX_Reg) ;;
      ret (Z.land x FMA3_mask =? FMA3_mask)
  end.

Definition has_sse42 : Cpu bool :=
  match target_arch with
  | ARM => ret false
  | X86 =>
      cpu_info <- cpuid PROCESSOR_INFO (replicate 4 0) ;;
      x <- lift (load cpu_info ECX_Reg) ;;
      ret (bool_of_int (Z.land x SSE42_Flag))
  end.

Definition has_sse : Cpu bool :=
  match target_arch with
  | ARM => ret false
  | X86 =>
      cpu_info <- cpuid PROCESSOR_INFO (replicate 4 0) ;;
      x <- lift (load cpu_info EDX_Reg) ;;
      ret (bool_of_int (Z.land x SSE_Flag))
  end.

(** The predicate that tests a feature of the table. *)
Definition has_of (f : feature) : Cpu bool :=
  match f with
  | SSE => has_sse
  | SSE2 => has_sse2
  | SSE42 => has_sse42
  | AES_NI => has_aes_ni
  | AVX1 => has_avx1
  | FMA3 => has_fma3
  | XOP => has_xop
  | AVX2 => has_avx2
  end.

End Features.

(** ** The mask tests, bit by bit *)

Lemma shiftl_1_is_uint32 k : 0 <= k < 32 -> is_uint32 (Z.shiftl 1 k).
Proof. intros Hk. rewrite Z.shiftl_1_l. now apply pow2_is_uint32. Qed.

(** [x & (1 << k)] converted to [bool], on the [int] that holds a register. *)
Lemma flag_test r k :
  0 <= k < 32 ->
  bool_of_int (Z.land (to_int32 r) (Z.shiftl 1 k)) = Z.testbit r k.
Proof. intros Hk. rewrite Z.shiftl_1_l. now apply bool_of_int_land_pow2. Qed.

Lemma shiftl_1_mask_test r k :
  0 <= k < 32 ->
  (Z.land r (Z.shiftl 1 k) =? Z.shiftl 1 k) = Z.testbit r k.
Proof. intros Hk. rewrite Z.shiftl_1_l. apply land_pow2_eqb. lia. Qed.

Lemma AVX1_mask_is_uint32 : is_uint32 AVX1_mask.
Proof. vm_compute. split; [discriminate | reflexivity]. Qed.

Lemma FMA3_mask_is_uint32 : is_uint32 FMA3_mask.
Proof. vm_compute. split; [discriminate | reflexivity]. Qed.

(** [(x & AVX1_mask) == AVX1_mask] holds when AVX, XSAVE and OSXSAVE are
    all set. *)
Lemma AVX1_mask_test r :
  (Z.land (to_int32 r) AVX1_mask =? AVX1_mask) =
  Z.testbit r 28 && (Z.testbit r 26 && Z.testbit r 27).
Proof.
  rewrite land_to_int32 by apply AVX1_mask_is_uint32.
  unfold AVX1_mask, AVX1_Flag, XSAVE_Flag, OSXSAVE_Flag.
  rewrite !land_lor_mask_eqb, !shiftl_1_mask_test by lia.
  now rewrite andb_assoc.
Qed.

Lemma FMA3_mask_test r :
  (Z.land (to_int32 r) FMA3_mask =? FMA3_mask) =
  Z.testbit r 12 && (Z.testbit r 28 && (Z.testbit r 26 && Z.testbit r 27)).
Proof.
  rewrite land_to_int32 by apply FMA3_mask_is_uint32.
  unfold FMA3_mask. rewrite land_lor_mask_eqb.
  rewrite <- (land_to_int32 r AVX1_mask) by apply AVX1_mask_is_uint32.
  rewrite AVX1_mask_test. unfold FMA3_Flag.
  now rewrite shiftl_1_mask_test by lia.
Qed.

#[export] Hint Rewrite flag_test AVX1_mask_test FMA3_mask_test
  using lia : run.

Section FeatureLemmas.
Context {tg : Target} {hw : Processor}.

Lemma supports_x86 f :
  target_arch = X86 ->
  supports f =
    forallb (Z.testbit (feature_reg f (cpuid_insn (feature_leaf f) 0)))
            (feature_bits f).
Proof. intros Hx. unfold supports. now rewrite bool_decide_eq_true_2. Qed.

Lemma supports_arm f : target_arch = ARM -> supports f = false.
Proof.
  intros Ha. unfold supports. rewrite bool_decide_eq_false_2; [reflexivity|].
  congruence.
Qed.

(** Runs one [has_*] function on either target. *)
Ltac has_run :=
  intros; unfold has_of, has_sse, has_sse2, has_sse42, has_aes_ni, has_avx1,
    has_fma3, has_xop, has_avx2;
  destruct target_arch eqn:Harch;
  [ rewrite bind_unfold, cpuid_x86 by easy;
    rewrite supports_x86, logged_x86 by assumption;
    cbn [load lookup list_lookup regs_ints EAX_Reg EBX_Reg ECX_Reg EDX_Reg
         feature_bits feature_reg feature_leaf forallb];
    unfold SSE_Flag, SSE2_Flag, SSE42_Flag, AES_Flag, XOP_Flag, AVX2_Flag;
    mrun; rewrite ?andb_true_r; reflexivity
  | rewrite supports_arm, logged_arm by assumption; reflexivity ].

(** ** Refinement: each predicate computes its table entry *)

(** C1. Every [has_*] predicate returns, without faulting, whether all
    bits of its entry of the capability table are set in the register it
    names, and executes one CPUID instruction on its leaf (none on ARM). *)
Theorem has_of_supports (f : feature) (t : trace) :
  has_of f t = Ok (supports f, logged (feature_leaf f) t).
Proof. destruct f; has_run. Qed.

(** The run equations of the eight predicates, for rewriting. *)
Lemma has_sse_run t : has_sse t = Ok (supports SSE, logged PROCESSOR_INFO t).
Proof. has_run. Qed.
Lemma has_sse2_run t : has_sse2 t = Ok (supports SSE2, logged PROCESSOR_INFO t).
Proof. has_run. Qed.
Lemma has_sse42_run t : has_sse42 t = Ok (supports SSE42, logged PROCESSOR_INFO t).
Proof. has_run. Qed.
Lemma has_aes_ni_run t : has_aes_ni t = Ok (supports AES_NI, logged PROCESSOR_INFO t).
Proof. has_run. Qed.
Lemma has_avx1_run t : has_avx1 t = Ok (supports AVX1, logged PROCESSOR_INFO t).
Proof. has_run. Qed.
Lemma has_fma3_run t : has_fma3 t = Ok (supports FMA3, logged PROCESSOR_INFO t).
Proof. has_run. Qed.
Lemma has_xop_run t : has_xop t = Ok (supports XOP, logged PROCESSOR_INFO t).
Proof. has_run. Qed.
Lemma has_avx2_run t : has_avx2 t = Ok (supports AVX2, logged EXTENDED_FEATURES t).
Proof. has_run. Qed.

Lemma has_of_run f t : has_of f t = Ok (supports f, logged (feature_leaf f) t).
Proof.
  destruct f; cbn [has_of feature_leaf];
    auto using has_sse_run, has_sse2_run, has_sse42_run, has_aes_ni_run,
      has_avx1_run, has_fma3_run, has_xop_run, has_avx2_run.
Qed.

(** The predicates only append to the trace. *)
Lemma framed_has_of f : Framed (has_of f).
Proof.
  destruct f; cbn [has_of];
    unfold has_sse, has_sse2, has_sse42, has_aes_ni, has_avx1, has_fma3,
      has_xop, has_avx2; destruct target_arch; apply _.
Qed.

#[export] Instance framed_has_sse : Framed has_sse := framed_has_of SSE.
#[export] Instance framed_has_sse2 : Framed has_sse2 := framed_has_of SSE2.
#[export] Instance framed_has_sse42 : Framed has_sse42 := framed_has_of SSE42.
#[export] Instance framed_has_aes_ni : Framed has_aes_ni := framed_has_of AES_NI.
#[export] Instance framed_has_avx1 : Framed has_avx1 := framed_has_of AVX1.
#[export] Instance framed_has_fma3 : Framed has_fma3 := framed_has_of FMA3.
#[export] Instance framed_has_xop : Framed has_xop := framed_has_of XOP.
#[export] Instance framed_has_avx2 : Framed has_avx2 := framed_has_of AVX2.

(** ** Consequences for the table *)

Lemma supports_bits f :
  supports f = true <->
  target_arch = X86 /\
  forall b, In b (feature_bits f) ->
    Z.testbit (feature_reg f (cpuid_insn (feature_leaf f) 0)) b = true.
Proof.
  unfold supports. rewrite andb_true_iff, bool_decide_eq_true, forallb_forall.
  reflexivity.
Qed.

Lemma supports_FMA3_AVX1 : supports FMA3 = true -> supports AVX1 = true.
Proof.
  rewrite !supports_bits. intros [Hx H]. split; [assumption|].
  intros b Hb. apply H. cbn in *. tauto.
Qed.

(** C3. [has_avx1] answers [true] exactly on an x86 build whose leaf 1
    has AVX (bit 28), XSAVE (bit 26) and OSXSAVE (bit 27) all set in ECX:
    clearing any one of the three makes it [false]. *)
Theorem has_avx1_iff (t : trace) :
  value_of (has_avx1 t) = Some true <->
  target_arch = X86 /\
  Z.testbit (r_ecx (cpuid_insn PROCESSOR_INFO 0)) 28 = true /\
  Z.testbit (r_ecx (cpuid_insn PROCESSOR_INFO 0)) 26 = true /\
  Z.testbit (r_ecx (cpuid_insn PROCESSOR_INFO 0)) 27 = true.
Proof.
  rewrite has_avx1_run. cbn [value_of].
  rewrite (inj_iff Some), supports_bits. cbn [feature_bits In feature_reg feature_leaf].
  intuition (subst; auto).
Qed.

(** C4. [has_fma3] implies [has_avx1]: the FMA3 mask contains the AVX1
    mask, so a machine reported to have FMA3 is reported to have AVX1. *)
Theorem has_fma3_implies_avx1 (t u : trace) :
  value_of (has_fma3 t) = Some true -> value_of (has_avx1 u) = Some true.
Proof.
  rewrite has_fma3_run, has_avx1_run. cbn [value_of].
  intros [= H]. f_equal. now apply supports_FMA3_AVX1.
Qed.

(** On an ARM build every predicate returns [false] and executes no
    CPUID instruction. *)
Theorem has_of_arm (f : feature) (t : trace) :
  target_arch = ARM -> has_of f t = Ok (false, t).
Proof.
  intros Ha. now rewrite has_of_run, supports_arm, logged_arm.
Qed.

(** The predicates keep no state: the answer does not depend on the
    CPUID instructions executed before, and the trace only grows, by the
    one query of the predicate. *)
Theorem has_of_stateless (f : feature) (t u : trace) :
  value_of (has_of f t) = value_of (has_of f u) /\
  state_of (has_of f (t ++ u)) =
    option_map (app t) (state_of (has_of f u)).
Proof.
  rewrite !has_of_run. cbn. now rewrite logged_app.
Qed.

End FeatureLemmas.

#[export] Hint Rewrite @has_sse_run @has_sse2_run @has_sse42_run
  @has_aes_ni_run @has_avx1_run @has_fma3_run @has_xop_run @has_avx2_run
  : run.

(** Case analysis on the table entries a goal mentions, reusing the
    cases already made. *)
Ltac supports_cases :=
  match goal with
  | H : supports ?f = _ |- context [supports ?f] => rewrite H; cbn [andb]
  | |- context [supports ?f] => destruct (supports f) eqn:?; cbn [andb]
  end.

(** ** The answer depends on one leaf of the processor only *)

(** Two processors that answer alike on leaf [l] (with ECX = 0). *)
Definition same_leaf (l : Z) (hw1 hw2 : Processor) : Prop :=
  @cpuid_insn hw1 l 0 = @cpuid_insn hw2 l 0.

#[export] Instance same_leaf_equiv l : Equivalence (same_leaf l).
Proof.
  unfold same_leaf. split.
  - now intros hw.
  - now intros hw1 hw2.
  - intros hw1 hw2 hw3 H12 H23. now rewrite H12.
Qed.

Lemma supports_same_leaf {tg : Target} f hw1 hw2 :
  same_leaf (feature_leaf f) hw1 hw2 ->
  @supports tg hw1 f = @supports tg hw2 f.
Proof. unfold same_leaf, supports. now intros ->. Qed.

(** A predicate reads nothing of the processor but its own leaf:
    processors that agree on it get the same answer.  In particular
    [has_xop] is decided by leaf 1 alone. *)
Theorem has_of_same_leaf {tg : Target} (f : feature) (hw1 hw2 : Processor)
    (t : trace) :
  same_leaf (feature_leaf f) hw1 hw2 ->
  @has_of tg hw1 f t = @has_of tg hw2 f t.
Proof.
  intros H. rewrite !has_of_run. now rewrite (supports_same_leaf f hw1 hw2 H).
Qed.

(** ** The trace records what the predicates learn *)

Section FeaturesReplay.
Context {tg : Target} (hw1 hw2 : Processor).

Lemma replay_has_of f :
  Replay hw1 hw2 (@has_of tg hw1 f) (@has_of tg hw2 f).
Proof.
  destruct f; cbn [has_of];
    unfold has_sse, has_sse2, has_sse42, has_aes_ni, has_avx1, has_fma3,
      has_xop, has_avx2; destruct target_arch; apply _.
Qed.

#[export] Instance replay_has_sse :
  Replay hw1 hw2 (@has_sse tg hw1) (@has_sse tg hw2) :=
  replay_has_of SSE.
#[export] Instance replay_has_sse2 :
  Replay hw1 hw2 (@has_sse2 tg hw1) (@has_sse2 tg hw2) :=
  replay_has_of SSE2.
#[export] Instance replay_has_sse42 :
  Replay hw1 hw2 (@has_sse42 tg hw1) (@has_sse42 tg hw2) :=
  replay_has_of SSE42.
#[export] Instance replay_has_aes_ni :
  Replay hw1 hw2 (@has_aes_ni tg hw1) (@has_aes_ni tg hw2) :=
  replay_has_of AES_NI.
#[export] Instance replay_has_avx1 :
  Replay hw1 hw2 (@has_avx1 tg hw1) (@has_avx1 tg hw2) :=
  replay_has_of AVX1.
#[export] Instance replay_has_fma3 :
  Replay hw1 hw2 (@has_fma3 tg hw1) (@has_fma3 tg hw2) :=
  replay_has_of FMA3.
#[export] Instance replay_has_xop :
  Replay hw1 hw2 (@has_xop tg hw1) (@has_xop tg hw2) :=
  replay_has_of XOP.
#[export] Instance replay_has_avx2 :
  Replay hw1 hw2 (@has_avx2 tg hw1) (@has_avx2 tg hw2) :=
  replay_has_of AVX2.

End FeaturesReplay.

(** ** The theorems on concrete machines *)

Lemma has_fma3_implies_avx1_witness :
  value_of (@has_avx1 linux_x86 piledriver []) = Some true.
Proof.
  apply (@has_fma3_implies_avx1 linux_x86 piledriver [] []).
  vm_compute. reflexivity.
Defined.

Lemma has_of_arm_witness : @has_of linux_arm haswell AVX2 [] = Ok (false, []).
Proof. exact (@has_of_arm linux_arm haswell AVX2 [] eq_refl). Defined.

Lemma has_of_same_leaf_witness :
  @has_of linux_x86 amd_xop_only XOP [] = @has_of linux_x86 zero_processor XOP [].
Proof.
  apply (@has_of_same_leaf linux_x86 XOP amd_xop_only zero_processor []).
  vm_compute. reflexivity.
Defined.

(** The scenario of the specification: with ECX = 0x18000800 in leaf 1,
    [has_xop] is true and [has_avx1] is false (bit 26 is missing). *)
Example spec_scenario_xop_not_avx1 :
  @has_xop linux_x86 spec_scenario [] = Ok (true, [(1, 0)]) /\
  @has_avx1 linux_x86 spec_scenario [] = Ok (false, [(1, 0)]).
Proof. split; vm_compute; reflexivity. Qed.

(** With every answer zero, every predicate is false. *)
Example all_zero_no_feature :
  forallb (fun f => negb (@supports linux_x86 zero_processor f))
    [SSE; SSE2; SSE42; AES_NI; AVX1; FMA3; XOP; AVX2] = true.
Proof. vm_compute. reflexivity. Qed.

(** Bit 11 of leaf 1 ECX is set in the answer of an Intel Haswell part,
    which has no XOP unit: [has_xop] reports it nevertheless. *)
Example haswell_reports_xop :
  @has_xop linux_x86 haswell [] = Ok (true, [(1, 0)]).
Proof. vm_compute. reflexivity. Qed.
