(* ===== verification/BestFeature.v ===== *)
(** * The best feature label: [cpu_bestfeature]

    Lines 393-421 of [src/sysinfos.c].  The model is the whole function:
    the two [cpuid] calls whose results are never read, the cascade of
    [has_*] calls with the short-circuit [&&] of its first test, and the
    unbounded [sprintf] into the caller's buffer ([maxsz] is not used).

    The abstract specification is [best_label]: the label of the first
    eligible entry of [preference].  [best_probes] lists the predicates
    the cascade evaluates, in order; [rank] is the place of a label in
    the order of preference, which a processor with more features can
    only improve ([cpu_bestfeature_monotone]). *)

From Stdlib Require Import ZArith Lia List Bool Strings.String.
From coqutil Require Import Byte.
From stdpp Require Import base list.
From S2P Require Import Prelude CTypes Cpuid Machines Features.

Local Open Scope Z_scope.
Local Open Scope cmonad_scope.

(** ** Abstract specification *)

(** The order of preference, best first. *)
Definition preference : list feature :=
  [AVX2; AVX1; FMA3; XOP; SSE42; SSE2; SSE].

Definition label (f : feature) : string :=
  match f with
  | AVX2 => "AVX2"
  | AVX1 => "AVX1"
  | FMA3 => "FMA3"
  | XOP => "XOP"
  | SSE42 => "SSE42"
  | SSE2 => "SSE2"
  | SSE => "SSE"
  | AES_NI => "AES"
  end.

(** The place of a label in the order of preference: 0 for the best, 7
    for the empty label. *)
Definition rank (text : list byte) : nat :=
  first_index (fun f => bool_decide (bytes (label f) = text)) preference.

Section BestFeature.
Context {tg : Target} {hw : Processor}.

(** AVX2 is chosen only together with AVX1. *)
Definition eligible (f : feature) : bool :=
  match f with
  | AVX2 => supports AVX1 && supports AVX2
  | _ => supports f
  end.

Definition best_feature : option feature := find eligible preference.

Definition best_label : string :=
  match target_arch with
  | ARM => "ARM"
  | X86 => match best_feature with
           | Some f => label f
           | None => ""
           end
  end.

(** The predicates the cascade evaluates, in order. *)
Definition best_probes : list feature :=
  AVX1 ::
  if supports AVX1
  then AVX2 :: (if supports AVX2 then [] else [AVX1])
  else AVX1 :: FMA3 ::
       if supports FMA3 then [] else XOP ::
       if supports XOP then [] else SSE42 ::
       if supports SSE42 then [] else SSE2 ::
       if supports SSE2 then [] else [SSE].

(** The CPUID instructions one call executes, in order: the two unused
    queries, then one per predicate evaluated. *)
Definition best_queries : list query :=
  match target_arch with
  | ARM => []
  | X86 => [(PROCESSOR_INFO, 0); (EXTENDED_FEATURES, 0)]
           ++ map (fun f => (feature_leaf f, 0)) best_probes
  end.

(** ** The function (lines 393-421) *)

Definition cpu_bestfeature (outbuf : list byte) (maxsz : Z)
  : Cpu (list byte) :=
  match target_arch with
  | ARM => lift (sprintf outbuf (bytes "ARM"))
  | X86 =>
      cpu_info <- cpuid PROCESSOR_INFO (replicate 4 0) ;;
      cpu_info_adv <- cpuid EXTENDED_FEATURES (replicate 4 0) ;;
      c <- andM has_avx1 has_avx2 ;;
      if c then lift (sprintf outbuf (bytes "AVX2")) else
      c <- has_avx1 ;;
      if c then lift (sprintf outbuf (bytes "AVX1")) else
      c <- has_fma3 ;;
      if c then lift (sprintf outbuf (bytes "FMA3")) else
      c <- has_xop ;;
      if c then lift (sprintf outbuf (bytes "XOP")) else
      c <- has_sse42 ;;
      if c then lift (sprintf outbuf (bytes "SSE42")) else
      c <- has_sse2 ;;
      if c then lift (sprintf outbuf (bytes "SSE2")) else
      c <- has_sse ;;
      if c then lift (sprintf outbuf (bytes "SSE")) else
      lift (store outbuf 0 NUL)
  end.

(** ** The run equation *)

(** Runs the cascade: every [has_*] call is rewritten by its run
    equation and the table entries it returns are split in cases. *)
Ltac bestfeature_run :=
  unfold cpu_bestfeature, best_label, best_queries, best_feature, best_probes;
  try unfold andM;
  destruct target_arch eqn:Harch; [|now rewrite app_nil_r];
  cbn [find preference eligible];
  repeat (mrun; try supports_cases);
  rewrite ?store_NUL_sprintf, ?logged_x86 by assumption;
  rewrite <- ?app_assoc; reflexivity.

Lemma cpu_bestfeature_run outbuf maxsz t :
  cpu_bestfeature outbuf maxsz t =
    lift (sprintf outbuf (bytes best_label)) (t ++ best_queries).
Proof. bestfeature_run. Qed.

#[export] Instance framed_cpu_bestfeature outbuf maxsz :
  Framed (cpu_bestfeature outbuf maxsz).
Proof. unfold cpu_bestfeature. destruct target_arch; apply _. Qed.

(** ** Facts about the specification *)

(** The labels are short and hold no NUL. *)
Lemma best_label_short : (length (bytes best_label) <= 5)%nat.
Proof.
  unfold best_label. destruct target_arch; [|cbn; lia].
  destruct best_feature as [[]|]; cbn; lia.
Qed.

Lemma best_label_nul_free : nul_free (bytes best_label).
Proof.
  unfold best_label. destruct target_arch; [|vm_compute; repeat constructor; discriminate].
  destruct best_feature as [[]|]; vm_compute; repeat constructor; discriminate.
Qed.

(** The rank of the label chosen is the number of entries of the list
    that are passed over. *)
Lemma rank_best_label :
  target_arch = X86 -> rank (bytes best_label) = first_index eligible preference.
Proof.
  intros Harch. unfold best_label, best_feature. rewrite Harch.
  cbn [find first_index preference].
  repeat match goal with
         | |- context [eligible ?f] => destruct (eligible f); [reflexivity|]
         end.
  reflexivity.
Qed.

Lemma best_feature_not_FMA3 : best_feature <> Some FMA3.
Proof.
  unfold best_feature. cbn [find preference eligible].
  destruct (supports AVX1) eqn:H1; cbn [andb].
  - destruct (supports AVX2); discriminate.
  - destruct (supports FMA3) eqn:H3.
    + apply supports_FMA3_AVX1 in H3. congruence.
    + repeat (destruct (supports _); try discriminate).
Qed.

Lemma best_label_not_FMA3 : best_label <> "FMA3"%string.
Proof.
  unfold best_label. destruct target_arch; [|discriminate].
  pose proof best_feature_not_FMA3.
  destruct best_feature as [[]|]; cbn [label]; try discriminate. congruence.
Qed.

Lemma bytes_inj s1 s2 : bytes s1 = bytes s2 -> s1 = s2.
Proof.
  unfold bytes. intros H.
  rewrite <- (string_of_list_byte_of_string s1), H.
  apply string_of_list_byte_of_string.
Qed.

Lemma best_queries_length : (length best_queries <= 9)%nat.
Proof.
  unfold best_queries, best_probes. destruct target_arch; [|cbn; lia].
  repeat (destruct (supports _)); cbn; lia.
Qed.

Lemma best_queries_x86_length :
  target_arch = X86 -> (4 <= length best_queries)%nat.
Proof.
  unfold best_queries, best_probes. intros ->.
  repeat (destruct (supports _)); cbn; lia.
Qed.

Lemma best_queries_leaves :
  Forall (fun q => q = (PROCESSOR_INFO, 0) \/ q = (EXTENDED_FEATURES, 0))
         best_queries.
Proof.
  unfold best_queries, best_probes. destruct target_arch; [|constructor].
  repeat (destruct (supports _)); cbn;
    repeat (apply Forall_cons_2; [auto|]); apply Forall_nil_2.
Qed.

Lemma best_queries_dead :
  target_arch = X86 ->
  take 2 best_queries = [(PROCESSOR_INFO, 0); (EXTENDED_FEATURES, 0)].
Proof. unfold best_queries. now intros ->. Qed.

(** ** Theorems *)

(** C2. Refinement: [cpu_bestfeature] writes the label of the first
    eligible entry of the preference list (AVX2 with AVX1, AVX1, FMA3,
    XOP, SSE42, SSE2, SSE; the fixed text ARM on an ARM build) followed by
    a NUL at the start of the buffer and leaves the rest of the buffer as
    it was; it overflows exactly when the buffer is not longer than the
    label. *)
Theorem cpu_bestfeature_refines (outbuf : list byte) (maxsz : Z) (t : trace) :
  cpu_bestfeature outbuf maxsz t =
    if decide (length (bytes best_label) < length outbuf)%nat
    then Ok (bytes best_label ++ NUL ::
               drop (S (length (bytes best_label))) outbuf,
             t ++ best_queries)
    else Fault BufferOverflow.
Proof.
  rewrite cpu_bestfeature_run. case_decide as Hlen.
  - now rewrite sprintf_ok.
  - rewrite sprintf_fault by lia. reflexivity.
Qed.

(** A buffer of six bytes is enough on every processor and target,
    whatever [maxsz] says: the call succeeds, the buffer keeps its size
    and reads back as the chosen label. *)
Theorem cpu_bestfeature_six_bytes (outbuf : list byte) (maxsz : Z) (t : trace) :
  (6 <= length outbuf)%nat ->
  exists buf,
    cpu_bestfeature outbuf maxsz t = Ok (buf, t ++ best_queries) /\
    length buf = length outbuf /\
    cstring buf = Ok (bytes best_label).
Proof.
  intros Hlen. pose proof best_label_short as Hs.
  rewrite cpu_bestfeature_run, sprintf_ok by lia.
  eexists. split; [reflexivity|]. split.
  - rewrite length_app. cbn. rewrite length_drop. lia.
  - apply cstring_app_nul, best_label_nul_free.
Qed.

(** C5. The label FMA3 is never produced: the FMA3 test comes after the
    AVX1 test and implies it, so its branch is dead. *)
Theorem cpu_bestfeature_never_FMA3 (outbuf : list byte) (maxsz : Z)
    (t t' : trace) (buf : list byte) :
  cpu_bestfeature outbuf maxsz t = Ok (buf, t') ->
  cstring buf <> Ok (bytes "FMA3").
Proof.
  rewrite cpu_bestfeature_run. intros H.
  apply lift_inv_ok in H as [H _].
  rewrite (sprintf_cstring _ _ _ best_label_nul_free H).
  intros [= Hb]. apply bytes_inj in Hb. now apply best_label_not_FMA3.
Qed.

(** C8. Precedence: when the AVX1 mask and the AVX2 bit are set the
    label is AVX2 whatever the other bits are, after four CPUID
    instructions. *)
Theorem cpu_bestfeature_avx2_first (outbuf : list byte) (maxsz : Z) (t : trace) :
  supports AVX1 = true -> supports AVX2 = true ->
  cpu_bestfeature outbuf maxsz t =
    lift (sprintf outbuf (bytes "AVX2"))
      (t ++ [(PROCESSOR_INFO, 0); (EXTENDED_FEATURES, 0);
             (PROCESSOR_INFO, 0); (EXTENDED_FEATURES, 0)]).
Proof.
  intros H1 H2. rewrite cpu_bestfeature_run.
  unfold best_label, best_queries, best_feature, best_probes.
  cbn [find preference eligible]. rewrite H1, H2.
  apply supports_bits in H1 as [-> _]. reflexivity.
Qed.

(** When no feature of the table is supported on an x86 build, the
    text is empty: only the first byte of the buffer is cleared, after all
    seven tests have run. *)
Theorem cpu_bestfeature_none (outbuf : list byte) (maxsz : Z) (t : trace) :
  target_arch = X86 ->
  (forall f, supports f = false) ->
  cpu_bestfeature outbuf maxsz t =
    lift (store outbuf 0 NUL)
      (t ++ [(PROCESSOR_INFO, 0); (EXTENDED_FEATURES, 0)]
         ++ replicate 7 (PROCESSOR_INFO, 0)).
Proof.
  intros Hx Hnone. rewrite cpu_bestfeature_run, store_NUL_sprintf.
  unfold best_label, best_queries, best_feature, best_probes.
  cbn [find preference eligible]. rewrite !Hnone, Hx. reflexivity.
Qed.

(** [maxsz] is not honoured: a caller that passes a buffer of
    [maxsz] bytes no longer than the label gets a write past its end. *)
Theorem cpu_bestfeature_ignores_maxsz (outbuf : list byte) (t : trace) :
  (length outbuf <= length (bytes best_label))%nat ->
  cpu_bestfeature outbuf (Z.of_nat (length outbuf)) t = Fault BufferOverflow.
Proof.
  intros H. rewrite cpu_bestfeature_run, sprintf_fault by lia. reflexivity.
Qed.

(** One call executes at most nine CPUID instructions, all on the
    leaves 1 and 7 with ECX = 0, appended to the trace; on x86 at least
    four, the first two being the queries whose results are never read;
    on ARM none. *)
Theorem cpu_bestfeature_queries (outbuf : list byte) (maxsz : Z)
    (t t' : trace) (buf : list byte) :
  cpu_bestfeature outbuf maxsz t = Ok (buf, t') ->
  exists qs,
    t' = t ++ qs /\
    (length qs <= 9)%nat /\
    Forall (fun q => q = (PROCESSOR_INFO, 0) \/ q = (EXTENDED_FEATURES, 0)) qs /\
    match target_arch with
    | X86 => (4 <= length qs)%nat /\
             take 2 qs = [(PROCESSOR_INFO, 0); (EXTENDED_FEATURES, 0)]
    | ARM => qs = []
    end.
Proof.
  rewrite cpu_bestfeature_run. intros H. apply lift_inv_ok in H as [_ ->].
  exists best_queries. split; [reflexivity|].
  split; [apply best_queries_length|]. split; [apply best_queries_leaves|].
  destruct target_arch eqn:Harch.
  - split; [now apply best_queries_x86_length | now apply best_queries_dead].
  - unfold best_queries. now rewrite Harch.
Qed.

End BestFeature.

(** ** The label depends on leaves 1 and 7 only *)

Lemma best_label_same_leaves {tg : Target} (hw1 hw2 : Processor) :
  same_leaf PROCESSOR_INFO hw1 hw2 ->
  same_leaf EXTENDED_FEATURES hw1 hw2 ->
  @best_label tg hw1 = @best_label tg hw2 /\
  @best_queries tg hw1 = @best_queries tg hw2.
Proof.
  intros H1 H7.
  assert (Hs : forall f, @supports tg hw1 f = @supports tg hw2 f)
    by (intros []; now apply supports_same_leaf).
  unfold best_label, best_queries, best_feature, best_probes.
  cbn [find preference eligible]. now rewrite !Hs.
Qed.

(** [cpu_bestfeature] reads nothing of the processor but the leaves
    1 and 7: processors that agree on both behave alike. *)
Theorem cpu_bestfeature_same_leaves {tg : Target} (hw1 hw2 : Processor)
    (outbuf : list byte) (maxsz : Z) (t : trace) :
  same_leaf PROCESSOR_INFO hw1 hw2 ->
  same_leaf EXTENDED_FEATURES hw1 hw2 ->
  @cpu_bestfeature tg hw1 outbuf maxsz t = @cpu_bestfeature tg hw2 outbuf maxsz t.
Proof.
  intros H1 H7. rewrite !cpu_bestfeature_run.
  now destruct (best_label_same_leaves hw1 hw2 H1 H7) as [-> ->].
Qed.

(** ** The choice is monotone *)

Section Monotone.
Context {tg : Target} (hw1 hw2 : Processor).
Hypothesis Hsub : forall f, @supports tg hw1 f = true -> @supports tg hw2 f = true.

Lemma eligible_mono f : @eligible tg hw1 f = true -> @eligible tg hw2 f = true.
Proof.
  destruct f; cbn [eligible]; try apply Hsub.
  rewrite !andb_true_iff. intros [H1 H2]. auto.
Qed.

Lemma best_label_mono :
  target_arch = X86 ->
  (rank (bytes (@best_label tg hw2)) <= rank (bytes (@best_label tg hw1)))%nat.
Proof.
  intros Harch. rewrite !rank_best_label by assumption.
  apply first_index_mono, eligible_mono.
Qed.

(** C9. The choice is monotone: on a processor that supports every
    feature another one supports, the label [cpu_bestfeature] writes is
    the same or comes earlier in the order of preference. *)
Theorem cpu_bestfeature_monotone (outbuf : list byte) (maxsz : Z) (t : trace) :
  target_arch = X86 -> (6 <= length outbuf)%nat ->
  exists out1 t1 out2 t2 s1 s2,
    @cpu_bestfeature tg hw1 outbuf maxsz t = Ok (out1, t1) /\
    @cpu_bestfeature tg hw2 outbuf maxsz t = Ok (out2, t2) /\
    cstring out1 = Ok s1 /\ cstring out2 = Ok s2 /\
    (rank s2 <= rank s1)%nat.
Proof.
  intros Harch Hlen.
  destruct (@cpu_bestfeature_six_bytes tg hw1 outbuf maxsz t Hlen)
    as (out1 & R1 & _ & C1).
  destruct (@cpu_bestfeature_six_bytes tg hw2 outbuf maxsz t Hlen)
    as (out2 & R2 & _ & C2).
  do 6 eexists. split_and!; [exact R1 | exact R2 | exact C1 | exact C2 |].
  now apply best_label_mono.
Qed.

End Monotone.

(** The trace records what the function learns. *)
#[export] Instance replay_cpu_bestfeature {tg : Target} (hw1 hw2 : Processor)
    outbuf maxsz :
  Replay hw1 hw2 (@cpu_bestfeature tg hw1 outbuf maxsz)
    (@cpu_bestfeature tg hw2 outbuf maxsz).
Proof. unfold cpu_bestfeature. destruct target_arch; apply _. Qed.

(** ** The theorems on concrete machines *)

Lemma cpu_bestfeature_six_bytes_witness :
  exists buf,
    @cpu_bestfeature linux_x86 nehalem (replicate 6 NUL) 6 [] =
      Ok (buf, [] ++ @best_queries linux_x86 nehalem) /\
    length buf = length (replicate 6 NUL) /\
    cstring buf = Ok (bytes (@best_label linux_x86 nehalem)).
Proof.
  apply (@cpu_bestfeature_six_bytes linux_x86 nehalem (replicate 6 NUL) 6 []).
  vm_compute. lia.
Defined.

Lemma cpu_bestfeature_never_FMA3_witness :
  cstring (bytes "AVX1" ++ replicate 12 NUL) <> Ok (bytes "FMA3").
Proof.
  apply (@cpu_bestfeature_never_FMA3 linux_x86 piledriver (replicate 16 NUL) 16
           [] [(1, 0); (7, 0); (1, 0); (7, 0); (1, 0)]).
  vm_compute. reflexivity.
Defined.

Lemma cpu_bestfeature_avx2_first_witness :
  @cpu_bestfeature linux_x86 haswell (replicate 8 NUL) 8 [] =
    lift (sprintf (replicate 8 NUL) (bytes "AVX2"))
      ([] ++ [(PROCESSOR_INFO, 0); (EXTENDED_FEATURES, 0);
              (PROCESSOR_INFO, 0); (EXTENDED_FEATURES, 0)]).
Proof.
  apply (@cpu_bestfeature_avx2_first linux_x86 haswell (replicate 8 NUL) 8 []);
    vm_compute; reflexivity.
Defined.

Lemma cpu_bestfeature_none_witness :
  @cpu_bestfeature linux_x86 zero_processor (replicate 8 Byte.x41) 8 [] =
    lift (store (replicate 8 Byte.x41) 0 NUL)
      ([] ++ [(PROCESSOR_INFO, 0); (EXTENDED_FEATURES, 0)]
          ++ replicate 7 (PROCESSOR_INFO, 0)).
Proof.
  apply (@cpu_bestfeature_none linux_x86 zero_processor (replicate 8 Byte.x41) 8 []).
  - reflexivity.
  - intros []; vm_compute; reflexivity.
Defined.

Lemma cpu_bestfeature_ignores_maxsz_witness :
  @cpu_bestfeature linux_x86 haswell (replicate 4 NUL)
     (Z.of_nat (length (replicate 4 NUL))) [] = Fault BufferOverflow.
Proof.
  apply (@cpu_bestfeature_ignores_maxsz linux_x86 haswell (replicate 4 NUL) []).
  vm_compute. lia.
Defined.

Lemma cpu_bestfeature_queries_witness :
  exists qs,
    [(1, 0); (7, 0); (1, 0); (7, 0); (1, 0)] = [] ++ qs /\
    (length qs <= 9)%nat /\
    Forall (fun q => q = (PROCESSOR_INFO, 0) \/ q = (EXTENDED_FEATURES, 0)) qs /\
    (4 <= length qs)%nat /\
    take 2 qs = [(PROCESSOR_INFO, 0); (EXTENDED_FEATURES, 0)].
Proof.
  apply (@cpu_bestfeature_queries linux_x86 sandybridge (replicate 8 NUL) 8 []
           [(1, 0); (7, 0); (1, 0); (7, 0); (1, 0)]
           (bytes "AVX1" ++ replicate 4 NUL)).
  vm_compute. reflexivity.
Defined.

Lemma cpu_bestfeature_same_leaves_witness :
  @cpu_bestfeature linux_x86 amd_xop_only (replicate 8 NUL) 8 [] =
  @cpu_bestfeature linux_x86 zero_processor (replicate 8 NUL) 8 [].
Proof.
  apply (@cpu_bestfeature_same_leaves linux_x86 amd_xop_only zero_processor);
    vm_compute; reflexivity.
Defined.

Lemma cpu_bestfeature_monotone_witness :
  exists out1 t1 out2 t2 s1 s2,
    @cpu_bestfeature linux_x86 core2 (replicate 8 NUL) 8 [] = Ok (out1, t1) /\
    @cpu_bestfeature linux_x86 haswell (replicate 8 NUL) 8 [] = Ok (out2, t2) /\
    cstring out1 = Ok s1 /\ cstring out2 = Ok s2 /\
    (rank s2 <= rank s1)%nat.
Proof.
  apply (@cpu_bestfeature_monotone linux_x86 core2 haswell);
    [intros []; vm_compute; congruence | reflexivity | cbn; lia].
Defined.

(** The labels of the sample machines. *)
Example best_labels_of_machines :
  map (fun hw => @best_label linux_x86 hw)
      [haswell; sandybridge; piledriver; nehalem; core2; pentium3;
       zero_processor] =
  ["AVX2"; "AVX1"; "AVX1"; "SSE42"; "SSE2"; "SSE"; ""]%string /\
  @best_label linux_arm haswell = "ARM"%string.
Proof. split; vm_compute; reflexivity. Qed.
