(* ===== verification/Brand.v ===== *)
(** * Identification strings: [cpuid_get_highest_function_number],
    [cpuid_get_highest_function], [cpu_brand_string]

    Lines 364-391 and 423-437 of [src/sysinfos.c].  The abstract
    specification is [highest_function] (EAX of leaf 0 as an unsigned
    word), [era_text] (the name table with its default) and
    [brand_bytes] (the 48 bytes of the three brand-string leaves). *)

From Stdlib Require Import ZArith Lia List Bool Strings.String.
From coqutil Require Import Byte Word.LittleEndianList.
From stdpp Require Import base list.
From S2P Require Import Prelude CTypes Printf Cpuid Machines.

Local Open Scope Z_scope.
Local Open Scope cmonad_scope.

(** ** Abstract specification *)

(** The sixteen bytes of one answer, in the order EAX, EBX, ECX, EDX,
    each register least significant byte first. *)
Definition regs_bytes (r : regs) : list byte :=
  le_split 4 (r_eax r) ++ le_split 4 (r_ebx r) ++
  le_split 4 (r_ecx r) ++ le_split 4 (r_edx r).

(** The text [cpuid_get_highest_function] produces for the number [fn]. *)
Definition era_text (fn : Z) : list byte :=
  if fn =? 0x16 then bytes "Skylake"
  else if fn =? 0xd then bytes "IvyBridge"
  else if fn =? 0xb then bytes "Corei7"
  else if fn =? 0xa then bytes "Core2"
  else bytes "undef " ++ fmt_x fn.

Section Brand.
Context {tg : Target} {hw : Processor}.

Definition highest_function : Z :=
  match target_arch with
  | X86 => r_eax (cpuid_insn VENDOR_ID 0)
  | ARM => 0
  end.

Definition brand_bytes : list byte :=
  regs_bytes (cpuid_insn PROCESSOR_BRAND_STRING_1 0) ++
  regs_bytes (cpuid_insn PROCESSOR_BRAND_STRING_2 0) ++
  regs_bytes (cpuid_insn PROCESSOR_BRAND_STRING_3 0).

(** The test [cpu_info[EAX_Reg] >= 4] of [cpu_brand_string], on the [int]
    the register was stored in. *)
Definition brand_guard : bool :=
  match target_arch with
  | X86 => 4 <=? to_int32 (r_eax (cpuid_insn VENDOR_ID 0))
  | ARM => false
  end.

(** The three brand-string leaves hold the 48 bytes [text], sixteen per
    leaf, four per register. *)
Definition brand_text_is (text : list byte) : Prop :=
  length text = 48%nat /\
  cpuid_insn PROCESSOR_BRAND_STRING_1 0 =
    wrap_regs (regs_of_text (take 16 text)) /\
  cpuid_insn PROCESSOR_BRAND_STRING_2 0 =
    wrap_regs (regs_of_text (take 16 (drop 16 text))) /\
  cpuid_insn PROCESSOR_BRAND_STRING_3 0 =
    wrap_regs (regs_of_text (take 16 (drop 32 text))).

(** A name of fewer than 48 bytes, padded with NUL to the 48 bytes of the
    leaves. *)
Definition padded_name (name : list byte) : list byte :=
  name ++ replicate (48 - length name) NUL.

Definition brand_queries : list query :=
  [(VENDOR_ID, 0); (PROCESSOR_BRAND_STRING_1, 0);
   (PROCESSOR_BRAND_STRING_2, 0); (PROCESSOR_BRAND_STRING_3, 0)].

(** ** The functions *)

(** Lines 364-369.  The local array is [uint32_t]: what [cpuid] stored as
    an [int] is read back as an unsigned word. *)
Definition cpuid_get_highest_function_number : Cpu Z :=
  cpu_info <- cpuid VENDOR_ID (replicate 4 0) ;;
  x <- lift (load cpu_info EAX_Reg) ;;
  ret (to_uint32 x).

(** Lines 371-391. *)
Definition cpuid_get_highest_function (s : list byte) : Cpu (list byte) :=
  fn <- cpuid_get_highest_function_number ;;
  if fn =? 0x16 then lift (strcpy s (bytes "Skylake"))
  else if fn =? 0xd then lift (strcpy s (bytes "IvyBridge"))
  else if fn =? 0xb then lift (strcpy s (bytes "Corei7"))
  else if fn =? 0xa then lift (strcpy s (bytes "Core2"))
  else lift (sprintf s (bytes "undef " ++ fmt_x fn)).

(** Lines 423-437.  The three queries reuse the array of the first. *)
Definition cpu_brand_string (s : list byte) : Cpu (list byte) :=
  cpu_info <- cpuid VENDOR_ID (replicate 4 0) ;;
  x <- lift (load cpu_info EAX_Reg) ;;
  if 4 <=? x then
    cpu_info <- cpuid PROCESSOR_BRAND_STRING_1 cpu_info ;;
    s <- lift (memcpy s 0 (int_bytes cpu_info)) ;;
    cpu_info <- cpuid PROCESSOR_BRAND_STRING_2 cpu_info ;;
    s <- lift (memcpy s 16 (int_bytes cpu_info)) ;;
    cpu_info <- cpuid PROCESSOR_BRAND_STRING_3 cpu_info ;;
    lift (memcpy s 32 (int_bytes cpu_info))
  else ret s.

End Brand.

(** ** Bytes of the stored registers *)

Lemma le_split_to_int32 z : le_split 4 (to_int32 z) = le_split 4 z.
Proof.
  rewrite (le_split_mod (to_int32 z)), (le_split_mod z).
  change (2 ^ (Z.of_nat 4 * 8)) with (2 ^ 32). now rewrite to_int32_mod.
Qed.

Lemma int_bytes_regs_ints r : int_bytes (regs_ints r) = regs_bytes r.
Proof.
  unfold int_bytes, regs_ints, regs_bytes. cbn [flat_map].
  now rewrite !le_split_to_int32, app_nil_r.
Qed.

Lemma regs_bytes_length r : length (regs_bytes r) = 16%nat.
Proof. unfold regs_bytes. now rewrite !length_app, !length_le_split. Qed.

#[export] Hint Rewrite int_bytes_regs_ints regs_bytes_length : clen.

Lemma era_text_length fn : is_uint32 fn -> (length (era_text fn) <= 14)%nat.
Proof.
  intros _. unfold era_text.
  repeat (destruct (_ =? _); [cbn; lia|]).
  rewrite length_app. change (length (bytes "undef ")) with 6%nat.
  pose proof (fmt_x_length fn). lia.
Qed.

Lemma era_text_nul_free fn : nul_free (era_text fn).
Proof.
  unfold era_text.
  repeat (destruct (_ =? _); [vm_compute; repeat constructor; discriminate|]).
  apply Forall_app. split; [|apply fmt_x_nul_free].
  vm_compute. repeat constructor; discriminate.
Qed.

Section BrandLemmas.
Context {tg : Target} {hw : Processor}.

Lemma highest_function_range : is_uint32 highest_function.
Proof.
  unfold highest_function. destruct target_arch; [|vm_compute; intuition discriminate].
  apply cpuid_insn_wf.
Qed.

Lemma brand_bytes_length : length brand_bytes = 48%nat.
Proof. unfold brand_bytes. now rewrite !length_app, !regs_bytes_length. Qed.

(** ** Run equations *)

Lemma cpuid_get_highest_function_number_run t :
  cpuid_get_highest_function_number t =
    Ok (highest_function, logged VENDOR_ID t).
Proof.
  unfold cpuid_get_highest_function_number, highest_function.
  rewrite bind_unfold, cpuid_local.
  destruct target_arch; cbn; [|reflexivity].
  rewrite to_uint32_to_int32, to_uint32_small; [reflexivity|].
  apply cpuid_insn_wf.
Qed.

Lemma cpuid_get_highest_function_run s t :
  cpuid_get_highest_function s t =
    lift (sprintf s (era_text highest_function)) (logged VENDOR_ID t).
Proof.
  unfold cpuid_get_highest_function, era_text.
  rewrite bind_unfold, cpuid_get_highest_function_number_run.
  cbn beta iota. repeat (destruct (_ =? _); [reflexivity|]). reflexivity.
Qed.

(** Runs [cpu_brand_string]: the guard, then the three queries and
    copies, each copy either succeeding or overflowing. *)
Ltac brand_string_run :=
  unfold cpu_brand_string, brand_guard, brand_bytes;
  rewrite bind_unfold, cpuid_local;
  destruct target_arch eqn:Harch;
  cbn [lift load lookup list_lookup EAX_Reg regs_ints replicate];
  mrun; [|reflexivity];
  destruct (4 <=? _); [|reflexivity];
  rewrite memcpy_app, regs_bytes_length;
  rewrite bind_unfold, cpuid_x86 by easy; cbn beta iota;
  rewrite bind_unfold, int_bytes_regs_ints;
  destruct (memcpy _ 0 _) as [?s1|?e]; cbn [lift outcome_bind]; [|reflexivity];
  rewrite memcpy_app, regs_bytes_length;
  rewrite bind_unfold, cpuid_x86 by easy; cbn beta iota;
  rewrite bind_unfold, int_bytes_regs_ints; cbn [Nat.add];
  destruct (memcpy _ 16 _) as [?s2|?e]; cbn [lift outcome_bind]; [|reflexivity];
  rewrite bind_unfold, cpuid_x86 by easy; cbn beta iota;
  rewrite int_bytes_regs_ints, logged_x86 by assumption;
  unfold brand_queries; rewrite <- !app_assoc; reflexivity.

Lemma cpu_brand_string_run s t :
  cpu_brand_string s t =
    if brand_guard
    then lift (memcpy s 0 brand_bytes) (t ++ brand_queries)
    else Ok (s, logged VENDOR_ID t).
Proof. brand_string_run. Qed.

(** The three functions only append to the trace. *)
#[export] Instance framed_highest_function_number :
  Framed cpuid_get_highest_function_number.
Proof. unfold cpuid_get_highest_function_number. apply _. Qed.

#[export] Instance framed_highest_function s :
  Framed (cpuid_get_highest_function s).
Proof. unfold cpuid_get_highest_function. apply _. Qed.

#[export] Instance framed_cpu_brand_string s : Framed (cpu_brand_string s).
Proof. unfold cpu_brand_string. apply _. Qed.

Lemma brand_guard_true_iff :
  brand_guard = true <->
  target_arch = X86 /\ 4 <= r_eax (cpuid_insn VENDOR_ID 0) < 2 ^ 31.
Proof.
  unfold brand_guard.
  destruct target_arch; [|split; [discriminate | intros [? _]; discriminate]].
  pose proof (cpuid_insn_wf VENDOR_ID 0) as (Hr & _).
  unfold is_uint32 in Hr. rewrite Z.leb_le.
  destruct (Z.lt_ge_cases (r_eax (cpuid_insn VENDOR_ID 0)) (2 ^ 31)) as [Hlt|Hge].
  - rewrite to_int32_small by (unfold is_int32; lia). intuition lia.
  - pose proof (to_int32_mod (r_eax (cpuid_insn VENDOR_ID 0))) as Hm.
    pose proof (to_int32_range (r_eax (cpuid_insn VENDOR_ID 0))) as Hi.
    unfold is_int32 in Hi.
    assert (to_int32 (r_eax (cpuid_insn VENDOR_ID 0)) < 0).
    { destruct (Z.lt_ge_cases (to_int32 (r_eax (cpuid_insn VENDOR_ID 0))) 0);
        [assumption|].
      rewrite !Z.mod_small in Hm by lia. lia. }
    intuition lia.
Qed.

(** ** Theorems *)

(** [cpuid_get_highest_function_number] returns EAX of leaf 0 as an
    unsigned 32-bit word (0 on ARM), though [cpuid] stored it as an [int],
    after one CPUID instruction on leaf 0. *)
Theorem highest_function_number_unsigned (t : trace) :
  cpuid_get_highest_function_number t =
    Ok (highest_function, logged VENDOR_ID t) /\
  is_uint32 highest_function.
Proof.
  split; [apply cpuid_get_highest_function_number_run |
          apply highest_function_range].
Qed.

(** A buffer of 15 bytes is always enough for
    [cpuid_get_highest_function]: the call succeeds, the buffer keeps its
    size and reads back as the text of the name table ([era_text]). *)
Theorem cpuid_get_highest_function_fits (s : list byte) (t : trace) :
  (15 <= length s)%nat ->
  exists s',
    cpuid_get_highest_function s t = Ok (s', logged VENDOR_ID t) /\
    length s' = length s /\
    cstring s' = Ok (era_text highest_function).
Proof.
  intros Hlen.
  pose proof (era_text_length highest_function highest_function_range).
  rewrite cpuid_get_highest_function_run, sprintf_ok by lia.
  eexists. split; [reflexivity|]. split.
  - rewrite length_app. cbn. rewrite length_drop. lia.
  - apply cstring_app_nul, era_text_nul_free.
Qed.

(** C38. For a highest function number outside 0x16, 0xd, 0xb and 0xa the
    text is [undef ] followed by the number in lower-case hexadecimal
    without prefix. *)
Theorem cpuid_get_highest_function_undef (s : list byte) (t : trace) :
  highest_function <> 0x16 -> highest_function <> 0xd ->
  highest_function <> 0xb -> highest_function <> 0xa ->
  cpuid_get_highest_function s t =
    lift (sprintf s (bytes "undef " ++ fmt_x highest_function))
         (logged VENDOR_ID t) /\
  hex_value (fmt_x highest_function) = highest_function.
Proof.
  intros H1 H2 H3 H4. split.
  - rewrite cpuid_get_highest_function_run. unfold era_text.
    now rewrite (proj2 (Z.eqb_neq _ _) H1), (proj2 (Z.eqb_neq _ _) H2),
      (proj2 (Z.eqb_neq _ _) H3), (proj2 (Z.eqb_neq _ _) H4).
  - rewrite fmt_x_value. apply to_uint32_small, highest_function_range.
Qed.

(** The names of the table. *)
Definition known_eras : list (Z * string) :=
  [(0x16, "Skylake"); (0xd, "IvyBridge"); (0xb, "Corei7"); (0xa, "Core2")]%string.

(** For the four known numbers [cpuid_get_highest_function] copies
    the name of the table. *)
Theorem cpuid_get_highest_function_known (s : list byte) (t : trace)
    (code : Z) (name : string) :
  In (code, name) known_eras ->
  highest_function = code ->
  cpuid_get_highest_function s t =
    lift (strcpy s (bytes name)) (logged VENDOR_ID t).
Proof.
  intros Hin Hcode. rewrite cpuid_get_highest_function_run, Hcode.
  cbn in Hin. repeat (destruct Hin as [[= <- <-]|Hin]; [reflexivity|]).
  contradiction.
Qed.

(** C6. When leaf 0 reports a highest function of at least 4 (below
    2^31) on x86, [cpu_brand_string] executes leaf 0 and the three
    brand-string leaves in order and writes their 48 bytes at the start of
    the buffer; the bytes behind them are kept and no terminator is
    written. *)
Theorem cpu_brand_string_writes (s : list byte) (t : trace) :
  target_arch = X86 ->
  4 <= r_eax (cpuid_insn VENDOR_ID 0) < 2 ^ 31 ->
  (48 <= length s)%nat ->
  cpu_brand_string s t = Ok (brand_bytes ++ drop 48 s, t ++ brand_queries).
Proof.
  intros Hx Heax Hlen. rewrite cpu_brand_string_run.
  rewrite (proj2 brand_guard_true_iff) by auto.
  rewrite memcpy_ok by (rewrite brand_bytes_length; lia).
  now rewrite brand_bytes_length.
Qed.

(** C7. Otherwise (ARM, a highest function below 4, or one with bit 31
    set, which the signed comparison reads as negative) the buffer is left
    as the caller supplied it and only leaf 0 is queried. *)
Theorem cpu_brand_string_untouched (s : list byte) (t : trace) :
  target_arch = ARM \/ r_eax (cpuid_insn VENDOR_ID 0) < 4 \/
    2 ^ 31 <= r_eax (cpuid_insn VENDOR_ID 0) ->
  cpu_brand_string s t = Ok (s, logged VENDOR_ID t).
Proof.
  intros H. rewrite cpu_brand_string_run.
  destruct brand_guard eqn:Hg; [|reflexivity].
  apply brand_guard_true_iff in Hg as [Hx Hr].
  destruct H as [Ha|[Hlt|Hge]]; [congruence | lia | lia].
Qed.

(** With the guard passed, a buffer shorter than 48 bytes is
    overflowed. *)
Theorem cpu_brand_string_overflow (s : list byte) (t : trace) :
  target_arch = X86 ->
  4 <= r_eax (cpuid_insn VENDOR_ID 0) < 2 ^ 31 ->
  (length s < 48)%nat ->
  cpu_brand_string s t = Fault BufferOverflow.
Proof.
  intros Hx Heax Hlen. rewrite cpu_brand_string_run.
  rewrite (proj2 brand_guard_true_iff) by auto.
  now rewrite memcpy_fault by (rewrite brand_bytes_length; lia).
Qed.

(** [cpu_brand_string] never queries leaf 0x80000000, the leaf that
    announces whether the brand-string leaves exist: its queries are leaf
    0 and, when the guard passes, the leaves 0x80000002 to 0x80000004. *)
Theorem cpu_brand_string_queries (s s' : list byte) (t t' : trace) :
  cpu_brand_string s t = Ok (s', t') ->
  exists qs, t' = t ++ qs /\
    Forall (fun q => In q brand_queries) qs /\
    ~ In (HIGHEST_EXTENDED_FUNCTION, 0) qs.
Proof.
  rewrite cpu_brand_string_run. destruct brand_guard.
  - intros H. apply lift_inv_ok in H as [_ ->].
    exists brand_queries. split; [reflexivity|]. split.
    + apply List.Forall_forall. auto.
    + cbn. intros H. repeat (destruct H as [[=]|H]). exact H.
  - intros [= <- <-]. unfold logged. destruct target_arch.
    + eexists. split; [reflexivity|]. split.
      * repeat constructor.
      * cbn. intros [[=]|[]].
    + exists []. rewrite app_nil_r. repeat split; [constructor | intros []].
Qed.

(** ** The brand string as text *)

(** Four bytes survive the trip through a register. *)
Lemma le_split_combine_word b :
  length b = 4%nat -> le_split 4 (to_uint32 (le_combine b)) = b.
Proof.
  intros H. unfold to_uint32. rewrite <- (le_split_mod _ 4).
  now apply split_le_combine'.
Qed.

(** Sixteen bytes survive the trip through the four registers. *)
Lemma regs_bytes_of_text b :
  length b = 16%nat -> regs_bytes (wrap_regs (regs_of_text b)) = b.
Proof.
  intros H. unfold regs_bytes, wrap_regs, regs_of_text.
  cbn [r_eax r_ebx r_ecx r_edx].
  rewrite !le_split_combine_word
    by (rewrite length_take, ?length_drop; lia).
  do 17 (destruct b as [|? b]; try discriminate). reflexivity.
Qed.

Lemma brand_bytes_text text : brand_text_is text -> brand_bytes = text.
Proof.
  unfold brand_bytes. intros (Hlen & -> & -> & ->).
  rewrite !regs_bytes_of_text
    by (rewrite length_take, ?length_drop; lia).
  rewrite (take_ge (drop 32 text)) by (rewrite length_drop; lia).
  change 32%nat with (16 + 16)%nat. rewrite <- drop_drop.
  now rewrite !take_drop.
Qed.

Lemma padded_name_length name :
  (length name <= 48)%nat -> length (padded_name name) = 48%nat.
Proof. intros H. unfold padded_name. rewrite length_app, length_replicate. lia. Qed.

(** A padded name in front of anything reads as the name. *)
Lemma cstring_padded_name name rest :
  nul_free name -> (length name < 48)%nat ->
  cstring (padded_name name ++ rest) = Ok name.
Proof.
  intros Hnf Hlen. unfold padded_name.
  destruct (48 - length name)%nat as [|k] eqn:E; [lia|].
  cbn [replicate]. rewrite <- !app_assoc. cbn [app].
  now apply cstring_app_nul.
Qed.

(** The first [j] bytes of a padded name, in front of a NUL, read as the
    first [j] bytes of the name. *)
Lemma cstring_take_padded_name j name rest :
  nul_free name ->
  cstring (take j (padded_name name) ++ NUL :: rest) = Ok (take j name).
Proof.
  intros Hnf. unfold padded_name. rewrite take_app, take_replicate.
  rewrite <- app_assoc.
  destruct (Nat.min _ _) as [|k]; cbn [replicate app];
    now apply cstring_app_nul, Forall_take.
Qed.

(** C29. Round trip of the brand string: when the guard passes on a
    processor whose three brand-string leaves hold a name of fewer than
    48 bytes padded with NUL (four bytes per register, least significant
    first), [cpu_brand_string] leaves that name in a buffer of at least
    48 bytes, terminated by the padding. *)
Theorem cpu_brand_string_name (s : list byte) (t : trace) name :
  brand_guard = true -> brand_text_is (padded_name name) ->
  nul_free name -> (length name < 48 <= length s)%nat ->
  exists s',
    cpu_brand_string s t = Ok (s', t ++ brand_queries) /\
    cstring s' = Ok name /\ length s' = length s.
Proof.
  intros Hg Htext Hnf Hlen. rewrite cpu_brand_string_run, Hg.
  rewrite (brand_bytes_text _ Htext).
  pose proof (padded_name_length name ltac:(lia)) as Hp.
  rewrite memcpy_ok by lia. cbn [lift take app]. eexists.
  split; [reflexivity|]. split.
  - now apply cstring_padded_name.
  - apply length_take_drop_splice. lia.
Qed.

End BrandLemmas.

(** ** The trace records what the functions learn *)

Section BrandReplay.
Context {tg : Target} (hw1 hw2 : Processor).

#[export] Instance replay_highest_function_number :
  Replay hw1 hw2 (@cpuid_get_highest_function_number tg hw1)
    (@cpuid_get_highest_function_number tg hw2).
Proof. unfold cpuid_get_highest_function_number. apply _. Qed.

#[export] Instance replay_highest_function s :
  Replay hw1 hw2 (@cpuid_get_highest_function tg hw1 s)
    (@cpuid_get_highest_function tg hw2 s).
Proof. unfold cpuid_get_highest_function. apply _. Qed.

#[export] Instance replay_cpu_brand_string s :
  Replay hw1 hw2 (@cpu_brand_string tg hw1 s) (@cpu_brand_string tg hw2 s).
Proof. unfold cpu_brand_string. apply _. Qed.

End BrandReplay.

(** ** The theorems on concrete machines *)

Lemma cpuid_get_highest_function_fits_witness :
  exists s',
    @cpuid_get_highest_function linux_x86 high_bit_leaf0 (replicate 15 NUL) [] =
      Ok (s', @logged linux_x86 VENDOR_ID []) /\
    length s' = length (replicate 15 NUL) /\
    cstring s' = Ok (era_text (@highest_function linux_x86 high_bit_leaf0)).
Proof.
  apply (@cpuid_get_highest_function_fits linux_x86 high_bit_leaf0
           (replicate 15 NUL) []).
  vm_compute. lia.
Defined.

Lemma cpuid_get_highest_function_undef_witness :
  @cpuid_get_highest_function linux_x86 high_bit_leaf0 (replicate 16 NUL) [] =
    lift (sprintf (replicate 16 NUL)
            (bytes "undef " ++ fmt_x (@highest_function linux_x86 high_bit_leaf0)))
         (@logged linux_x86 VENDOR_ID []) /\
  hex_value (fmt_x (@highest_function linux_x86 high_bit_leaf0)) =
    @highest_function linux_x86 high_bit_leaf0.
Proof.
  apply (@cpuid_get_highest_function_undef linux_x86 high_bit_leaf0
           (replicate 16 NUL) []); vm_compute; discriminate.
Defined.

Lemma cpuid_get_highest_function_known_witness :
  @cpuid_get_highest_function linux_x86 haswell (replicate 16 NUL) [] =
    lift (strcpy (replicate 16 NUL) (bytes "IvyBridge"))
         (@logged linux_x86 VENDOR_ID []).
Proof.
  apply (@cpuid_get_highest_function_known linux_x86 haswell
           (replicate 16 NUL) [] 0xd "IvyBridge").
  - right. left. reflexivity.
  - vm_compute. reflexivity.
Defined.

Lemma cpu_brand_string_writes_witness :
  @cpu_brand_string linux_x86 haswell (replicate 49 NUL) [] =
    Ok (@brand_bytes haswell ++ drop 48 (replicate 49 NUL), [] ++ brand_queries).
Proof.
  apply (@cpu_brand_string_writes linux_x86 haswell (replicate 49 NUL) []).
  - reflexivity.
  - vm_compute. split; [discriminate | reflexivity].
  - vm_compute. lia.
Defined.

Lemma cpu_brand_string_untouched_witness :
  @cpu_brand_string linux_x86 high_bit_leaf0 (replicate 48 Byte.x41) [] =
    Ok (replicate 48 Byte.x41, @logged linux_x86 VENDOR_ID []).
Proof.
  apply (@cpu_brand_string_untouched linux_x86 high_bit_leaf0
           (replicate 48 Byte.x41) []).
  right. right. vm_compute. discriminate.
Defined.

Lemma cpu_brand_string_overflow_witness :
  @cpu_brand_string linux_x86 haswell (replicate 47 NUL) [] =
    Fault BufferOverflow.
Proof.
  apply (@cpu_brand_string_overflow linux_x86 haswell (replicate 47 NUL) []).
  - reflexivity.
  - vm_compute. split; [discriminate | reflexivity].
  - vm_compute. lia.
Defined.

Lemma cpu_brand_string_queries_witness :
  exists qs, [] ++ brand_queries = [] ++ qs /\
    Forall (fun q => In q brand_queries) qs /\
    ~ In (HIGHEST_EXTENDED_FUNCTION, 0) qs.
Proof.
  apply (@cpu_brand_string_queries linux_x86 haswell (replicate 49 NUL)
           (@brand_bytes haswell ++ drop 48 (replicate 49 NUL))
           [] ([] ++ brand_queries)).
  vm_compute. reflexivity.
Defined.

Lemma cpu_brand_string_name_witness :
  exists s',
    @cpu_brand_string linux_x86 haswell (replicate 48 Byte.xff) [] =
      Ok (s', [] ++ brand_queries) /\
    cstring s' = Ok (bytes "Intel(R) Core(TM) i7-4770 CPU @ 3.40GHz") /\
    length s' = length (replicate 48 Byte.xff).
Proof.
  apply (@cpu_brand_string_name linux_x86 haswell (replicate 48 Byte.xff) []
           (bytes "Intel(R) Core(TM) i7-4770 CPU @ 3.40GHz")).
  - reflexivity.
  - vm_compute. repeat split.
  - by_decide.
  - vm_compute. lia.
Defined.

(** The brand string of the Haswell sample reads back from a zeroed
    buffer of 49 bytes. *)
Example haswell_brand_string :
  outcome_bind
    (outcome_map fst (@cpu_brand_string linux_x86 haswell (replicate 49 NUL) []))
    cstring
  = Ok (bytes "Intel(R) Core(TM) i7-4770 CPU @ 3.40GHz").
Proof. vm_compute. reflexivity. Qed.

(** The label names the highest basic leaf, not the processor: the Sandy
    Bridge, the Haswell and the Piledriver samples report [0xd] and are
    all called IvyBridge, the Zen samples report [0x10] and get no
    name. *)
Example era_of_machines :
  map (fun hw : Processor =>
         outcome_bind
           (outcome_map fst
              (@cpuid_get_highest_function linux_x86 hw (replicate 16 NUL) []))
           cstring)
    [core2; nehalem; sandybridge; haswell; piledriver; zen2; zen3] =
  map (fun name => Ok (bytes name))
    ["Core2"; "Corei7"; "IvyBridge"; "IvyBridge"; "IvyBridge"; "undef 10";
     "undef 10"]%string.
Proof. vm_compute. reflexivity. Qed.

(** A highest function number that needs eight digits fills fifteen
    bytes: a buffer of fourteen is overflowed. *)
Example highest_function_needs_15 :
  @cpuid_get_highest_function linux_x86 high_bit_leaf0 (replicate 14 NUL) [] =
    Fault BufferOverflow /\
  outcome_bind
    (outcome_map fst
       (@cpuid_get_highest_function linux_x86 high_bit_leaf0 (replicate 15 NUL) []))
    cstring = Ok (bytes "undef 80000000").
Proof. split; vm_compute; reflexivity. Qed.
