(* ===== verification/Stdio.v ===== *)
(** * Streams, files and the heap: the part of the C library the readers use

    The state of the readers of procfs and sysfs is [stdio]: the files that
    exist (path to contents), the streams that are open (handle to the
    input not yet read), the number of streams the process may have open
    at a time, and the number of heap blocks [getdelim] has allocated and
    [free] has not released.  [fopen], [fclose], [getdelim],
    [free] and [fscanf_d] (the call [fscanf(fd, "%d", &v)]) are
    computations of the monad [IO]; a call on a handle that is not an open
    stream faults with [BadStream]. *)

From Stdlib Require Import ZArith Lia List Bool Strings.Byte.
From coqutil Require Import Byte.
From stdpp Require Import base list gmap strings.
From S2P Require Import Prelude CTypes CString.

Local Open Scope Z_scope.
Local Open Scope cmonad_scope.

(** ** Definitions *)

Record stdio := mk_stdio {
  open_max : nat;
  files : gmap string (list byte);
  streams : gmap nat (list byte);
  heap_blocks : nat
}.

Definition IO : Type -> Type := M stdio.

(** The value of [FOPEN_MAX] in the C library the miner is built with. *)
Definition FOPEN_MAX : nat := 16.

(** The files [fopen] can open: all of them while the process has fewer
    than [open_max] streams open, none once the limit is reached. *)
Definition visible (s : stdio) : gmap string (list byte) :=
  if decide (size (streams s) < open_max s)%nat then files s else ∅.

(** [fopen(path, "r")]: a fresh handle on the contents, or the null
    pointer when the file does not exist or the process has as many
    streams open as it may. *)
Definition fopen (path : string) : IO (option nat) :=
  fun s =>
    match visible s !! path with
    | None => Ok (None, s)
    | Some contents =>
        let fd := fresh (dom (streams s)) in
        Ok (Some fd,
            mk_stdio (open_max s) (files s) (<[fd := contents]> (streams s)) (heap_blocks s))
    end.

(** [fclose(fd)]. *)
Definition fclose (fd : nat) : IO unit :=
  fun s =>
    match streams s !! fd with
    | None => Fault BadStream
    | Some _ =>
        Ok (tt, mk_stdio (open_max s) (files s) (delete fd (streams s)) (heap_blocks s))
    end.

(** The bytes up to and including the first [delim], and what follows. *)
Fixpoint read_until (delim : byte) (input : list byte)
  : list byte * list byte :=
  match input with
  | [] => ([], [])
  | b :: rest =>
      if decide (b = delim) then ([b], rest)
      else let '(chunk, rest') := read_until delim rest in (b :: chunk, rest')
  end.

(** The number of live heap blocks after [getdelim] was handed [buf]. *)
Definition blocks_after (buf : option (list byte)) (h : nat) : nat :=
  match buf with None => S h | Some _ => h end.

(** [getdelim(&buf, &size, delim, fd)]: the return value and the new
    [buf].  A null [buf] is replaced by a fresh heap block, also when
    nothing can be read; the block holds the chunk read, delimiter
    included, and a terminator. *)
Definition getdelim (buf : option (list byte)) (delim : byte) (fd : nat)
  : IO (Z * option (list byte)) :=
  fun s =>
    match streams s !! fd with
    | None => Fault BadStream
    | Some input =>
        let blocks := blocks_after buf (heap_blocks s) in
        match input with
        | [] =>
            Ok ((-1, Some (default [] buf)),
                mk_stdio (open_max s) (files s) (streams s) blocks)
        | _ :: _ =>
            let '(chunk, rest) := read_until delim input in
            Ok ((Z.of_nat (length chunk), Some (chunk ++ [NUL])),
                mk_stdio (open_max s) (files s) (<[fd := rest]> (streams s)) blocks)
        end
    end.

(** [free(buf)]. *)
Definition free (buf : option (list byte)) : IO unit :=
  match buf with
  | None => ret tt
  | Some _ =>
      modify (fun s => mk_stdio (open_max s) (files s) (streams s) (Nat.pred (heap_blocks s)))
  end.

Fixpoint skip_digits (p : list byte) : list byte :=
  match p with
  | b :: rest => if isdigit b then skip_digits rest else p
  | [] => []
  end.

(** What the directive [%d] makes of an input. *)
Inductive scan_result :=
| ScanEOF                              (* input failure: nothing but white space *)
| ScanMismatch (rest : list byte)      (* matching failure: no digit *)
| ScanInt (v : Z) (rest : list byte).  (* a number, and the input after it *)

Definition scan_d (input : list byte) : scan_result :=
  match skip_spaces input with
  | [] => ScanEOF
  | b :: rest =>
      let signed := bool_decide (b = Byte.x2d \/ b = Byte.x2b) in
      let ds := if signed then rest else b :: rest in
      match ds with
      | d :: _ =>
          if isdigit d
          then ScanInt (atoi_value (b :: rest)) (skip_digits ds)
          else ScanMismatch ds
      | [] => ScanMismatch []
      end
  end.

(** [fscanf(fd, "%d", &v)]: the return value and the value stored through
    the pointer, if any.  A number that does not fit an [int] is undefined
    behaviour. *)
Definition fscanf_d (fd : nat) : IO (Z * option Z) :=
  fun s =>
    match streams s !! fd with
    | None => Fault BadStream
    | Some input =>
        let advance_to rest :=
          mk_stdio (open_max s) (files s) (<[fd := rest]> (streams s)) (heap_blocks s) in
        match scan_d input with
        | ScanEOF => Ok ((-1, None), advance_to [])
        | ScanMismatch rest => Ok ((0, None), advance_to rest)
        | ScanInt v rest =>
            if decide (is_int32 v) then Ok ((1, Some v), advance_to rest)
            else Fault IntOverflow
        end
    end.

(** The texts a reader sees in [buf] when it reads a whole input with the
    delimiter NUL: the input split at its NUL bytes. *)
Fixpoint split_nul (input : list byte) : list (list byte) :=
  match input with
  | [] => []
  | b :: rest =>
      if decide (b = NUL) then [] :: split_nul rest
      else match split_nul rest with
           | [] => [[b]]
           | text :: texts => (b :: text) :: texts
           end
  end.

(** The input a stream still holds ([[]] for a handle that is not open). *)
Definition pending (s : stdio) (fd : nat) : list byte :=
  default [] (streams s !! fd).

(** A file system with the given files, nothing open, nothing allocated. *)
Definition boot (fs : list (string * list byte)) : stdio :=
  mk_stdio FOPEN_MAX (list_to_map fs) ∅ 0.

(** What a reader of the file system promises its callers: its result is
    a function of the files it can open, and it leaves the state as it
    found it. *)
Class Reader {A} (m : IO A) (f : gmap string (list byte) -> outcome A)
  : Prop :=
  reads : forall s, m s = lift (f (visible s)) s.

(** ** Opening and closing *)

Lemma visible_room s :
  (size (streams s) < open_max s)%nat -> visible s = files s.
Proof. intros H. unfold visible. now rewrite decide_True. Qed.

Lemma visible_full s :
  (open_max s <= size (streams s))%nat -> visible s = ∅.
Proof. intros H. unfold visible. rewrite decide_False; [reflexivity | lia]. Qed.

Lemma visible_Some s path contents :
  visible s !! path = Some contents <->
  (size (streams s) < open_max s)%nat /\ files s !! path = Some contents.
Proof.
  unfold visible. case_decide; [tauto|].
  rewrite lookup_empty. split; [discriminate | tauto].
Qed.

Lemma fopen_missing path s :
  visible s !! path = None -> fopen path s = Ok (None, s).
Proof. intros H. unfold fopen. now rewrite H. Qed.

Lemma fopen_found path contents s :
  visible s !! path = Some contents ->
  fopen path s =
  Ok (Some (fresh (dom (streams s))),
      mk_stdio (open_max s) (files s) (<[fresh (dom (streams s)) := contents]> (streams s))
               (heap_blocks s)).
Proof. intros H. unfold fopen. now rewrite H. Qed.

Lemma fopen_not_fault path s f : fopen path s <> Fault f.
Proof. unfold fopen. now destruct (visible s !! path). Qed.

Lemma free_not_fault buf s f : free buf s <> Fault f.
Proof. now destruct buf. Qed.

Lemma fresh_stream_closed (m : gmap nat (list byte)) : m !! fresh (dom m) = None.
Proof. apply not_elem_of_dom, is_fresh. Qed.

(** Closing a stream just opened gives the state before the [fopen]. *)
Lemma fclose_fresh lim (fl : gmap string (list byte)) m rest h :
  fclose (fresh (dom m)) (mk_stdio lim fl (<[fresh (dom m) := rest]> m) h) =
  Ok (tt, mk_stdio lim fl m h).
Proof.
  unfold fclose. cbn [streams files heap_blocks].
  rewrite lookup_insert_eq, delete_insert_eq, delete_id
    by apply fresh_stream_closed.
  reflexivity.
Qed.

Lemma pending_open lim (fl : gmap string (list byte)) m fd input h :
  pending (mk_stdio lim fl (<[fd := input]> m) h) fd = input.
Proof. unfold pending. cbn [streams]. now rewrite lookup_insert_eq. Qed.

Lemma pending_lookup s fd input :
  streams s !! fd = Some input -> pending s fd = input.
Proof. intros H. unfold pending. now rewrite H. Qed.

Lemma fclose_closed fd s :
  streams s !! fd = None -> fclose fd s = Fault BadStream.
Proof. intros H. unfold fclose. now rewrite H. Qed.

(** ** Reading *)

Lemma read_until_app delim input :
  (read_until delim input).1 ++ (read_until delim input).2 = input.
Proof.
  induction input as [|b input IH]; [reflexivity|]. cbn.
  case_decide; [reflexivity|].
  destruct (read_until delim input) as [c r]. cbn in *. now rewrite IH.
Qed.

Lemma read_until_nonempty delim b input :
  (read_until delim (b :: input)).1 <> [].
Proof.
  cbn. case_decide; [discriminate|].
  now destruct (read_until delim input).
Qed.

(** Every successful read shortens the input: the loops of the scrapers
    terminate. *)
Lemma read_until_shorter delim b input :
  (length (read_until delim (b :: input)).2 < length (b :: input))%nat.
Proof.
  pose proof (read_until_app delim (b :: input)) as H.
  pose proof (read_until_nonempty delim b input) as Hne.
  apply (f_equal length) in H. rewrite length_app in H.
  destruct (read_until delim (b :: input)).1; [contradiction|].
  cbn [length] in *. lia.
Qed.

Lemma read_until_no_delim delim input :
  delim ∉ input -> read_until delim input = (input, []).
Proof.
  induction input as [|b input IH]; [reflexivity|].
  intros H. apply not_elem_of_cons in H as [Hb Hin]. cbn.
  rewrite decide_False by congruence. now rewrite IH.
Qed.

Lemma read_until_delim delim chunk rest :
  delim ∉ chunk ->
  read_until delim (chunk ++ delim :: rest) = (chunk ++ [delim], rest).
Proof.
  induction chunk as [|b chunk IH]; intros H.
  - cbn. now rewrite decide_True.
  - apply not_elem_of_cons in H as [Hb Hin]. cbn.
    rewrite decide_False by congruence. now rewrite IH.
Qed.

Lemma getdelim_eof buf delim fd s :
  streams s !! fd = Some [] ->
  getdelim buf delim fd s =
  Ok ((-1, Some (default [] buf)),
      mk_stdio (open_max s) (files s) (streams s)
        (blocks_after buf (heap_blocks s))).
Proof. intros H. unfold getdelim. now rewrite H. Qed.

Lemma getdelim_chunk buf delim fd s b input :
  streams s !! fd = Some (b :: input) ->
  getdelim buf delim fd s =
  Ok ((Z.of_nat (length (read_until delim (b :: input)).1),
       Some ((read_until delim (b :: input)).1 ++ [NUL])),
      mk_stdio (open_max s) (files s) (<[fd := (read_until delim (b :: input)).2]> (streams s))
        (blocks_after buf (heap_blocks s))).
Proof.
  intros H. unfold getdelim. rewrite H.
  now destruct (read_until delim (b :: input)).
Qed.

(** What a successful [getdelim] did: the chunk it read from the input
    of the stream, the end of the file when there was none. *)
Lemma getdelim_inv buf delim fd s n buf' s' :
  getdelim buf delim fd s = Ok ((n, buf'), s') ->
  exists input,
    streams s !! fd = Some input /\
    s' = mk_stdio (open_max s) (files s)
           (<[fd := (read_until delim input).2]> (streams s))
           (blocks_after buf (heap_blocks s)) /\
    match input with
    | [] => n = -1 /\ buf' = Some (default [] buf)
    | _ :: _ =>
        n = Z.of_nat (length (read_until delim input).1) /\
        buf' = Some ((read_until delim input).1 ++ [NUL]) /\
        (length (read_until delim input).2 < length input)%nat
    end.
Proof.
  destruct (streams s !! fd) as [[|b input]|] eqn:E.
  - rewrite (getdelim_eof _ _ _ _ E). intros [= <- <- <-].
    exists []. cbn [read_until snd]. now rewrite (insert_id _ _ _ E).
  - rewrite (getdelim_chunk _ _ _ _ _ _ E). intros [= <- <- <-].
    exists (b :: input). repeat split. apply read_until_shorter.
  - unfold getdelim. now rewrite E.
Qed.

(** [getdelim] and [fclose] fault on a closed stream only. *)
Lemma getdelim_fault_inv buf delim fd s f :
  getdelim buf delim fd s = Fault f -> streams s !! fd = None.
Proof.
  unfold getdelim. destruct (streams s !! fd) as [[|b input]|]; [discriminate| |auto].
  now destruct (read_until delim (b :: input)).
Qed.

Lemma fclose_fault_inv fd s f : fclose fd s = Fault f -> streams s !! fd = None.
Proof. unfold fclose. now destruct (streams s !! fd). Qed.

Lemma getdelim_closed buf delim fd s :
  streams s !! fd = None -> getdelim buf delim fd s = Fault BadStream.
Proof. intros H. unfold getdelim. now rewrite H. Qed.

Lemma read_until_here delim rest : read_until delim (delim :: rest) = ([delim], rest).
Proof. cbn. now rewrite decide_True. Qed.

Lemma read_until_cons delim b rest :
  b <> delim ->
  read_until delim (b :: rest) =
  (b :: (read_until delim rest).1, (read_until delim rest).2).
Proof.
  intros H. cbn. rewrite decide_False by assumption.
  now destruct (read_until delim rest).
Qed.

Lemma split_nul_NUL rest : split_nul (NUL :: rest) = [] :: split_nul rest.
Proof. cbn. now rewrite decide_True. Qed.

Lemma split_nul_cons b rest :
  b <> NUL ->
  split_nul (b :: rest) = (b :: hd [] (split_nul rest)) :: tl (split_nul rest).
Proof.
  intros H. cbn. rewrite decide_False by assumption.
  now destruct (split_nul rest).
Qed.

(** One read with the delimiter NUL: the string a reader of [buf] sees is
    the first text of the input, and the stream is left at the others. *)
Lemma read_until_split b input :
  cstring ((read_until NUL (b :: input)).1 ++ [NUL]) =
    Ok (hd [] (split_nul (b :: input))) /\
  tl (split_nul (b :: input)) = split_nul (read_until NUL (b :: input)).2.
Proof.
  revert b. induction input as [|b' input IH]; intros b;
    (destruct (decide (b = NUL)) as [->|Hb];
     [rewrite read_until_here, split_nul_NUL; split; [apply cstring_NUL | reflexivity]
     |rewrite read_until_cons, split_nul_cons by assumption; cbn [fst snd hd tl app];
      rewrite cstring_cons by assumption]).
  - cbn. now rewrite decide_True.
  - destruct (IH b') as [-> ->]. split; reflexivity.
Qed.

Lemma split_nul_read b input :
  exists text,
    cstring ((read_until NUL (b :: input)).1 ++ [NUL]) = Ok text /\
    split_nul (b :: input) = text :: split_nul (read_until NUL (b :: input)).2.
Proof.
  destruct (read_until_split b input) as [H1 H2]. eexists. split; [exact H1|].
  rewrite <- H2. destruct (decide (b = NUL)) as [->|Hb].
  - now rewrite split_nul_NUL.
  - now rewrite split_nul_cons.
Qed.

Lemma split_nul_nul_free input : Forall nul_free (split_nul input).
Proof.
  induction input as [|b input IH]; cbn; [constructor|].
  case_decide; [constructor; [constructor | assumption]|].
  destruct (split_nul input) as [|t ts]; [repeat constructor; assumption|].
  apply Forall_cons in IH as [Ht Hts].
  repeat constructor; assumption.
Qed.

Lemma split_nul_single input :
  input <> [] -> nul_free input -> split_nul input = [input].
Proof.
  induction 2 as [|b input Hb Hin IH]; [contradiction|]. cbn.
  rewrite decide_False by assumption.
  destruct input as [|b' input]; [reflexivity|].
  now rewrite IH.
Qed.

(** ** [%d] *)

Lemma scan_d_spaces input :
  skip_spaces input = [] -> scan_d input = ScanEOF.
Proof. intros H. unfold scan_d. now rewrite H. Qed.

Lemma scan_d_digit d rest :
  is_Some (digit_val d) ->
  scan_d (d :: rest) = ScanInt (atoi_value (d :: rest)) (skip_digits (d :: rest)).
Proof.
  intros [v Hv]. unfold scan_d.
  assert (Hs : isspace d = false).
  { unfold digit_val in Hv. destruct d; try discriminate; reflexivity. }
  cbn [skip_spaces]. rewrite Hs.
  rewrite bool_decide_eq_false_2.
  - unfold isdigit. now rewrite Hv.
  - unfold digit_val in Hv. intros [->| ->]; discriminate.
Qed.

Lemma fscanf_d_closed fd s :
  streams s !! fd = None -> fscanf_d fd s = Fault BadStream.
Proof. intros H. unfold fscanf_d. now rewrite H. Qed.

Lemma fscanf_d_run lim (fl : gmap string (list byte)) m fd input h :
  fscanf_d fd (mk_stdio lim fl (<[fd := input]> m) h) =
  match scan_d input with
  | ScanEOF => Ok ((-1, None), mk_stdio lim fl (<[fd := []]> m) h)
  | ScanMismatch rest => Ok ((0, None), mk_stdio lim fl (<[fd := rest]> m) h)
  | ScanInt v rest =>
      if decide (is_int32 v) then Ok ((1, Some v), mk_stdio lim fl (<[fd := rest]> m) h)
      else Fault IntOverflow
  end.
Proof.
  unfold fscanf_d. cbn [streams files heap_blocks]. rewrite lookup_insert_eq.
  destruct (scan_d input); rewrite ?insert_insert_eq; reflexivity.
Qed.

(** [fscanf_d] never closes a stream. *)
Lemma fscanf_d_open fd s r s' :
  fscanf_d fd s = Ok (r, s') ->
  files s' = files s /\ heap_blocks s' = heap_blocks s /\
  dom (streams s') = dom (streams s).
Proof.
  unfold fscanf_d. destruct (streams s !! fd) as [input|] eqn:E; [|discriminate].
  assert (Hd : forall rest, dom (<[fd := rest]> (streams s)) = dom (streams s)).
  { intros rest. apply dom_insert_lookup_L. now exists input. }
  destruct (scan_d input) as [|rest|v rest];
    [| |destruct (decide (is_int32 v)); [|discriminate]];
    intros [= <- <-]; cbn; auto.
Qed.

(** ** Readers *)

#[export] Instance reader_ret {A} (a : A) : Reader (ret a) (fun _ => Ok a).
Proof. intros s. reflexivity. Qed.

#[export] Instance reader_mmap {A B} (g : A -> B) (m : IO A) f :
  Reader m f -> Reader (mmap g m) (fun fs => outcome_map g (f fs)).
Proof. intros Hm s. now rewrite mmap_run, (Hm s); destruct (f (visible s)). Qed.
