(* ===== verification/Hosts.v ===== *)
(** * Sample hosts: the files the readers open

    Contents of [/proc/cpuinfo] and of the sysfs files for a few machines,
    and the initial states built from them.  They are the concrete inputs
    the theorems of [ProcCpuinfo] and [Sensors] are applied to. *)

From Stdlib Require Import ZArith List Strings.Byte.
From coqutil Require Import Byte.
From stdpp Require Import base list gmap strings.
From S2P Require Import Prelude CTypes CString Stdio.

(** ** Definitions *)

(** A line of [/proc/cpuinfo]: the key, its tabs, [": "], the value. *)
Definition cpuinfo_line (key : string) (tabs : nat) (value : string)
  : list byte :=
  bytes key ++ replicate tabs TAB ++ bytes ": " ++ bytes value ++ [LF].

(** What follows the model name in every sample. *)
Definition cpuinfo_tail : list byte :=
  cpuinfo_line "microcode" 1 "0x27" ++
  cpuinfo_line "cache size" 1 "8192 KB" ++ [LF].

Definition cpuinfo_head (vendor family model : string) : list byte :=
  cpuinfo_line "processor" 1 "0" ++
  cpuinfo_line "vendor_id" 1 vendor ++
  cpuinfo_line "cpu family" 1 family ++
  cpuinfo_line "model" 2 model.

(** An Intel Core i7-4770: family 6, model 60, stepping 3. *)
Definition haswell_cpuinfo : list byte :=
  cpuinfo_head "GenuineIntel" "6" "60" ++
  cpuinfo_line "model name" 1 "Intel(R) Core(TM) i7-4770 CPU @ 3.40GHz" ++
  cpuinfo_line "stepping" 1 "3" ++ cpuinfo_tail.

(** An AMD Ryzen 7 3700X: family 23, model 113, stepping 0. *)
Definition ryzen_cpuinfo : list byte :=
  cpuinfo_head "AuthenticAMD" "23" "113" ++
  cpuinfo_line "model name" 1 "AMD Ryzen 7 3700X 8-Core Processor" ++
  cpuinfo_line "stepping" 1 "0" ++ cpuinfo_tail.

(** A Raspberry Pi 3: a model name, no family, model or stepping. *)
Definition raspberry_cpuinfo : list byte :=
  cpuinfo_line "processor" 1 "0" ++
  cpuinfo_line "model name" 1 "ARMv7 Processor rev 4 (v7l)" ++
  cpuinfo_line "BogoMIPS" 1 "38.40" ++
  cpuinfo_line "Hardware" 1 "BCM2835" ++
  cpuinfo_line "Model" 2 "Raspberry Pi 3 Model B Rev 1.2".

(** A file cut right behind the colon of the model name. *)
Definition cut_cpuinfo : list byte :=
  cpuinfo_line "processor" 1 "0" ++ bytes "model name" ++ [TAB] ++ bytes ":".

(** A file with a NUL byte in front of the model name: it is read in two
    pieces. *)
Definition split_cpuinfo : list byte :=
  cpuinfo_line "processor" 1 "0" ++ [NUL] ++
  cpuinfo_line "model name" 1 "Second piece".

Definition PATH_cpuinfo : string := "/proc/cpuinfo".
Definition PATH_coretemp : string :=
  "/sys/devices/platform/coretemp.0/hwmon/hwmon1/temp1_input".
Definition PATH_hwmon1 : string := "/sys/class/hwmon/hwmon1/temp1_input".
Definition PATH_hwmon0 : string := "/sys/class/hwmon/hwmon0/temp1_input".
Definition PATH_cpufreq : string :=
  "/sys/devices/system/cpu/cpu0/cpufreq/cpuinfo_cur_freq".

(** A Linux desktop: 45 degrees on the coretemp sensor, 3.4 GHz. *)
Definition haswell_host : stdio :=
  boot [(PATH_cpuinfo, haswell_cpuinfo);
        (PATH_coretemp, bytes "45000" ++ [LF]);
        (PATH_cpufreq, bytes "3400000" ++ [LF])].

Definition ryzen_host : stdio :=
  boot [(PATH_cpuinfo, ryzen_cpuinfo);
        (PATH_hwmon0, bytes "38500" ++ [LF])].

Definition raspberry_host : stdio := boot [(PATH_cpuinfo, raspberry_cpuinfo)].
Definition cut_host : stdio := boot [(PATH_cpuinfo, cut_cpuinfo)].
Definition split_host : stdio := boot [(PATH_cpuinfo, split_cpuinfo)].

(** A machine in the cold: the sensor reads minus five degrees. *)
Definition frozen_host : stdio := boot [(PATH_hwmon1, bytes "-5000" ++ [LF])].

(** A host without procfs and sysfs. *)
Definition bare_host : stdio := boot [].
