(* ===== verification/ProcCpuinfo.v ===== *)
(** * The scrapers of [/proc/cpuinfo]: [cpu_getname] and [cpu_getmodelid]
      (the build without [WIN32])

    Both functions clear the caller's buffer, open [/proc/cpuinfo], read it
    with [getdelim] and the delimiter NUL (so a text file arrives in one
    piece), look for a key with [strstr], step over [": "] with [p += 2]
    and either copy the rest of the line ([cpu_getname]) or convert it
    with [atoi] ([cpu_getmodelid]).  The two functions share their
    skeleton, which is modelled once: [scan_loop] is the loop
    [while (getdelim(&buf, &size, 0, fd) != -1) { ... }] over a body that
    works on the local variables and says whether it ends in [break], and
    [scan_cpuinfo] is the [fopen], the early [return], the loop, the [free]
    and the [fclose] around it.  The loop runs call by call in the monad
    [IO], on a fuel of one more than the bytes the stream holds;
    [fold_texts] is its specification, a fold over the texts of the file,
    and [scan_cpuinfo_run] shows that the loop computes it, never exhausts
    the fuel, and gives back the stream and the heap block it took.
    [has_line], [has_field] and [scans] say what a text holds for a key
    in terms of [strstr]; [Cpuinfo] derives them from the rows of a
    printed file. *)

From Stdlib Require Import ZArith Lia List Bool Strings.Byte.
From coqutil Require Import Byte.
From stdpp Require Import base list gmap strings.
From S2P Require Import Prelude CTypes CString Printf Stdio Hosts.

Local Open Scope Z_scope.
Local Open Scope cmonad_scope.

(** ** Definitions *)

(** The global [num_cpus] of [miner.h]. *)
Class Miner := num_cpus : Z.

Definition PROC_CPUINFO : string := "/proc/cpuinfo".

Definition colon : list byte := bytes ":".
Definition KEY_model_name : list byte := bytes "model name" ++ [TAB].
Definition KEY_cpu_family : list byte := bytes "cpu family" ++ [TAB].
Definition KEY_model : list byte := bytes "model" ++ [TAB].
Definition KEY_stepping : list byte := bytes "stepping" ++ [TAB].

(** The condition [(p = strstr(buf, key)) && strstr(p, ":")]: the value of
    [p] when it holds. *)
Definition find_key (text key : list byte) : option (list byte) :=
  match strstr text key with
  | Some p => match strstr p colon with Some _ => Some p | None => None end
  | None => None
  end.

(** [p = strstr(p, ":"); if (p) { p += 2; ... }]: the pointer the braces
    work on, or [None] when they are skipped. *)
Definition after_colon (p : list byte) : outcome (option (list byte)) :=
  match strstr p colon with
  | Some p => outcome_map Some (advance p 2)
  | None => Ok None
  end.

(** *** The skeleton the two functions share *)

Section ScanLoop.
Context {V : Type}.
(** The body of the loop: from the text in [buf] and the local variables
    to the variables after it, and whether it ends in [break]. *)
Context (body : list byte -> V -> outcome (V * bool)).

(** [while (getdelim(&buf, &size, 0, fd) != -1) { if (buf && ...) ... }]. *)
Fixpoint scan_loop (fuel : nat) (fd : nat) (buf : option (list byte)) (v : V)
  : IO (option (list byte) * V) :=
  match fuel with
  | O => throw OutOfFuel
  | S fuel =>
      r <- getdelim buf NUL fd ;;
      let '(n, buf) := r in
      if n =? -1 then ret (buf, v)
      else
        match buf with
        | None => scan_loop fuel fd buf v
        | Some block =>
            text <- lift (cstring block) ;;
            r <- lift (body text v) ;;
            let '(v, stop) := r in
            if stop : bool then ret (buf, v) else scan_loop fuel fd buf v
        end
  end.

(** [fd = fopen("/proc/cpuinfo", "rb"); buf = NULL; if (!fd) return;
    while ... ; free(buf); fclose(fd);]. *)
Definition scan_cpuinfo (v : V) : IO V :=
  fd <- fopen PROC_CPUINFO ;;
  match fd with
  | None => ret v
  | Some fd =>
      s <- get ;;
      r <- scan_loop (S (length (pending s fd))) fd None v ;;
      free (fst r) ;;;
      fclose fd ;;;
      ret (snd r)
  end.

(** The specification of the loop: the body applied to the texts of the
    input in turn, until one ends in [break]. *)
Fixpoint fold_texts (texts : list (list byte)) (v : V) : outcome V :=
  match texts with
  | [] => Ok v
  | text :: texts =>
      outcome_bind (body text v) (fun r =>
        if snd r : bool then Ok (fst r) else fold_texts texts (fst r))
  end.

End ScanLoop.

(** *** [cpu_getname] *)

(** The body of the loop of [cpu_getname], lines 165-175, on the buffer
    [outbuf]. *)
Definition getname_text (maxsz : nat) (text outbuf : list byte)
  : outcome (list byte * bool) :=
  match find_key text KEY_model_name with
  | Some p =>
      outcome_bind (after_colon p) (fun v =>
        match v with
        | Some p =>
            outcome_map (fun o => (o, true))
              (snprintf outbuf maxsz (cut_at_eol p))
        | None => Ok (outbuf, true)
        end)
  | None => Ok (outbuf, false)
  end.

(** [cpu_getname], lines 134-136 and 157-180. *)
Definition cpu_getname_posix (outbuf : list byte) (maxsz : nat)
  : IO (list byte) :=
  outbuf <- lift (memset outbuf NUL maxsz) ;;
  scan_cpuinfo (getname_text maxsz) outbuf.

(** *** [cpu_getmodelid] *)

(** One of the three blocks of [cpu_getmodelid] (lines 198-206, 207-215,
    216-224): the new value of the variable. *)
Definition scan_field (text key : list byte) (current : Z) : outcome Z :=
  match find_key text key with
  | Some p =>
      outcome_bind (after_colon p) (fun v =>
        match v with
        | Some p => atoi p
        | None => Ok current
        end)
  | None => Ok current
  end.

(** [outbuf[maxsz-1] = '\0'] with [maxsz] a [size_t]: for 0 the index
    wraps to [SIZE_MAX]. *)
Definition terminate (outbuf : list byte) (maxsz : nat) : outcome (list byte) :=
  match maxsz with
  | O => Fault BufferOverflow
  | S m => store outbuf m NUL
  end.

(** The variables [cpufam], [model], [stepping]. *)
Definition ids : Type := Z * Z * Z.

Section Miner.
Context {miner : Miner}.

(** The text of the format [%x:%02x%02x:%d]. *)
Definition modelid_text (v : ids) : list byte :=
  let '(cpufam, model, stepping) := v in
  fmt_x cpufam ++ colon ++ fmt_02x model ++ fmt_02x stepping ++ colon ++
  fmt_d num_cpus.

(** The body of the loop of [cpu_getmodelid], lines 198-231, on the
    variables and the buffer. *)
Definition getmodelid_text (maxsz : nat) (text : list byte)
    (v : ids * list byte) : outcome ((ids * list byte) * bool) :=
  let '((cpufam, model, stepping), outbuf) := v in
  outcome_bind (scan_field text KEY_cpu_family cpufam) (fun cpufam =>
  outcome_bind (scan_field text KEY_model model) (fun model =>
  outcome_bind (scan_field text KEY_stepping stepping) (fun stepping =>
  if bool_of_int cpufam && bool_of_int model && bool_of_int stepping
  then
    outcome_bind (snprintf outbuf maxsz (modelid_text (cpufam, model, stepping)))
      (fun outbuf =>
    outcome_map (fun o => (((cpufam, model, stepping), o), true))
      (terminate outbuf maxsz))
  else Ok (((cpufam, model, stepping), outbuf), false)))).

(** [cpu_getmodelid], lines 182-184 and 190-236. *)
Definition cpu_getmodelid_posix (outbuf : list byte) (maxsz : nat)
  : IO (list byte) :=
  outbuf <- lift (memset outbuf NUL maxsz) ;;
  r <- scan_cpuinfo (getmodelid_text maxsz) ((0, 0, 0), outbuf) ;;
  ret (snd r).

End Miner.

(** *** Specifications *)

(** What [cpu_getname] leaves in the buffer, given the files. *)
Definition name_spec (fs : gmap string (list byte)) (outbuf : list byte)
    (maxsz : nat) : outcome (list byte) :=
  outcome_bind (memset outbuf NUL maxsz) (fun outbuf =>
    match fs !! PROC_CPUINFO with
    | None => Ok outbuf
    | Some contents =>
        fold_texts (getname_text maxsz) (split_nul contents) outbuf
    end).

(** What [cpu_getmodelid] leaves in the buffer, given the files. *)
Definition modelid_spec `{Miner} (fs : gmap string (list byte))
    (outbuf : list byte) (maxsz : nat) : outcome (list byte) :=
  outcome_bind (memset outbuf NUL maxsz) (fun outbuf =>
    match fs !! PROC_CPUINFO with
    | None => Ok outbuf
    | Some contents =>
        outcome_map snd
          (fold_texts (getmodelid_text maxsz) (split_nul contents)
             ((0, 0, 0), outbuf))
    end).

(** [text] has a line for [key]: the first occurrence of [key] is followed
    by some padding without a colon, a colon, one more byte and [value];
    [rest] is what follows the value. *)
Definition has_line (text key value rest : list byte) : Prop :=
  exists pad c,
    strstr text key = Some (key ++ pad ++ colon ++ c :: value ++ rest) /\
    Byte.x3a ∉ key ++ pad.

(** [text] has a line for [key] whose value is the decimal text of [n],
    followed by something that is not a digit. *)
Definition has_field (text key : list byte) (n : Z) : Prop :=
  exists rest, has_line text key (fmt_d n) rest /\ stops_number rest.

(** What the body of the loop leaves in the variable of [key]: the [int]
    the text gives for the key, or the value the variable had when the
    text does not have the key. *)
Definition scans (text key : list byte) (current n : Z) : Prop :=
  (exists n0, has_field text key n0 /\ n = to_int32 n0) \/
  (strstr text key = None /\ n = current).

(** A miner that counted eight processors. *)
Definition eight_cpus : Miner := 8.

(** ** The loop computes the fold *)

Section ScanLoopFacts.
Context {V : Type} (body : list byte -> V -> outcome (V * bool)).

Lemma scan_loop_spec fuel : forall s fd buf v input,
  streams s !! fd = Some input -> (length input < fuel)%nat ->
  exists block rest,
    scan_loop body fuel fd buf v s =
    outcome_map
      (fun v' => ((Some block, v'),
                  mk_stdio (open_max s) (files s) (<[fd := rest]> (streams s))
                           (blocks_after buf (heap_blocks s))))
      (fold_texts body (split_nul input) v).
Proof.
  induction fuel as [|fuel IH]; intros s fd buf v input Hfd Hlen; [lia|].
  cbn [scan_loop]. rewrite bind_unfold. destruct input as [|b input].
  - rewrite (getdelim_eof _ _ _ _ Hfd). cbn.
    exists (default [] buf), []. now rewrite (insert_id _ _ _ Hfd).
  - rewrite (getdelim_chunk _ _ _ _ _ _ Hfd). cbn zeta iota beta.
    destruct (split_nul_read b input) as (text & Htext & ->).
    replace (_ =? -1) with false by (symmetry; apply Z.eqb_neq; lia).
    rewrite bind_unfold, Htext, lift_ok, bind_unfold. cbn [fold_texts].
    destruct (body text v) as [[v' stop]|f]; [|now exists [], []].
    rewrite lift_ok. cbn [outcome_bind fst snd]. destruct stop.
    + now eexists _, _.
    + edestruct (IH (mk_stdio (open_max s) (files s)
                       (<[fd := (read_until NUL (b :: input)).2]> (streams s))
                       (blocks_after buf (heap_blocks s))) fd
                    (Some ((read_until NUL (b :: input)).1 ++ [NUL])) v')
        as (block & rest & ->).
      * apply lookup_insert_eq.
      * pose proof (read_until_shorter NUL b input). cbn [length] in *. lia.
      * cbn [open_max files streams heap_blocks blocks_after].
        rewrite insert_insert_eq. now eexists _, _.
Qed.

(** The whole skeleton: the result is the fold over the texts of the
    file, and the state is the one before the call. *)
Lemma scan_cpuinfo_run (v : V) s :
  scan_cpuinfo body v s =
  lift (match visible s !! PROC_CPUINFO with
        | None => Ok v
        | Some contents => fold_texts body (split_nul contents) v
        end) s.
Proof.
  unfold scan_cpuinfo. rewrite bind_unfold.
  destruct (visible s !! PROC_CPUINFO) as [contents|] eqn:E.
  - rewrite (fopen_found _ _ _ E). set (fd := fresh (dom (streams s))).
    rewrite bind_unfold. cbn [get].
    edestruct (scan_loop_spec (S (length contents))
                 (mk_stdio (open_max s) (files s) (<[fd := contents]> (streams s))
                    (heap_blocks s)) fd None v contents)
      as (block & rest & Hrun).
    { apply lookup_insert_eq. }
    { lia. }
    rewrite pending_open, bind_unfold, Hrun.
    destruct (fold_texts body (split_nul contents) v) as [v'|f]; [|reflexivity].
    cbn [outcome_map open_max files streams heap_blocks blocks_after fst snd].
    rewrite insert_insert_eq, bind_unfold. cbn [free modify Nat.pred].
    cbn [open_max files streams heap_blocks]. rewrite bind_unfold. subst fd.
    rewrite fclose_fresh. cbn. now destruct s.
  - now rewrite (fopen_missing _ _ E).
Qed.

Lemma scan_loop_S fuel fd buf v :
  scan_loop body (S fuel) fd buf v =
  (r <- getdelim buf NUL fd ;;
   let '(n, buf) := r in
   if n =? -1 then ret (buf, v)
   else
     match buf with
     | None => scan_loop body fuel fd buf v
     | Some block =>
         text <- lift (cstring block) ;;
         r <- lift (body text v) ;;
         let '(v, stop) := r in
         if stop : bool then ret (buf, v) else scan_loop body fuel fd buf v
     end).
Proof. reflexivity. Qed.

(** Fuel beyond the bytes the stream holds is never used. *)
Lemma scan_loop_more_fuel fuel : forall s fd buf v input,
  streams s !! fd = Some input -> (length input < fuel)%nat ->
  scan_loop body (S fuel) fd buf v s = scan_loop body fuel fd buf v s.
Proof.
  induction fuel as [|fuel IH]; intros s fd buf v input Hfd Hlen; [lia|].
  rewrite (scan_loop_S (S fuel)), (scan_loop_S fuel), !bind_unfold.
  destruct input as [|b input].
  - now rewrite (getdelim_eof _ _ _ _ Hfd).
  - rewrite (getdelim_chunk _ _ _ _ _ _ Hfd). cbn zeta iota beta.
    destruct (_ =? -1); [reflexivity|]. rewrite !bind_unfold.
    destruct (lift (cstring _) _) as [[text s1]|] eqn:E1; [|reflexivity].
    apply lift_inv_ok in E1 as [_ ->]. rewrite !bind_unfold.
    destruct (lift (body text v) _) as [[[v' stop] s2]|] eqn:E2; [|reflexivity].
    apply lift_inv_ok in E2 as [_ ->]. destruct stop; [reflexivity|].
    apply (IH _ _ _ _ (read_until NUL (b :: input)).2).
    + apply lookup_insert_eq.
    + pose proof (read_until_shorter NUL b input). cbn [length] in *. lia.
Qed.

(** Any two fuels beyond the bytes the stream holds give the same run. *)
Lemma scan_loop_fuel fuel1 fuel2 s fd buf v input :
  streams s !! fd = Some input ->
  (length input < fuel1)%nat -> (length input < fuel2)%nat ->
  scan_loop body fuel1 fd buf v s = scan_loop body fuel2 fd buf v s.
Proof.
  intros Hfd. revert fuel1 fuel2.
  assert (Hup : forall k fuel, (length input < fuel)%nat ->
            scan_loop body (k + fuel) fd buf v s = scan_loop body fuel fd buf v s).
  { induction k as [|k IH]; intros fuel Hlen; [reflexivity|].
    cbn [Nat.add]. rewrite (scan_loop_more_fuel _ _ _ _ _ input) by (auto; lia).
    now apply IH. }
  intros fuel1 fuel2 H1 H2.
  replace fuel1 with (fuel1 - S (length input) + S (length input))%nat by lia.
  replace fuel2 with (fuel2 - S (length input) + S (length input))%nat by lia.
  now rewrite !Hup by lia.
Qed.

(** What the body preserves, the loop preserves. *)
Lemma fold_texts_inv (P : V -> Prop) :
  (forall text v v' stop, P v -> body text v = Ok (v', stop) -> P v') ->
  forall texts v v', P v -> fold_texts body texts v = Ok v' -> P v'.
Proof.
  intros Hbody. induction texts as [|t ts IH]; intros v v' Hv;
    cbn [fold_texts]; [now intros [= <-]|].
  destruct (body t v) as [[v1 stop]|f] eqn:E; [|discriminate].
  pose proof (Hbody _ _ _ _ Hv E). cbn [outcome_bind fst snd].
  destruct stop; [now intros [= <-] | now apply IH].
Qed.

(** A fault of the loop is a fault of the body on one of the texts. *)
Lemma fold_texts_fault (P : V -> Prop) :
  (forall text v v' stop, P v -> body text v = Ok (v', stop) -> P v') ->
  forall texts v f, P v -> fold_texts body texts v = Fault f ->
  exists text v0, text ∈ texts /\ P v0 /\ body text v0 = Fault f.
Proof.
  intros Hbody. induction texts as [|t ts IH]; intros v f Hv;
    cbn [fold_texts]; [discriminate|].
  destruct (body t v) as [[v1 stop]|f'] eqn:E; cbn [outcome_bind fst snd].
  - pose proof (Hbody _ _ _ _ Hv E). destruct stop; [discriminate|].
    intros (text & v0 & Hin & H0)%IH; [|assumption].
    exists text, v0. split; [now right | exact H0].
  - intros [= <-]. exists t, v. repeat split; [left | assumption..].
Qed.

End ScanLoopFacts.

(** ** Lines of the file *)

Lemma find_key_absent text key : strstr text key = None -> find_key text key = None.
Proof. intros H. unfold find_key. now rewrite H. Qed.

Lemma has_line_colon text key value rest :
  has_line text key value rest ->
  exists p c, find_key text key = Some p /\
    strstr p colon = Some (Byte.x3a :: c :: value ++ rest).
Proof.
  intros (pad & c & Hk & Hc). eexists _, c. unfold find_key. rewrite Hk.
  assert (H : strstr (key ++ pad ++ colon ++ c :: value ++ rest) colon =
              Some (Byte.x3a :: c :: value ++ rest)).
  { rewrite app_assoc. now apply strstr_char. }
  rewrite H. split; [reflexivity | exact H].
Qed.

Lemma after_colon_line p c tail :
  strstr p colon = Some (Byte.x3a :: c :: tail) -> after_colon p = Ok (Some tail).
Proof. intros H. unfold after_colon. now rewrite H. Qed.

(** The pointer passes the terminator when the colon ends the text. *)
Lemma after_colon_short p :
  strstr p colon = Some [Byte.x3a] -> after_colon p = Fault OutOfBoundsRead.
Proof. intros H. unfold after_colon. now rewrite H. Qed.

Lemma scan_field_line text key n rest current :
  has_line text key (fmt_d n) rest -> stops_number rest ->
  scan_field text key current = Ok (to_int32 n).
Proof.
  intros (p & c & Hp & Hc)%has_line_colon Hrest. unfold scan_field.
  rewrite Hp, (after_colon_line _ _ _ Hc). cbn [outcome_bind].
  now apply atoi_fmt_d.
Qed.

Lemma scan_field_absent text key current :
  strstr text key = None -> scan_field text key current = Ok current.
Proof. intros H. unfold scan_field. now rewrite find_key_absent. Qed.

Lemma scan_field_scans text key current n :
  scans text key current n -> scan_field text key current = Ok n.
Proof.
  intros [(n0 & (r & H & S) & ->) | [H ->]];
    [exact (scan_field_line _ _ _ _ _ H S) | now apply scan_field_absent].
Qed.

Lemma has_field_scans text key current n :
  has_field text key n -> scans text key current (to_int32 n).
Proof. left. eauto. Qed.

Lemma getname_text_line maxsz text outbuf name rest :
  has_line text KEY_model_name name (LF :: rest) -> LF ∉ name ->
  getname_text maxsz text outbuf =
  outcome_map (fun o => (o, true)) (snprintf outbuf maxsz name).
Proof.
  intros (p & c & Hp & Hc)%has_line_colon Hname. unfold getname_text.
  rewrite Hp, (after_colon_line _ _ _ Hc). cbn [outcome_bind].
  now rewrite cut_at_eol_app.
Qed.

Lemma getname_text_absent maxsz text outbuf :
  strstr text KEY_model_name = None ->
  getname_text maxsz text outbuf = Ok (outbuf, false).
Proof. intros H. unfold getname_text. now rewrite find_key_absent. Qed.

(** A text file is read in one piece. *)
Lemma fold_texts_text {V} (body : list byte -> V -> outcome (V * bool))
    contents v :
  contents <> [] -> nul_free contents ->
  fold_texts body (split_nul contents) v = outcome_map fst (body contents v).
Proof.
  intros Hne Hnf. rewrite split_nul_single by assumption. cbn [fold_texts].
  destruct (body contents v) as [[v' []]|f]; reflexivity.
Qed.

(** ** The run equations *)

Lemma cpu_getname_posix_run outbuf maxsz s :
  cpu_getname_posix outbuf maxsz s = lift (name_spec (visible s) outbuf maxsz) s.
Proof.
  unfold cpu_getname_posix, name_spec. rewrite bind_unfold.
  destruct (memset outbuf NUL maxsz) as [o|f]; [|reflexivity].
  cbn [lift outcome_bind]. apply scan_cpuinfo_run.
Qed.

Lemma cpu_getmodelid_posix_run `{Miner} outbuf maxsz s :
  cpu_getmodelid_posix outbuf maxsz s =
  lift (modelid_spec (visible s) outbuf maxsz) s.
Proof.
  unfold cpu_getmodelid_posix, modelid_spec. rewrite bind_unfold.
  destruct (memset outbuf NUL maxsz) as [o|f]; [|reflexivity].
  cbn [lift outcome_bind]. rewrite bind_unfold, scan_cpuinfo_run.
  destruct (visible s !! PROC_CPUINFO) as [contents|]; [|reflexivity].
  now destruct (fold_texts _ _ _) as [[v o']|f].
Qed.

(** ** [cpu_getname]: what the body of the loop keeps and where it faults *)

Lemma has_line_nul_free text key value rest :
  nul_free text -> has_line text key value rest -> nul_free value.
Proof.
  intros Hnf (pad & c & [pre E]%strstr_suffix & _). unfold nul_free in *.
  rewrite E in Hnf.
  do 4 (apply Forall_app in Hnf as [_ Hnf]).
  apply Forall_cons in Hnf as [_ Hnf]. now apply Forall_app in Hnf as [Hnf _].
Qed.

Lemma getname_text_length maxsz text out out' stop :
  getname_text maxsz text out = Ok (out', stop) -> length out' = length out.
Proof.
  unfold getname_text.
  destruct (find_key text KEY_model_name); [|now intros [= <- <-]].
  destruct (after_colon l) as [[p|]|]; cbn [outcome_bind];
    [|now intros [= <- <-]|discriminate].
  destruct (snprintf out maxsz (cut_at_eol p)) eqn:E; [|discriminate].
  intros [= <- <-]. apply (snprintf_length _ _ _ _ E).
Qed.

Lemma getname_text_terminated maxsz text out out' stop :
  (0 < maxsz)%nat -> terminated maxsz out ->
  getname_text maxsz text out = Ok (out', stop) -> terminated maxsz out'.
Proof.
  intros Hm Ht. unfold getname_text.
  destruct (find_key text KEY_model_name); [|now intros [= <- <-]].
  destruct (after_colon l) as [[p|]|]; cbn [outcome_bind];
    [|now intros [= <- <-]|discriminate].
  destruct (snprintf out maxsz (cut_at_eol p)) eqn:E; [|discriminate].
  intros [= <- <-]. eapply snprintf_terminated; eauto.
Qed.

(** The only fault of the body: the key, a colon, and the end of the
    text. *)
Lemma getname_text_fault maxsz text out f :
  (maxsz <= length out)%nat -> getname_text maxsz text out = Fault f ->
  f = OutOfBoundsRead /\
  exists p, find_key text KEY_model_name = Some p /\
            strstr p colon = Some [Byte.x3a].
Proof.
  intros Hm. unfold getname_text, after_colon.
  destruct (find_key text KEY_model_name) as [p|]; [|discriminate].
  destruct (strstr p colon) as [q|] eqn:Eq; [|discriminate].
  destruct (strstr_prefix _ _ _ Eq) as [q' ->]. cbn [app colon bytes].
  destruct q' as [|c q'].
  - intros [= <-]. eauto.
  - rewrite advance_ok by (cbn; lia). cbn [outcome_map outcome_bind].
    pose proof (snprintf_safe out maxsz (cut_at_eol (drop 2 (Byte.x3a :: c :: q'))) Hm).
    now destruct (snprintf _ _ _).
Qed.

(** ** [cpu_getname]: the properties *)

(** C10. [cpu_getname] of the build without [WIN32] refines its
    specification: whatever the files and the open streams are, the call
    returns what [name_spec] computes from the contents of
    [/proc/cpuinfo] (the fold of the loop body over the texts between the
    NUL bytes of the file), it never runs out of fuel, and it leaves the
    state as it found it: the stream is closed and the heap block of
    [getdelim] is freed. *)
Theorem cpu_getname_posix_refines outbuf maxsz s :
  cpu_getname_posix outbuf maxsz s = lift (name_spec (visible s) outbuf maxsz) s.
Proof.
  unfold cpu_getname_posix, name_spec. rewrite bind_unfold.
  destruct (memset outbuf NUL maxsz) as [o|f]; [|reflexivity].
  cbn [lift outcome_bind]. apply scan_cpuinfo_run.
Qed.

(** The run of [cpu_getname] on a text file. *)
Lemma cpu_getname_text_run s outbuf maxsz contents :
  visible s !! PROC_CPUINFO = Some contents ->
  contents <> [] -> nul_free contents -> (maxsz <= length outbuf)%nat ->
  cpu_getname_posix outbuf maxsz s =
  lift (outcome_map fst (getname_text maxsz contents (cleared outbuf maxsz))) s.
Proof.
  intros Hf Hne Hnf Hm. rewrite cpu_getname_posix_run. unfold name_spec.
  rewrite memset_ok by assumption. cbn [outcome_bind].
  now rewrite Hf, fold_texts_text by assumption.
Qed.

(** On a text file whose first [model name] key is followed by a colon,
    one byte and a name that ends at a line feed, [cpu_getname] leaves
    the name in the buffer, cut to [maxsz - 1] bytes and terminated, and
    the state unchanged. *)
Lemma cpu_getname_model_name s outbuf maxsz contents name rest :
  visible s !! PROC_CPUINFO = Some contents ->
  contents <> [] -> nul_free contents ->
  has_line contents KEY_model_name name (LF :: rest) -> LF ∉ name ->
  (0 < maxsz <= length outbuf)%nat ->
  exists out,
    cpu_getname_posix outbuf maxsz s = Ok (out, s) /\
    cstring out = Ok (take (maxsz - 1) name) /\
    length out = length outbuf.
Proof.
  intros Hf Hne Hnf Hline Hname Hm.
  rewrite (cpu_getname_text_run _ _ _ _ Hf) by (assumption || lia).
  rewrite (getname_text_line _ _ _ _ _ Hline Hname).
  pose proof (cleared_length outbuf maxsz ltac:(lia)) as Hl.
  pose proof (snprintf_safe (cleared outbuf maxsz) maxsz name ltac:(lia)) as Hsafe.
  destruct (snprintf _ maxsz name) as [out|] eqn:E; [|discriminate].
  exists out. repeat split.
  - eapply snprintf_cstring; eauto using has_line_nul_free. lia.
  - now rewrite (snprintf_length _ _ _ _ E).
Qed.

(** Without the key [model name] the buffer stays as the [memset]
    cleared it. *)
Lemma cpu_getname_absent s outbuf maxsz contents :
  visible s !! PROC_CPUINFO = Some contents ->
  contents <> [] -> nul_free contents ->
  strstr contents KEY_model_name = None -> (maxsz <= length outbuf)%nat ->
  cpu_getname_posix outbuf maxsz s = Ok (cleared outbuf maxsz, s).
Proof.
  intros Hf Hne Hnf Habs Hm.
  rewrite (cpu_getname_text_run _ _ _ _ Hf) by assumption.
  now rewrite getname_text_absent.
Qed.

(** Whenever [cpu_getname] returns, with [maxsz] at least 1: the state
    is the one before the call, the buffer has kept its size, and it
    holds a string that is terminated inside its first [maxsz] bytes. *)
Lemma cpu_getname_posix_terminated outbuf maxsz s out s' :
  (0 < maxsz)%nat -> cpu_getname_posix outbuf maxsz s = Ok (out, s') ->
  s' = s /\ length out = length outbuf /\ terminated maxsz out.
Proof.
  intros Hm H. rewrite cpu_getname_posix_run in H.
  apply lift_inv_ok in H as [H ->]. split; [reflexivity|].
  unfold name_spec in H.
  destruct (memset outbuf NUL maxsz) as [o|] eqn:Em; [|discriminate].
  pose proof (memset_length _ _ _ _ Em) as Hlen.
  apply memcpy_inv in Em as [_ ->]. cbn [outcome_bind take app] in H.
  revert H. set (o := replicate maxsz NUL ++ _) in *.
  assert (Ho : length o = length outbuf /\ terminated maxsz o).
  { split; [exact Hlen | now apply terminated_replicate]. }
  destruct (visible s !! PROC_CPUINFO); [|now intros [= <-]].
  apply (fold_texts_inv _ (fun o => length o = length outbuf /\ terminated maxsz o));
    [|exact Ho].
  intros text v v' stop [Hl Ht] Hb.
  split; [now rewrite (getname_text_length _ _ _ _ _ Hb)
         | eapply getname_text_terminated; eauto].
Qed.

(** C37. The loop of the scrapers terminates: with more fuel than the
    stream holds bytes, one more unit of fuel changes nothing, and the
    loop does not stop for lack of fuel unless its body does.  Every
    [getdelim] that does not report the end of the file consumes at least
    one byte. *)
Theorem scan_loop_terminates {V} (body : list byte -> V -> outcome (V * bool))
    fuel s fd buf v input :
  streams s !! fd = Some input -> (length input < fuel)%nat ->
  scan_loop body (S fuel) fd buf v s = scan_loop body fuel fd buf v s /\
  ((forall text v0, body text v0 <> Fault OutOfFuel) ->
   scan_loop body fuel fd buf v s <> Fault OutOfFuel).
Proof.
  intros Hfd Hlen. split; [now apply (scan_loop_more_fuel _ _ _ _ _ _ input)|].
  intros Hbody. destruct (scan_loop_spec body fuel s fd buf v input Hfd Hlen)
    as (block & rest & ->).
  destruct (fold_texts body (split_nul input) v) as [v'|f] eqn:E; [discriminate|].
  apply (fold_texts_fault body (fun _ => True)) in E
    as (text & v0 & _ & _ & Hb); [|trivial..].
  cbn [outcome_map]. intros [= ->]. exact (Hbody _ _ Hb).
Qed.

(** C36. The faults of [cpu_getname]: a buffer smaller than [maxsz]
    (the [memset] leaves it), or a text of the file in which the colon
    after the key [model name] is the last byte ([p += 2] passes the
    terminator).  There is no other: the fuel is never exhausted and no
    stream is used after it is closed. *)
Theorem cpu_getname_faults outbuf maxsz s f :
  cpu_getname_posix outbuf maxsz s = Fault f ->
  (f = BufferOverflow /\ (length outbuf < maxsz)%nat) \/
  (f = OutOfBoundsRead /\
   exists contents text p,
     visible s !! PROC_CPUINFO = Some contents /\ text ∈ split_nul contents /\
     find_key text KEY_model_name = Some p /\
     strstr p colon = Some [Byte.x3a]).
Proof.
  rewrite cpu_getname_posix_run. unfold name_spec.
  destruct (decide (maxsz <= length outbuf)%nat) as [Hm|Hm].
  - destruct (memset outbuf NUL maxsz) as [o|] eqn:Em;
      [|rewrite memset_ok in Em by lia; discriminate].
    pose proof (memset_length _ _ _ _ Em) as Hlen. cbn [outcome_bind].
    destruct (visible s !! PROC_CPUINFO) as [contents|]; [|discriminate].
    destruct (fold_texts _ _ _) as [|f'] eqn:E; [discriminate|].
    intros [= <-]. right.
    apply (fold_texts_fault _ (fun o => maxsz <= length o)%nat) in E
      as (text & o' & Hin & Ho' & Hb); [| |lia].
    + apply getname_text_fault in Hb as [-> (p & Hp & Hc)]; eauto 8.
    + intros t v v' st Hv Hb. now rewrite (getname_text_length _ _ _ _ _ Hb).
  - rewrite memset_fault by lia. intros [= <-]. left. split; [reflexivity | lia].
Qed.

(** ** [cpu_getmodelid]: the body of the loop *)

Section ModelId.
Context {miner : Miner}.

Lemma modelid_text_nul_free v : nul_free (modelid_text v).
Proof.
  destruct v as [[f m] st]. unfold modelid_text, nul_free.
  assert (Hhex : forall n, Forall (fun b => b <> NUL) (fmt_02x n)).
  { intros n. eapply Forall_impl; [apply fmt_02x_hex | apply is_hex_digit_not_NUL]. }
  assert (Hcolon : Forall (fun b => b <> NUL) colon) by (repeat constructor; discriminate).
  rewrite !Forall_app.
  repeat split; auto; (apply fmt_x_nul_free || apply fmt_d_nul_free).
Qed.

(** The digits of [%x] and [%02x] are not the separator of the format. *)
Lemma hex_no_colon l :
  Forall (is_digit 16) l -> Forall (fun b => b <> Byte.x3a) l.
Proof.
  intros Hl. eapply Forall_impl; [exact Hl|]. intros b H ->. vm_compute in H.
  repeat (destruct H as [H|H]; [discriminate|]). exact H.
Qed.

(** A buffer of 38 bytes holds every model id. *)
Lemma modelid_text_length v : (7 <= length (modelid_text v) <= 37)%nat.
Proof.
  destruct v as [[f m] st]. unfold modelid_text. rewrite !length_app.
  pose proof (fmt_x_length f). pose proof (fmt_02x_length m).
  pose proof (fmt_02x_length st). pose proof (fmt_d_length num_cpus).
  change (length colon) with 1%nat. lia.
Qed.

(** The [snprintf] and the store of the terminator behind it. *)
Lemma write_modelid outbuf maxsz text :
  (0 < maxsz <= length outbuf)%nat -> nul_free text ->
  exists out,
    outcome_bind (snprintf outbuf maxsz text) (fun o => terminate o maxsz) =
      Ok out /\
    cstring out = Ok (take (maxsz - 1) text) /\ length out = length outbuf.
Proof.
  intros Hm Hnf. pose proof (snprintf_safe outbuf maxsz text ltac:(lia)) as Hs.
  destruct (snprintf outbuf maxsz text) as [o|] eqn:E; [clear Hs|discriminate].
  pose proof (snprintf_length _ _ _ _ E) as Hlen.
  pose proof (snprintf_cstring outbuf maxsz text o Hnf ltac:(lia) E) as Hc.
  destruct maxsz as [|m]; [lia|]. cbn [outcome_bind terminate].
  rewrite store_ok by lia. eexists. split; [reflexivity|]. split.
  - eapply cstring_store_NUL; [exact Hc | | apply store_ok; lia].
    rewrite length_take. lia.
  - now rewrite length_insert.
Qed.

(** The body of the loop on a text, by what it leaves in the three
    variables. *)
Lemma getmodelid_text_scans maxsz text f0 m0 st0 outbuf f m st :
  scans text KEY_cpu_family f0 f -> scans text KEY_model m0 m ->
  scans text KEY_stepping st0 st ->
  getmodelid_text maxsz text ((f0, m0, st0), outbuf) =
  if bool_of_int f && bool_of_int m && bool_of_int st
  then outcome_map (fun o => (((f, m, st), o), true))
         (outcome_bind (snprintf outbuf maxsz (modelid_text (f, m, st)))
            (fun o => terminate o maxsz))
  else Ok (((f, m, st), outbuf), false).
Proof.
  intros H1 H2 H3. unfold getmodelid_text.
  rewrite (scan_field_scans _ _ _ _ H1), (scan_field_scans _ _ _ _ H2),
    (scan_field_scans _ _ _ _ H3). cbn [outcome_bind].
  destruct (_ && _); [|reflexivity].
  now destruct (snprintf _ _ _).
Qed.

(** The three fields of a text that has them. *)
Lemma getmodelid_text_fields maxsz text v outbuf f m st :
  has_field text KEY_cpu_family f -> has_field text KEY_model m ->
  has_field text KEY_stepping st ->
  getmodelid_text maxsz text (v, outbuf) =
  let v' := (to_int32 f, to_int32 m, to_int32 st) in
  if bool_of_int (to_int32 f) && bool_of_int (to_int32 m) &&
     bool_of_int (to_int32 st)
  then outcome_map (fun o => ((v', o), true))
         (outcome_bind (snprintf outbuf maxsz (modelid_text v'))
            (fun o => terminate o maxsz))
  else Ok ((v', outbuf), false).
Proof.
  intros H1 H2 H3. destruct v as [[f0 m0] st0].
  now apply getmodelid_text_scans; apply has_field_scans.
Qed.

End ModelId.

(** ** [cpu_getmodelid]: the properties *)

Section ModelIdProperties.
Context {miner : Miner}.

(** C13. [cpu_getmodelid] of the build without [WIN32] refines its
    specification: the call returns what [modelid_spec] computes from the
    contents of [/proc/cpuinfo], the three variables carried from one
    text of the file to the next, and leaves the state as it found it. *)
Theorem cpu_getmodelid_posix_refines outbuf maxsz s :
  cpu_getmodelid_posix outbuf maxsz s =
  lift (modelid_spec (visible s) outbuf maxsz) s.
Proof.
  unfold cpu_getmodelid_posix, modelid_spec. rewrite bind_unfold.
  destruct (memset outbuf NUL maxsz) as [o|f]; [|reflexivity].
  cbn [lift outcome_bind]. rewrite bind_unfold, scan_cpuinfo_run.
  destruct (visible s !! PROC_CPUINFO) as [contents|]; [|reflexivity].
  now destruct (fold_texts _ _ _) as [[v o']|f].
Qed.

(** The run of [cpu_getmodelid] on a text file. *)
Lemma cpu_getmodelid_text_run s outbuf maxsz contents :
  visible s !! PROC_CPUINFO = Some contents ->
  contents <> [] -> nul_free contents -> (maxsz <= length outbuf)%nat ->
  cpu_getmodelid_posix outbuf maxsz s =
  lift (outcome_map (fun r => snd (fst r))
          (getmodelid_text maxsz contents ((0, 0, 0), cleared outbuf maxsz))) s.
Proof.
  intros Hf Hne Hnf Hm.
  rewrite cpu_getmodelid_posix_run. unfold modelid_spec.
  rewrite memset_ok by assumption. cbn [outcome_bind].
  rewrite Hf, fold_texts_text by assumption.
  now destruct (getmodelid_text _ _ _) as [[[v o] stop]|].
Qed.

(** On a text file [cpu_getmodelid] leaves the id made of the three
    variables when none of them is 0, and nothing otherwise. *)
Lemma cpu_getmodelid_scans s outbuf maxsz contents f m st :
  visible s !! PROC_CPUINFO = Some contents ->
  contents <> [] -> nul_free contents ->
  scans contents KEY_cpu_family 0 f -> scans contents KEY_model 0 m ->
  scans contents KEY_stepping 0 st ->
  (0 < maxsz <= length outbuf)%nat ->
  exists out,
    cpu_getmodelid_posix outbuf maxsz s = Ok (out, s) /\
    cstring out =
      Ok (if decide (f <> 0 /\ m <> 0 /\ st <> 0)
          then take (maxsz - 1) (modelid_text (f, m, st)) else []) /\
    length out = length outbuf.
Proof.
  intros Hf Hne Hnf H1 H2 H3 Hm.
  rewrite (cpu_getmodelid_text_run s outbuf _ contents) by (assumption || lia).
  rewrite (getmodelid_text_scans _ _ _ _ _ _ _ _ _ H1 H2 H3).
  pose proof (cleared_length outbuf maxsz ltac:(lia)) as Hl.
  case_decide as Hz.
  - rewrite !bool_of_int_true by tauto. cbn [andb].
    destruct (write_modelid (cleared outbuf maxsz) maxsz (modelid_text (f, m, st)))
      as (out & -> & Hc & Hlen); [lia | apply modelid_text_nul_free |].
    exists out. repeat split; [exact Hc | congruence].
  - replace (_ && _) with false.
    + exists (cleared outbuf maxsz). repeat split; [|exact Hl].
      apply cstring_cleared. lia.
    + destruct (Z.eq_dec f 0) as [->|], (Z.eq_dec m 0) as [->|],
        (Z.eq_dec st 0) as [->|]; rewrite ?bool_of_int_0, ?andb_false_r;
        try reflexivity. tauto.
Qed.

(** When the family, the model or the stepping the file gives is 0
    (a processor of stepping 0, say), [cpu_getmodelid] writes nothing:
    the buffer is left as the [memset] cleared it. *)
Theorem cpu_getmodelid_zero_field s outbuf maxsz contents f m st :
  visible s !! PROC_CPUINFO = Some contents ->
  contents <> [] -> nul_free contents ->
  has_field contents KEY_cpu_family f -> has_field contents KEY_model m ->
  has_field contents KEY_stepping st ->
  to_int32 f = 0 \/ to_int32 m = 0 \/ to_int32 st = 0 ->
  (maxsz <= length outbuf)%nat ->
  cpu_getmodelid_posix outbuf maxsz s = Ok (cleared outbuf maxsz, s).
Proof.
  intros Hf Hne Hnf H1 H2 H3 Hz Hm.
  rewrite (cpu_getmodelid_text_run s outbuf _ contents) by assumption.
  rewrite (getmodelid_text_fields _ _ _ _ f m st) by assumption. cbn zeta.
  replace (_ && _) with false; [reflexivity|].
  destruct Hz as [-> | [-> | ->]]; rewrite bool_of_int_0;
    now rewrite ?andb_false_r.
Qed.

(** With [maxsz = 0] and a file that gives the three fields,
    [cpu_getmodelid] stores the terminator at index [maxsz - 1], which is
    [SIZE_MAX]: an out-of-bounds write, whatever the buffer. *)
Theorem cpu_getmodelid_maxsz_zero s outbuf contents f m st :
  visible s !! PROC_CPUINFO = Some contents ->
  contents <> [] -> nul_free contents ->
  has_field contents KEY_cpu_family f -> has_field contents KEY_model m ->
  has_field contents KEY_stepping st ->
  to_int32 f <> 0 -> to_int32 m <> 0 -> to_int32 st <> 0 ->
  cpu_getmodelid_posix outbuf 0 s = Fault BufferOverflow.
Proof.
  intros Hf Hne Hnf H1 H2 H3 Zf Zm Zst.
  rewrite (cpu_getmodelid_text_run s outbuf _ contents) by (assumption || lia).
  rewrite (getmodelid_text_fields _ _ _ _ f m st) by assumption. cbn zeta.
  now rewrite !bool_of_int_true by assumption.
Qed.

(** The faults of a field block: the pointer passes the terminator, or
    the number does not fit an [int]. *)
Lemma scan_field_fault text key current f :
  scan_field text key current = Fault f ->
  f = OutOfBoundsRead \/ f = IntOverflow.
Proof.
  unfold scan_field, after_colon. destruct (find_key text key) as [p|];
    [|discriminate].
  destruct (strstr p colon) as [q|]; [|discriminate].
  unfold advance. case_decide; cbn [outcome_map outcome_bind];
    [|intros [= <-]; auto].
  unfold atoi. case_decide; [discriminate | intros [= <-]; auto].
Qed.

(** What the body of the loop keeps: the size of the buffer and its
    terminator. *)
Lemma getmodelid_text_sized maxsz text v out v' out' stop :
  terminated maxsz out ->
  getmodelid_text maxsz text (v, out) = Ok ((v', out'), stop) ->
  length out' = length out /\ terminated maxsz out'.
Proof.
  intros Ht. destruct v as [[f m] st]. unfold getmodelid_text.
  repeat (destruct (scan_field _ _ _); cbn [outcome_bind]; [|discriminate]).
  destruct (_ && _); [|intros [= <- <- <-]; auto].
  destruct (snprintf out maxsz _) as [o|] eqn:E; cbn [outcome_bind];
    [|discriminate].
  destruct maxsz as [|n]; [discriminate|]. cbn [terminate].
  destruct (store o n NUL) as [o'|] eqn:Es; [|discriminate].
  intros [= <- <- <-].
  destruct (snprintf_terminated out (S n) _ o (Nat.lt_0_succ n) E)
    as (t & Hc & Hl).
  split.
  - now rewrite (store_length _ _ _ _ Es), (snprintf_length _ _ _ _ E).
  - exists t. split; [|exact Hl].
    apply (cstring_store_NUL o t n o' Hc ltac:(lia) Es).
Qed.

Lemma getmodelid_text_fault maxsz text v out f :
  (maxsz <= length out)%nat ->
  getmodelid_text maxsz text (v, out) = Fault f ->
  f = OutOfBoundsRead \/ f = IntOverflow \/ (f = BufferOverflow /\ maxsz = 0%nat).
Proof.
  intros Hm. destruct v as [[f0 m0] st0]. unfold getmodelid_text.
  do 3 (lazymatch goal with
        | |- context [outcome_bind (scan_field ?t ?k ?c)] =>
            let E := fresh "E" in
            destruct (scan_field t k c) eqn:E; cbn [outcome_bind];
            [|intros [= <-]; apply scan_field_fault in E; tauto]
        end).
  destruct (_ && _); [|discriminate].
  lazymatch goal with
  | |- context [snprintf out maxsz ?text] =>
      pose proof (snprintf_safe out maxsz text Hm) as Hs
  end.
  destruct (snprintf out maxsz _) as [o|] eqn:Es; [|discriminate].
  cbn [outcome_bind]. destruct maxsz as [|n]; [intros [= <-]; auto|].
  cbn [terminate]. rewrite store_ok; [discriminate|].
  rewrite (snprintf_length _ _ _ _ Es). lia.
Qed.

(** Whenever [cpu_getmodelid] returns, with [maxsz] at least 1: the state
    is the one before the call, the buffer has kept its size and holds a
    terminated string. *)
Lemma cpu_getmodelid_posix_terminated outbuf maxsz s out s' :
  (0 < maxsz)%nat -> cpu_getmodelid_posix outbuf maxsz s = Ok (out, s') ->
  s' = s /\ length out = length outbuf /\ terminated maxsz out.
Proof.
  intros Hm H. rewrite cpu_getmodelid_posix_run in H.
  apply lift_inv_ok in H as [H ->]. split; [reflexivity|].
  unfold modelid_spec in H.
  destruct (memset outbuf NUL maxsz) as [o|] eqn:Em; [|discriminate].
  pose proof (memset_length _ _ _ _ Em) as Hlen.
  apply memcpy_inv in Em as [_ ->]. cbn [outcome_bind take app] in H.
  revert H. set (o := replicate maxsz NUL ++ _) in *.
  assert (Ho : length o = length outbuf /\ terminated maxsz o).
  { split; [exact Hlen | now apply terminated_replicate]. }
  destruct (visible s !! PROC_CPUINFO); [|now intros [= <-]].
  destruct (fold_texts _ _ _) as [[v' o']|] eqn:E; [|discriminate].
  intros [= <-].
  apply (fold_texts_inv _
           (fun r => length (snd r) = length outbuf /\ terminated maxsz (snd r)))
    in E; [exact E| |exact Ho].
  intros text [v1 o1] [v2 o2] stop [Hl Ht] Hb. cbn [snd] in *.
  destruct (getmodelid_text_sized _ _ _ _ _ _ _ Ht Hb) as [Hl' Ht'].
  split; [congruence | exact Ht'].
Qed.

(** The faults of [cpu_getmodelid]: a buffer smaller than [maxsz], a
    [maxsz] of 0 with the three fields found, a colon at the end of a
    text, or a number that does not fit an [int]. *)
Lemma cpu_getmodelid_posix_faults outbuf maxsz s f :
  cpu_getmodelid_posix outbuf maxsz s = Fault f ->
  (f = BufferOverflow /\ (length outbuf < maxsz \/ maxsz = 0)%nat) \/
  f = OutOfBoundsRead \/ f = IntOverflow.
Proof.
  rewrite cpu_getmodelid_posix_run. unfold modelid_spec.
  destruct (decide (maxsz <= length outbuf)%nat) as [Hm|Hm];
    [|rewrite memset_fault by lia; intros [= <-]; left; split; [reflexivity | lia]].
  destruct (memset outbuf NUL maxsz) as [o|] eqn:Em;
    [|rewrite memset_ok in Em by lia; discriminate].
  pose proof (memset_length _ _ _ _ Em) as Hlen. cbn [outcome_bind].
  destruct (visible s !! PROC_CPUINFO) as [contents|]; [|discriminate].
  destruct (fold_texts _ _ _) as [|f'] eqn:E; [discriminate|].
  intros [= <-].
  apply (fold_texts_fault _ (fun r => maxsz <= length (snd r))%nat) in E
    as (text & [v0 o0] & _ & Ho & Hb); [| |cbn; lia].
  - apply getmodelid_text_fault in Hb; [|exact Ho]. intuition auto.
  - intros t [v1 o1] [v2 o2] st Hv Hb. cbn [snd] in *.
    destruct (decide (0 < maxsz)%nat) as [Hpos|Hz]; [|lia].
    unfold getmodelid_text in Hb. destruct v1 as [[a b] c].
    repeat (destruct (scan_field _ _ _); cbn [outcome_bind] in Hb;
            [|discriminate]).
    destruct (_ && _); [|injection Hb as <- <- <-; exact Hv].
    destruct (snprintf o1 maxsz _) as [o3|] eqn:Es; [|discriminate].
    cbn [outcome_bind] in Hb. destruct maxsz as [|n]; [lia|].
    cbn [terminate] in Hb. destruct (store o3 n NUL) eqn:Et; [|discriminate].
    injection Hb as <- <- <-.
    now rewrite (store_length _ _ _ _ Et), (snprintf_length _ _ _ _ Es).
Qed.

End ModelIdProperties.

(** ** What the scrapers promise *)

(** The name and the id are functions of the files. *)
#[export] Instance reader_cpu_getname_posix outbuf maxsz :
  Reader (cpu_getname_posix outbuf maxsz)
         (fun fs => name_spec fs outbuf maxsz).
Proof. intros s. apply cpu_getname_posix_run. Qed.

#[export] Instance reader_cpu_getmodelid_posix `{Miner} outbuf maxsz :
  Reader (cpu_getmodelid_posix outbuf maxsz)
         (fun fs => modelid_spec fs outbuf maxsz).
Proof. intros s. apply cpu_getmodelid_posix_run. Qed.

Lemma scan_loop_terminates_witness :
  scan_loop (getname_text 48) (S 400) 0 None (replicate 48 NUL)
      (mk_stdio FOPEN_MAX ∅ {[0%nat := haswell_cpuinfo]} 0) =
    scan_loop (getname_text 48) 400 0 None (replicate 48 NUL)
      (mk_stdio FOPEN_MAX ∅ {[0%nat := haswell_cpuinfo]} 0) /\
  ((forall text v0, getname_text 48 text v0 <> Fault OutOfFuel) ->
   scan_loop (getname_text 48) 400 0 None (replicate 48 NUL)
     (mk_stdio FOPEN_MAX ∅ {[0%nat := haswell_cpuinfo]} 0) <> Fault OutOfFuel).
Proof.
  apply (scan_loop_terminates (getname_text 48) 400
           (mk_stdio FOPEN_MAX ∅ {[0%nat := haswell_cpuinfo]} 0) 0%nat None
           (replicate 48 NUL) haswell_cpuinfo).
  - vm_compute. reflexivity.
  - vm_compute. lia.
Defined.

Lemma cpu_getname_faults_witness :
  (OutOfBoundsRead = BufferOverflow /\ (length (replicate 8 NUL) < 8)%nat) \/
  (OutOfBoundsRead = OutOfBoundsRead /\
   exists contents text p,
     visible cut_host !! PROC_CPUINFO = Some contents /\
     text ∈ split_nul contents /\
     find_key text KEY_model_name = Some p /\
     strstr p colon = Some [Byte.x3a]).
Proof.
  apply (cpu_getname_faults (replicate 8 NUL) 8 cut_host OutOfBoundsRead).
  vm_compute. reflexivity.
Defined.

(** The name of the sample machines, the state after the call, a file
    read in two pieces, and a file without a model name. *)
Example cpu_getname_samples :
  value_of (cpu_getname_posix (replicate 48 Byte.xff) 48 haswell_host) =
    Some (bytes "Intel(R) Core(TM) i7-4770 CPU @ 3.40GHz" ++ replicate 9 NUL) /\
  state_of (cpu_getname_posix (replicate 48 Byte.xff) 48 haswell_host) =
    Some haswell_host /\
  value_of (cpu_getname_posix (replicate 8 Byte.xff) 8 split_host) =
    Some (bytes "Second " ++ [NUL]) /\
  value_of (cpu_getname_posix (replicate 4 Byte.xff) 3 bare_host) =
    Some [NUL; NUL; NUL; Byte.xff].
Proof. vm_compute. repeat split. Qed.

(** ** [cpu_getmodelid] on the sample hosts *)

(** The line of a field of the sample files, with its padding. *)
Ltac sample_field pad :=
  eexists; split;
  [exists pad, Byte.x20; split; [compute; reflexivity | by_decide]
  |compute; reflexivity].

Ltac sample_file :=
  first [ vm_compute; reflexivity | vm_compute; discriminate | by_decide ].

Lemma cpu_getmodelid_zero_field_witness :
  @cpu_getmodelid_posix eight_cpus (replicate 16 Byte.xff) 16 ryzen_host =
    Ok (cleared (replicate 16 Byte.xff) 16, ryzen_host).
Proof.
  apply (@cpu_getmodelid_zero_field eight_cpus ryzen_host
           (replicate 16 Byte.xff) 16 ryzen_cpuinfo 23 113 0);
    try sample_file.
  - sample_field (@nil byte).
  - sample_field [TAB].
  - sample_field (@nil byte).
Defined.

Lemma cpu_getmodelid_maxsz_zero_witness :
  @cpu_getmodelid_posix eight_cpus (replicate 16 Byte.xff) 0 haswell_host =
    Fault BufferOverflow.
Proof.
  apply (@cpu_getmodelid_maxsz_zero eight_cpus haswell_host
           (replicate 16 Byte.xff) haswell_cpuinfo 6 60 3);
    try sample_file.
  - sample_field (@nil byte).
  - sample_field [TAB].
  - sample_field (@nil byte).
Defined.

(** The model id of the Haswell sample is [6:3c03:8]; the Ryzen sample,
    of stepping 0, and the Raspberry Pi, without the fields, get none. *)
Example cpu_getmodelid_samples :
  value_of (@cpu_getmodelid_posix eight_cpus (replicate 10 Byte.xff) 10 haswell_host) =
    Some (bytes "6:3c03:8" ++ [NUL; NUL]) /\
  value_of (@cpu_getmodelid_posix eight_cpus (replicate 4 Byte.xff) 4 ryzen_host) =
    Some (replicate 4 NUL) /\
  value_of (@cpu_getmodelid_posix eight_cpus (replicate 4 Byte.xff) 4 raspberry_host) =
    Some (replicate 4 NUL).
Proof. vm_compute. repeat split. Qed.

(** C39. The model id tells machines apart when the model fits in a
    byte: two ids printed for the same number of processors are equal only
    when the families, the models and the steppings are the same 32-bit
    patterns.  The family ends at the first colon, the model is the two
    characters behind it, the stepping ends at the second colon. *)
Theorem modelid_text_inj `{Miner} f1 m1 st1 f2 m2 st2 :
  0 <= m1 <= 0xff -> 0 <= m2 <= 0xff ->
  modelid_text (f1, m1, st1) = modelid_text (f2, m2, st2) ->
  to_uint32 f1 = to_uint32 f2 /\ m1 = m2 /\ to_uint32 st1 = to_uint32 st2.
Proof.
  intros H1 H2 E. unfold modelid_text, colon in E. cbn [bytes app] in E.
  apply app_sep_inj in E as [Ef E]; try apply hex_no_colon, fmt_x_hex.
  apply app_inj_1 in E as [Em E]; [|now rewrite !fmt_02x_byte].
  apply app_sep_inj in E as [Es _]; try apply hex_no_colon, fmt_02x_hex.
  apply fmt_x_inj in Ef. apply fmt_02x_inj in Em, Es.
  rewrite !to_uint32_small in Em by (unfold is_uint32; lia). auto.
Qed.

Lemma modelid_text_inj_witness :
  to_uint32 6 = to_uint32 6 /\ 0x3c = 0x3c /\ to_uint32 3 = to_uint32 3.
Proof.
  apply (@modelid_text_inj eight_cpus 6 0x3c 3 6 0x3c 3); [lia | lia | reflexivity].
Defined.

(** Model and stepping are printed without a separator: two different
    machines can get the same id. *)
Example modelid_text_ambiguous :
  @modelid_text eight_cpus (6, 0x11, 0x203) =
  @modelid_text eight_cpus (6, 0x112, 0x3).
Proof. vm_compute. reflexivity. Qed.
