(* ===== verification/Cpuinfo.v ===== *)
(** * The text of [/proc/cpuinfo] and what the scrapers read in it

    The kernel prints one line for every property of a processor: the key,
    tabs, a colon and the rest of the line, and a blank line behind the
    properties of each processor.  [render] prints a list of such rows;
    [find_line] is the line a scraper stops at when it looks for a key:
    the first line whose key ends with the key looked for and is followed
    by a tab.  [strstr_render] shows that [strstr] on the printed file
    finds exactly that line, and the theorems at the end read the name and
    the model id off the rows of the file. *)

From Stdlib Require Import ZArith Lia List Bool Strings.Byte.
From coqutil Require Import Byte.
From stdpp Require Import base list sets gmap strings.
From S2P Require Import Prelude CTypes CString Printf Stdio Hosts ProcCpuinfo.

Local Open Scope Z_scope.

(** ** Definitions *)

(** A line: the key, the number of tabs behind it, and what follows the
    colon (a space and the value on most lines). *)
Record line : Type := Line { key : list byte; tabs : nat; text : list byte }.

(** A row of the file: a line, or the blank line that ends the lines of
    a processor. *)
Inductive row : Type :=
  | Row (l : line)
  | Blank.

Definition render_line (l : line) : list byte :=
  key l ++ replicate (tabs l) TAB ++ colon ++ text l ++ [LF].

Definition render_row (r : row) : list byte :=
  match r with
  | Row l => render_line l
  | Blank => [LF]
  end.

(** The file as the kernel prints it. *)
Definition render (rows : list row) : list byte := rows ≫= render_row.

(** Keys have no tab, line feed, colon or NUL; what follows the colon has
    no tab, line feed or NUL. *)
Definition wf_line (l : line) : Prop :=
  Forall (fun b => b ∉ [TAB; LF; Byte.x3a; NUL]) (key l) /\
  Forall (fun b => b ∉ [TAB; LF; NUL]) (text l).

Definition wf_row (r : row) : Prop :=
  match r with
  | Row l => wf_line l
  | Blank => True
  end.

(** A key a scraper looks for, without its tab. *)
Definition wf_key (K : list byte) : Prop :=
  K <> [] /\ Forall (fun b => b ∉ [TAB; LF; Byte.x3a]) K.

(** The line [strstr(buf, K "\t")] stops at, and the rows behind it. *)
Fixpoint find_line (K : list byte) (rows : list row)
  : option (line * list row) :=
  match rows with
  | [] => None
  | Row l :: rows =>
      if decide (K `suffix_of` key l /\ (0 < tabs l)%nat) then Some (l, rows)
      else find_line K rows
  | Blank :: rows => find_line K rows
  end.

(** The value of the key: what follows the colon and one more byte on the
    line found; nothing when no line has the key. *)
Definition field (K : list byte) (rows : list row) : option (list byte) :=
  match find_line K rows with
  | Some (l, _) => match text l with _ :: v => Some v | [] => None end
  | None => Some []
  end.

(** The number of the key: what follows the colon and one more byte is
    the decimal text of [n]; 0 when no line has the key. *)
Definition number (K : list byte) (rows : list row) (n : Z) : Prop :=
  match find_line K rows with
  | Some (l, _) => exists c, text l = c :: fmt_d n
  | None => n = 0
  end.

(** A line with a space and a value behind the colon. *)
Definition entry (k : string) (n : nat) (v : string) : row :=
  Row (Line (bytes k) n (Byte.x20 :: bytes v)).

(** The rows of [Hosts.haswell_cpuinfo]. *)
Definition haswell_rows : list row :=
  [entry "processor" 1 "0"; entry "vendor_id" 1 "GenuineIntel";
   entry "cpu family" 1 "6"; entry "model" 2 "60";
   entry "model name" 1 "Intel(R) Core(TM) i7-4770 CPU @ 3.40GHz";
   entry "stepping" 1 "3"; entry "microcode" 1 "0x27";
   entry "cache size" 1 "8192 KB"; Blank].

(** A MIPS router: the kernel prints [cpu model], and no model name,
    family or stepping. *)
Definition mips_rows : list row :=
  [entry "system type" 2 "Atheros AR9330 rev 1"; entry "machine" 2 "TP-LINK TL-WR703N";
   entry "processor" 2 "0"; entry "cpu model" 2 "MIPS 24Kc V7.4";
   entry "BogoMIPS" 2 "265.42"; Blank].

Definition mips_host : stdio := boot [(PATH_cpuinfo, render mips_rows)].

#[export] Instance wf_key_dec K : Decision (wf_key K).
Proof. unfold wf_key. apply _. Defined.

#[export] Instance wf_line_dec l : Decision (wf_line l).
Proof. unfold wf_line. apply _. Defined.

#[export] Instance wf_row_dec r : Decision (wf_row r).
Proof. destruct r; apply _. Defined.

(** ** [strstr] on the printed file *)

Section Key.
Context (K : list byte) (HK : wf_key K).

Lemma wf_key_notin b : b ∈ [TAB; LF; Byte.x3a] -> b ∉ K.
Proof. apply Forall_notin, HK. Qed.

Lemma render_cons r rows : render (r :: rows) = render_row r ++ render rows.
Proof. reflexivity. Qed.

(** What follows the colon of a line, and the line feed, hold no key. *)
Lemma strstr_behind t rest :
  Forall (fun b => b ∉ [TAB; LF; NUL]) t ->
  strstr (t ++ LF :: rest) (K ++ [TAB]) = strstr rest (K ++ [TAB]).
Proof.
  intros Ht. apply strstr_skip_sentinel; [| | discriminate].
  - apply (Forall_notin _ _ _ Ht). set_solver.
  - apply wf_key_notin. set_solver.
Qed.

(** Neither do the tabs behind the first one, and the colon. *)
Lemma strstr_pad n rest :
  strstr (replicate n TAB ++ Byte.x3a :: rest) (K ++ [TAB]) =
  strstr rest (K ++ [TAB]).
Proof.
  replace (replicate n TAB ++ Byte.x3a :: rest)
    with ((replicate n TAB ++ [Byte.x3a]) ++ rest) by now rewrite <- app_assoc.
  apply strstr_skip_first; [apply HK|].
  intros b [->%elem_of_replicate_inv | ->%list_elem_of_singleton]%elem_of_app;
    apply wf_key_notin; set_solver.
Qed.

(** One line, with what follows it. *)
Lemma strstr_render_line l rest :
  wf_line l ->
  strstr (render_line l ++ rest) (K ++ [TAB]) =
  if decide (K `suffix_of` key l /\ (0 < tabs l)%nat)
  then Some (K ++ replicate (tabs l) TAB ++ colon ++ text l ++ LF :: rest)
  else strstr rest (K ++ [TAB]).
Proof.
  intros [Hk Ht]. destruct l as [k n t]. cbn [key tabs text] in *.
  assert (Hkey : TAB ∉ k) by (apply (Forall_notin _ _ _ Hk); set_solver).
  unfold render_line. cbn [key tabs text]. rewrite <- !app_assoc.
  change (colon ++ ?x) with (Byte.x3a :: x). cbn [app].
  destruct n as [|n]; cbn [replicate app].
  - rewrite decide_False by lia.
    rewrite strstr_skip_sentinel;
      [now apply strstr_behind | exact Hkey | apply wf_key_notin; set_solver
      | discriminate].
  - rewrite strstr_sentinel;
      [| apply HK | apply wf_key_notin; set_solver | exact Hkey].
    rewrite strstr_pad, strstr_behind by assumption.
    apply decide_ext. intuition lia.
Qed.

(** [strstr] on the printed file stops at the line [find_line] gives. *)
Theorem strstr_render rows :
  Forall wf_row rows ->
  strstr (render rows) (K ++ [TAB]) =
  match find_line K rows with
  | Some (l, rest) =>
      Some (K ++ replicate (tabs l) TAB ++ colon ++ text l ++ LF :: render rest)
  | None => None
  end.
Proof.
  induction 1 as [|[l|] rows Hr _ IH]; cbn [find_line].
  - change (render []) with (@nil byte).
    apply strstr_None. intros i Hp. rewrite drop_nil in Hp.
    now apply prefix_nil_inv, app_nil in Hp as [_ ?].
  - rewrite render_cons. cbn [render_row].
    rewrite strstr_render_line by assumption. now destruct (decide _).
  - rewrite render_cons, <- IH. apply strstr_skip_first; [apply HK|].
    intros b ->%list_elem_of_singleton. apply wf_key_notin. set_solver.
Qed.

Lemma find_line_Some rows l rest :
  find_line K rows = Some (l, rest) ->
  K `suffix_of` key l /\ (0 < tabs l)%nat /\ Row l ∈ rows.
Proof.
  induction rows as [|[l'|] rows IH]; cbn [find_line]; [discriminate| |].
  - case_decide as H.
    + intros [= -> ->]. split_and!; [apply H.. | left].
    + intros (? & ? & ?)%IH. split_and!; [assumption.. | now right].
  - intros (? & ? & ?)%IH. split_and!; [assumption.. | now right].
Qed.

(** The line found, as the scrapers see it. *)
Lemma render_has_line rows l rest c v :
  Forall wf_row rows -> find_line K rows = Some (l, rest) ->
  text l = c :: v ->
  has_line (render rows) (K ++ [TAB]) v (LF :: render rest).
Proof.
  intros Hwf Hfind Ht. pose proof (find_line_Some _ _ _ Hfind) as (_ & Hn & _).
  exists (replicate (pred (tabs l)) TAB), c. split.
  - rewrite strstr_render, Hfind, Ht by assumption.
    destruct (tabs l); [lia|]. cbn [pred replicate]. f_equal.
    now rewrite <- !app_assoc.
  - rewrite !elem_of_app, elem_of_replicate, list_elem_of_singleton.
    intros [[Hin | [=]] | [[=] _]]. revert Hin. apply wf_key_notin. set_solver.
Qed.

(** The number found, as [cpu_getmodelid] reads it. *)
Lemma render_scans rows n :
  Forall wf_row rows -> number K rows n ->
  scans (render rows) (K ++ [TAB]) 0 (to_int32 n).
Proof.
  intros Hwf Hn. unfold number in Hn.
  destruct (find_line K rows) as [[l rest]|] eqn:Hfind.
  - destruct Hn as [c Ht]. apply has_field_scans. eexists. split;
      [exact (render_has_line _ _ _ _ _ Hwf Hfind Ht) | reflexivity].
  - right. subst n. now rewrite strstr_render, Hfind.
Qed.

End Key.

(** ** The printed file is a text *)

Lemma render_row_nul_free r : wf_row r -> nul_free (render_row r).
Proof.
  destruct r as [l|]; [|now repeat constructor]. intros [Hk Ht].
  unfold nul_free, render_row, render_line. rewrite !Forall_app.
  split_and!; try (eapply Forall_impl; [eassumption|]; set_solver).
  - apply Forall_replicate. discriminate.
  - now repeat constructor.
  - now repeat constructor.
Qed.

Lemma render_nul_free rows : Forall wf_row rows -> nul_free (render rows).
Proof.
  induction 1 as [|r rows Hr _ IH]; [constructor|].
  apply Forall_app. split; [now apply render_row_nul_free | exact IH].
Qed.

Lemma render_nonempty rows : rows <> [] -> render rows <> [].
Proof.
  destruct rows as [|[[k n t]|] rows]; [contradiction| |discriminate].
  intros _ H. apply (f_equal length) in H. revert H.
  cbn. rewrite !length_app. cbn. rewrite !length_app. cbn. lia.
Qed.

Lemma wf_row_text rows l c v :
  Forall wf_row rows -> Row l ∈ rows -> text l = c :: v -> LF ∉ v.
Proof.
  rewrite Forall_forall. intros Hwf Hin Ht. destruct (Hwf _ Hin) as [_ H].
  rewrite Ht in H. apply Forall_cons in H as [_ H].
  apply (Forall_notin _ _ _ H). set_solver.
Qed.

(** The value found, as [cpu_getname] reads it: a line that ends at its
    line feed, or no line and no value. *)
Lemma render_field K rows v :
  wf_key K -> Forall wf_row rows -> field K rows = Some v ->
  (exists rest, has_line (render rows) (K ++ [TAB]) v (LF :: rest) /\ LF ∉ v) \/
  (strstr (render rows) (K ++ [TAB]) = None /\ v = []).
Proof.
  intros HK Hwf. unfold field.
  destruct (find_line K rows) as [[l rest]|] eqn:Hfind.
  - destruct (text l) as [|c t] eqn:Ht; intros [= <-]. left. exists (render rest).
    pose proof (find_line_Some _ _ _ _ Hfind) as (_ & _ & Hin).
    eauto using render_has_line, wf_row_text.
  - intros [= <-]. right. now rewrite (strstr_render _ HK _ Hwf), Hfind.
Qed.

(** ** What the scrapers read *)

(** C32. [cpu_getname] on a file the kernel printed: the buffer holds what
    follows the colon and the space on the first line whose key ends with
    [model name], cut to [maxsz - 1] bytes and terminated; it holds the
    empty string when no line has the key.  The state is unchanged. *)
Theorem cpu_getname_cpuinfo s outbuf maxsz rows name :
  visible s !! PROC_CPUINFO = Some (render rows) ->
  rows <> [] -> Forall wf_row rows ->
  field (bytes "model name") rows = Some name ->
  (0 < maxsz <= length outbuf)%nat ->
  exists out,
    cpu_getname_posix outbuf maxsz s = Ok (out, s) /\
    cstring out = Ok (take (maxsz - 1) name) /\
    length out = length outbuf.
Proof.
  intros Hf Hne Hwf Hname Hm.
  pose proof (render_nonempty _ Hne). pose proof (render_nul_free _ Hwf).
  destruct (render_field (bytes "model name") rows name ltac:(by_decide)
              Hwf Hname) as [(rest & Hl & Hlf) | [Habs ->]].
  - eapply cpu_getname_model_name; eauto.
  - exists (cleared outbuf maxsz). rewrite take_nil.
    split_and!; [| apply cstring_cleared; lia | apply cleared_length; lia].
    eapply cpu_getname_absent; eauto. lia.
Qed.

Section Miner.
Context {miner : Miner}.

(** C34. [cpu_getmodelid] on a file the kernel printed: the three numbers
    are those of the first lines whose keys end with [cpu family],
    [model] and [stepping], 0 for a key no line has; the buffer holds
    the id made of them when none is 0 and the empty string otherwise.
    The state is unchanged. *)
Theorem cpu_getmodelid_cpuinfo s outbuf maxsz rows f m st :
  visible s !! PROC_CPUINFO = Some (render rows) ->
  rows <> [] -> Forall wf_row rows ->
  number (bytes "cpu family") rows f -> number (bytes "model") rows m ->
  number (bytes "stepping") rows st ->
  (0 < maxsz <= length outbuf)%nat ->
  exists out,
    cpu_getmodelid_posix outbuf maxsz s = Ok (out, s) /\
    cstring out =
      Ok (if decide (to_int32 f <> 0 /\ to_int32 m <> 0 /\ to_int32 st <> 0)
          then take (maxsz - 1)
                 (modelid_text (to_int32 f, to_int32 m, to_int32 st))
          else []) /\
    length out = length outbuf.
Proof.
  intros Hf Hne Hwf H1 H2 H3 Hm.
  apply (cpu_getmodelid_scans s outbuf maxsz (render rows));
    auto using render_nonempty, render_nul_free;
    apply render_scans; auto; by_decide.
Qed.

End Miner.

(** ** The sample hosts *)

Example haswell_printed : render haswell_rows = haswell_cpuinfo.
Proof. vm_compute. reflexivity. Qed.

Lemma cpu_getname_cpuinfo_witness :
  exists out,
    cpu_getname_posix (replicate 48 Byte.xff) 48 haswell_host =
      Ok (out, haswell_host) /\
    cstring out =
      Ok (take (48 - 1) (bytes "Intel(R) Core(TM) i7-4770 CPU @ 3.40GHz")) /\
    length out = length (replicate 48 Byte.xff).
Proof.
  apply (cpu_getname_cpuinfo haswell_host (replicate 48 Byte.xff) 48
           haswell_rows);
    [sample_file | sample_file | sample_file | sample_file | vm_compute; lia].
Defined.

Lemma cpu_getmodelid_cpuinfo_witness :
  exists out,
    @cpu_getmodelid_posix eight_cpus (replicate 16 Byte.xff) 16 haswell_host =
      Ok (out, haswell_host) /\
    cstring out =
      Ok (if decide (to_int32 6 <> 0 /\ to_int32 60 <> 0 /\ to_int32 3 <> 0)
          then take (16 - 1)
                 (@modelid_text eight_cpus (to_int32 6, to_int32 60, to_int32 3))
          else []) /\
    length out = length (replicate 16 Byte.xff).
Proof.
  apply (@cpu_getmodelid_cpuinfo eight_cpus haswell_host
           (replicate 16 Byte.xff) 16 haswell_rows 6 60 3);
    [sample_file | sample_file | sample_file | .. | vm_compute; lia];
    vm_compute; now exists Byte.x20.
Defined.

(** On the MIPS router the key [model] is found on the line [cpu model],
    whose value is not a number: the model is 0 and the id is empty. *)
Example cpu_model_taken_for_model :
  fst <$> find_line (bytes "model") mips_rows =
    Some (Line (bytes "cpu model") 2 (bytes " MIPS 24Kc V7.4")) /\
  @cpu_getmodelid_posix eight_cpus (replicate 16 Byte.xff) 16 mips_host =
    Ok (cleared (replicate 16 Byte.xff) 16, mips_host).
Proof. split; vm_compute; reflexivity. Qed.
