(* ===== verification/ScanSteps.v ===== *)
(** * The scraper of [/proc/cpuinfo], statement by statement

    [ProcCpuinfo.scan_cpuinfo] runs the skeleton of [cpu_getname] and
    [cpu_getmodelid] as one computation, its loop on a fuel.  Here the
    same lines are a state machine: a configuration is a program point
    with the local variables that are live there, and the state of the C
    library; a step is one statement ([fopen], one evaluation of the loop
    condition with its [getdelim], the body of the loop, [free],
    [fclose]).  The machine needs no fuel.  The theorems: the steps are
    deterministic and computed by [next]; every execution ends
    ([scan_terminates]); the machine and [scan_cpuinfo] give the same
    result ([scan_steps_refine]); between the [fopen] and the [fclose]
    the function owns exactly one stream and at most one heap block, and
    it returns with the state it was called in ([scan_inv]). *)

From Stdlib Require Import ZArith Lia List Bool Strings.Byte.
From coqutil Require Import Byte.
From stdpp Require Import base relations list gmap strings.
From S2P Require Import Prelude Transitions CTypes CString Stdio Hosts.
From S2P Require Import ProcCpuinfo.

Local Open Scope Z_scope.
Local Open Scope cmonad_scope.

(** ** Definitions *)

Section Machine.
Context {V : Type}.

(** The program points of lines 159-178 (190-234 in [cpu_getmodelid]),
    with the variables [fd], [buf] and those of the body. *)
Inductive point :=
| AtFopen (v : V)
| AtGetdelim (fd : nat) (buf : option (list byte)) (v : V)
| AtBody (fd : nat) (block : list byte) (v : V)
| AtFree (fd : nat) (buf : option (list byte)) (v : V)
| AtFclose (fd : nat) (v : V)
| Returned (v : V)
| Crashed (f : fault).

Definition config : Type := point * stdio.

Context (body : list byte -> V -> outcome (V * bool)).

(** One statement. *)
Inductive step : relation config :=
| step_fopen_null v s s' :
    fopen PROC_CPUINFO s = Ok (None, s') ->
    step (AtFopen v, s) (Returned v, s')
| step_fopen v s fd s' :
    fopen PROC_CPUINFO s = Ok (Some fd, s') ->
    step (AtFopen v, s) (AtGetdelim fd None v, s')
| step_getdelim_end fd buf v s buf' s' :
    getdelim buf NUL fd s = Ok ((-1, buf'), s') ->
    step (AtGetdelim fd buf v, s) (AtFree fd buf' v, s')
| step_getdelim_null fd buf v s n s' :
    getdelim buf NUL fd s = Ok ((n, None), s') -> n <> -1 ->
    step (AtGetdelim fd buf v, s) (AtGetdelim fd None v, s')
| step_getdelim_text fd buf v s n block s' :
    getdelim buf NUL fd s = Ok ((n, Some block), s') -> n <> -1 ->
    step (AtGetdelim fd buf v, s) (AtBody fd block v, s')
| step_getdelim_fault fd buf v s f :
    getdelim buf NUL fd s = Fault f ->
    step (AtGetdelim fd buf v, s) (Crashed f, s)
| step_body_break fd block v s text v' :
    cstring block = Ok text -> body text v = Ok (v', true) ->
    step (AtBody fd block v, s) (AtFree fd (Some block) v', s)
| step_body_next fd block v s text v' :
    cstring block = Ok text -> body text v = Ok (v', false) ->
    step (AtBody fd block v, s) (AtGetdelim fd (Some block) v', s)
| step_body_unterminated fd block v s f :
    cstring block = Fault f ->
    step (AtBody fd block v, s) (Crashed f, s)
| step_body_fault fd block v s text f :
    cstring block = Ok text -> body text v = Fault f ->
    step (AtBody fd block v, s) (Crashed f, s)
| step_free fd buf v s s' :
    free buf s = Ok (tt, s') ->
    step (AtFree fd buf v, s) (AtFclose fd v, s')
| step_fclose fd v s s' :
    fclose fd s = Ok (tt, s') ->
    step (AtFclose fd v, s) (Returned v, s')
| step_fclose_fault fd v s f :
    fclose fd s = Fault f ->
    step (AtFclose fd v, s) (Crashed f, s).

(** The step as a function: [None] where the machine has stopped. *)
Definition next (c : config) : option config :=
  let '(pt, s) := c in
  match pt with
  | AtFopen v =>
      match fopen PROC_CPUINFO s with
      | Ok (None, s') => Some (Returned v, s')
      | Ok (Some fd, s') => Some (AtGetdelim fd None v, s')
      | Fault f => Some (Crashed f, s)
      end
  | AtGetdelim fd buf v =>
      match getdelim buf NUL fd s with
      | Ok ((n, buf'), s') =>
          if n =? -1 then Some (AtFree fd buf' v, s')
          else match buf' with
               | None => Some (AtGetdelim fd None v, s')
               | Some block => Some (AtBody fd block v, s')
               end
      | Fault f => Some (Crashed f, s)
      end
  | AtBody fd block v =>
      match outcome_bind (cstring block) (fun text => body text v) with
      | Ok (v', true) => Some (AtFree fd (Some block) v', s)
      | Ok (v', false) => Some (AtGetdelim fd (Some block) v', s)
      | Fault f => Some (Crashed f, s)
      end
  | AtFree fd buf v =>
      match free buf s with
      | Ok (_, s') => Some (AtFclose fd v, s')
      | Fault f => Some (Crashed f, s)
      end
  | AtFclose fd v =>
      match fclose fd s with
      | Ok (_, s') => Some (Returned v, s')
      | Fault f => Some (Crashed f, s)
      end
  | Returned _ | Crashed _ => None
  end.

(** The machine run for at most [n] steps. *)
Fixpoint steps (n : nat) (c : config) : config :=
  match n with
  | O => c
  | S n => match next c with Some c' => steps n c' | None => c end
  end.

(** The machine has stopped. *)
Definition stopped (c : config) : Prop :=
  match fst c with
  | Returned _ | Crashed _ => True
  | _ => False
  end.

(** The statements still to execute, as a computation: what
    [scan_cpuinfo] does from the point on. *)
Definition finish (fd : nat) (loop : IO (option (list byte) * V)) : IO V :=
  r <- loop ;;
  free (fst r) ;;;
  fclose fd ;;;
  ret (snd r).

Definition rest_of_body (fd : nat) (block : list byte) (v : V) (fuel : nat)
  : IO (option (list byte) * V) :=
  text <- lift (cstring block) ;;
  r <- lift (body text v) ;;
  let '(v, stop) := r in
  if stop : bool then ret (Some block, v)
  else scan_loop body fuel fd (Some block) v.

Definition result (c : config) : outcome (V * stdio) :=
  let '(pt, s) := c in
  let fuel fd := S (length (pending s fd)) in
  match pt with
  | AtFopen v => scan_cpuinfo body v s
  | AtGetdelim fd buf v => finish fd (scan_loop body (fuel fd) fd buf v) s
  | AtBody fd block v => finish fd (rest_of_body fd block v (fuel fd)) s
  | AtFree fd buf v => (free buf ;;; fclose fd ;;; ret v) s
  | AtFclose fd v => (fclose fd ;;; ret v) s
  | Returned v => Ok (v, s)
  | Crashed f => Fault f
  end.

(** The steps the machine can still take are bounded by [weight]. *)
Definition weight (c : config) : nat :=
  let '(pt, s) := c in
  match pt with
  | AtFopen _ =>
      2 * length (default [] (visible s !! PROC_CPUINFO)) + 5
  | AtGetdelim fd _ _ => 2 * length (pending s fd) + 4
  | AtBody fd _ _ => 2 * length (pending s fd) + 5
  | AtFree _ _ _ => 3
  | AtFclose _ _ => 2
  | Returned _ | Crashed _ => 0
  end.

(** The function owns the stream [fd]: it is open, and was not before the
    call. *)
Definition owns (s0 s : stdio) (fd : nat) : Prop :=
  streams s0 !! fd = None /\ is_Some (streams s !! fd) /\
  delete fd (streams s) = streams s0.

(** The number of blocks [buf] stands for. *)
Definition blocks_of (buf : option (list byte)) : nat :=
  match buf with Some _ => 1 | None => 0 end.

(** What holds at each program point of a call made in the state [s0]. *)
Definition scan_inv (s0 : stdio) (c : config) : Prop :=
  let '(pt, s) := c in
  open_max s = open_max s0 /\ files s = files s0 /\
  match pt with
  | AtFopen _ | Returned _ => s = s0
  | AtGetdelim fd buf _ | AtFree fd buf _ =>
      owns s0 s fd /\
      heap_blocks s = (blocks_of buf + heap_blocks s0)%nat
  | AtBody fd block _ =>
      owns s0 s fd /\ heap_blocks s = S (heap_blocks s0) /\
      is_ok (cstring block) = true
  | AtFclose fd _ => owns s0 s fd /\ heap_blocks s = heap_blocks s0
  | Crashed f =>
      (exists fd, owns s0 s fd) /\ heap_blocks s = S (heap_blocks s0) /\
      exists text v, body text v = Fault f
  end.

End Machine.

Arguments point : clear implicits.
Arguments config : clear implicits.

(** [cpu_getname] on the Haswell sample, stopped in the body of the loop:
    after the [fopen] and the first [getdelim]. *)
Definition haswell_in_body : config (list byte) :=
  steps (getname_text 40) 2 (AtFopen (replicate 40 NUL), haswell_host).

(** ** The steps are the function [next] *)

Section MachineFacts.
Context {V : Type} (body : list byte -> V -> outcome (V * bool)).
Implicit Types (c : config V) (s : stdio) (v : V).

Lemma step_next c c' : step body c c' <-> next body c = Some c'.
Proof.
  split.
  - destruct 1; cbn [next];
      repeat match goal with
             | H : _ = _ |- _ => rewrite H; cbn [outcome_bind]
             | H : ?n <> -1 |- _ => apply Z.eqb_neq in H
             end; reflexivity.
  - destruct c as [[v|fd buf v|fd block v|fd buf v|fd v|v|f] s]; cbn [next];
      [destruct (fopen _ s) as [[[fd|] s']|] eqn:E
      |destruct (getdelim buf NUL fd s) as [[[n [block|]] s']|] eqn:E;
         [destruct (n =? -1) eqn:En; [apply Z.eqb_eq in En as ->|apply Z.eqb_neq in En]..|]
      |destruct (cstring block) as [text|] eqn:E; cbn [outcome_bind];
         [destruct (body text v) as [[v' []]|] eqn:Eb|]
      |destruct (free buf s) as [[[] s']|] eqn:E
      |destruct (fclose fd s) as [[[] s']|] eqn:E
      |..];
      intros [= <-]; try (econstructor; eassumption).
    + now apply fopen_not_fault in E.
    + now apply free_not_fault in E.
Qed.

Lemma step_deterministic : deterministic (step body).
Proof.
  intros c c1 c2 H1%step_next H2%step_next. congruence.
Qed.

(** The machine stops at [Returned] and [Crashed], and nowhere else. *)
Lemma stopped_next c : stopped c <-> next body c = None.
Proof.
  destruct c as [[v|fd buf v|fd block v|fd buf v|fd v|v|f] s];
    cbn [stopped fst next]; try tauto; split; try contradiction;
    repeat (match goal with
            | |- context [match ?x with _ => _ end] => destruct x
            end); discriminate.
Qed.

Lemma stopped_nf c : stopped c <-> nf (step body) c.
Proof.
  rewrite stopped_next. unfold nf, red. split.
  - intros Hn [c' H%step_next]. congruence.
  - intros Hn. destruct (next body c) as [c'|] eqn:E; [|reflexivity].
    exfalso. apply Hn. exists c'. now apply step_next.
Qed.

Lemma running_red c : ~ stopped c -> red (step body) c.
Proof.
  rewrite stopped_next. destruct (next body c) as [c'|] eqn:E; [|congruence].
  intros _. exists c'. now apply step_next.
Qed.

(** ** Every step uses up weight *)

(** What a step at the loop condition read: the input of the stream
    before the step, and the state after it. *)
Lemma getdelim_text_inv buf fd s n block s' :
  getdelim buf NUL fd s = Ok ((n, Some block), s') -> n <> -1 ->
  exists b input,
    streams s !! fd = Some (b :: input) /\
    block = (read_until NUL (b :: input)).1 ++ [NUL] /\
    s' = mk_stdio (open_max s) (files s)
           (<[fd := (read_until NUL (b :: input)).2]> (streams s))
           (blocks_after buf (heap_blocks s)).
Proof.
  intros (input & Hfd & -> & Hin)%getdelim_inv Hn.
  destruct input as [|b input]; [now destruct Hin|].
  destruct Hin as (_ & [= ->] & _). now exists b, input.
Qed.

Lemma getdelim_not_null buf fd s n s' :
  getdelim buf NUL fd s <> Ok ((n, None), s').
Proof.
  intros (input & _ & _ & Hin)%getdelim_inv.
  destruct input; [now destruct Hin | now destruct Hin as (_ & ? & _)].
Qed.

Lemma step_weight c c' : step body c c' -> (weight c' < weight c)%nat.
Proof.
  destruct 1; cbn [weight]; try lia.
  - unfold fopen in H.
    destruct (visible s !! PROC_CPUINFO); [|discriminate].
    injection H as <- <-. rewrite pending_open. cbn. lia.
  - now apply getdelim_not_null in H.
  - apply getdelim_text_inv in H as (b & input & Hfd & _ & ->); [|assumption].
    rewrite pending_open, (pending_lookup _ _ _ Hfd).
    pose proof (read_until_shorter NUL b input). lia.
Qed.

(** ** Every step keeps the result *)

(** The loop after the body, whatever fuel it is given beyond the input
    left. *)
Lemma rest_of_body_fuel fd block v fuel1 fuel2 s input :
  streams s !! fd = Some input ->
  (length input < fuel1)%nat -> (length input < fuel2)%nat ->
  rest_of_body body fd block v fuel1 s = rest_of_body body fd block v fuel2 s.
Proof.
  intros Hfd H1 H2. unfold rest_of_body. rewrite !bind_unfold.
  destruct (cstring block) as [text|]; [|reflexivity].
  rewrite !lift_ok, !bind_unfold.
  destruct (body text v) as [[v' []]|]; try reflexivity.
  rewrite !lift_ok. now apply (scan_loop_fuel _ _ _ _ _ _ _ input).
Qed.

Lemma step_result c c' : step body c c' -> result body c = result body c'.
Proof.
  destruct 1; cbn [result]; unfold scan_cpuinfo, finish.
  - now rewrite (bind_ok _ _ _ _ _ H).
  - now rewrite (bind_ok _ _ _ _ _ H).
  - now rewrite bind_unfold, scan_loop_S, (bind_ok _ _ _ _ _ H).
  - now apply getdelim_not_null in H.
  - destruct (getdelim_text_inv _ _ _ _ _ _ H H0) as (b & input & Hfd & _ & Hs').
    rewrite !bind_unfold, scan_loop_S, (bind_ok _ _ _ _ _ H).
    cbn beta iota zeta. rewrite (proj2 (Z.eqb_neq _ _) H0).
    fold (rest_of_body body fd block v (length (pending s fd))).
    rewrite (rest_of_body_fuel fd block v _ (S (length (pending s' fd))) s'
               (read_until NUL (b :: input)).2); [reflexivity|..];
      subst s'; rewrite ?pending_open, ?(pending_lookup _ _ _ Hfd);
      [apply lookup_insert_eq | apply read_until_shorter | lia].
  - now rewrite bind_unfold, scan_loop_S, (bind_fault _ _ _ _ H).
  - unfold rest_of_body. now rewrite !bind_unfold, H, lift_ok, bind_unfold, H0.
  - unfold rest_of_body. now rewrite !bind_unfold, H, lift_ok, bind_unfold, H0.
  - unfold rest_of_body. now rewrite !bind_unfold, H.
  - unfold rest_of_body. now rewrite !bind_unfold, H, lift_ok, bind_unfold, H0.
  - now rewrite (bind_ok _ _ _ _ _ H).
  - now rewrite (bind_ok _ _ _ _ _ H).
  - now rewrite (bind_fault _ _ _ _ H).
Qed.

(** ** What holds at every program point *)

Lemma owns_fresh s contents :
  owns s (mk_stdio (open_max s) (files s)
            (<[fresh (dom (streams s)) := contents]> (streams s))
            (heap_blocks s))
       (fresh (dom (streams s))).
Proof.
  pose proof (fresh_stream_closed (streams s)) as Hf.
  repeat split; cbn [streams]; [assumption | |].
  - rewrite lookup_insert_eq. eauto.
  - now rewrite delete_insert_eq, delete_id.
Qed.

Lemma owns_insert s0 s fd lim fl rest h :
  owns s0 s fd -> owns s0 (mk_stdio lim fl (<[fd := rest]> (streams s)) h) fd.
Proof.
  intros (H0 & _ & Hd). repeat split; cbn [streams]; [assumption | |].
  - rewrite lookup_insert_eq. eauto.
  - now rewrite delete_insert_eq.
Qed.

Lemma owns_size s0 s fd :
  owns s0 s fd -> size (streams s) = S (size (streams s0)).
Proof.
  intros (_ & [input Hfd] & <-).
  rewrite <- (insert_delete_id _ _ _ Hfd) at 1.
  apply map_size_insert_None, lookup_delete_eq.
Qed.

Lemma blocks_after_owned buf h h0 :
  h = (blocks_of buf + h0)%nat -> blocks_after buf h = S h0.
Proof. intros ->. now destruct buf. Qed.

(** The block [getdelim] fills is a string. *)
Lemma cstring_chunk_ok b input :
  is_ok (cstring ((read_until NUL (b :: input)).1 ++ [NUL])) = true.
Proof. destruct (split_nul_read b input) as (text & -> & _). reflexivity. Qed.

Lemma scan_inv_getdelim s0 fd buf v s n buf' s' pt :
  scan_inv body s0 (AtGetdelim fd buf v, s) ->
  getdelim buf NUL fd s = Ok ((n, buf'), s') ->
  pt = AtFree fd buf' v \/
    (exists block, buf' = Some block /\ n <> -1 /\ pt = AtBody fd block v) ->
  scan_inv body s0 (pt, s').
Proof.
  intros (Hl & Hf & Ho & Hh) (input & Hfd & -> & Hin)%getdelim_inv Hpt.
  pose proof (blocks_after_owned _ _ _ Hh) as Hh'.
  assert (Hb : exists block, buf' = Some block /\
            (n <> -1 -> is_ok (cstring block) = true)).
  { destruct input as [|b rest]; [destruct Hin as [-> ->]; eauto|].
    destruct Hin as (_ & -> & _). eauto using cstring_chunk_ok. }
  destruct Hb as (block & -> & Hc).
  destruct Hpt as [->|(? & [= <-] & Hn & ->)];
    cbn [scan_inv open_max files heap_blocks]; rewrite Hh';
    (split; [assumption|]; split; [assumption|]);
    (split; [now apply owns_insert|]); auto.
Qed.

(** At every point at most one stream and one block are taken. *)
Lemma scan_inv_bounds s0 pt s :
  scan_inv body s0 (pt, s) ->
  (size (streams s0) <= size (streams s) <= S (size (streams s0)))%nat /\
  (heap_blocks s0 <= heap_blocks s <= S (heap_blocks s0))%nat.
Proof.
  intros (_ & _ & Hpt).
  destruct pt as [v|fd buf v|fd block v|fd buf v|fd v|v|f].
  - subst. lia.
  - destruct Hpt as [Ho%owns_size Hh]. destruct buf; cbn [blocks_of] in Hh; lia.
  - destruct Hpt as (Ho%owns_size & Hh & _). lia.
  - destruct Hpt as [Ho%owns_size Hh]. destruct buf; cbn [blocks_of] in Hh; lia.
  - destruct Hpt as [Ho%owns_size Hh]. lia.
  - subst. lia.
  - destruct Hpt as ([fd Ho%owns_size] & Hh & _). lia.
Qed.

Lemma scan_inv_step s0 : invariant (step body) (scan_inv body s0).
Proof.
  intros c c' Hinv Hstep. destruct Hstep.
  - destruct Hinv as (Hl & Hf & ->). unfold fopen in H.
    destruct (visible s0 !! PROC_CPUINFO); [discriminate|].
    now injection H as <-.
  - destruct Hinv as (Hl & Hf & ->). unfold fopen in H.
    destruct (visible s0 !! PROC_CPUINFO); [|discriminate].
    injection H as <- <-. do 2 (split; [reflexivity|]).
    split; [apply owns_fresh | reflexivity].
  - eapply scan_inv_getdelim; eauto.
  - now apply getdelim_not_null in H.
  - eapply scan_inv_getdelim; eauto.
  - destruct Hinv as (_ & _ & (_ & [input Hfd] & _) & _).
    apply getdelim_fault_inv in H. congruence.
  - destruct Hinv as (Hl & Hf & Ho & Hh & _).
    do 3 (split; [assumption|]). exact Hh.
  - destruct Hinv as (Hl & Hf & Ho & Hh & _).
    do 3 (split; [assumption|]). exact Hh.
  - destruct Hinv as (_ & _ & _ & _ & Hc). now rewrite H in Hc.
  - destruct Hinv as (Hl & Hf & Ho & Hh & _). repeat split; eauto.
  - destruct Hinv as (Hl & Hf & Ho & Hh).
    destruct buf; injection H as <-; (do 3 (split; [assumption|]));
      cbn [heap_blocks]; now rewrite Hh.
  - destruct Hinv as (Hl & Hf & (H0 & [input Hfd] & Hd) & Hh).
    unfold fclose in H. rewrite Hfd in H. injection H as <-.
    do 2 (split; [assumption|]). destruct s0. cbn in *. congruence.
  - destruct Hinv as (_ & _ & (_ & [input Hfd] & _) & _).
    apply fclose_fault_inv in H. congruence.
Qed.

#[export] Instance stopped_dec c : Decision (stopped c).
Proof. destruct c as [[] s]; cbn; apply _. Defined.

End MachineFacts.

(** ** The properties *)

Section MachineProperties.
Context {V : Type} (body : list byte -> V -> outcome (V * bool)).
Implicit Types (c : config V) (s : stdio) (v : V).

(** Every execution of the machine ends. *)
Lemma scan_terminates c : eventually (step body) stopped c.
Proof.
  revert c. apply (eventually_measure weight). intros c.
  destruct (decide (stopped c)) as [Hs|Hs]; [now left | right].
  split; [now apply running_red | apply step_weight].
Qed.

Lemma steps_rtc n : forall c, rtc (step body) c (steps body n c).
Proof.
  induction n as [|n IH]; intros c; cbn [steps]; [reflexivity|].
  destruct (next body c) as [c'|] eqn:E; [|reflexivity].
  apply (rtc_l _ _ c'); [now apply step_next | apply IH].
Qed.

Lemma result_rtc c c' :
  rtc (step body) c c' -> result body c = result body c'.
Proof. apply preserved_rtc, step_result. Qed.

(** Where the machine stops, given what [scan_cpuinfo] returns. *)
Lemma stopped_result c r :
  stopped c -> result body c = r ->
  match r with
  | Ok (v, s) => c = (Returned v, s)
  | Fault f => fst c = Crashed f
  end.
Proof.
  destruct c as [[] s]; cbn [stopped fst result]; try contradiction;
    now intros _ <-.
Qed.

(** C23. The machine and the computation agree: the execution from the
    [fopen] stops at [Returned v'] in the state [s'] exactly when
    [scan_cpuinfo] returns [v'] and [s'], and at [Crashed f] exactly when
    it faults with [f].  The fuel of [scan_loop] changes nothing. *)
Theorem scan_steps_refine v s :
  (forall v' s',
     rtc (step body) (AtFopen v, s) (Returned v', s') <->
     scan_cpuinfo body v s = Ok (v', s')) /\
  (forall f,
     (exists s', rtc (step body) (AtFopen v, s) (Crashed f, s')) <->
     scan_cpuinfo body v s = Fault f).
Proof.
  destruct (eventually_reach _ _ (scan_terminates (AtFopen v, s)))
    as (c & Hrun & Hstop).
  pose proof (result_rtc _ _ Hrun) as Hres. cbn [result] in Hres.
  split; [intros v' s'|intros f]; (split; [|intros Hscan]).
  - intros H%result_rtc. exact H.
  - pose proof (stopped_result c _ Hstop (eq_sym Hres)) as Hc.
    rewrite Hscan in Hc. now subst c.
  - intros [s' H%result_rtc]. exact H.
  - pose proof (stopped_result c _ Hstop (eq_sym Hres)) as Hc.
    rewrite Hscan in Hc. destruct c as [pt s']. cbn [fst] in Hc. subst pt.
    now exists s'.
Qed.

(** C24. Every execution of the scraper releases what it took: from the
    [fopen], in the state [s0], the machine reaches the [return] with the
    state [s0] again (the stream closed, the block of [getdelim] freed),
    unless the body of the loop faults on one of the texts. *)
Theorem scan_releases v s0 :
  eventually (step body)
    (fun c => (exists v', c = (Returned v', s0)) \/
              (exists f text v0, fst c = Crashed f /\ body text v0 = Fault f))
    (AtFopen v, s0).
Proof.
  eapply eventually_weaken;
    [|apply (eventually_invariant (scan_inv body s0)), scan_terminates;
      [apply scan_inv_step | now repeat split]].
  intros [[] s] [Hinv Hs]; try contradiction.
  - left. destruct Hinv as (_ & _ & ->). eauto.
  - right. destruct Hinv as (_ & _ & _ & _ & text & v0 & H). eauto.
Qed.

(** C26. While the scraper runs it owns one stream and at most one heap
    block, and nothing else changes: at every point of an execution from
    the [fopen] the files and the limit are those of the call, at most
    one stream more is open and at most one block more is allocated;
    the state at the [return] is the state of the call, and a fault is a
    fault of the body (never a closed stream passed to [getdelim] or
    [fclose]). *)
Theorem scan_owns_one v s0 c :
  rtc (step body) (AtFopen v, s0) c ->
  files (snd c) = files s0 /\ open_max (snd c) = open_max s0 /\
  (size (streams s0) <= size (streams (snd c)) <= S (size (streams s0)))%nat /\
  (heap_blocks s0 <= heap_blocks (snd c) <= S (heap_blocks s0))%nat /\
  (forall v', fst c = Returned v' -> snd c = s0) /\
  (forall f, fst c = Crashed f -> exists text v0, body text v0 = Fault f).
Proof.
  intros Hrun.
  assert (Hinv : scan_inv body s0 c).
  { eapply invariant_rtc; [apply scan_inv_step | | exact Hrun]. now repeat split. }
  destruct c as [pt s]. destruct (scan_inv_bounds _ _ _ _ Hinv) as [Hs Hh].
  destruct Hinv as (Hl & Hf & Hpt). cbn [fst snd].
  do 4 (split; [assumption|]).
  split; [intros v' ->; exact Hpt | intros f ->; apply Hpt].
Qed.

End MachineProperties.

(** ** The machine on the Haswell sample *)

Lemma scan_owns_one_witness :
  files (snd haswell_in_body) = files haswell_host /\
  open_max (snd haswell_in_body) = open_max haswell_host /\
  (size (streams haswell_host) <= size (streams (snd haswell_in_body))
     <= S (size (streams haswell_host)))%nat /\
  (heap_blocks haswell_host <= heap_blocks (snd haswell_in_body)
     <= S (heap_blocks haswell_host))%nat /\
  (forall v', fst haswell_in_body = Returned v' ->
     snd haswell_in_body = haswell_host) /\
  (forall f, fst haswell_in_body = Crashed f ->
     exists text v0, getname_text 40 text v0 = Fault f).
Proof.
  apply (scan_owns_one (getname_text 40) (replicate 40 NUL) haswell_host
           haswell_in_body).
  apply steps_rtc.
Defined.

(** [cpu_getname] on the Haswell sample in five steps: [fopen],
    [getdelim], the body with its [break], [free], [fclose].  In the body
    one stream is open and one block is allocated. *)
Example getname_steps :
  steps (getname_text 40) 5 (AtFopen (replicate 40 NUL), haswell_host) =
    (Returned (bytes "Intel(R) Core(TM) i7-4770 CPU @ 3.40GHz" ++ [NUL]),
     haswell_host) /\
  (exists fd block v, fst haswell_in_body = AtBody fd block v) /\
  size (streams (snd haswell_in_body)) = 1%nat /\
  heap_blocks (snd haswell_in_body) = 1%nat.
Proof. vm_compute. repeat split. now eexists _, _, _. Qed.
