(* ===== verification/Sensors.v ===== *)
(** * The sensors: [linux_cputemp], [linux_cpufreq], [win32_cputemp] and
      the exports [cpu_temp], [cpu_clock], [cpu_fanpercent]

    The temperature is read from the first of three sysfs files that can
    be opened, with [fscanf(fd, "%d", &val)] into a [uint32_t], and divided
    by 1000; the frequency is read the same way from one file.  The state
    is [Stdio.stdio]: [linux_cputemp] closes the stream it opened,
    [linux_cpufreq] does not, and each call of it takes one of the
    streams the process may have open.  A temperature is a [float]: the
    reading is converted to [double], divided by the [double] 1000 and
    the quotient converted to [float] ([CFloat]); [millis_accurate] shows
    that the three steps give the [float] nearest to the reading over
    1000, and [millis_exact_iff] which readings are reported exactly. *)

From Stdlib Require Import ZArith QArith Qabs Lqa Lia List Bool Strings.Byte.
From Stdlib Require Import Floats.SpecFloat.
From coqutil Require Import Byte.
From stdpp Require Import base list gmap strings.
From S2P Require Import Prelude CTypes CFloat CString Printf Stdio Hosts Cpuid.

Local Open Scope Z_scope.
Local Open Scope cmonad_scope.

(** ** Definitions *)

Definition HWMON_PATH : string :=
  "/sys/devices/platform/coretemp.0/hwmon/hwmon1/temp1_input".
Definition HWMON_ALT : string := "/sys/class/hwmon/hwmon1/temp1_input".
Definition HWMON_ALT2 : string := "/sys/class/hwmon/hwmon0/temp1_input".
Definition CPUFREQ_PATH : string :=
  "/sys/devices/system/cpu/cpu0/cpufreq/cpuinfo_cur_freq".

(** [tc = val / 1000.0]: the [uint32_t] is converted to [double], divided
    by the [double] 1000.0, and the quotient converted to [float]. *)
Definition millis (val : Z) : spec_float :=
  float_of_double (double_div (double_of_Z val) (double_of_Z 1000)).

(** The [uint32_t] variable after [fscanf(fd, "%d", &var)], given what the
    call stored through the pointer: the bits of the [int], read
    unsigned; the initial 0 when nothing was stored. *)
Definition scanned (stored : option Z) : Z :=
  match stored with
  | Some v => to_uint32 v
  | None => 0
  end.

(** [if (!fd) fd = fopen(path, "r");]. *)
Definition fopen_if_null (fd : option nat) (path : string) : IO (option nat) :=
  match fd with
  | None => fopen path
  | Some _ => ret fd
  end.

(** [linux_cputemp], lines 23-43. *)
Definition linux_cputemp (core : Z) : IO spec_float :=
  fd <- fopen HWMON_PATH ;;
  fd <- fopen_if_null fd HWMON_ALT ;;
  fd <- fopen_if_null fd HWMON_ALT2 ;;
  match fd with
  | None => ret float_zero
  | Some fd =>
      r <- fscanf_d fd ;;
      let val := scanned (snd r) in
      let tc := if bool_of_int (fst r) then millis val else float_zero in
      fclose fd ;;;
      ret tc
  end.

(** [linux_cpufreq], lines 47-59. *)
Definition linux_cpufreq (core : Z) : IO Z :=
  fd <- fopen CPUFREQ_PATH ;;
  match fd with
  | None => ret 0
  | Some fd =>
      r <- fscanf_d fd ;;
      let freq := scanned (snd r) in
      if negb (bool_of_int (fst r)) then ret freq else ret freq
  end.

(** [win32_cputemp], lines 63-67. *)
Definition win32_cputemp (core : Z) : IO spec_float := ret float_zero.

Section Exports.
Context {target : Target}.

(** [cpu_temp], lines 75-82. *)
Definition cpu_temp (core : Z) : IO spec_float :=
  match target_os with
  | Win32 => win32_cputemp core
  | Linux => linux_cputemp core
  end.

(** [cpu_clock], lines 84-91. *)
Definition cpu_clock (core : Z) : IO Z :=
  match target_os with
  | Win32 => ret 0
  | Linux => linux_cpufreq core
  end.

(** [cpu_fanpercent], lines 93-96. *)
Definition cpu_fanpercent : IO Z := ret 0.

End Exports.

(** ** Specifications *)

(** The file the temperature is read from: the first of the three that
    exists. *)
Definition hwmon_contents (fs : gmap string (list byte)) : option (list byte) :=
  match fs !! HWMON_PATH with
  | Some c => Some c
  | None =>
      match fs !! HWMON_ALT with
      | Some c => Some c
      | None => fs !! HWMON_ALT2
      end
  end.

(** The number a sysfs file gives: what [%d] reads, stored in a
    [uint32_t]; 0 when the file does not start with a number. *)
Definition reading (contents : list byte) : outcome Z :=
  match scan_d contents with
  | ScanInt v _ => if decide (is_int32 v) then Ok (to_uint32 v) else Fault IntOverflow
  | _ => Ok 0
  end.

Definition temp_spec (fs : gmap string (list byte)) : outcome spec_float :=
  match hwmon_contents fs with
  | None => Ok float_zero
  | Some c => outcome_map millis (reading c)
  end.

(** The input [%d] leaves in the stream. *)
Definition unread (contents : list byte) : list byte :=
  match scan_d contents with
  | ScanEOF => []
  | ScanMismatch rest => rest
  | ScanInt _ rest => rest
  end.

(** The state [linux_cpufreq] leaves when the file exists: one more
    stream, open on what the number left unread. *)
Definition leaked (s : stdio) (contents : list byte) : stdio :=
  mk_stdio (open_max s) (files s)
    (<[fresh (dom (streams s)) := unread contents]> (streams s))
    (heap_blocks s).

(** The number of open streams after one more [fopen] of a file that
    exists, by a process that may have [lim] streams open. *)
Definition opened (lim k : nat) : nat :=
  if decide (k < lim)%nat then S k else k.

(** ** The run equations *)

(** The [fscanf] and the [fclose] of [linux_cputemp] on the stream just
    opened. *)
Lemma read_and_close s contents :
  (r <- fscanf_d (fresh (dom (streams s))) ;;
   fclose (fresh (dom (streams s))) ;;;
   ret (if bool_of_int (fst r) then millis (scanned (snd r)) else float_zero))
    (mk_stdio (open_max s) (files s)
       (<[fresh (dom (streams s)) := contents]> (streams s)) (heap_blocks s)) =
  lift (outcome_map millis (reading contents)) s.
Proof.
  rewrite bind_unfold, fscanf_d_run. unfold reading.
  destruct (scan_d contents) as [|rest|v rest];
    [| |destruct (decide (is_int32 v)); [|reflexivity]];
    rewrite bind_unfold, fclose_fresh; now destruct s.
Qed.

Lemma linux_cputemp_run core s :
  linux_cputemp core s = lift (temp_spec (visible s)) s.
Proof.
  unfold linux_cputemp, temp_spec, hwmon_contents. rewrite bind_unfold.
  destruct (visible s !! HWMON_PATH) as [c|] eqn:E1.
  { rewrite (fopen_found _ _ _ E1). cbn [fopen_if_null].
    rewrite !bind_ret_l. apply read_and_close. }
  rewrite (fopen_missing _ _ E1). cbn [fopen_if_null]. rewrite bind_unfold.
  destruct (visible s !! HWMON_ALT) as [c|] eqn:E2.
  { rewrite (fopen_found _ _ _ E2). cbn [fopen_if_null].
    rewrite !bind_ret_l. apply read_and_close. }
  rewrite (fopen_missing _ _ E2). cbn [fopen_if_null]. rewrite bind_unfold.
  destruct (visible s !! HWMON_ALT2) as [c|] eqn:E3.
  { rewrite (fopen_found _ _ _ E3). apply read_and_close. }
  now rewrite (fopen_missing _ _ E3).
Qed.

Lemma linux_cpufreq_run core s :
  linux_cpufreq core s =
  match visible s !! CPUFREQ_PATH with
  | None => Ok (0, s)
  | Some c => outcome_map (fun v => (v, leaked s c)) (reading c)
  end.
Proof.
  unfold linux_cpufreq. rewrite bind_unfold.
  destruct (visible s !! CPUFREQ_PATH) as [c|] eqn:E.
  - rewrite (fopen_found _ _ _ E), bind_unfold, fscanf_d_run.
    unfold reading, leaked, unread.
    destruct (scan_d c) as [|rest|v rest];
      [| |destruct (decide (is_int32 v)); [|reflexivity]]; reflexivity.
  - now rewrite (fopen_missing _ _ E).
Qed.

(** [linux_cpufreq] changes nothing, or leaves one more stream open where
    the limit allows. *)
Lemma linux_cpufreq_effect core s v s' :
  linux_cpufreq core s = Ok (v, s') ->
  s' = s \/
  ((size (streams s) < open_max s)%nat /\ exists c, s' = leaked s c).
Proof.
  rewrite linux_cpufreq_run.
  destruct (visible s !! CPUFREQ_PATH) as [c|] eqn:E; [|intros [= _ <-]; auto].
  apply visible_Some in E as [Hroom _].
  destruct (reading c); intros [= _ <-]. eauto.
Qed.

(** ** Reading a number *)

(** [%d] reads back what [%d] printed. *)
Lemma scan_d_fmt_d n rest :
  stops_number rest ->
  exists rest', scan_d (fmt_d n ++ rest) = ScanInt (to_int32 n) rest'.
Proof.
  intros Hrest. rewrite <- (atoi_value_fmt_d n rest Hrest).
  assert (Hd : forall m, exists d ds,
             digits 10 10 m [] ++ rest = d :: ds /\ isdigit d = true /\
             isspace d = false /\ d <> Byte.x2d /\ d <> Byte.x2b).
  { intros m. pose proof (dec_digits_dec m [] ltac:(constructor)) as Hall.
    pose proof (dec_digits_nonempty m) as Hne.
    destruct (digits 10 10 m []) as [|d ds]; [contradiction|].
    apply Forall_cons in Hall as [Hdig _]. exists d, (ds ++ rest).
    unfold isdigit. rewrite (digit_val_dec d Hdig).
    split; [reflexivity | split; [reflexivity | now apply dec_digit_plain]]. }
  unfold fmt_d, scan_d. destruct (to_int32 n <? 0).
  - destruct (Hd (- to_int32 n)) as (d & ds & E & Hdig & _).
    cbn [app skip_spaces]. change (isspace Byte.x2d) with false. cbn iota.
    rewrite bool_decide_eq_true_2 by now left. rewrite E, Hdig. eauto.
  - destruct (Hd (to_int32 n)) as (d & ds & E & Hdig & Hs & Hm & Hp).
    rewrite E. cbn [skip_spaces]. rewrite Hs.
    rewrite bool_decide_eq_false_2 by now intros [|]. rewrite Hdig. eauto.
Qed.

Lemma reading_fmt_d n rest :
  stops_number rest -> reading (fmt_d n ++ rest) = Ok (to_uint32 n).
Proof.
  intros Hrest. unfold reading.
  destruct (scan_d_fmt_d n rest Hrest) as [rest' ->].
  rewrite decide_True by apply to_int32_range. now rewrite to_uint32_to_int32.
Qed.

Lemma reading_range c v : reading c = Ok v -> is_uint32 v.
Proof.
  unfold reading. destruct (scan_d c); [intros [= <-]; by_decide.. |].
  case_decide; [intros [= <-]; apply to_uint32_range | discriminate].
Qed.

(** The file the temperature is read from is one of the three. *)
Lemma hwmon_contents_path fs c :
  hwmon_contents fs = Some c ->
  exists path, path ∈ [HWMON_PATH; HWMON_ALT; HWMON_ALT2] /\ fs !! path = Some c.
Proof.
  unfold hwmon_contents.
  destruct (fs !! HWMON_PATH) eqn:E1;
    [intros [= ->]; eexists; split; [|exact E1]; set_solver|].
  destruct (fs !! HWMON_ALT) eqn:E2;
    [intros [= ->]; eexists; split; [|exact E2]; set_solver|].
  intros E3. eexists; split; [|exact E3]; set_solver.
Qed.

Lemma leaked_size s c : size (streams (leaked s c)) = S (size (streams s)).
Proof. apply map_size_insert_None, fresh_stream_closed. Qed.

Lemma iter_opened lim n k :
  Nat.iter n (opened lim) k = Nat.max k (Nat.min (n + k) lim).
Proof.
  induction n as [|n IH]; [cbn; lia|].
  rewrite Nat.iter_succ, IH. unfold opened. case_decide; lia.
Qed.

(** One call of [linux_cpufreq] where the cpufreq file holds a number:
    one more stream, unless the limit is reached. *)
Lemma linux_cpufreq_step core s c v :
  files s !! CPUFREQ_PATH = Some c -> reading c = Ok v ->
  exists a s',
    linux_cpufreq core s = Ok (a, s') /\
    (files s' = files s /\ open_max s' = open_max s) /\
    size (streams s') = opened (open_max s) (size (streams s)).
Proof.
  intros Hc Hv. unfold opened. rewrite linux_cpufreq_run. case_decide as Hroom.
  - rewrite visible_room, Hc, Hv by assumption.
    exists v, (leaked s c). repeat split. apply leaked_size.
  - rewrite visible_full, lookup_empty by lia. exists 0, s. auto.
Qed.

(** ** The properties *)

(** C15. [linux_cputemp] refines its specification: the temperature is
    the number at the head of the first of the three sysfs files that
    exists, stored in a [uint32_t] and divided by 1000, or 0 when there
    is no file or no number; every stream opened is closed, the state
    after the call is the state before it. *)
Theorem linux_cputemp_refines core s :
  linux_cputemp core s = lift (temp_spec (visible s)) s.
Proof.
  unfold linux_cputemp, temp_spec, hwmon_contents. rewrite bind_unfold.
  destruct (visible s !! HWMON_PATH) as [c|] eqn:E1.
  { rewrite (fopen_found _ _ _ E1). cbn [fopen_if_null].
    rewrite !bind_ret_l. apply read_and_close. }
  rewrite (fopen_missing _ _ E1). cbn [fopen_if_null]. rewrite bind_unfold.
  destruct (visible s !! HWMON_ALT) as [c|] eqn:E2.
  { rewrite (fopen_found _ _ _ E2). cbn [fopen_if_null].
    rewrite !bind_ret_l. apply read_and_close. }
  rewrite (fopen_missing _ _ E2). cbn [fopen_if_null]. rewrite bind_unfold.
  destruct (visible s !! HWMON_ALT2) as [c|] eqn:E3.
  { rewrite (fopen_found _ _ _ E3). apply read_and_close. }
  now rewrite (fopen_missing _ _ E3).
Qed.

(** ** The rounding of the temperature *)

(** A multiple of [2 ^ j] is a number of thousandths, or is farther from
    it than [2 ^ (e1 - 1)], for [e1] small enough: the difference is a
    multiple of [2 ^ j / 1000] or of [1 / 1000]. *)
Lemma thousandth_separated v h j e1 :
  e1 <= -9 -> e1 <= j - 9 ->
  (v # 1000 == inject_Z h * pow2 j \/
   pow2 (e1 - 1) < Qabs (inject_Z h * pow2 j - (v # 1000)))%Q.
Proof.
  intros H1 H2. set (a := Z.max 0 (- j)).
  set (N := 1000 * h * 2 ^ (j + a) - v * 2 ^ a).
  assert (Ej : (pow2 j * inject_Z (2 ^ a) == inject_Z (2 ^ (j + a)))%Q)
    by (rewrite <- !pow2_inject, <- pow2_add by lia; reflexivity).
  assert (Ex : (1000 * (v # 1000) == inject_Z v)%Q)
    by (unfold Qeq; cbn; lia).
  assert (Hd : (pow2 (e1 - 1) * inject_Z (2 ^ a) <= 1 # 1024)%Q).
  { rewrite <- pow2_inject, <- pow2_add by lia.
    change (1 # 1024)%Q with (pow2 (-10)). apply pow2_le. lia. }
  assert (HS : (0 < inject_Z (2 ^ a))%Q)
    by (rewrite <- pow2_inject by lia; apply pow2_pos).
  set (x := (v # 1000)%Q) in *. set (D := (inject_Z h * pow2 j - x)%Q).
  assert (EN : (1000 * (D * inject_Z (2 ^ a)) == inject_Z N)%Q).
  { unfold N, D. rewrite inject_Z_sub, !inject_Z_mult, <- Ej, <- Ex.
    change (inject_Z 1000) with 1000%Q. ring. }
  destruct (Z.eq_dec N 0) as [E0|Hne].
  - left. rewrite E0 in EN. change (inject_Z 0) with 0%Q in EN.
    assert (D * inject_Z (2 ^ a) == 0)%Q as [HD|HD]%Qmult_integral by lra;
      unfold D in *; lra.
  - right. apply Qabs_lower.
    assert (HN : (inject_Z N <= -1 \/ 1 <= inject_Z N)%Q).
    { destruct (Z.lt_ge_cases N 0); [left|right];
        [change (-1)%Q with (inject_Z (-1)) | change 1%Q with (inject_Z 1)];
        rewrite <- Zle_Qle; lia. }
    destruct HN; [right|left];
      apply (Qmult_lt_r _ _ (inject_Z (2 ^ a))); try assumption; lra.
Qed.

(** A number of thousandths is a multiple of a power of two only when it
    is a number of eighths. *)
Lemma thousandth_dyadic v k e :
  e <= 0 -> (inject_Z k * pow2 e == v # 1000)%Q -> (125 | v).
Proof.
  intros He H.
  assert (E : 1000 * k = v * 2 ^ (- e)).
  { apply inject_Z_injective. rewrite !inject_Z_mult, <- pow2_inject by lia.
    assert (Hp : (pow2 e * pow2 (- e) == 1)%Q)
      by (rewrite <- pow2_add, Z.add_opp_diag_r; reflexivity).
    assert (Hv : (1000 * (v # 1000) == inject_Z v)%Q) by (unfold Qeq; cbn; lia).
    change (inject_Z 1000) with 1000%Q.
    set (P := pow2 e) in *. set (P' := pow2 (- e)) in *.
    rewrite <- Hv, <- H. transitivity (1000 * inject_Z k * (P * P'))%Q; [|ring].
    rewrite Hp. ring. }
  apply (divide_odd_pow2 125 v (Z.to_nat (- e))); [reflexivity|].
  rewrite Z2Nat.id, <- E by lia. exists (8 * k). lia.
Qed.

(** The three roundings of [val / 1000.0] are one: the conversion of
    [val] is exact, the division rounds to 53 digits, the conversion to
    [float] rounds the quotient to 24 digits, and that is the rounding of
    [val / 1000] itself. *)
Lemma millis_rounds v :
  0 < v < 2 ^ 32 ->
  exists e0, -33 <= e0 <= 0 /\ rounded 24 (millis v) false e0 (v # 1000).
Proof.
  intros Hv. destruct v as [|p|p]; try lia.
  pose proof (digits2_pos_upper p 32 ltac:(lia)) as Hd.
  assert (Hd0 : 0 < Zpos (digits2_pos p)) by lia.
  set (d := Zpos (digits2_pos p)) in *.
  destruct (binary_normalize_exact 53 1024 ltac:(lia) p) as (mv & Ev & Hdv & Hvv);
    try (fold d; unfold emin; lia). fold d in Ev, Hvv.
  unfold millis, double_div, double_of_Z at 1. rewrite Ev.
  change (double_of_Z 1000) with (S754_finite false 8796093022208000 (-43)).
  destruct (SFdiv_rounded 53 1024 ltac:(lia) false mv (d - 53) false
              8796093022208000 (-43)) as (e1 & He1 & Hy);
    try (rewrite Hdv; change (Zpos (digits2_pos 8796093022208000)) with 53;
         unfold emin; lia).
  rewrite Hdv in He1. change (Zpos (digits2_pos 8796093022208000)) with 53 in He1.
  assert (Hx : (inject_Z (Zpos mv) * pow2 (d - 53) /
                (inject_Z 8796093022208000 * pow2 (-43)) == Zpos p # 1000)%Q).
  { rewrite Hvv, Qmake_Qdiv. apply Qdiv_comp; reflexivity. }
  rewrite Hx in Hy. cbn [xorb] in Hy.
  pose proof Hy as (my & ey & k & Ey & Hdy & Hey & _). rewrite Ey in *.
  cbn [float_of_double]. exists (29 + ey). split; [lia|].
  apply (rounded_twice 53 24 (S754_finite false my ey) _ e1); [lia | exact Hy | |].
  - replace (29 + ey) with (Zpos (digits2_pos my) + ey - 24) by lia.
    apply binary_round_rounded; rewrite ?Hdy; unfold emin; lia.
  - intros h. apply thousandth_separated; lia.
Qed.

(** The temperature is a value of the type. *)
Lemma millis_float v : is_uint32 v -> is_float (millis v) = true.
Proof.
  unfold is_uint32. intros Hv.
  destruct (Z.eq_dec v 0) as [->|Hne]; [reflexivity|].
  destruct (millis_rounds v ltac:(lia)) as (e0 & He & Hr).
  apply (rounded_valid 24 128 _ _ _ _ Hr); unfold emin; lia.
Qed.

(** C21. The temperature computed from a reading is the [float] nearest
    to the reading over 1000, for every value of the [uint32_t]: it is a
    value of the type, no value of the type is nearer, and the relative
    error is at most [2 ^ -24], the unit roundoff of the type.  The two
    roundings of the C expression, to [double] by the division and to
    [float] by the assignment, lose nothing against one rounding of the
    exact quotient. *)
Theorem millis_accurate val :
  is_uint32 val ->
  is_float (millis val) = true /\
  (Qabs (value (millis val) - (val # 1000)) <= (val # 1000) * (1 # 2 ^ 24))%Q /\
  forall f, is_float f = true ->
    (Qabs (value (millis val) - (val # 1000)) <=
     Qabs (value f - (val # 1000)))%Q.
Proof.
  unfold is_uint32. intros Hv.
  destruct (Z.eq_dec val 0) as [->|Hne].
  { repeat split; try discriminate. intros f _.
    apply Qle_trans with 0%Q; [discriminate | apply Qabs_nonneg]. }
  destruct (millis_rounds val ltac:(lia)) as (e0 & He & Hr). repeat split.
  - apply millis_float. unfold is_uint32. lia.
  - apply (rounded_error 24 _ _ _ Hr).
  - intros f Hf. exact (rounded_nearest 24 128 ltac:(lia) _ _ _ _ Hr Hf).
Qed.

(** C22. The temperature is exact when the reading is a multiple of 125,
    and only then (for readings below 2097152 degrees): whole, half,
    quarter and eighth degrees are reported as they are, every other
    reading is rounded. *)
Theorem millis_exact_iff val :
  0 <= val < 2097152000 ->
  (value (millis val) == val # 1000)%Q <-> (125 | val).
Proof.
  intros Hv. destruct (Z.eq_dec val 0) as [->|Hne].
  { split; [intros _; now exists 0 | reflexivity]. }
  destruct (millis_rounds val ltac:(lia)) as (e0 & He & Hr).
  assert (He3 : e0 <= -3).
  { enough (24 - 1 + e0 < 21) by lia.
    apply (rounded_grid_below _ _ _ _ _ _ Hr). rewrite pow2_inject by lia.
    unfold Qlt. cbn. lia. }
  split.
  - destruct (rounded_value _ _ _ _ Hr) as (k & Ek & _). rewrite Ek.
    apply thousandth_dyadic. lia.
  - intros [j ->]. apply (rounded_on_grid _ _ _ _ (j * 2 ^ (- 3 - e0)) Hr).
    rewrite inject_Z_mult, <- pow2_inject by lia.
    rewrite <- Qmult_assoc, <- pow2_add. replace (- 3 - e0 + e0) with (-3) by lia.
    change (pow2 (-3)) with (1 # 8)%Q. unfold Qeq. cbn. lia.
Qed.

(** C40. When the sensor file holds the decimal text of the [int] [n],
    the temperature reported is the [float] of the unsigned reading of
    [n] over 1000: the reading is [n] when [n] is not negative, and the
    temperature is more than two million degrees when it is. *)
Theorem linux_cputemp_number core s n rest :
  hwmon_contents (visible s) = Some (fmt_d n ++ rest) -> stops_number rest ->
  linux_cputemp core s = Ok (millis (to_uint32 n), s) /\
  (0 <= to_int32 n -> to_uint32 n = to_int32 n) /\
  (to_int32 n < 0 -> (2147483 < value (millis (to_uint32 n)))%Q).
Proof.
  intros Hc Hrest. rewrite linux_cputemp_run. unfold temp_spec.
  rewrite Hc, reading_fmt_d by assumption. split; [reflexivity|].
  pose proof (to_int32_range n) as Hr. unfold is_int32 in Hr.
  pose proof (to_uint32_to_int32 n) as Hu.
  pose proof (to_uint32_range n) as Hv. unfold is_uint32 in Hv.
  split; intros Hs.
  - unfold to_uint32 in *. rewrite <- Hu. apply Z.mod_small. lia.
  - assert (Hlow : 2 ^ 31 <= to_uint32 n).
    { unfold to_uint32 in *. rewrite <- Hu, <- (Z.mod_add _ 1) by lia.
      rewrite Z.mod_small; lia. }
    destruct (millis_rounds (to_uint32 n) ltac:(lia)) as (e0 & _ & Hrd).
    apply rounded_error, Qabs_Qle_condition in Hrd.
    assert (Hx : (2147483648 # 1000 <= to_uint32 n # 1000)%Q)
      by (unfold Qle; cbn [Qnum Qden]; lia).
    set (x := (to_uint32 n # 1000)%Q) in *.
    change (pow2 (- (24))) with (1 # 16777216)%Q in *. lra.
Qed.

(** C11. On Linux, with a cpufreq file that holds a number, every call of
    [cpu_clock] succeeds and leaves one more stream open than there was,
    until the process has as many streams open as it may: the stream is
    never closed.  After [n] calls the [n] streams, or all the streams
    the limit left, are taken. *)
Theorem cpu_clock_leaks `{Target} n core s c v :
  target_os = Linux ->
  files s !! CPUFREQ_PATH = Some c -> reading c = Ok v ->
  exists s',
    repeatM n (cpu_clock core) s = Ok (tt, s') /\
    (files s' = files s /\ open_max s' = open_max s) /\
    size (streams s') =
      Nat.max (size (streams s)) (Nat.min (n + size (streams s)) (open_max s)).
Proof.
  intros Hos Hc Hv. rewrite <- iter_opened.
  apply (repeatM_measure (cpu_clock core)
           (fun s' => files s' = files s /\ open_max s' = open_max s)
           (fun s' => size (streams s')) (opened (open_max s))); [|auto].
  intros s0 [Hf Hl]. rewrite <- Hl. unfold cpu_clock. rewrite Hos.
  destruct (linux_cpufreq_step core s0 c v) as (a & s' & Hrun & [Hf' Hl'] & Hn);
    [congruence | assumption |].
  exists a, s'. repeat split; congruence.
Qed.

(** ** What the exports promise *)

(** The temperature is a function of the files. *)
#[export] Instance reader_linux_cputemp core :
  Reader (linux_cputemp core) temp_spec.
Proof. intros s. apply linux_cputemp_run. Qed.

#[export] Instance reader_win32_cputemp core :
  Reader (win32_cputemp core) (fun _ => Ok float_zero).
Proof. intros s. reflexivity. Qed.

#[export] Instance reader_cpu_temp `{Target} core :
  Reader (cpu_temp core)
         (match target_os with Linux => temp_spec | Win32 => fun _ => Ok float_zero end).
Proof. unfold cpu_temp. destruct target_os; apply _. Qed.

(** One call of [cpu_clock] where the cpufreq file holds a number. *)
Lemma cpu_clock_step `{Target} core s c v :
  target_os = Linux ->
  files s !! CPUFREQ_PATH = Some c -> reading c = Ok v ->
  exists a s',
    cpu_clock core s = Ok (a, s') /\
    (files s' = files s /\ open_max s' = open_max s) /\
    size (streams s') = opened (open_max s) (size (streams s)).
Proof. intros Hos. unfold cpu_clock. rewrite Hos. apply linux_cpufreq_step. Qed.

(** ** The sensors on the sample hosts *)

Lemma linux_cputemp_number_witness :
  linux_cputemp 0 frozen_host = Ok (millis (to_uint32 (-5000)), frozen_host) /\
  (0 <= to_int32 (-5000) -> to_uint32 (-5000) = to_int32 (-5000)) /\
  (to_int32 (-5000) < 0 -> (2147483 < value (millis (to_uint32 (-5000))))%Q).
Proof.
  apply (linux_cputemp_number 0 frozen_host (-5000) [LF]).
  - vm_compute. reflexivity.
  - reflexivity.
Defined.

Lemma millis_accurate_witness :
  is_float (millis 38501) = true /\
  (Qabs (value (millis 38501) - (38501 # 1000)) <=
   (38501 # 1000) * (1 # 2 ^ 24))%Q /\
  forall f, is_float f = true ->
    (Qabs (value (millis 38501) - (38501 # 1000)) <=
     Qabs (value f - (38501 # 1000)))%Q.
Proof. apply (millis_accurate 38501). unfold is_uint32. lia. Defined.

Lemma millis_exact_iff_witness :
  (value (millis 45250) == 45250 # 1000)%Q <-> (125 | 45250).
Proof. apply (millis_exact_iff 45250). lia. Defined.

(** A reading half way between two [float]s goes to the one of even
    mantissa: 2097152.125 is reported as 2097152. *)
Example millis_tie :
  millis 2097152125 = S754_finite false 8388608 (-2).
Proof. reflexivity. Qed.

Lemma cpu_clock_leaks_witness :
  exists s',
    repeatM 20 (@cpu_clock linux_x86 0) haswell_host = Ok (tt, s') /\
    (files s' = files haswell_host /\ open_max s' = open_max haswell_host) /\
    size (streams s') =
      Nat.max (size (streams haswell_host))
        (Nat.min (20 + size (streams haswell_host)) (open_max haswell_host)).
Proof.
  apply (@cpu_clock_leaks linux_x86 20 0 haswell_host
           (bytes "3400000" ++ [LF]) 3400000).
  - reflexivity.
  - vm_compute. reflexivity.
  - vm_compute. reflexivity.
Defined.

(** 45 degrees and 3.4 GHz on the Haswell sample, the second fallback on
    the Ryzen sample, minus five degrees read as 4294962.296 and rounded
    to 4294962.5, and the constants of the Windows build. *)
Example sensor_samples :
  option_map (fun x => Qred (value x))
    (value_of (@cpu_temp linux_x86 0 haswell_host)) = Some (45 # 1)%Q /\
  value_of (@cpu_clock linux_x86 0 haswell_host) = Some 3400000 /\
  option_map (fun x => Qred (value x))
    (value_of (@cpu_temp linux_x86 0 ryzen_host)) = Some (77 # 2)%Q /\
  option_map (fun x => Qred (value x))
    (value_of (@cpu_temp linux_x86 0 frozen_host)) = Some (8589925 # 2)%Q /\
  value_of (@cpu_temp linux_x86 0 bare_host) = Some float_zero /\
  @cpu_temp win32_x86 0 haswell_host = Ok (float_zero, haswell_host) /\
  @cpu_clock win32_x86 0 haswell_host = Ok (0, haswell_host) /\
  @cpu_fanpercent haswell_host = Ok (0, haswell_host).
Proof. vm_compute. repeat split. Qed.
