(* ===== verification/Win32.v ===== *)
(** * The [WIN32] variants of [cpu_getname] and [cpu_getmodelid]

    Lines 137-156 and 185-188 of [src/sysinfos.c].  [cpu_getname] asks for
    the highest extended leaf, and when it is at least [0x80000004] copies
    the answers of the leaves [0x80000002] to [0x80000000 + (ext & 0xF)]
    into the 192-byte array [brand], sixteen bytes each, and prints
    [brand] as a string; otherwise it prints the environment variable
    [PROCESSOR_IDENTIFIER].  The state is the trace of CPUID instructions;
    the environment is the class [Environment].  [win32_brand] is the
    specification of the loop: one copy of all the leaves. *)

From Stdlib Require Import ZArith Lia List Bool Strings.Byte.
From coqutil Require Import Byte Word.LittleEndianList.
From stdpp Require Import base list strings.
From S2P Require Import Prelude CTypes CString Cpuid Machines Brand.

Local Open Scope Z_scope.
Local Open Scope cmonad_scope.

(** ** Definitions *)

(** The environment of the process: [getenv]. *)
Class Environment := getenv : string -> option (list byte).

(** An argument of [%s]: reading through a null pointer is undefined. *)
Definition string_arg (p : option (list byte)) : outcome (list byte) :=
  match p with
  | Some s => Ok s
  | None => Fault NullPointer
  end.

Section Win32.
Context {tg : Target} {hw : Processor} {env : Environment}.

(** The body of the loop, lines 146-147, for one [i], on the variables
    [output] and [brand]. *)
Definition copy_leaf (i : nat) (v : list Z * list byte)
  : Cpu (list Z * list byte) :=
  output <- cpuid (0x80000000 + Z.of_nat i) (fst v) ;;
  brand <- lift (memcpy (snd v) ((i - 2) * 16) (int_bytes output)) ;;
  ret (output, brand).

(** The values of [i] in [for (int i = 2; i <= (ext & 0xF); i++)]. *)
Definition leaf_indices (ext : Z) : list nat :=
  seq 2 (Z.to_nat (Z.land ext 0xF) - 1).

(** [cpu_getname], lines 134-156. *)
Definition cpu_getname_win32 (outbuf : list byte) (maxsz : nat)
  : Cpu (list byte) :=
  outbuf <- lift (memset outbuf NUL maxsz) ;;
  output <- cpuid 0x80000000 (replicate 4 0) ;;
  ext <- lift (load output 0) ;;
  if 0x80000004 <=? to_uint32 ext then
    v <- foldM copy_leaf (leaf_indices ext) (output, replicate 192 NUL) ;;
    text <- lift (cstring (snd v)) ;;
    lift (snprintf outbuf maxsz text)
  else
    text <- lift (string_arg (getenv "PROCESSOR_IDENTIFIER")) ;;
    lift (snprintf outbuf maxsz text).

(** [cpu_getmodelid], lines 182-188. *)
Definition cpu_getmodelid_win32 (outbuf : list byte) (maxsz : nat)
  : Cpu (list byte) :=
  outbuf <- lift (memset outbuf NUL maxsz) ;;
  level <- lift (string_arg (getenv "PROCESSOR_LEVEL")) ;;
  revision <- lift (string_arg (getenv "PROCESSOR_REVISION")) ;;
  number <- lift (string_arg (getenv "NUMBER_OF_PROCESSORS")) ;;
  lift (snprintf outbuf maxsz
          (level ++ bytes ":" ++ revision ++ bytes ":" ++ number)).

(** ** Specification *)

(** The highest extended leaf, as the [int] the code keeps it in. *)
Definition ext_leaf : Z :=
  match target_arch with
  | X86 => to_int32 (r_eax (cpuid_insn 0x80000000 0))
  | ARM => 0
  end.

(** The sixteen bytes of the extended leaf [0x80000000 + i]. *)
Definition leaf_bytes (i : nat) : list byte :=
  regs_bytes (cpuid_insn (0x80000000 + Z.of_nat i) 0).

(** The array [brand] after the loop: all the leaves, copied at once. *)
Definition win32_brand : outcome (list byte) :=
  memcpy (replicate 192 NUL) 0 (flat_map leaf_bytes (leaf_indices ext_leaf)).

Definition leaf_queries (indices : list nat) : list query :=
  map (fun i => (0x80000000 + Z.of_nat i, 0)) indices.

(** The trace after [cpu_getname]. *)
Definition win32_trace (t : trace) : trace :=
  if 0x80000004 <=? to_uint32 ext_leaf
  then logged 0x80000000 t ++ leaf_queries (leaf_indices ext_leaf)
  else logged 0x80000000 t.

(** What [cpu_getname] prints. *)
Definition win32_name : outcome (list byte) :=
  if 0x80000004 <=? to_uint32 ext_leaf
  then outcome_bind win32_brand cstring
  else string_arg (getenv "PROCESSOR_IDENTIFIER").

(** What [cpu_getname] leaves in the buffer. *)
Definition win32_name_spec (outbuf : list byte) (maxsz : nat)
  : outcome (list byte) :=
  outcome_bind (memset outbuf NUL maxsz) (fun outbuf =>
  outcome_bind win32_name (fun text => snprintf outbuf maxsz text)).

(** What [cpu_getmodelid] leaves in the buffer. *)
Definition win32_modelid_spec (outbuf : list byte) (maxsz : nat)
  : outcome (list byte) :=
  outcome_bind (memset outbuf NUL maxsz) (fun outbuf =>
  outcome_bind (string_arg (getenv "PROCESSOR_LEVEL")) (fun level =>
  outcome_bind (string_arg (getenv "PROCESSOR_REVISION")) (fun revision =>
  outcome_bind (string_arg (getenv "NUMBER_OF_PROCESSORS")) (fun number =>
  snprintf outbuf maxsz
    (level ++ bytes ":" ++ revision ++ bytes ":" ++ number))))).

End Win32.

(** A Windows host whose environment holds the three variables of
    [cpu_getmodelid] and the identifier. *)
Definition windows_env : Environment := fun name =>
  if decide (name = "PROCESSOR_IDENTIFIER")
  then Some (bytes "Intel64 Family 6 Model 71 Stepping 1, GenuineIntel")
  else if decide (name = "PROCESSOR_LEVEL") then Some (bytes "6")
  else if decide (name = "PROCESSOR_REVISION") then Some (bytes "4701")
  else if decide (name = "NUMBER_OF_PROCESSORS") then Some (bytes "8")
  else None.

(** An environment without any variable. *)
Definition empty_env : Environment := fun _ => None.

(** ** The loop copies the leaves one after the other *)

Section Win32Facts.
Context {tg : Target} {hw : Processor} {env : Environment}.

Lemma ext_leaf_arm : target_arch = ARM -> ext_leaf = 0.
Proof. unfold ext_leaf. now intros ->. Qed.

(** The loop is entered on x86 only: the ARM macro reports leaf 0. *)
Lemma ext_guard_x86 :
  (0x80000004 <=? to_uint32 ext_leaf) = true -> target_arch = X86.
Proof.
  unfold ext_leaf. destruct target_arch; [reflexivity | discriminate].
Qed.

Lemma leaf_indices_length ext : (length (leaf_indices ext) <= 14)%nat.
Proof.
  unfold leaf_indices. rewrite length_seq.
  assert (H : 0 <= Z.land ext 0xF < 16).
  { change 0xF with (Z.ones 4). rewrite Z.land_ones by lia.
    apply Z.mod_pos_bound. lia. }
  lia.
Qed.

Lemma leaf_bytes_length i : length (leaf_bytes i) = 16%nat.
Proof. apply regs_bytes_length. Qed.

Lemma copy_leaf_run i output brand t :
  target_arch = X86 -> length output = 4%nat -> (i < 16)%nat ->
  copy_leaf i (output, brand) t =
  outcome_map
    (fun b => ((regs_ints (cpuid_insn (0x80000000 + Z.of_nat i) 0), b),
               t ++ [(0x80000000 + Z.of_nat i, 0)]))
    (memcpy brand ((i - 2) * 16) (leaf_bytes i)).
Proof.
  intros Hx Hlen Hi. unfold copy_leaf. cbn [fst snd].
  rewrite bind_unfold, cpuid_x86 by assumption.
  rewrite to_uint32_small by (unfold is_uint32; lia).
  rewrite bind_unfold, int_bytes_regs_ints. fold (leaf_bytes i).
  now destruct (memcpy brand _ _).
Qed.

Lemma copy_loop_run cnt : forall k output brand t,
  target_arch = X86 -> length output = 4%nat ->
  (k + cnt <= 14)%nat -> (16 * k <= length brand)%nat ->
  exists output', length output' = 4%nat /\
    foldM copy_leaf (seq (2 + k) cnt) (output, brand) t =
    outcome_map
      (fun b => ((output', b), t ++ leaf_queries (seq (2 + k) cnt)))
      (memcpy brand (16 * k) (flat_map leaf_bytes (seq (2 + k) cnt))).
Proof.
  induction cnt as [|cnt IH]; intros k output brand t Hx Hlen Hk Hb.
  - exists output. split; [assumption|]. cbn [seq foldM flat_map leaf_queries map].
    now rewrite memcpy_nil, app_nil_r by assumption.
  - cbn [seq foldM flat_map leaf_queries map].
    rewrite bind_unfold, copy_leaf_run, memcpy_app by (assumption || lia).
    replace ((2 + k - 2) * 16)%nat with (16 * k)%nat by lia.
    destruct (memcpy brand (16 * k) (leaf_bytes (2 + k))) as [d|f] eqn:E;
      [|exists output; auto].
    cbn [outcome_map outcome_bind]. rewrite leaf_bytes_length.
    change (S (2 + k)) with (2 + S k)%nat.
    destruct (IH (S k) (regs_ints (cpuid_insn (0x80000000 + Z.of_nat (2 + k)) 0))
                d (t ++ [(0x80000000 + Z.of_nat (2 + k), 0)]))
      as (output' & Hlen' & ->); [assumption | reflexivity | lia | |].
    + rewrite (memcpy_length _ _ _ _ E). apply memcpy_inv in E as [E _].
      rewrite leaf_bytes_length in E. lia.
    + exists output'. split; [assumption|].
      replace (16 * S k)%nat with (16 * k + 16)%nat by lia.
      rewrite <- app_assoc. reflexivity.
Qed.

Lemma leaf_indices_seq ext :
  leaf_indices ext = seq 2 (length (leaf_indices ext)).
Proof. unfold leaf_indices. now rewrite length_seq. Qed.

(** The whole loop: one copy of all the leaves into the zeroed array. *)
Lemma copy_leaves_run output t :
  target_arch = X86 -> length output = 4%nat ->
  exists output',
    foldM copy_leaf (leaf_indices ext_leaf) (output, replicate 192 NUL) t =
    outcome_map
      (fun b => ((output', b), t ++ leaf_queries (leaf_indices ext_leaf)))
      win32_brand.
Proof.
  intros Hx Hlen. unfold win32_brand. rewrite leaf_indices_seq.
  pose proof (leaf_indices_length ext_leaf).
  destruct (copy_loop_run (length (leaf_indices ext_leaf)) 0 output
              (replicate 192 NUL) t Hx Hlen) as (output' & _ & Hrun);
    [lia | cbn; lia |].
  exists output'. exact Hrun.
Qed.

Lemma load_ext_leaf :
  load (match target_arch with
        | X86 => regs_ints (cpuid_insn (to_uint32 0x80000000) 0)
        | ARM => replicate 4 0
        end) 0 = Ok ext_leaf.
Proof. unfold ext_leaf. now destruct target_arch. Qed.

End Win32Facts.

(** ** The run equations *)

(** The run of [cpu_getname]: the [memset], the query of the highest
    leaf, the guard, and either the loop or the environment. *)
Ltac getname_win32_run :=
  unfold cpu_getname_win32, win32_name_spec, win32_name, win32_trace;
  rewrite bind_unfold;
  destruct (memset _ NUL _) as [?o|?f]; [|reflexivity];
  cbn [lift outcome_bind];
  rewrite bind_unfold, cpuid_local, bind_unfold, load_ext_leaf, lift_ok;
  let G := fresh "G" in
  destruct (0x80000004 <=? to_uint32 ext_leaf) eqn:G;
  [ let Hx := fresh "Hx" in
    let Hrun := fresh "Hrun" in
    pose proof (ext_guard_x86 G) as Hx;
    rewrite bind_unfold, Hx;
    edestruct copy_leaves_run as [? Hrun];
      [exact Hx | apply regs_ints_length | rewrite Hrun];
    destruct win32_brand as [?b|?f]; [|reflexivity];
    cbn [outcome_map outcome_bind]; rewrite bind_unfold; cbn [snd];
    destruct (cstring _); reflexivity
  | rewrite bind_unfold; now destruct (string_arg _) ].

Section Win32Runs.
Context {tg : Target} {hw : Processor} {env : Environment}.

Lemma cpu_getname_win32_run outbuf maxsz t :
  cpu_getname_win32 outbuf maxsz t =
  lift (win32_name_spec outbuf maxsz) (win32_trace t).
Proof. getname_win32_run. Qed.

Lemma cpu_getmodelid_win32_run outbuf maxsz t :
  cpu_getmodelid_win32 outbuf maxsz t =
  lift (win32_modelid_spec outbuf maxsz) t.
Proof.
  unfold cpu_getmodelid_win32, win32_modelid_spec. rewrite bind_unfold.
  destruct (memset outbuf NUL maxsz) as [o|f]; [|reflexivity].
  cbn [lift outcome_bind].
  repeat (rewrite bind_unfold; destruct (string_arg _); [|reflexivity];
          cbn [lift outcome_bind]).
  reflexivity.
Qed.

(** Both functions only append to the trace. *)
#[export] Instance framed_copy_leaf i v : Framed (copy_leaf i v).
Proof. unfold copy_leaf. apply _. Qed.

#[export] Instance framed_cpu_getname_win32 outbuf maxsz :
  Framed (cpu_getname_win32 outbuf maxsz).
Proof. unfold cpu_getname_win32. apply _. Qed.

#[export] Instance framed_cpu_getmodelid_win32 outbuf maxsz :
  Framed (cpu_getmodelid_win32 outbuf maxsz).
Proof. unfold cpu_getmodelid_win32. apply _. Qed.

End Win32Runs.

(** ** The properties *)

Section Win32Properties.
Context {tg : Target} {hw : Processor} {env : Environment}.

Lemma leaves_length l : length (flat_map leaf_bytes l) = (16 * length l)%nat.
Proof.
  induction l as [|i l IH]; [reflexivity|].
  cbn [flat_map length]. rewrite length_app, leaf_bytes_length, IH. lia.
Qed.

(** The leaves copied start with the brand string, as far as they go. *)
Lemma leaves_brand k :
  flat_map leaf_bytes (seq 2 k) =
  take (16 * k) brand_bytes ++ flat_map leaf_bytes (seq 5 (k - 3)).
Proof.
  pose proof (regs_bytes_length (cpuid_insn PROCESSOR_BRAND_STRING_1 0)) as H1.
  pose proof (regs_bytes_length (cpuid_insn PROCESSOR_BRAND_STRING_2 0)) as H2.
  destruct k as [|[|[|k]]]; unfold brand_bytes; cbn [seq flat_map Nat.sub];
    try rewrite app_nil_r.
  - reflexivity.
  - now rewrite take_app_length' by exact H1.
  - rewrite app_assoc, take_app_length'; [reflexivity|].
    rewrite length_app, H1, H2. reflexivity.
  - rewrite take_ge by (rewrite !length_app, !regs_bytes_length; lia).
    rewrite Nat.sub_0_r. unfold leaf_bytes. now rewrite <- !app_assoc.
Qed.

(** With no more than twelve leaves copied, a padded name in the
    brand-string leaves is read from the array [brand] as far as the
    leaves copied hold it. *)
Lemma win32_name_brand name :
  (0x80000004 <=? to_uint32 ext_leaf) = true ->
  Z.land ext_leaf 0xF <= 13 ->
  brand_text_is (padded_name name) ->
  nul_free name -> (length name < 48)%nat ->
  win32_name =
    Ok (take (16 * (Z.to_nat (Z.land ext_leaf 0xF) - 1)) name).
Proof.
  intros G Hn Ht Hnf Hlen. unfold win32_name, win32_brand, leaf_indices.
  rewrite G. set (k := (Z.to_nat (Z.land ext_leaf 15) - 1)%nat).
  assert (Hk : (k <= 12)%nat) by lia.
  rewrite memcpy_ok
    by (rewrite leaves_length, length_seq, length_replicate; lia).
  cbn [outcome_bind take app Nat.add].
  rewrite leaves_length, length_seq, drop_replicate.
  rewrite leaves_brand, (brand_bytes_text _ Ht), <- app_assoc.
  destruct (le_lt_dec 3 k) as [H3|H3].
  - rewrite (take_ge name), (take_ge (padded_name name))
      by (rewrite ?padded_name_length by lia; lia).
    now apply cstring_padded_name.
  - replace (k - 3)%nat with 0%nat by lia.
    replace (192 - 16 * k)%nat with (S (191 - 16 * k)) by lia.
    now apply cstring_take_padded_name.
Qed.

(** Without leaves to copy the array [brand] reads as the empty string. *)
Lemma win32_name_empty :
  (0x80000004 <=? to_uint32 ext_leaf) = true ->
  Z.land ext_leaf 0xF <= 1 ->
  win32_name = Ok [] /\ leaf_indices ext_leaf = [].
Proof.
  intros G Hn. unfold win32_name, win32_brand, leaf_indices. rewrite G.
  replace (Z.to_nat (Z.land ext_leaf 15) - 1)%nat with 0%nat by lia.
  split; reflexivity.
Qed.

(** What the buffer holds once the text to print is known. *)
Lemma win32_name_spec_prints outbuf maxsz text :
  win32_name = Ok text -> nul_free text ->
  (0 < maxsz <= length outbuf)%nat ->
  exists out,
    win32_name_spec outbuf maxsz = Ok out /\
    cstring out = Ok (take (maxsz - 1) text) /\ length out = length outbuf.
Proof.
  intros Hw Hnf Hm. unfold win32_name_spec. rewrite Hw.
  destruct (memset outbuf NUL maxsz) as [o|] eqn:Em;
    [|rewrite memset_ok in Em by lia; discriminate].
  pose proof (memset_length _ _ _ _ Em) as Hlen. cbn [outcome_bind].
  pose proof (snprintf_safe o maxsz text ltac:(lia)) as Hs.
  destruct (snprintf o maxsz text) as [out|] eqn:E; [|discriminate].
  exists out. repeat split.
  - now apply (snprintf_cstring o maxsz text out Hnf ltac:(lia)).
  - now rewrite (snprintf_length _ _ _ _ E).
Qed.

(** C14. [cpu_getname] of the [WIN32] build refines its specification:
    the text printed is the array [brand] after one copy of the leaves
    [0x80000002] to [0x80000000 + (ext & 0xF)], read as a string, when
    the highest extended leaf read unsigned is at least [0x80000004],
    and the environment variable otherwise; the instructions executed
    are the query of the highest leaf and one query for each leaf
    copied. *)
Theorem cpu_getname_win32_refines outbuf maxsz t :
  cpu_getname_win32 outbuf maxsz t =
  lift (win32_name_spec outbuf maxsz) (win32_trace t).
Proof. getname_win32_run. Qed.

(** C12. When the low four bits of the highest extended leaf are 14 or
    15 (0x8000001e, say), the loop of [cpu_getname] copies 13 or 14
    leaves into the 12 slots of [brand]: the call writes outside the
    array. *)
Theorem cpu_getname_win32_overflow outbuf maxsz t :
  (0x80000004 <=? to_uint32 ext_leaf) = true ->
  14 <= Z.land ext_leaf 0xF ->
  (maxsz <= length outbuf)%nat ->
  cpu_getname_win32 outbuf maxsz t = Fault BufferOverflow.
Proof.
  intros G Hn Hm. rewrite cpu_getname_win32_run.
  unfold win32_name_spec, win32_name, win32_brand.
  rewrite memset_ok, G by assumption. cbn [outcome_bind].
  rewrite memcpy_fault; [reflexivity|].
  rewrite leaves_length, length_replicate. unfold leaf_indices.
  rewrite length_seq. lia.
Qed.

(** When the low four bits of the highest extended leaf are 0 or 1
    (0x80000020, say), the loop of [cpu_getname] copies nothing: the
    name is empty whatever the brand-string leaves hold. *)
Lemma cpu_getname_win32_empty outbuf maxsz t :
  (0x80000004 <=? to_uint32 ext_leaf) = true ->
  Z.land ext_leaf 0xF <= 1 ->
  (0 < maxsz <= length outbuf)%nat ->
  exists out,
    cpu_getname_win32 outbuf maxsz t = Ok (out, logged 0x80000000 t) /\
    cstring out = Ok [] /\ length out = length outbuf.
Proof.
  intros G Hn Hm. rewrite cpu_getname_win32_run.
  destruct (win32_name_empty G Hn) as [Hw Hi].
  destruct (win32_name_spec_prints outbuf maxsz [] Hw) as (out & -> & Hc & Hl);
    [constructor | lia |].
  exists out. unfold win32_trace. rewrite G, Hi, take_nil in *.
  cbn [leaf_queries map lift]. now rewrite app_nil_r.
Qed.

(** C33. The name of the [WIN32] build: on a processor that reports
    thirteen at most in the low four bits [n] of the highest extended
    leaf, and whose three brand-string leaves hold a name of fewer than 48
    bytes padded with NUL, [cpu_getname] leaves in the buffer the first
    [maxsz - 1] bytes of what the [n - 1] leaves copied hold of that name,
    terminated: the whole name from four on, whatever the further leaves
    copied after it are, its first 32 bytes for three (0x80000023, say),
    its first 16 bytes for two, and nothing for one and zero
    (0x80000020). *)
Theorem cpu_getname_win32_name outbuf maxsz t name :
  (0x80000004 <=? to_uint32 ext_leaf) = true ->
  Z.land ext_leaf 0xF <= 13 ->
  brand_text_is (padded_name name) ->
  nul_free name -> (length name < 48)%nat ->
  (0 < maxsz <= length outbuf)%nat ->
  exists out,
    cpu_getname_win32 outbuf maxsz t = Ok (out, win32_trace t) /\
    cstring out =
      Ok (take (maxsz - 1)
            (take (16 * (Z.to_nat (Z.land ext_leaf 0xF) - 1)) name)) /\
    length out = length outbuf.
Proof.
  intros G Hn Ht Hnf Hlen Hm. rewrite cpu_getname_win32_run.
  pose proof (win32_name_brand name G Hn Ht Hnf Hlen) as Hw.
  destruct (win32_name_spec_prints outbuf maxsz _ Hw) as (out & -> & Hc & Hl);
    [now apply Forall_take | exact Hm |].
  now exists out.
Qed.

(** A variable that is not set is a null pointer passed to [%s]. *)
Lemma cpu_getname_win32_unset outbuf maxsz t :
  (0x80000004 <=? to_uint32 ext_leaf) = false ->
  getenv "PROCESSOR_IDENTIFIER" = None ->
  (maxsz <= length outbuf)%nat ->
  cpu_getname_win32 outbuf maxsz t = Fault NullPointer.
Proof.
  intros G He Hm. rewrite cpu_getname_win32_run.
  unfold win32_name_spec, win32_name. now rewrite memset_ok, G, He by assumption.
Qed.

Lemma cpu_getmodelid_win32_unset outbuf maxsz t :
  getenv "PROCESSOR_LEVEL" = None \/ getenv "PROCESSOR_REVISION" = None \/
  getenv "NUMBER_OF_PROCESSORS" = None ->
  (maxsz <= length outbuf)%nat ->
  cpu_getmodelid_win32 outbuf maxsz t = Fault NullPointer.
Proof.
  intros He Hm. rewrite cpu_getmodelid_win32_run. unfold win32_modelid_spec.
  rewrite memset_ok by assumption. cbn [outcome_bind].
  destruct He as [->|[->| ->]]; cbn [string_arg outcome_bind];
    repeat (destruct (getenv _); cbn [string_arg outcome_bind]); reflexivity.
Qed.

(** With the three variables set, the id is their texts with colons
    between them. *)
Lemma cpu_getmodelid_win32_text outbuf maxsz t level revision number :
  getenv "PROCESSOR_LEVEL" = Some level ->
  getenv "PROCESSOR_REVISION" = Some revision ->
  getenv "NUMBER_OF_PROCESSORS" = Some number ->
  nul_free (level ++ bytes ":" ++ revision ++ bytes ":" ++ number) ->
  (0 < maxsz <= length outbuf)%nat ->
  exists out,
    cpu_getmodelid_win32 outbuf maxsz t = Ok (out, t) /\
    cstring out =
      Ok (take (maxsz - 1) (level ++ bytes ":" ++ revision ++ bytes ":" ++ number)) /\
    length out = length outbuf.
Proof.
  intros H1 H2 H3 Hnf Hm. rewrite cpu_getmodelid_win32_run.
  unfold win32_modelid_spec. rewrite memset_ok, H1, H2, H3 by lia.
  cbn [outcome_bind string_arg]. fold (cleared outbuf maxsz).
  pose proof (cleared_length outbuf maxsz ltac:(lia)) as Hl.
  set (text := level ++ _) in *.
  pose proof (snprintf_safe (cleared outbuf maxsz) maxsz text ltac:(lia)) as Hs.
  destruct (snprintf _ maxsz text) as [out|] eqn:E; [|discriminate].
  exists out. split_and!; [reflexivity | |].
  - eapply snprintf_cstring; eauto. lia.
  - now rewrite (snprintf_length _ _ _ _ E).
Qed.

End Win32Properties.

(** ** The trace records what [cpu_getname] learns *)

Section Win32Replay.
Context {tg : Target} {env : Environment} (hw1 hw2 : Processor).

#[export] Instance replay_copy_leaf i v :
  Replay hw1 hw2 (@copy_leaf tg hw1 i v) (@copy_leaf tg hw2 i v).
Proof. unfold copy_leaf. apply _. Qed.

#[export] Instance replay_cpu_getname_win32 outbuf maxsz :
  Replay hw1 hw2 (@cpu_getname_win32 tg hw1 env outbuf maxsz)
    (@cpu_getname_win32 tg hw2 env outbuf maxsz).
Proof. unfold cpu_getname_win32. apply _. Qed.

End Win32Replay.

(** ** The Windows build on the sample machines *)

Lemma cpu_getname_win32_overflow_witness :
  @cpu_getname_win32 win32_x86 piledriver windows_env (replicate 48 NUL) 48 [] =
    Fault BufferOverflow.
Proof.
  apply (@cpu_getname_win32_overflow win32_x86 piledriver windows_env
           (replicate 48 NUL) 48 []).
  - reflexivity.
  - vm_compute. discriminate.
  - vm_compute. lia.
Defined.

Lemma cpu_getname_win32_name_witness :
  exists out,
    @cpu_getname_win32 win32_x86 zen3 windows_env (replicate 48 Byte.xff) 48 [] =
      Ok (out, @win32_trace win32_x86 zen3 []) /\
    cstring out =
      Ok (take (48 - 1)
            (take (16 * (Z.to_nat (Z.land (@ext_leaf win32_x86 zen3) 0xF) - 1))
               (bytes "AMD Ryzen 9 5950X 16-Core Processor"))) /\
    length out = length (replicate 48 Byte.xff).
Proof.
  apply (@cpu_getname_win32_name win32_x86 zen3 windows_env
           (replicate 48 Byte.xff) 48 []
           (bytes "AMD Ryzen 9 5950X 16-Core Processor")).
  - reflexivity.
  - vm_compute. discriminate.
  - vm_compute. repeat split.
  - by_decide.
  - vm_compute. lia.
  - vm_compute. lia.
Defined.

(** The name of the Haswell sample, read from seven leaves; the fallback
    to the environment on a machine without extended leaves; the model id
    of the environment; a null pointer when the variables are not set. *)
Example win32_samples :
  value_of (@cpu_getname_win32 win32_x86 haswell windows_env
              (replicate 40 Byte.xff) 40 []) =
    Some (bytes "Intel(R) Core(TM) i7-4770 CPU @ 3.40GHz" ++ [NUL]) /\
  state_of (@cpu_getname_win32 win32_x86 haswell windows_env
              (replicate 40 Byte.xff) 40 []) =
    Some (map (fun i => (0x80000000 + i, 0)) [0; 2; 3; 4; 5; 6; 7; 8]) /\
  value_of (@cpu_getname_win32 win32_x86 pentium3 windows_env
              (replicate 8 Byte.xff) 8 []) =
    Some (bytes "Intel64" ++ [NUL]) /\
  value_of (@cpu_getmodelid_win32 windows_env (replicate 9 Byte.xff) 9 []) =
    Some (bytes "6:4701:8" ++ [NUL]) /\
  @cpu_getname_win32 win32_x86 pentium3 empty_env (replicate 8 Byte.xff) 8 [] =
    Fault NullPointer.
Proof. vm_compute. repeat split. Qed.

(** The names of three AMD processors: the loop bound [ext & 0xF] cuts
    the name of a Zen 3 (0x80000023) after two leaves, leaves the name of
    a Zen 2 (0x80000020) empty, and overruns [brand] on a Piledriver
    (0x8000001e). *)
Example win32_amd_names :
  value_of (@cpu_getname_win32 win32_x86 zen3 windows_env
              (replicate 48 Byte.xff) 48 []) =
    Some (bytes "AMD Ryzen 9 5950X 16-Core Proces" ++ replicate 16 NUL) /\
  value_of (@cpu_getname_win32 win32_x86 zen2 windows_env
              (replicate 48 Byte.xff) 48 []) = Some (replicate 48 NUL) /\
  @cpu_getname_win32 win32_x86 piledriver windows_env
     (replicate 48 Byte.xff) 48 [] = Fault BufferOverflow.
Proof. vm_compute. repeat split. Qed.
