(* ===== verification/Sysinfos.v ===== *)
(** * The two builds together: [cpu_getname] and [cpu_getmodelid]

    The state of the whole unit is [world]: the trace of CPUID
    instructions and the state of the C library.  [cpu_getname] and
    [cpu_getmodelid] are the functions of the source with their [#ifdef
    WIN32]: the Windows variant works on the trace, the other on the
    files.  The theorems are those a caller can rely on whatever the
    build is, and [cpu_getmodelid_builds], which compares the ids the
    two builds give for one machine ([reports] is what Windows puts in
    the environment for it). *)

From Stdlib Require Import ZArith Lia List Bool Strings.Byte.
From coqutil Require Import Byte.
From stdpp Require Import base list gmap strings.
From S2P Require Import Prelude CTypes CString Printf Stdio Hosts Cpuid Machines.
From S2P Require Import ProcCpuinfo Cpuinfo Win32.

Local Open Scope Z_scope.
Local Open Scope cmonad_scope.

(** ** Definitions *)

Record world := mk_world {
  cpu_trace : trace;
  io : stdio
}.

(** A computation on the processor, run in the world. *)
Definition on_cpu {A} (m : Cpu A) : M world A :=
  fun w =>
    match m (cpu_trace w) with
    | Ok (a, t) => Ok (a, mk_world t (io w))
    | Fault f => Fault f
    end.

(** A computation on the files, run in the world. *)
Definition on_io {A} (m : IO A) : M world A :=
  fun w =>
    match m (io w) with
    | Ok (a, s) => Ok (a, mk_world (cpu_trace w) s)
    | Fault f => Fault f
    end.

Section Sysinfos.
Context {tg : Target} {hw : Processor} {env : Environment} {miner : Miner}.

(** [cpu_getname], lines 134-180. *)
Definition cpu_getname (outbuf : list byte) (maxsz : nat) : M world (list byte) :=
  match target_os with
  | Win32 => on_cpu (cpu_getname_win32 outbuf maxsz)
  | Linux => on_io (cpu_getname_posix outbuf maxsz)
  end.

(** [cpu_getmodelid], lines 182-236. *)
Definition cpu_getmodelid (outbuf : list byte) (maxsz : nat)
  : M world (list byte) :=
  match target_os with
  | Win32 => on_cpu (cpu_getmodelid_win32 outbuf maxsz)
  | Linux => on_io (cpu_getmodelid_posix outbuf maxsz)
  end.

(** ** Specifications *)

(** What [cpu_getname] leaves in the buffer. *)
Definition getname_spec (w : world) (outbuf : list byte) (maxsz : nat)
  : outcome (list byte) :=
  match target_os with
  | Win32 => win32_name_spec outbuf maxsz
  | Linux => name_spec (visible (io w)) outbuf maxsz
  end.

(** What [cpu_getmodelid] leaves in the buffer. *)
Definition getmodelid_spec (w : world) (outbuf : list byte) (maxsz : nat)
  : outcome (list byte) :=
  match target_os with
  | Win32 => win32_modelid_spec outbuf maxsz
  | Linux => modelid_spec (visible (io w)) outbuf maxsz
  end.

(** The world after either call: the files and streams as they were, the
    trace longer by the queries of the Windows variant of
    [cpu_getname]. *)
Definition after_getname (w : world) : world :=
  match target_os with
  | Win32 => mk_world (win32_trace (cpu_trace w)) (io w)
  | Linux => w
  end.

End Sysinfos.

(** What Windows puts in the environment for a processor: the family in
    decimal, the model and the stepping as two hexadecimal digits each,
    the number of processors in decimal. *)
Definition reports {env : Environment} {miner : Miner} (f m st : Z) : Prop :=
  getenv "PROCESSOR_LEVEL" = Some (fmt_d f) /\
  getenv "PROCESSOR_REVISION" = Some (fmt_02x m ++ fmt_02x st) /\
  getenv "NUMBER_OF_PROCESSORS" = Some (fmt_d num_cpus).

(** The Haswell sample: nothing executed yet, the files of its host. *)
Definition haswell_world : world := mk_world [] haswell_host.

(** The environment of Windows on the Haswell sample. *)
Definition haswell_env : Environment := fun name =>
  if decide (name = "PROCESSOR_LEVEL") then Some (bytes "6")
  else if decide (name = "PROCESSOR_REVISION") then Some (bytes "3c03")
  else if decide (name = "NUMBER_OF_PROCESSORS") then Some (bytes "8")
  else None.

(** An AMD Ryzen 7 2700X: family 23, model 8, stepping 2, as Linux and as
    Windows describe it. *)
Definition zen_rows : list row :=
  [entry "processor" 1 "0"; entry "vendor_id" 1 "AuthenticAMD";
   entry "cpu family" 1 "23"; entry "model" 2 "8";
   entry "model name" 1 "AMD Ryzen 7 2700X Eight-Core Processor";
   entry "stepping" 1 "2"; Blank].

Definition zen_env : Environment := fun name =>
  if decide (name = "PROCESSOR_LEVEL") then Some (bytes "23")
  else if decide (name = "PROCESSOR_REVISION") then Some (bytes "0802")
  else if decide (name = "NUMBER_OF_PROCESSORS") then Some (bytes "8")
  else None.

Definition zen_world : world :=
  mk_world [] (boot [(PATH_cpuinfo, render zen_rows)]).

(** ** Running a component in the world *)

Lemma on_cpu_lift {A} (o : outcome A) (t : trace) w :
  on_cpu (fun _ => lift o t) w =
  lift o (mk_world t (io w)).
Proof. unfold on_cpu, lift. now destruct o. Qed.

Lemma on_io_lift {A} (o : outcome A) (s : stdio) w :
  on_io (fun _ => lift o s) w =
  lift o (mk_world (cpu_trace w) s).
Proof. unfold on_io, lift. now destruct o. Qed.

Lemma on_cpu_run {A} (m : Cpu A) (o : outcome A) t' w :
  m (cpu_trace w) = lift o t' -> on_cpu m w = lift o (mk_world t' (io w)).
Proof. intros H. unfold on_cpu. rewrite H. unfold lift. now destruct o. Qed.

Lemma on_io_run {A} (m : IO A) (o : outcome A) w :
  m (io w) = lift o (io w) -> on_io m w = lift o w.
Proof.
  intros H. unfold on_io. rewrite H. unfold lift.
  destruct o; [now destruct w | reflexivity].
Qed.

(** ** The properties *)

Section SysinfosProperties.
Context {tg : Target} {hw : Processor} {env : Environment} {miner : Miner}.

Lemma cpu_getname_run outbuf maxsz w :
  cpu_getname outbuf maxsz w =
  lift (getname_spec w outbuf maxsz) (after_getname w).
Proof.
  unfold cpu_getname, getname_spec, after_getname. destruct target_os.
  - apply on_io_run, cpu_getname_posix_run.
  - apply on_cpu_run, cpu_getname_win32_run.
Qed.

Lemma cpu_getmodelid_run outbuf maxsz w :
  cpu_getmodelid outbuf maxsz w = lift (getmodelid_spec w outbuf maxsz) w.
Proof.
  unfold cpu_getmodelid, getmodelid_spec. destruct target_os.
  - apply on_io_run, cpu_getmodelid_posix_run.
  - rewrite (on_cpu_run _ _ _ _ (cpu_getmodelid_win32_run _ _ _)).
    now destruct w.
Qed.

Lemma win32_name_spec_terminated outbuf maxsz out :
  (0 < maxsz)%nat -> win32_name_spec outbuf maxsz = Ok out ->
  length out = length outbuf /\ terminated maxsz out.
Proof.
  intros Hm. unfold win32_name_spec.
  destruct (memset outbuf NUL maxsz) as [o|] eqn:Em; [|discriminate].
  cbn [outcome_bind]. destruct win32_name as [text|]; [|discriminate].
  cbn [outcome_bind]. intros E. split.
  - now rewrite (snprintf_length _ _ _ _ E), (memset_length _ _ _ _ Em).
  - eapply snprintf_terminated; eauto.
Qed.

(** Whatever the build, whenever [cpu_getname] returns, with [maxsz]
    at least 1: the buffer has kept its size and holds a string that is
    terminated inside its first [maxsz] bytes, the files are untouched
    and no stream or heap block is left behind. *)
Theorem cpu_getname_terminated outbuf maxsz w out w' :
  (0 < maxsz)%nat -> cpu_getname outbuf maxsz w = Ok (out, w') ->
  length out = length outbuf /\ terminated maxsz out /\ io w' = io w.
Proof.
  intros Hm H. unfold cpu_getname in H. destruct target_os.
  - unfold on_io in H.
    destruct (cpu_getname_posix outbuf maxsz (io w)) as [[o s]|] eqn:E;
      [|discriminate].
    injection H as <- <-.
    destruct (cpu_getname_posix_terminated _ _ _ _ _ Hm E) as (-> & Hl & Ht).
    auto.
  - rewrite (on_cpu_run _ _ _ _ (cpu_getname_win32_run _ _ _)) in H.
    apply lift_inv_ok in H as [H ->].
    destruct (win32_name_spec_terminated _ _ _ Hm H). auto.
Qed.

Lemma win32_modelid_spec_terminated outbuf maxsz out :
  (0 < maxsz)%nat -> win32_modelid_spec outbuf maxsz = Ok out ->
  length out = length outbuf /\ terminated maxsz out.
Proof.
  intros Hm. unfold win32_modelid_spec.
  destruct (memset outbuf NUL maxsz) as [o|] eqn:Em; [|discriminate].
  cbn [outcome_bind].
  repeat (destruct (string_arg _); cbn [outcome_bind]; [|discriminate]).
  intros E. split.
  - now rewrite (snprintf_length _ _ _ _ E), (memset_length _ _ _ _ Em).
  - eapply snprintf_terminated; eauto.
Qed.

(** The same for [cpu_getmodelid], which executes no instruction in
    either build. *)
Lemma cpu_getmodelid_terminated outbuf maxsz w out w' :
  (0 < maxsz)%nat -> cpu_getmodelid outbuf maxsz w = Ok (out, w') ->
  length out = length outbuf /\ terminated maxsz out /\ w' = w.
Proof.
  intros Hm H. rewrite cpu_getmodelid_run in H.
  apply lift_inv_ok in H as [H ->]. unfold getmodelid_spec in H.
  destruct target_os.
  - assert (Hrun : cpu_getmodelid_posix outbuf maxsz (io w) = Ok (out, io w))
      by now rewrite cpu_getmodelid_posix_run, H.
    destruct (cpu_getmodelid_posix_terminated _ _ _ _ _ Hm Hrun) as (_ & ? & ?).
    auto.
  - destruct (win32_modelid_spec_terminated _ _ _ Hm H). auto.
Qed.

End SysinfosProperties.

(** ** The two builds on one machine *)

Section Builds.
Context (linux windows : Target) {hw : Processor} {env : Environment}
  {miner : Miner}.
Hypothesis Hlinux : @target_os linux = Linux.
Hypothesis Hwindows : @target_os windows = Win32.

(** C35. The two builds on one machine: on Linux the id is made of the
    numbers of [/proc/cpuinfo], on Windows of the environment; for a
    family, a model and a stepping that are not 0 both calls succeed on
    a buffer of 41 bytes, and they give the same id exactly when the
    family is less than 10: Windows has the family in decimal, [%x]
    prints it in hexadecimal. *)
Theorem cpu_getmodelid_builds w outbuf maxsz rows f m st :
  visible (io w) !! PROC_CPUINFO = Some (render rows) ->
  rows <> [] -> Forall wf_row rows ->
  number (bytes "cpu family") rows f -> number (bytes "model") rows m ->
  number (bytes "stepping") rows st ->
  reports f m st ->
  0 < f < 2 ^ 31 -> 0 < m < 2 ^ 31 -> 0 < st < 2 ^ 31 ->
  (41 <= maxsz <= length outbuf)%nat ->
  exists out1 out2 id1 id2,
    cpu_getmodelid (tg:=linux) outbuf maxsz w = Ok (out1, w) /\
    cpu_getmodelid (tg:=windows) outbuf maxsz w = Ok (out2, w) /\
    cstring out1 = Ok id1 /\ cstring out2 = Ok id2 /\
    (id1 = id2 <-> f < 10).
Proof.
  intros Hf Hne Hwf N1 N2 N3 (E1 & E2 & E3) Hfam Hmod Hst Hm.
  destruct (cpu_getmodelid_scans (io w) outbuf maxsz (render rows)
              (to_int32 f) (to_int32 m) (to_int32 st))
    as (out1 & R1 & C1 & _);
    auto using render_nonempty, render_nul_free; try lia;
    try (apply render_scans; auto; by_decide).
  destruct (cpu_getmodelid_win32_text outbuf maxsz (cpu_trace w)
              _ _ _ E1 E2 E3) as (out2 & R2 & C2 & _); [|lia|].
  { unfold nul_free. rewrite !Forall_app.
    split_and!; first [apply fmt_d_nul_free | apply fmt_02x_nul_free | by_decide]. }
  rewrite !to_int32_small, decide_True in C1 by (unfold is_int32; lia).
  pose proof (modelid_text_length (f, m, st)).
  pose proof (fmt_d_length f). pose proof (fmt_d_length num_cpus).
  pose proof (fmt_02x_length m). pose proof (fmt_02x_length st).
  rewrite take_ge in C1 by lia.
  rewrite take_ge in C2
    by (rewrite !length_app; change (length (bytes ":")) with 1%nat; lia).
  exists out1, out2. do 2 eexists.
  split_and!; [| | exact C1 | exact C2 |].
  - unfold cpu_getmodelid. rewrite Hlinux. unfold on_io. rewrite R1. now destruct w.
  - unfold cpu_getmodelid. rewrite Hwindows. unfold on_cpu. rewrite R2. now destruct w.
  - rewrite <- (fmt_x_fmt_d f) by lia. unfold modelid_text.
    change colon with (bytes ":"). rewrite <- !app_assoc.
    split; [apply app_inv_tail | now intros ->].
Qed.

End Builds.

Lemma cpu_getmodelid_builds_witness :
  exists out1 out2 id1 id2,
    cpu_getmodelid (tg:=linux_x86) (env:=haswell_env) (miner:=eight_cpus)
      (replicate 48 Byte.xff) 48 haswell_world = Ok (out1, haswell_world) /\
    cpu_getmodelid (tg:=win32_x86) (env:=haswell_env) (miner:=eight_cpus)
      (replicate 48 Byte.xff) 48 haswell_world = Ok (out2, haswell_world) /\
    cstring out1 = Ok id1 /\ cstring out2 = Ok id2 /\
    (id1 = id2 <-> 6 < 10).
Proof.
  apply (cpu_getmodelid_builds linux_x86 win32_x86 (env:=haswell_env)
           (miner:=eight_cpus) eq_refl eq_refl haswell_world
           (replicate 48 Byte.xff) 48 haswell_rows 6 60 3);
    [sample_file | sample_file | sample_file
    | vm_compute; now exists Byte.x20 | vm_compute; now exists Byte.x20
    | vm_compute; now exists Byte.x20 | vm_compute; now repeat split
    | lia | lia | lia | vm_compute; lia].
Defined.

(** The Ryzen sample: [17:0802:8] on Linux, [23:0802:8] on Windows. *)
Example zen_two_builds :
  outcome_map fst
    (cpu_getmodelid (tg:=linux_x86) (env:=zen_env) (miner:=eight_cpus)
       (replicate 12 Byte.xff) 12 zen_world) =
    Ok (bytes "17:0802:8" ++ replicate 3 NUL) /\
  outcome_map fst
    (cpu_getmodelid (tg:=win32_x86) (env:=zen_env) (miner:=eight_cpus)
       (replicate 12 Byte.xff) 12 zen_world) =
    Ok (bytes "23:0802:8" ++ replicate 3 NUL).
Proof. split; vm_compute; reflexivity. Qed.

(** ** The two builds on the sample machines *)

Lemma cpu_getname_terminated_witness :
  length (bytes "Intel(R)" ++ [NUL]) = length (replicate 9 Byte.xff) /\
  terminated 9 (bytes "Intel(R)" ++ [NUL]) /\
  io haswell_world = io haswell_world.
Proof.
  apply (@cpu_getname_terminated linux_x86 haswell windows_env
           (replicate 9 Byte.xff) 9 haswell_world).
  - lia.
  - vm_compute. reflexivity.
Defined.

(** The same machine under the two builds: the name comes from the file
    on Linux and from the processor on Windows. *)
Example cpu_getname_two_builds :
  value_of (@cpu_getname linux_x86 haswell windows_env
              (replicate 40 Byte.xff) 40 haswell_world) =
    Some (bytes "Intel(R) Core(TM) i7-4770 CPU @ 3.40GHz" ++ [NUL]) /\
  value_of (@cpu_getname win32_x86 haswell windows_env
              (replicate 40 Byte.xff) 40 haswell_world) =
    Some (bytes "Intel(R) Core(TM) i7-4770 CPU @ 3.40GHz" ++ [NUL]) /\
  value_of (@cpu_getmodelid linux_x86 windows_env eight_cpus
              (replicate 9 Byte.xff) 9 haswell_world) =
    Some (bytes "6:3c03:8" ++ [NUL]) /\
  value_of (@cpu_getmodelid win32_x86 windows_env eight_cpus
              (replicate 9 Byte.xff) 9 haswell_world) =
    Some (bytes "6:4701:8" ++ [NUL]).
Proof. vm_compute. repeat split. Qed.
