(* ===== verification/Soundness.v ===== *)
(** * Calls that do not go wrong

    The contract of the unit, and the proof that the unit keeps it.
    Three predicates state the contract: [host_ok] is what the machine
    owes (on Linux the sysfs files hold numbers that fit an [int] and
    [/proc/cpuinfo] is a file as the kernel prints it, [Cpuinfo.render];
    on Windows the four environment variables are set and the processor
    leaves a slot of the array [brand] free), [call_ok] is what the
    caller owes (buffers of the sizes the functions rely on, which the
    functions never check), [reply_ok] is what the unit gives back (a
    value of the type returned, the caller's buffer at its size and
    terminated where a string is written).

    Each function's share is a lemma of its own ([linux_cpufreq_sound],
    [processor_id_sound], [cpu_getname_posix_sound], ...); [exec_sound]
    puts them together call by call.  The machine's side is not used up
    by a call ([host_ok_frame], from [Api.exec_frame]), so the contract
    holds again after every call: a call that keeps the caller's side
    returns after any history ([api_safe]), and a session of such calls
    runs to its end ([api_sound]).  The caller's side cannot be
    weakened: for each size there is a sample machine on which a call
    without it writes outside its buffer ([call_ok_needed],
    [call_ok_exact]).  The machine's side is sufficient only.  The
    samples at the end show machines that keep their side and calls for
    which a side is not kept. *)

From Stdlib Require Import ZArith Lia List Bool Strings.Byte Morphisms.
From Stdlib Require Import Floats.SpecFloat.
From coqutil Require Import Byte.
From stdpp Require Import base list gmap strings.
From S2P Require Import Prelude Transitions CTypes CFloat CString Stdio Hosts.
From S2P Require Import Cpuid Machines Features BestFeature Brand.
From S2P Require Import ProcCpuinfo Cpuinfo Sensors Win32 Sysinfos Api.

Local Open Scope Z_scope.
Local Open Scope cmonad_scope.

(** ** Definitions *)

(** The sysfs files the sensors read. *)
Definition sensor_paths : list string :=
  [HWMON_PATH; HWMON_ALT; HWMON_ALT2; CPUFREQ_PATH].

(** A [/proc/cpuinfo] the scrapers can read: rows as the kernel prints
    them, with a value behind the colon of the four keys. *)
Definition printed (contents : list byte) : Prop :=
  exists rows,
    contents = render rows /\ rows <> [] /\ Forall wf_row rows /\
    is_Some (field (bytes "model name") rows) /\
    Forall (fun K => exists n, number K rows n)
      [bytes "cpu family"; bytes "model"; bytes "stepping"].

(** The files a Linux host owes the unit: a number that fits an [int] at
    the head of every sensor file it has, and a [/proc/cpuinfo] as the
    kernel prints it if it has one. *)
Definition files_ok (fs : gmap string (list byte)) : Prop :=
  (forall path c, path ∈ sensor_paths -> fs !! path = Some c ->
                  is_ok (reading c) = true) /\
  (forall c, fs !! PROC_CPUINFO = Some c -> printed c).

(** The variables of the environment the Windows build reads. *)
Definition variables : list string :=
  ["PROCESSOR_IDENTIFIER"; "PROCESSOR_LEVEL"; "PROCESSOR_REVISION";
   "NUMBER_OF_PROCESSORS"]%string.

Section Contracts.
Context {tg : Target} {hw : Processor} {env : Environment} {miner : Miner}.

(** What a Windows host owes the unit: the four variables are set, and
    the processor has the brand string copied with room to spare, the
    low four bits of its highest extended leaf being 12 at most. *)
Definition windows_ok : Prop :=
  Forall (fun name => is_Some (getenv name)) variables /\
  ((0x80000004 <=? to_uint32 ext_leaf) = true -> Z.land ext_leaf 0xF <= 12).

(** What the machine owes the unit. *)
Definition host_ok (w : world) : Prop :=
  match target_os with
  | Linux => files_ok (files (io w))
  | Win32 => windows_ok
  end.

(** What the caller owes the unit: the sizes the functions rely on.
    [cpu_getname] may be given no room at all, [cpu_getmodelid] may
    not. *)
Definition call_ok (c : call) : Prop :=
  match c with
  | Processor_id _ output => (4 <= length output)%nat
  | Cpu_getname outbuf maxsz => (maxsz <= length outbuf)%nat
  | Cpu_getmodelid outbuf maxsz => (0 < maxsz <= length outbuf)%nat
  | Cpuid_get_highest_function s => (15 <= length s)%nat
  | Cpu_bestfeature outbuf _ => (6 <= length outbuf)%nat
  | Cpu_brand_string s => (48 <= length s)%nat
  | _ => True
  end.

(** What the unit gives back: a value of the type the function returns,
    or the caller's array at the size it had, terminated where the
    function writes a string. *)
Definition reply_ok (c : call) (r : reply) : Prop :=
  match c, r with
  | Cpu_temp _, Float x => is_float x = true
  | Cpu_clock _, Int z | Cpuid_get_highest_function_number, Int z =>
      is_uint32 z
  | Cpu_fanpercent, Int z => z = 0
  | Processor_id _ output, Ints a =>
      length a = length output /\ (Forall is_int32 output -> Forall is_int32 a)
  | Cpu_getname outbuf maxsz, Chars s =>
      length s = length outbuf /\ ((0 < maxsz)%nat -> terminated maxsz s)
  | Cpu_getmodelid outbuf maxsz, Chars s =>
      length s = length outbuf /\ terminated maxsz s
  | Has _, Bool _ => True
  | Cpuid_get_highest_function s, Chars s' =>
      length s' = length s /\ terminated 15 s'
  | Cpu_bestfeature outbuf _, Chars s' =>
      length s' = length outbuf /\ terminated 6 s'
  | Cpu_brand_string s, Chars s' => length s' = length s
  | _, _ => False
  end.

End Contracts.

(** A session with every function of the unit. *)
Definition every_call : list call :=
  [Cpu_temp 0; Cpu_clock 0; Cpu_fanpercent; Processor_id 1 (replicate 4 0);
   Cpu_getname (replicate 48 Byte.xff) 48;
   Cpu_getmodelid (replicate 16 Byte.xff) 16;
   Has SSE2; Has AES_NI; Has AVX1; Has AVX2; Has XOP; Has FMA3; Has SSE42;
   Has SSE; Cpuid_get_highest_function_number;
   Cpuid_get_highest_function (replicate 15 Byte.xff);
   Cpu_bestfeature (replicate 6 Byte.xff) 6;
   Cpu_brand_string (replicate 48 Byte.xff)].

#[export] Instance call_ok_dec c : Decision (call_ok c).
Proof. destruct c; cbn [call_ok]; apply _. Defined.

(** ** The sensors *)

Lemma files_ok_visible s : files_ok (files s) -> files_ok (visible s).
Proof.
  intros [Hs Hc]. split.
  - intros path c Hp [_ H]%visible_Some. eauto.
  - intros c [_ H]%visible_Some. eauto.
Qed.

Lemma temp_spec_float fs :
  files_ok fs -> exists x, temp_spec fs = Ok x /\ is_float x = true.
Proof.
  intros [Hs _]. unfold temp_spec.
  destruct (hwmon_contents fs) as [c|] eqn:E; [|now exists float_zero].
  apply hwmon_contents_path in E as (path & Hp & Hc).
  assert (Hin : path ∈ sensor_paths)
    by (unfold sensor_paths; rewrite !elem_of_cons in *; tauto).
  specialize (Hs path c Hin Hc).
  destruct (reading c) as [v|] eqn:Ev; [|discriminate].
  exists (millis v). split; [reflexivity|]. eapply millis_float, reading_range, Ev.
Qed.

Lemma linux_cpufreq_sound core s :
  files_ok (files s) ->
  exists z s', linux_cpufreq core s = Ok (z, s') /\ is_uint32 z.
Proof.
  intros [Hs _]%files_ok_visible. rewrite linux_cpufreq_run.
  destruct (visible s !! CPUFREQ_PATH) as [c|] eqn:E;
    [|exists 0, s; split; [reflexivity | by_decide]].
  assert (Hin : CPUFREQ_PATH ∈ sensor_paths) by (do 3 right; left).
  specialize (Hs CPUFREQ_PATH c Hin E).
  destruct (reading c) as [v|] eqn:Ev; [|discriminate].
  exists v, (leaked s c). split; [reflexivity | eapply reading_range, Ev].
Qed.

(** ** The processor *)

Section Processor.
Context {tg : Target} {hw : Processor}.

Lemma processor_id_sound fn output t :
  (4 <= length output)%nat ->
  exists a t',
    processor_id fn output t = Ok (a, t') /\
    length a = length output /\ (Forall is_int32 output -> Forall is_int32 a).
Proof.
  intros Hl. unfold processor_id, cpuid. destruct target_arch.
  - unfold exec_cpuid. rewrite bind_unfold.
    repeat (rewrite bind_unfold; unfold lift at 1;
            rewrite store_ok by (rewrite ?length_insert; lia)).
    unfold lift. rewrite store_ok by (rewrite ?length_insert; lia).
    do 2 eexists. split; [reflexivity|]. rewrite !length_insert.
    split; [reflexivity|]. intros Hi.
    repeat apply Forall_insert; auto using to_int32_range.
  - unfold lift. rewrite store_ok by lia. do 2 eexists.
    split; [reflexivity|]. rewrite length_insert. split; [reflexivity|].
    intros Hi. apply Forall_insert; [assumption | by_decide].
Qed.

Lemma cpuid_get_highest_function_sound s t :
  (15 <= length s)%nat ->
  exists s' t',
    cpuid_get_highest_function s t = Ok (s', t') /\
    length s' = length s /\ terminated 15 s'.
Proof.
  intros Hl.
  destruct (cpuid_get_highest_function_fits s t Hl) as (s' & -> & ? & Hc).
  do 2 eexists. split_and!; [reflexivity | assumption |].
  exists (era_text highest_function). split; [exact Hc|].
  pose proof (era_text_length _ highest_function_range). lia.
Qed.

Lemma cpu_bestfeature_sound outbuf maxsz t :
  (6 <= length outbuf)%nat ->
  exists s' t',
    cpu_bestfeature outbuf maxsz t = Ok (s', t') /\
    length s' = length outbuf /\ terminated 6 s'.
Proof.
  intros Hl. destruct (cpu_bestfeature_six_bytes outbuf maxsz t Hl)
    as (buf & -> & ? & Hc).
  do 2 eexists. split_and!; [reflexivity | assumption |].
  exists (bytes best_label). split; [exact Hc|].
  pose proof best_label_short. lia.
Qed.

Lemma cpu_brand_string_sound s t :
  (48 <= length s)%nat ->
  exists s' t', cpu_brand_string s t = Ok (s', t') /\ length s' = length s.
Proof.
  intros Hl. rewrite cpu_brand_string_run. destruct brand_guard; [|eauto].
  destruct (memcpy s 0 brand_bytes) as [d|] eqn:E;
    [|rewrite memcpy_ok in E by (rewrite brand_bytes_length; lia); discriminate].
  do 2 eexists. split; [reflexivity | eapply memcpy_length, E].
Qed.

End Processor.

(** ** The scrapers *)

Section Scrapers.
Context {miner : Miner}.

Lemma cpu_getname_posix_sound outbuf maxsz s :
  files_ok (files s) -> (maxsz <= length outbuf)%nat ->
  exists out,
    cpu_getname_posix outbuf maxsz s = Ok (out, s) /\
    length out = length outbuf /\ ((0 < maxsz)%nat -> terminated maxsz out).
Proof.
  intros [_ Hc]%files_ok_visible Hm.
  enough (exists out, cpu_getname_posix outbuf maxsz s = Ok (out, s) /\
                      length out = length outbuf) as (out & E & Hl).
  { exists out. split_and!; [exact E | exact Hl |]. intros Hpos.
    now destruct (cpu_getname_posix_terminated _ _ _ _ _ Hpos E) as (_ & _ & ?). }
  pose proof (cleared_length outbuf maxsz Hm) as Hl.
  destruct (visible s !! PROC_CPUINFO) as [c|] eqn:E.
  - destruct (Hc c eq_refl) as (rows & -> & Hne & Hwf & [v Hv] & _).
    rewrite (cpu_getname_text_run _ _ _ _ E)
      by auto using render_nonempty, render_nul_free.
    destruct (render_field (bytes "model name") rows v ltac:(by_decide) Hwf Hv)
      as [(rest & Hline & Hlf) | [Habs _]].
    + rewrite (getname_text_line _ _ _ _ _ Hline Hlf).
      pose proof (snprintf_safe (cleared outbuf maxsz) maxsz v ltac:(lia)) as Hs.
      destruct (snprintf _ maxsz v) as [out|] eqn:Es; [|discriminate].
      exists out. split; [reflexivity|]. now rewrite (snprintf_length _ _ _ _ Es).
    + rewrite getname_text_absent by assumption. now exists (cleared outbuf maxsz).
  - rewrite cpu_getname_posix_run. unfold name_spec.
    rewrite memset_ok, E by lia. now exists (cleared outbuf maxsz).
Qed.

Lemma cpu_getmodelid_posix_sound outbuf maxsz s :
  files_ok (files s) -> (0 < maxsz <= length outbuf)%nat ->
  exists out,
    cpu_getmodelid_posix outbuf maxsz s = Ok (out, s) /\
    length out = length outbuf /\ terminated maxsz out.
Proof.
  intros [_ Hc]%files_ok_visible Hm.
  enough (exists out, cpu_getmodelid_posix outbuf maxsz s = Ok (out, s))
    as [out E].
  { exists out. split; [exact E|].
    now destruct (cpu_getmodelid_posix_terminated _ _ _ _ _ (proj1 Hm) E) as (_ & ? & ?). }
  destruct (visible s !! PROC_CPUINFO) as [c|] eqn:E.
  - destruct (Hc c eq_refl) as (rows & -> & Hne & Hwf & _ & Hn).
    rewrite !Forall_cons in Hn. destruct Hn as ([f Hf] & [m Hm'] & [st Hst] & _).
    destruct (cpu_getmodelid_scans s outbuf maxsz (render rows)
                (to_int32 f) (to_int32 m) (to_int32 st) E) as (out & Hrun & _);
      eauto using render_nonempty, render_nul_free;
      apply render_scans; auto; by_decide.
  - rewrite cpu_getmodelid_posix_run. unfold modelid_spec.
    rewrite memset_ok, E by lia. eauto.
Qed.

End Scrapers.

(** ** The Windows build *)

Section Windows.
Context {tg : Target} {hw : Processor} {env : Environment}.

Lemma windows_variables :
  windows_ok ->
  exists i l r n,
    getenv "PROCESSOR_IDENTIFIER" = Some i /\ getenv "PROCESSOR_LEVEL" = Some l /\
    getenv "PROCESSOR_REVISION" = Some r /\ getenv "NUMBER_OF_PROCESSORS" = Some n.
Proof.
  intros [Hv _]. unfold variables in Hv. rewrite !Forall_cons in Hv.
  destruct Hv as ([i ?] & [l ?] & [r ?] & [n ?] & _). eauto 10.
Qed.

(** With a slot to spare the array [brand] holds a string. *)
Lemma win32_name_defined : windows_ok -> exists text, win32_name = Ok text.
Proof.
  intros Hw. unfold win32_name.
  destruct (0x80000004 <=? to_uint32 ext_leaf) eqn:G.
  - destruct Hw as [_ Hn]. specialize (Hn G).
    unfold win32_brand, leaf_indices.
    set (k := (Z.to_nat (Z.land ext_leaf 15) - 1)%nat).
    assert (Hk : (k <= 11)%nat) by lia.
    rewrite memcpy_ok
      by (rewrite leaves_length, length_seq, length_replicate; lia).
    cbn [outcome_bind take app Nat.add].
    rewrite leaves_length, length_seq, drop_replicate.
    replace (192 - 16 * k)%nat with (S (191 - 16 * k)) by lia.
    destruct (cstring_terminated (flat_map leaf_bytes (seq 2 k))
                (replicate (191 - 16 * k) NUL)) as (text & E & _).
    now exists text.
  - destruct (windows_variables Hw) as (i & _ & _ & _ & -> & _). now exists i.
Qed.

(** What [snprintf] leaves in the buffer [memset] cleared. *)
Lemma snprintf_cleared outbuf maxsz text :
  (maxsz <= length outbuf)%nat ->
  exists out,
    snprintf (cleared outbuf maxsz) maxsz text = Ok out /\
    length out = length outbuf /\ ((0 < maxsz)%nat -> terminated maxsz out).
Proof.
  intros Hm. pose proof (cleared_length outbuf maxsz Hm) as Hl.
  pose proof (snprintf_safe (cleared outbuf maxsz) maxsz text ltac:(lia)) as Hs.
  destruct (snprintf _ maxsz text) as [out|] eqn:E; [|discriminate].
  exists out. split_and!; [reflexivity | now rewrite (snprintf_length _ _ _ _ E) |].
  intros Hpos. eapply snprintf_terminated; eauto.
Qed.

Lemma cpu_getname_win32_sound outbuf maxsz t :
  windows_ok -> (maxsz <= length outbuf)%nat ->
  exists out,
    cpu_getname_win32 outbuf maxsz t = Ok (out, win32_trace t) /\
    length out = length outbuf /\ ((0 < maxsz)%nat -> terminated maxsz out).
Proof.
  intros [text Hw]%win32_name_defined Hm. rewrite cpu_getname_win32_run.
  unfold win32_name_spec. rewrite memset_ok, Hw by lia. cbn [outcome_bind].
  destruct (snprintf_cleared outbuf maxsz text Hm) as (out & E & ?).
  unfold cleared in E. rewrite E. now exists out.
Qed.

Lemma cpu_getmodelid_win32_sound outbuf maxsz t :
  windows_ok -> (0 < maxsz <= length outbuf)%nat ->
  exists out,
    cpu_getmodelid_win32 outbuf maxsz t = Ok (out, t) /\
    length out = length outbuf /\ terminated maxsz out.
Proof.
  intros (_ & l & r & n & _ & Hl & Hr & Hn)%windows_variables Hm.
  rewrite cpu_getmodelid_win32_run. unfold win32_modelid_spec.
  rewrite memset_ok, Hl, Hr, Hn by lia. cbn [outcome_bind string_arg].
  destruct (snprintf_cleared outbuf maxsz
              (l ++ bytes ":" ++ r ++ bytes ":" ++ n)) as (out & E & ? & Ht); [lia|].
  unfold cleared in E. rewrite E. exists out. split_and!; auto. apply Ht. lia.
Qed.

End Windows.

(** ** The unit *)

Section Calls.
Context {tg : Target} {hw : Processor} {env : Environment} {miner : Miner}.
Implicit Types (c : call) (r : reply) (w : world).

(** A call on the processor, in the world. *)
Lemma on_cpu_sound {A} (m : Cpu A) (f : A -> reply) (P : A -> Prop) c w :
  (forall t, exists a t', m t = Ok (a, t') /\ P a) ->
  (forall a, P a -> reply_ok c (f a)) ->
  exists r w', on_cpu (mmap f m) w = Ok (r, w') /\ reply_ok c r.
Proof.
  intros Hm Hr. destruct (Hm (cpu_trace w)) as (a & t' & E & Ha).
  exists (f a), (mk_world t' (io w)). unfold on_cpu. rewrite mmap_run, E. auto.
Qed.

(** A call on the files, in the world. *)
Lemma on_io_sound {A} (m : IO A) (f : A -> reply) (P : A -> Prop) c w :
  (exists a s', m (io w) = Ok (a, s') /\ P a) ->
  (forall a, P a -> reply_ok c (f a)) ->
  exists r w', on_io (mmap f m) w = Ok (r, w') /\ reply_ok c r.
Proof.
  intros (a & s' & E & Ha) Hr.
  exists (f a), (mk_world (cpu_trace w) s'). unfold on_io. rewrite mmap_run, E. auto.
Qed.

Lemma cpu_temp_sound core w :
  host_ok w ->
  exists x s', cpu_temp core (io w) = Ok (x, s') /\ is_float x = true.
Proof.
  unfold host_ok, cpu_temp. destruct target_os; [|now exists float_zero, (io w)].
  intros Hf%files_ok_visible. rewrite linux_cputemp_run.
  destruct (temp_spec_float _ Hf) as (x & -> & Hx). now exists x, (io w).
Qed.

Lemma cpu_clock_sound core w :
  host_ok w -> exists z s', cpu_clock core (io w) = Ok (z, s') /\ is_uint32 z.
Proof.
  unfold host_ok, cpu_clock. destruct target_os;
    [apply linux_cpufreq_sound | exists 0, (io w); split; [reflexivity | by_decide]].
Qed.

Lemma cpu_getname_sound outbuf maxsz w :
  host_ok w -> (maxsz <= length outbuf)%nat ->
  exists out w',
    cpu_getname outbuf maxsz w = Ok (out, w') /\
    length out = length outbuf /\ ((0 < maxsz)%nat -> terminated maxsz out).
Proof.
  unfold host_ok, cpu_getname, on_io, on_cpu. destruct target_os; intros Hw Hm.
  - destruct (cpu_getname_posix_sound outbuf maxsz (io w) Hw Hm) as (out & -> & ?).
    eauto.
  - destruct (cpu_getname_win32_sound outbuf maxsz (cpu_trace w) Hw Hm)
      as (out & -> & ?).
    eauto.
Qed.

Lemma cpu_getmodelid_sound outbuf maxsz w :
  host_ok w -> (0 < maxsz <= length outbuf)%nat ->
  exists out w',
    cpu_getmodelid outbuf maxsz w = Ok (out, w') /\
    length out = length outbuf /\ terminated maxsz out.
Proof.
  unfold host_ok, cpu_getmodelid, on_io, on_cpu. destruct target_os; intros Hw Hm.
  - destruct (cpu_getmodelid_posix_sound outbuf maxsz (io w) Hw Hm)
      as (out & -> & ?).
    eauto.
  - destruct (cpu_getmodelid_win32_sound outbuf maxsz (cpu_trace w) Hw Hm)
      as (out & -> & ?).
    eauto.
Qed.

(** A call that keeps its side of the contract returns, on a machine
    that keeps its own, and gives back what the contract says. *)
Lemma exec_sound c w :
  host_ok w -> call_ok c ->
  exists r w', exec c w = Ok (r, w') /\ reply_ok c r.
Proof.
  intros Hw Hc. destruct c; cbn [exec call_ok] in *.
  - eapply on_io_sound; [now apply cpu_temp_sound | auto].
  - eapply on_io_sound; [now apply cpu_clock_sound | auto].
  - eapply (on_io_sound _ _ (fun z => z = 0)); [now exists 0, (io w) | auto].
  - eapply on_cpu_sound; [intros t; now apply processor_id_sound | auto].
  - destruct (cpu_getname_sound outbuf maxsz w Hw Hc) as (out & w' & E & ?).
    exists (Chars out), w'. now rewrite mmap_run, E.
  - destruct (cpu_getmodelid_sound outbuf maxsz w Hw Hc) as (out & w' & E & ?).
    exists (Chars out), w'. now rewrite mmap_run, E.
  - eapply (on_cpu_sound _ _ (fun _ => True)); [|intros; exact I].
    intros t. rewrite has_of_run. eauto.
  - eapply (on_cpu_sound _ _ is_uint32); [|auto]. intros t.
    rewrite cpuid_get_highest_function_number_run.
    eauto using highest_function_range.
  - eapply on_cpu_sound; [intros t; now apply cpuid_get_highest_function_sound | auto].
  - eapply on_cpu_sound; [intros t; now apply cpu_bestfeature_sound | auto].
  - eapply on_cpu_sound; [intros t; now apply cpu_brand_string_sound | auto].
Qed.

(** What the machine owes is not used up: the calls leave the files, the
    processor and the environment as they are. *)
#[export] Instance host_ok_frame : Proper (api_frame ==> impl) host_ok.
Proof. intros w w' [Hf _]. unfold host_ok, impl. now rewrite Hf. Qed.

(** C16. The calls of the unit do not go wrong: on a machine that keeps
    its side of the contract, after any calls that returned, a call
    that keeps the caller's side returns, gives back a value of its
    type in a buffer of the size it was given, terminated where a string
    is written, and leaves a machine that keeps its side still. *)
Theorem api_safe w ls w' c :
  host_ok w -> run api_step w ls w' -> call_ok c ->
  exists r w'',
    api_step w' (c, r) w'' /\ reply_ok c r /\ host_ok w''.
Proof.
  intros Hw Hrun%run_frame Hc. rewrite Hrun in Hw.
  destruct (exec_sound c w' Hw Hc) as (r & w'' & E & Hr).
  exists r, w''. split_and!; [now constructor | exact Hr |].
  now rewrite <- (exec_frame _ _ _ _ E).
Qed.

(** C17. A session of calls that keep the caller's side of the contract
    runs to its end on a machine that keeps its side: every call
    returns, in the order of the session, and gives back what the
    contract says. *)
Theorem api_sound cs : forall w,
  host_ok w -> Forall call_ok cs ->
  exists ls w',
    exec_all cs w = Ok (ls, w') /\ map fst ls = cs /\
    Forall (fun l => reply_ok (fst l) (snd l)) ls /\ host_ok w'.
Proof.
  induction cs as [|c cs IH]; intros w Hw Hcs; cbn [exec_all].
  - exists [], w. now repeat split.
  - apply Forall_cons in Hcs as [Hc Hcs].
    destruct (exec_sound c w Hw Hc) as (r & w1 & E & Hr).
    rewrite (exec_frame _ _ _ _ E) in Hw.
    destruct (IH w1 Hw Hcs) as (ls & w' & Els & Hm & Hrs & Hw').
    exists ((c, r) :: ls), w'. rewrite bind_unfold, E, bind_unfold, Els.
    split_and!; [reflexivity | cbn; now f_equal | now constructor | exact Hw'].
Qed.

End Calls.

(** ** The sample machines *)

(** The files of the Haswell sample are what a Linux host owes, whatever
    the processor and the environment. *)
Lemma haswell_host_ok hw env : @host_ok linux_x86 hw env haswell_world.
Proof.
  split.
  - intros path c Hp Hc. unfold sensor_paths in Hp.
    repeat (apply elem_of_cons in Hp as [->|Hp]);
      [vm_compute in Hc; first [discriminate Hc | now injection Hc as <-].. |].
    now apply elem_of_nil in Hp.
  - intros c [= <-]. exists haswell_rows.
    split_and!; [symmetry; apply haswell_printed | discriminate | by_decide
                | now eexists |].
    repeat constructor; [exists 6 | exists 60 | exists 3]; now exists Byte.x20.
Qed.

(** A Haswell under Windows, with the variables set, keeps it too; a
    Piledriver, whose highest extended leaf is [0x8000001e], does not. *)
Lemma windows_host_ok :
  @host_ok win32_x86 haswell windows_env haswell_world /\
  ~ @host_ok win32_x86 piledriver windows_env haswell_world.
Proof.
  split.
  - split; [repeat constructor; now eexists | intros _; vm_compute; discriminate].
  - intros [_ H]. specialize (H eq_refl). vm_compute in H. now apply H.
Qed.

(** ** The caller's side is the least that will do *)

Section Needed.
#[local] Existing Instances linux_x86 windows_env eight_cpus.

(** With no room for the terminator, [cpu_getmodelid] writes it in front
    of the buffer on the Haswell sample. *)
Lemma cpu_getmodelid_no_room outbuf :
  cpu_getmodelid_posix outbuf 0 haswell_host = Fault BufferOverflow.
Proof.
  apply (cpu_getmodelid_maxsz_zero haswell_host outbuf haswell_cpuinfo 6 60 3);
    try sample_file.
  - sample_field (@nil byte).
  - sample_field [TAB].
  - sample_field (@nil byte).
Qed.

(** For every size the caller owes there is a processor on which a call
    that does not have it writes outside its buffer. *)
Lemma call_ok_needed c :
  ~ call_ok c ->
  exists hw : Processor, @exec _ hw _ _ c haswell_world = Fault BufferOverflow.
Proof.
  destruct c; cbn [call_ok exec]; intros Hn; try tauto.
  - exists haswell. unfold on_cpu. rewrite mmap_run, processor_id_short;
      [reflexivity.. | lia].
  - exists haswell. rewrite mmap_run, cpu_getname_run.
    unfold getname_spec, name_spec. cbn [target_os linux_x86].
    now rewrite memset_fault by lia.
  - exists haswell. rewrite mmap_run. destruct maxsz as [|n].
    + unfold cpu_getmodelid, on_io. cbn [target_os linux_x86 io haswell_world].
      now rewrite cpu_getmodelid_no_room.
    + rewrite cpu_getmodelid_run. unfold getmodelid_spec, modelid_spec.
      cbn [target_os linux_x86]. now rewrite memset_fault by lia.
  - exists high_bit_leaf0. unfold on_cpu.
    rewrite mmap_run, cpuid_get_highest_function_run, sprintf_fault;
      [reflexivity|].
    change (era_text highest_function) with (bytes "undef 80000000"). cbn. lia.
  - exists nehalem. unfold on_cpu.
    rewrite mmap_run, cpu_bestfeature_run, sprintf_fault; [reflexivity|].
    change (bytes best_label) with (bytes "SSE42"). cbn. lia.
  - exists haswell. unfold on_cpu.
    rewrite mmap_run, cpu_brand_string_overflow;
      [reflexivity.. | by_decide | lia].
Qed.

End Needed.

(** C18. The caller's side of the contract is exact: a call has the
    sizes of [call_ok] if and only if it returns on every machine that
    keeps its side, whatever the build, the processor, the environment
    and the files are.  A call that lacks one of the sizes writes outside
    its buffer on one of the sample machines. *)
Theorem call_ok_exact c :
  call_ok c <->
  forall (tg : Target) (hw : Processor) (env : Environment) (miner : Miner) w,
    host_ok w -> is_ok (exec c w) = true.
Proof.
  split.
  - intros Hc tg hw env miner w Hw.
    now destruct (exec_sound c w Hw Hc) as (r & w' & -> & _).
  - intros H. destruct (decide (call_ok c)) as [|Hn]; [assumption|].
    destruct (call_ok_needed c Hn) as [hw E].
    specialize (H linux_x86 hw windows_env eight_cpus haswell_world
                  (haswell_host_ok _ _)).
    now rewrite E in H.
Qed.

Lemma api_safe_witness :
  exists r w'',
    @api_step linux_x86 haswell windows_env eight_cpus busy_world
      (Cpu_getname (replicate 48 Byte.xff) 48, r) w'' /\
    @reply_ok (Cpu_getname (replicate 48 Byte.xff) 48) r /\
    @host_ok linux_x86 haswell windows_env w''.
Proof.
  apply (@api_safe linux_x86 haswell windows_env eight_cpus
           haswell_world busy_labels busy_world).
  - apply haswell_host_ok.
  - apply (@exec_all_run linux_x86 haswell windows_env eight_cpus busy_calls).
    vm_compute. reflexivity.
  - vm_compute. lia.
Defined.

Lemma api_sound_witness :
  exists ls w',
    @exec_all linux_x86 haswell windows_env eight_cpus every_call haswell_world =
      Ok (ls, w') /\
    map fst ls = every_call /\
    Forall (fun l => reply_ok (fst l) (snd l)) ls /\
    @host_ok linux_x86 haswell windows_env w'.
Proof.
  apply (@api_sound linux_x86 haswell windows_env eight_cpus every_call
           haswell_world).
  - apply haswell_host_ok.
  - by_decide.
Defined.

Lemma call_ok_exact_witness :
  call_ok (Cpu_getmodelid (replicate 16 Byte.xff) 0) <->
  forall (tg : Target) (hw : Processor) (env : Environment) (miner : Miner) w,
    host_ok w -> is_ok (exec (Cpu_getmodelid (replicate 16 Byte.xff) 0) w) = true.
Proof. apply (call_ok_exact (Cpu_getmodelid (replicate 16 Byte.xff) 0)). Defined.

(** What a session gives back on the Haswell sample, and three calls for
    which a side of the contract is not kept: an array of three [int]s,
    a Piledriver under Windows, an environment without a variable. *)
Example contract_samples :
  option_map (map snd)
    (value_of (@exec_all linux_x86 haswell windows_env eight_cpus
                 [Cpu_clock 0; Cpu_getmodelid (replicate 9 Byte.xff) 9;
                  Cpuid_get_highest_function (replicate 15 NUL)]
                 haswell_world)) =
    Some [Int 3400000; Chars (bytes "6:3c03:8" ++ [NUL]);
          Chars (bytes "IvyBridge" ++ replicate 6 NUL)] /\
  @reply_of linux_x86 haswell windows_env eight_cpus
    (Processor_id 1 [0; 0; 0]) haswell_world = Fault BufferOverflow /\
  @reply_of win32_x86 piledriver windows_env eight_cpus
    (Cpu_getname (replicate 48 NUL) 48) haswell_world = Fault BufferOverflow /\
  @reply_of win32_x86 haswell empty_env eight_cpus
    (Cpu_getmodelid (replicate 48 NUL) 48) haswell_world = Fault NullPointer.
Proof. vm_compute. repeat split. Qed.
